(** * Polari materials-science module: the derivation engine and the
      abstraction-level hierarchy

    A shallow embedding of the Python classes under [properties/] whose
    methods reduce a collection of raw measurement objects to a derived
    value, together with the constructors that fix [abstractionLevel].

    Conventions of the embedding.
    - A Python object is its instance dictionary: a finite map from
      attribute names to values ([gmap string (pyval F)]).  [hasattr] is
      membership in that dictionary and [getattr] raises [AttributeError]
      on a missing name.  None of the attribute names read by the methods
      below is also a class attribute or a method of the classes involved.
    - Python numbers (int and float alike) are idealised as exact numbers:
      rationals [Q] for the arithmetic derivations, which keeps them
      executable, and reals [R] for the Owens-Wendt method, which calls
      [math.cos] and [math.sqrt].  Rounding of binary floating point is
      outside that reading; where a property holds of the exact numbers
      only, the binary64 arithmetic of the method is given beside it
      (section "Binary64 arithmetic") and the statement says what
      rounding does.
    - A method [def f(self, xs)] becomes a function from the receiver and
      the arguments to [result (value * receiver)]: the returned value and
      the receiver after the call, or the exception raised.  Receiver and
      records are values; where it matters that a receiver is itself one
      of the records, objects are held by location in a store
      ([run_in_store]). *)

From Stdlib Require Import Floats.PrimFloat.
From Stdlib Require Import QArith Qabs ZArith String List Lia Lqa Reals Lra.
From stdpp Require Import base option strings gmap list sorting.

Local Open Scope string_scope.
Local Set Warnings "-inexact-float".

(** ** Exceptions and the error monad *)

Inductive exn : Type :=
  | AttributeError (attr : string)
  | TypeError
  | ZeroDivisionError
  | ValueError
  | IndexError
  | OSError.

Inductive result (A : Type) : Type :=
  | Ok (a : A)
  | Raise (e : exn).
Arguments Ok {A} a.
Arguments Raise {A} e.

#[global] Instance result_ret : MRet result := fun A a => Ok a.
#[global] Instance result_bind : MBind result := fun A B k r =>
  match r with
  | Ok a => k a
  | Raise e => Raise e
  end.

Definition succeeds {A} (r : result A) : Prop :=
  match r with Ok _ => True | Raise _ => False end.

(** ** Python values and objects *)

Inductive pyval (F : Type) : Type :=
  | VNone
  | VBool (b : bool)
  | VNum (x : F)
  | VStr (s : string).
Arguments VNone {F}.
Arguments VBool {F} b.
Arguments VNum {F} x.
Arguments VStr {F} s.

(** [m.attr]: attribute read on the instance dictionary. *)
Definition getattr {F} (o : gmap string (pyval F)) (attr : string)
  : result (pyval F) :=
  match o !! attr with
  | Some v => Ok v
  | None => Raise (AttributeError attr)
  end.

(** [hasattr(m, 'attr')]. *)
Definition hasattr {F} (o : gmap string (pyval F)) (attr : string) : bool :=
  match o !! attr with
  | Some _ => true
  | None => false
  end.

(** [self.attr = v]. *)
Definition setattr {F} (o : gmap string (pyval F)) (attr : string)
  (v : pyval F) : gmap string (pyval F) := <[attr := v]> o.

(** ** Rational arithmetic as Python performs it *)

Definition Qltb (x y : Q) : bool := negb (Qle_bool y x).

(** The numeric reading of a value in an arithmetic or ordering context:
    [bool] is a subtype of [int]; [None] and [str] raise [TypeError]. *)
Definition as_num (v : pyval Q) : result Q :=
  match v with
  | VNum x => Ok x
  | VBool b => Ok (if b then 1%Q else 0%Q)
  | VNone | VStr _ => Raise TypeError
  end.

(** [v > 0]. *)
Definition gt0 (v : pyval Q) : result bool :=
  x ← as_num v; Ok (Qltb 0 x).

(** [x / y] on numbers: true division, [ZeroDivisionError] on a zero
    divisor. *)
Definition py_div (x y : Q) : result Q :=
  if Qeq_bool y 0 then Raise ZeroDivisionError else Ok (x / y)%Q.

(** The integer loop counter [count] read as a number. *)
Definition Qnat (n : nat) : Q := inject_Z (Z.of_nat n).

(** ** Arithmetic-mean derivations

    [HardnessScale.calculate_from_measurements],
    [ReferentialSpecificGravity.calculate_from_measurements] and
    [SurfaceTensionValue.calculate_from_measurements] have the same body up
    to the attribute read from the measurements and the attribute written
    on the receiver. *)

(** The [for m in measurements] loop with its two accumulators:
    [if hasattr(m, attr) and m.attr > 0: total += m.attr; count += 1]. *)
Fixpoint mean_loop (attr : string) (ms : list (gmap string (pyval Q)))
  (total : Q) (count : nat) : result (Q * nat) :=
  match ms with
  | [] => Ok (total, count)
  | m :: ms' =>
      if hasattr m attr then
        v ← getattr m attr;
        b ← gt0 v;
        if (b : bool) then
          x ← as_num v;
          mean_loop attr ms' (total + x)%Q (S count)
        else mean_loop attr ms' total count
      else mean_loop attr ms' total count
  end.

Definition mean_derivation (field attr : string)
  (self : gmap string (pyval Q)) (measurements : list (gmap string (pyval Q)))
  : result (pyval Q * gmap string (pyval Q)) :=
  match measurements with
  | [] => v ← getattr self field; Ok (v, self)
  | _ =>
      '(total, count) ← mean_loop attr measurements 0%Q 0%nat;
      self' ← (if (0 <? count)%nat
               then q ← py_div total (Qnat count);
                    Ok (setattr self field (VNum q))
               else Ok self);
      v ← getattr self' field;
      Ok (v, self')
  end.

Module HardnessScale.
Definition calculate_from_measurements :=
  mean_derivation "hardnessValue" "hardnessReading".
End HardnessScale.

Module ReferentialSpecificGravity.
Definition calculate_from_measurements :=
  mean_derivation "specificGravityValue" "specificGravityValue".
End ReferentialSpecificGravity.

Module SurfaceTensionValue.
Definition calculate_from_measurements :=
  mean_derivation "surfaceTensionMNm" "surfaceTensionMNm".
End SurfaceTensionValue.

(** ** Normalize-then-mean derivations *)

Module KrebsViscosity.
(** [if measurement.grams > 0 and measurement.revolutions > 0:] with
    the attribute reads unguarded and [and] short-circuiting;
    [normalized_grams = measurement.grams * (200 / measurement.revolutions)]. *)
Fixpoint loop (ms : list (gmap string (pyval Q)))
  (total_normalized_grams : Q) (count : nat) : result (Q * nat) :=
  match ms with
  | [] => Ok (total_normalized_grams, count)
  | measurement :: ms' =>
      g ← getattr measurement "grams";
      bg ← gt0 g;
      if (bg : bool) then
        r ← getattr measurement "revolutions";
        br ← gt0 r;
        if (br : bool) then
          grams ← as_num g;
          revolutions ← as_num r;
          ratio ← py_div 200 revolutions;
          loop ms' (total_normalized_grams + grams * ratio)%Q (S count)
        else loop ms' total_normalized_grams count
      else loop ms' total_normalized_grams count
  end.

Definition calculate_from_stormer_measurements
  (self : gmap string (pyval Q))
  (stormer_measurements : list (gmap string (pyval Q)))
  : result (pyval Q * gmap string (pyval Q)) :=
  match stormer_measurements with
  | [] => v ← getattr self "viscosityKU"; Ok (v, self)
  | _ =>
      '(total_normalized_grams, count) ← loop stormer_measurements 0%Q 0%nat;
      self' ← (if (0 <? count)%nat
               then avg_normalized_grams ←
                      py_div total_normalized_grams (Qnat count);
                    Ok (setattr self "viscosityKU"
                          (VNum (avg_normalized_grams * 2.08 + 15.8)%Q))
               else Ok self);
      v ← getattr self' "viscosityKU";
      Ok (v, self')
  end.
End KrebsViscosity.

Module MFIValue.
(** [if m.extrudateMass > 0 and m.extrusionTime > 0:]
    [rate = (m.extrudateMass / m.extrusionTime) * 600]. *)
Fixpoint loop (ms : list (gmap string (pyval Q)))
  (total_rate : Q) (count : nat) : result (Q * nat) :=
  match ms with
  | [] => Ok (total_rate, count)
  | m :: ms' =>
      em ← getattr m "extrudateMass";
      bm ← gt0 em;
      if (bm : bool) then
        et ← getattr m "extrusionTime";
        bt ← gt0 et;
        if (bt : bool) then
          extrudateMass ← as_num em;
          extrusionTime ← as_num et;
          quot ← py_div extrudateMass extrusionTime;
          loop ms' (total_rate + quot * 600)%Q (S count)
        else loop ms' total_rate count
      else loop ms' total_rate count
  end.

Definition calculate_from_measurements
  (self : gmap string (pyval Q)) (measurements : list (gmap string (pyval Q)))
  : result (pyval Q * gmap string (pyval Q)) :=
  match measurements with
  | [] => v ← getattr self "mfiGramsPer10Min"; Ok (v, self)
  | _ =>
      '(total_rate, count) ← loop measurements 0%Q 0%nat;
      self' ← (if (0 <? count)%nat
               then q ← py_div total_rate (Qnat count);
                    Ok (setattr self "mfiGramsPer10Min" (VNum q))
               else Ok self);
      v ← getattr self' "mfiGramsPer10Min";
      Ok (v, self')
  end.
End MFIValue.

(** ** Maximum-based derivation *)

Module UltimateTensileStrength.
(** [if hasattr(m, 'forceN') and m.forceN > 0:]
    [stress = m.forceN / cross_section_area_mm2]
    [if stress > max_stress: max_stress = stress]. *)
Fixpoint loop (cross_section_area_mm2 : Q)
  (ms : list (gmap string (pyval Q))) (max_stress : Q) : result Q :=
  match ms with
  | [] => Ok max_stress
  | m :: ms' =>
      if hasattr m "forceN" then
        f ← getattr m "forceN";
        b ← gt0 f;
        if (b : bool) then
          forceN ← as_num f;
          stress ← py_div forceN cross_section_area_mm2;
          if Qltb max_stress stress
          then loop cross_section_area_mm2 ms' stress
          else loop cross_section_area_mm2 ms' max_stress
        else loop cross_section_area_mm2 ms' max_stress
      else loop cross_section_area_mm2 ms' max_stress
  end.

(** [if not measurements or cross_section_area_mm2 <= 0: return self.utsMPa] *)
Definition calculate_from_measurements
  (self : gmap string (pyval Q)) (measurements : list (gmap string (pyval Q)))
  (cross_section_area_mm2 : Q)
  : result (pyval Q * gmap string (pyval Q)) :=
  if match measurements with [] => true | _ => false end
     || Qle_bool cross_section_area_mm2 0
  then v ← getattr self "utsMPa"; Ok (v, self)
  else
    max_stress ← loop cross_section_area_mm2 measurements 0%Q;
    let self' := setattr self "utsMPa" (VNum max_stress) in
    v ← getattr self' "utsMPa";
    Ok (v, self').
End UltimateTensileStrength.

(** ** Two-endpoint-slope derivation *)

Module CoefficientOfThermalExpansion.
(** The keys of [sorted(measurements, key=lambda m: m.temperatureC)]:
    Python computes every key before it compares any, so a missing
    attribute is reported first.  Keys are then compared as numbers; a
    collection with a key that is not a number is reported here as
    [TypeError].  Python raises for it as well, at the comparison or at
    the later subtraction of the two temperatures, with one difference:
    keys that are all strings do sort, and the method then raises
    [AttributeError] instead when an end reading lacks
    [dimensionChangeMicron].  The properties below are stated for
    numeric keys. *)
Fixpoint keys_of (ms : list (gmap string (pyval Q)))
  : result (list (pyval Q)) :=
  match ms with
  | [] => Ok []
  | m :: ms' =>
      k ← getattr m "temperatureC";
      ks ← keys_of ms';
      Ok (k :: ks)
  end.

Fixpoint nums_of (ks : list (pyval Q)) : result (list Q) :=
  match ks with
  | [] => Ok []
  | k :: ks' =>
      x ← as_num k;
      xs ← nums_of ks';
      Ok (x :: xs)
  end.

(** A stable sort by key, as [sorted] is: an element is placed before
    the first element whose key is not smaller than its own, and the
    elements are inserted from the right. *)
Fixpoint insert_by_key (x : Q * gmap string (pyval Q))
  (l : list (Q * gmap string (pyval Q)))
  : list (Q * gmap string (pyval Q)) :=
  match l with
  | [] => [x]
  | y :: l' =>
      if Qle_bool (fst x) (fst y) then x :: y :: l'
      else y :: insert_by_key x l'
  end.

Definition sorted_by_key (l : list (Q * gmap string (pyval Q)))
  : list (Q * gmap string (pyval Q)) :=
  foldr insert_by_key [] l.

Definition sorted (ms : list (gmap string (pyval Q)))
  : result (list (gmap string (pyval Q))) :=
  ks ← keys_of ms;
  xs ← nums_of ks;
  Ok (map snd (sorted_by_key (zip xs ms))).

(** [l[0]] and [l[-1]]. *)
Definition index_first {A} (l : list A) : result A :=
  match head l with Some x => Ok x | None => Raise IndexError end.
Definition index_last {A} (l : list A) : result A :=
  match last l with Some x => Ok x | None => Raise IndexError end.

(** [a.attr - b.attr]: both attributes are read, then subtracted. *)
Definition attr_diff (a b : gmap string (pyval Q)) (attr : string)
  : result Q :=
  va ← getattr a attr;
  vb ← getattr b attr;
  x ← as_num va;
  y ← as_num vb;
  Ok (x - y)%Q.

Definition calculate_from_measurements
  (self : gmap string (pyval Q)) (measurements : list (gmap string (pyval Q)))
  (original_length_mm : Q)
  : result (pyval Q * gmap string (pyval Q)) :=
  if match measurements with [] => true | _ => false end
     || (length measurements <? 2)%nat
     || Qle_bool original_length_mm 0
  then v ← getattr self "ctePpmPerC"; Ok (v, self)
  else
    sorted_measurements ← sorted measurements;
    first ← index_first sorted_measurements;
    last ← index_last sorted_measurements;
    delta_L ← attr_diff last first "dimensionChangeMicron";
    delta_T ← attr_diff last first "temperatureC";
    self' ← (if Qltb 0 delta_T
             then strain ← py_div delta_L (original_length_mm * 1000)%Q;
                  slope ← py_div strain delta_T;
                  lo ← getattr first "temperatureC";
                  hi ← getattr last "temperatureC";
                  Ok (setattr
                        (setattr
                           (setattr self "ctePpmPerC"
                              (VNum (slope * 1000000)%Q))
                           "temperatureRangeLowC" lo)
                        "temperatureRangeHighC" hi)
             else Ok self);
    v ← getattr self' "ctePpmPerC";
    Ok (v, self').
End CoefficientOfThermalExpansion.

(** ** Closed-form two-liquid solve (Owens-Wendt), over the reals *)

Module CriticalSurfaceTension.
(** [math.radians], [math.sqrt] (a [ValueError] on a negative argument)
    and true division on reals. *)
Definition radians (x : R) : R := (x * (PI / 180))%R.

Definition math_sqrt (x : R) : result R :=
  if Rlt_dec x 0 then Raise ValueError else Ok (sqrt x).

Definition Rdiv_py (x y : R) : result R :=
  if Req_dec_T y 0 then Raise ZeroDivisionError else Ok (x / y)%R.

(** Probe liquid properties (mN/m). *)
Definition water_total : R := 72.8%R.
Definition water_d : R := 21.8%R.
Definition water_p : R := 51.0%R.
Definition diio_total : R := 50.8%R.
Definition diio_d : R := 50.8%R.
Definition diio_p : R := 0.0%R.

(** The method returns the tuple
    [(self.surfaceEnergyMNm, self.dispersiveComponent, self.polarComponent)];
    each attribute is read back right after it was assigned. *)
Definition calculate_from_owens_wendt
  (self : gmap string (pyval R)) (water_angle diiodomethane_angle : R)
  : result ((R * R * R) * gmap string (pyval R)) :=
  let theta_w := radians water_angle in
  let theta_d := radians diiodomethane_angle in
  sd ← math_sqrt diio_d;
  qd ← Rdiv_py (diio_total * (1 + cos theta_d))%R (2 * sd)%R;
  let dispersiveComponent := (qd ^ 2)%R in
  let self := setattr self "dispersiveComponent" (VNum dispersiveComponent) in
  sm ← math_sqrt (dispersiveComponent * water_d)%R;
  let numerator := (water_total * (1 + cos theta_w) - 2 * sm)%R in
  sp ← math_sqrt water_p;
  qp ← Rdiv_py numerator (2 * sp)%R;
  let polarComponent := (qp ^ 2)%R in
  let self := setattr self "polarComponent" (VNum polarComponent) in
  let surfaceEnergyMNm := (dispersiveComponent + polarComponent)%R in
  let self := setattr self "surfaceEnergyMNm" (VNum surfaceEnergyMNm) in
  let self := setattr self "calculationMethod" (VStr "Owens-Wendt") in
  Ok ((surfaceEnergyMNm, dispersiveComponent, polarComponent), self).
End CriticalSurfaceTension.

(** ** Classes, class constants and constructors

    The property classes form single-inheritance chains rooted in
    [MaterialProperty], whose own base [treeObject] belongs to the hosting
    framework. *)

Inductive class : Type :=
  | MaterialProperty | PropertyCategory | MechanicalProperty
  | RheologicalProperty | SurfaceProperty | ThermalProperty | Hardness
  | HardnessScale | ShoreMeasurement | TensileStrength
  | UltimateTensileStrength | TensileMeasurement | SpecificGravity
  | DensityMeterMeasurement | HydrometerMeasurement | PycnometerMeasurement
  | ReferentialSpecificGravity | Elasticity | StorageModulus
  | DMAMeasurement | RheometerMeasurement | MeltFlowIndex | MFIValue
  | MFIMeasurement | Viscosity | KrebsViscosity | StormerViscosity
  | LiquidSurfaceTension | SurfaceTensionValue | WilhelmyMeasurement
  | SolidSurfaceEnergy | CriticalSurfaceTension | ContactAngleMeasurement
  | GlassTransition | GlassTransitionTemp | DMAGlassTransitionMeasurement
  | MeltingPoint | MeltingPointValue | DSCMeltingMeasurement | SmokingPoint
  | SmokingPointValue | SmokingPointMeasurement | ThermalExpansion
  | CoefficientOfThermalExpansion | TMAMeasurement.

(** The single base class of each class; [None] stands for the external
    [treeObject]. *)
Definition base (c : class) : option class :=
  match c with
  | MaterialProperty => None
  | PropertyCategory => Some MaterialProperty
  | MechanicalProperty => Some PropertyCategory
  | RheologicalProperty => Some PropertyCategory
  | SurfaceProperty => Some PropertyCategory
  | ThermalProperty => Some PropertyCategory
  | Hardness => Some MechanicalProperty
  | HardnessScale => Some Hardness
  | ShoreMeasurement => Some HardnessScale
  | TensileStrength => Some MechanicalProperty
  | UltimateTensileStrength => Some TensileStrength
  | TensileMeasurement => Some UltimateTensileStrength
  | SpecificGravity => Some MaterialProperty
  | DensityMeterMeasurement => Some SpecificGravity
  | HydrometerMeasurement => Some SpecificGravity
  | PycnometerMeasurement => Some SpecificGravity
  | ReferentialSpecificGravity => Some SpecificGravity
  | Elasticity => Some RheologicalProperty
  | StorageModulus => Some Elasticity
  | DMAMeasurement => Some StorageModulus
  | RheometerMeasurement => Some StorageModulus
  | MeltFlowIndex => Some RheologicalProperty
  | MFIValue => Some MeltFlowIndex
  | MFIMeasurement => Some MFIValue
  | Viscosity => Some RheologicalProperty
  | KrebsViscosity => Some Viscosity
  | StormerViscosity => Some Viscosity
  | LiquidSurfaceTension => Some SurfaceProperty
  | SurfaceTensionValue => Some LiquidSurfaceTension
  | WilhelmyMeasurement => Some SurfaceTensionValue
  | SolidSurfaceEnergy => Some SurfaceProperty
  | CriticalSurfaceTension => Some SolidSurfaceEnergy
  | ContactAngleMeasurement => Some CriticalSurfaceTension
  | GlassTransition => Some ThermalProperty
  | GlassTransitionTemp => Some GlassTransition
  | DMAGlassTransitionMeasurement => Some GlassTransitionTemp
  | MeltingPoint => Some ThermalProperty
  | MeltingPointValue => Some MeltingPoint
  | DSCMeltingMeasurement => Some MeltingPointValue
  | SmokingPoint => Some ThermalProperty
  | SmokingPointValue => Some SmokingPoint
  | SmokingPointMeasurement => Some SmokingPointValue
  | ThermalExpansion => Some ThermalProperty
  | CoefficientOfThermalExpansion => Some ThermalExpansion
  | TMAMeasurement => Some CoefficientOfThermalExpansion
  end.

(** The [ABSTRACTION_LEVEL = n] statement of a class body, where there is one. *)
Definition ABSTRACTION_LEVEL (c : class) : option Z :=
  match c with
  | Hardness => Some 1%Z
  | HardnessScale => Some 2%Z
  | ShoreMeasurement => Some 3%Z
  | TensileStrength => Some 1%Z
  | UltimateTensileStrength => Some 2%Z
  | TensileMeasurement => Some 3%Z
  | SpecificGravity => Some 1%Z
  | DensityMeterMeasurement => Some 3%Z
  | HydrometerMeasurement => Some 3%Z
  | PycnometerMeasurement => Some 3%Z
  | ReferentialSpecificGravity => Some 2%Z
  | Elasticity => Some 1%Z
  | StorageModulus => Some 2%Z
  | DMAMeasurement => Some 3%Z
  | RheometerMeasurement => Some 3%Z
  | MeltFlowIndex => Some 1%Z
  | MFIValue => Some 2%Z
  | MFIMeasurement => Some 3%Z
  | Viscosity => Some 1%Z
  | KrebsViscosity => Some 2%Z
  | StormerViscosity => Some 3%Z
  | LiquidSurfaceTension => Some 1%Z
  | SurfaceTensionValue => Some 2%Z
  | WilhelmyMeasurement => Some 3%Z
  | SolidSurfaceEnergy => Some 1%Z
  | CriticalSurfaceTension => Some 2%Z
  | ContactAngleMeasurement => Some 3%Z
  | GlassTransition => Some 1%Z
  | GlassTransitionTemp => Some 2%Z
  | DMAGlassTransitionMeasurement => Some 3%Z
  | MeltingPoint => Some 1%Z
  | MeltingPointValue => Some 2%Z
  | DSCMeltingMeasurement => Some 3%Z
  | SmokingPoint => Some 1%Z
  | SmokingPointValue => Some 2%Z
  | SmokingPointMeasurement => Some 3%Z
  | ThermalExpansion => Some 1%Z
  | CoefficientOfThermalExpansion => Some 2%Z
  | TMAMeasurement => Some 3%Z
  | MaterialProperty | PropertyCategory | MechanicalProperty
  | RheologicalProperty | SurfaceProperty | ThermalProperty => None
  end.

(** [self.ABSTRACTION_LEVEL]: no instance attribute of that name is ever
    assigned, so the read resolves along the method resolution order of
    [type(self)], the class being constructed, whichever class the
    running [__init__] belongs to.  The chains have at most six classes. *)
Fixpoint mro_lookup (fuel : nat) (c : class) : option Z :=
  match ABSTRACTION_LEVEL c with
  | Some z => Some z
  | None =>
      match fuel, base c with
      | S n, Some p => mro_lookup n p
      | _, _ => None
      end
  end.

Definition self_ABSTRACTION_LEVEL (cls : class) : result (pyval Q) :=
  match mro_lookup 6 cls with
  | Some z => Ok (VNum (inject_Z z))
  | None => Raise (AttributeError "ABSTRACTION_LEVEL")
  end.

Abbreviation object := (gmap string (pyval Q)) (only parsing).

(** Keyword arguments of a call: a call that unpacks the dictionary [kw]
    into keywords raises [TypeError] on a keyword
    that is not a parameter of [f]; a parameter that is not supplied takes
    its default. *)
Definition kwargs (l : list (string * pyval Q)) : object := list_to_map l.

Definition accept (kw : object) (params : list string) : result unit :=
  if decide (dom kw ⊆ (list_to_set params : gset string))
  then Ok tt else Raise TypeError.

Definition arg (kw : object) (name : string) (dflt : pyval Q) : pyval Q :=
  default dflt (kw !! name).

Section Constructors.
(** [treeObject.__init__(self, manager=..., branch=..., id=...)] of the
    hosting framework, which settles the identity attributes.  The
    [@treeObjectInit] decorator on every [__init__] is taken to run the
    decorated body unchanged. *)
Variable treeObject__init__ :
  object → pyval Q → pyval Q → pyval Q → result object.

(** [str(x)] of a number inside an f-string. *)
Variable str_of_num : Q → string.

(** [math.cos(math.radians(x))]. *)
Variable cos_of_degrees : Q → Q.

Definition format (v : pyval Q) : string :=
  match v with
  | VNone => "None"
  | VBool true => "True"
  | VBool false => "False"
  | VNum x => str_of_num x
  | VStr s => s
  end.

(** The tail of [MFIMeasurement.__init__]:
    [if self.extrusionTime > 0:]
    [self.mfiGramsPer10Min = (self.extrudateMass / self.extrusionTime) * 600]. *)
Definition per_cut_rate (self : object) : result object :=
  et ← getattr self "extrusionTime";
  b ← gt0 et;
  if (b : bool) then
    em ← getattr self "extrudateMass";
    extrudateMass ← as_num em;
    extrusionTime ← as_num et;
    q ← py_div extrudateMass extrusionTime;
    Ok (setattr self "mfiGramsPer10Min" (VNum (q * 600)%Q))
  else Ok self.

(** [WilhelmyMeasurement._calculate_surface_tension]. *)
Definition _calculate_surface_tension (self : object) : result object :=
  pp ← getattr self "platePerimeterMm";
  b ← gt0 pp;
  if (b : bool) then
    ca ← getattr self "contactAngle";
    contactAngle ← as_num ca;
    let cos_theta := cos_of_degrees contactAngle in
    if Qltb 0 cos_theta then
      fm ← getattr self "forceMN";
      pp' ← getattr self "platePerimeterMm";
      forceMN ← as_num fm;
      platePerimeterMm ← as_num pp';
      q ← py_div forceMN (platePerimeterMm * cos_theta)%Q;
      Ok (setattr self "surfaceTensionMNm" (VNum q))
    else Ok self
  else Ok self.

(** [MaterialProperty.__init__], materialProperty.py. *)
Definition MaterialProperty__init__ (cls : class) (self kw : object)
  : result object :=
  _ ← accept kw
    ["manager"; "branch"; "id"; "name"; "description"; "deviceId"];
  let manager := arg kw "manager" VNone in
  let branch := arg kw "branch" VNone in
  let id := arg kw "id" VNone in
  let name := arg kw "name" (VStr "") in
  let description := arg kw "description" (VStr "") in
  let deviceId := arg kw "deviceId" (VStr "") in
  self ← treeObject__init__ self manager branch id;
  let self := setattr self "name" name in
  let self := setattr self "description" description in
  let self := setattr self "deviceId" deviceId in
  Ok self.

(** [PropertyCategory.__init__], properties/propertyCategory.py. *)
Definition PropertyCategory__init__ (cls : class) (self kw : object)
  : result object :=
  _ ← accept kw
    ["manager"; "branch"; "id"; "name"; "description"; "materialId";
     "categoryDescription"];
  let manager := arg kw "manager" VNone in
  let branch := arg kw "branch" VNone in
  let id := arg kw "id" VNone in
  let name := arg kw "name" (VStr "Property Category") in
  let description := arg kw "description" (VStr "Base category for material properties") in
  let materialId := arg kw "materialId" (VStr "") in
  let categoryDescription := arg kw "categoryDescription" (VStr "") in
  self ← MaterialProperty__init__ cls self
    (kwargs [("manager", manager); ("branch", branch); ("id", id);
             ("name", name); ("description", description)]);
  let self := setattr self "materialId" materialId in
  let self := setattr self "categoryDescription" categoryDescription in
  Ok self.

(** [MechanicalProperty.__init__], properties/mechanical/mechanicalProperty.py. *)
Definition MechanicalProperty__init__ (cls : class) (self kw : object)
  : result object :=
  _ ← accept kw
    ["manager"; "branch"; "id"; "name"; "description"; "materialId";
     "categoryDescription"];
  let manager := arg kw "manager" VNone in
  let branch := arg kw "branch" VNone in
  let id := arg kw "id" VNone in
  let name := arg kw "name" (VStr "Mechanical Property") in
  let description := arg kw "description" (VStr "Property relating to strength and resistance under applied forces") in
  let materialId := arg kw "materialId" (VStr "") in
  let categoryDescription := arg kw "categoryDescription" (VStr "Strength and resistance properties including hardness and tensile strength") in
  self ← PropertyCategory__init__ cls self
    (kwargs [("manager", manager); ("branch", branch); ("id", id);
             ("name", name); ("description", description);
             ("materialId", materialId);
             ("categoryDescription", categoryDescription)]);
  Ok self.

(** [RheologicalProperty.__init__], properties/rheological/rheologicalProperty.py. *)
Definition RheologicalProperty__init__ (cls : class) (self kw : object)
  : result object :=
  _ ← accept kw
    ["manager"; "branch"; "id"; "name"; "description"; "materialId";
     "categoryDescription"];
  let manager := arg kw "manager" VNone in
  let branch := arg kw "branch" VNone in
  let id := arg kw "id" VNone in
  let name := arg kw "name" (VStr "Rheological Property") in
  let description := arg kw "description" (VStr "Property relating to flow and deformation of matter") in
  let materialId := arg kw "materialId" (VStr "") in
  let categoryDescription := arg kw "categoryDescription" (VStr "Flow and deformation properties including viscosity, elasticity, and melt flow") in
  self ← PropertyCategory__init__ cls self
    (kwargs [("manager", manager); ("branch", branch); ("id", id);
             ("name", name); ("description", description);
             ("materialId", materialId);
             ("categoryDescription", categoryDescription)]);
  Ok self.

(** [SurfaceProperty.__init__], properties/surface/surfaceProperty.py. *)
Definition SurfaceProperty__init__ (cls : class) (self kw : object)
  : result object :=
  _ ← accept kw
    ["manager"; "branch"; "id"; "name"; "description"; "materialId";
     "categoryDescription"];
  let manager := arg kw "manager" VNone in
  let branch := arg kw "branch" VNone in
  let id := arg kw "id" VNone in
  let name := arg kw "name" (VStr "Surface Property") in
  let description := arg kw "description" (VStr "Property relating to interfacial phenomena between materials") in
  let materialId := arg kw "materialId" (VStr "") in
  let categoryDescription := arg kw "categoryDescription" (VStr "Interfacial properties including surface energy and surface tension") in
  self ← PropertyCategory__init__ cls self
    (kwargs [("manager", manager); ("branch", branch); ("id", id);
             ("name", name); ("description", description);
             ("materialId", materialId);
             ("categoryDescription", categoryDescription)]);
  Ok self.

(** [ThermalProperty.__init__], properties/thermal/thermalProperty.py. *)
Definition ThermalProperty__init__ (cls : class) (self kw : object)
  : result object :=
  _ ← accept kw
    ["manager"; "branch"; "id"; "name"; "description"; "materialId";
     "categoryDescription"];
  let manager := arg kw "manager" VNone in
  let branch := arg kw "branch" VNone in
  let id := arg kw "id" VNone in
  let name := arg kw "name" (VStr "Thermal Property") in
  let description := arg kw "description" (VStr "Property relating to temperature-dependent behavior of materials") in
  let materialId := arg kw "materialId" (VStr "") in
  let categoryDescription := arg kw "categoryDescription" (VStr "Temperature-dependent properties including melting point, Tg, and thermal expansion") in
  self ← PropertyCategory__init__ cls self
    (kwargs [("manager", manager); ("branch", branch); ("id", id);
             ("name", name); ("description", description);
             ("materialId", materialId);
             ("categoryDescription", categoryDescription)]);
  Ok self.

(** [Hardness.__init__], properties/mechanical/hardness/hardness.py. *)
Definition Hardness__init__ (cls : class) (self kw : object)
  : result object :=
  _ ← accept kw
    ["manager"; "branch"; "id"; "name"; "description"; "materialId"];
  let manager := arg kw "manager" VNone in
  let branch := arg kw "branch" VNone in
  let id := arg kw "id" VNone in
  let name := arg kw "name" (VStr "Hardness") in
  let description := arg kw "description" (VStr "Material resistance to localized plastic deformation") in
  let materialId := arg kw "materialId" (VStr "") in
  self ← MechanicalProperty__init__ cls self
    (kwargs [("manager", manager); ("branch", branch); ("id", id);
             ("name", name); ("description", description);
             ("materialId", materialId)]);
  level ← self_ABSTRACTION_LEVEL cls;
  let self := setattr self "abstractionLevel" level in
  Ok self.

(** [HardnessScale.__init__], properties/mechanical/hardness/hardnessScale.py. *)
Definition HardnessScale__init__ (cls : class) (self kw : object)
  : result object :=
  _ ← accept kw
    ["manager"; "branch"; "id"; "materialId"; "hardnessValue"; "scale";
     "temperature"; "measurementDate"; "notes"];
  let manager := arg kw "manager" VNone in
  let branch := arg kw "branch" VNone in
  let id := arg kw "id" VNone in
  let materialId := arg kw "materialId" (VStr "") in
  let hardnessValue := arg kw "hardnessValue" (VNum 0%Q) in
  let scale := arg kw "scale" (VStr "Shore A") in
  let temperature := arg kw "temperature" (VNum 23%Q) in
  let measurementDate := arg kw "measurementDate" (VStr "") in
  let notes := arg kw "notes" (VStr "") in
  self ← Hardness__init__ cls self
    (kwargs [("manager", manager); ("branch", branch); ("id", id);
             ("name", VStr "Hardness Scale");
             ("description", VStr ("Derived hardness on " +:+ format scale +:+ " scale"));
             ("materialId", materialId)]);
  let self := setattr self "hardnessValue" hardnessValue in
  let self := setattr self "scale" scale in
  let self := setattr self "temperature" temperature in
  let self := setattr self "measurementDate" measurementDate in
  let self := setattr self "notes" notes in
  level ← self_ABSTRACTION_LEVEL cls;
  let self := setattr self "abstractionLevel" level in
  Ok self.

(** [ShoreMeasurement.__init__], properties/mechanical/hardness/shoreMeasurement.py. *)
Definition ShoreMeasurement__init__ (cls : class) (self kw : object)
  : result object :=
  _ ← accept kw
    ["manager"; "branch"; "id"; "materialId"; "hardnessScaleId";
     "sequenceNumber"; "hardnessReading"; "shoreType"; "readingTime";
     "sampleThickness"; "locationOnSample"; "temperature";
     "measurementDate"; "operator"; "equipment"; "notes";
     "openSourceImplementationExists"];
  let manager := arg kw "manager" VNone in
  let branch := arg kw "branch" VNone in
  let id := arg kw "id" VNone in
  let materialId := arg kw "materialId" (VStr "") in
  let hardnessScaleId := arg kw "hardnessScaleId" (VStr "") in
  let sequenceNumber := arg kw "sequenceNumber" (VNum 0%Q) in
  let hardnessReading := arg kw "hardnessReading" (VNum 0%Q) in
  let shoreType := arg kw "shoreType" (VStr "A") in
  let readingTime := arg kw "readingTime" (VNum 1%Q) in
  let sampleThickness := arg kw "sampleThickness" (VNum 6%Q) in
  let locationOnSample := arg kw "locationOnSample" (VStr "") in
  let temperature := arg kw "temperature" (VNum 23%Q) in
  let measurementDate := arg kw "measurementDate" (VStr "") in
  let operator := arg kw "operator" (VStr "") in
  let equipment := arg kw "equipment" (VStr "") in
  let notes := arg kw "notes" (VStr "") in
  let openSourceImplementationExists := arg kw "openSourceImplementationExists" (VBool true) in
  self ← HardnessScale__init__ cls self
    (kwargs [("manager", manager); ("branch", branch); ("id", id);
             ("materialId", materialId);
             ("hardnessValue", hardnessReading);
             ("scale", VStr ("Shore " +:+ format shoreType));
             ("temperature", temperature);
             ("measurementDate", measurementDate); ("notes", notes)]);
  let self := setattr self "hardnessScaleId" hardnessScaleId in
  let self := setattr self "sequenceNumber" sequenceNumber in
  let self := setattr self "hardnessReading" hardnessReading in
  let self := setattr self "shoreType" shoreType in
  let self := setattr self "readingTime" readingTime in
  let self := setattr self "sampleThickness" sampleThickness in
  let self := setattr self "locationOnSample" locationOnSample in
  let self := setattr self "operator" operator in
  let self := setattr self "equipment" equipment in
  let self := setattr self "openSourceImplementationExists" openSourceImplementationExists in
  level ← self_ABSTRACTION_LEVEL cls;
  let self := setattr self "abstractionLevel" level in
  Ok self.

(** [TensileStrength.__init__], properties/mechanical/tensileStrength/tensileStrength.py. *)
Definition TensileStrength__init__ (cls : class) (self kw : object)
  : result object :=
  _ ← accept kw
    ["manager"; "branch"; "id"; "name"; "description"; "materialId"];
  let manager := arg kw "manager" VNone in
  let branch := arg kw "branch" VNone in
  let id := arg kw "id" VNone in
  let name := arg kw "name" (VStr "Tensile Strength") in
  let description := arg kw "description" (VStr "Maximum stress material can withstand while being stretched") in
  let materialId := arg kw "materialId" (VStr "") in
  self ← MechanicalProperty__init__ cls self
    (kwargs [("manager", manager); ("branch", branch); ("id", id);
             ("name", name); ("description", description);
             ("materialId", materialId)]);
  level ← self_ABSTRACTION_LEVEL cls;
  let self := setattr self "abstractionLevel" level in
  Ok self.

(** [UltimateTensileStrength.__init__], properties/mechanical/tensileStrength/ultimateTensileStrength.py. *)
Definition UltimateTensileStrength__init__ (cls : class) (self kw : object)
  : result object :=
  _ ← accept kw
    ["manager"; "branch"; "id"; "materialId"; "utsMPa";
     "yieldStrengthMPa"; "elongationAtBreak"; "youngsModulusMPa";
     "specimenType"; "testSpeed"; "temperature"; "measurementDate";
     "notes"];
  let manager := arg kw "manager" VNone in
  let branch := arg kw "branch" VNone in
  let id := arg kw "id" VNone in
  let materialId := arg kw "materialId" (VStr "") in
  let utsMPa := arg kw "utsMPa" (VNum 0%Q) in
  let yieldStrengthMPa := arg kw "yieldStrengthMPa" (VNum 0%Q) in
  let elongationAtBreak := arg kw "elongationAtBreak" (VNum 0%Q) in
  let youngsModulusMPa := arg kw "youngsModulusMPa" (VNum 0%Q) in
  let specimenType := arg kw "specimenType" (VStr "Type I") in
  let testSpeed := arg kw "testSpeed" (VNum 5%Q) in
  let temperature := arg kw "temperature" (VNum 23%Q) in
  let measurementDate := arg kw "measurementDate" (VStr "") in
  let notes := arg kw "notes" (VStr "") in
  self ← TensileStrength__init__ cls self
    (kwargs [("manager", manager); ("branch", branch); ("id", id);
             ("name", VStr "Ultimate Tensile Strength");
             ("description", VStr "Derived UTS value in MPa");
             ("materialId", materialId)]);
  let self := setattr self "utsMPa" utsMPa in
  let self := setattr self "yieldStrengthMPa" yieldStrengthMPa in
  let self := setattr self "elongationAtBreak" elongationAtBreak in
  let self := setattr self "youngsModulusMPa" youngsModulusMPa in
  let self := setattr self "specimenType" specimenType in
  let self := setattr self "testSpeed" testSpeed in
  let self := setattr self "temperature" temperature in
  let self := setattr self "measurementDate" measurementDate in
  let self := setattr self "notes" notes in
  level ← self_ABSTRACTION_LEVEL cls;
  let self := setattr self "abstractionLevel" level in
  Ok self.

(** [TensileMeasurement.__init__], properties/mechanical/tensileStrength/tensileMeasurement.py. *)
Definition TensileMeasurement__init__ (cls : class) (self kw : object)
  : result object :=
  _ ← accept kw
    ["manager"; "branch"; "id"; "materialId"; "utsId"; "sequenceNumber";
     "forceN"; "displacementMm"; "time"; "gaugeLength"; "specimenWidth";
     "specimenThickness"; "extensometerStrain"; "testSpeed";
     "temperature"; "measurementDate"; "operator"; "equipment"; "notes";
     "openSourceImplementationExists"];
  let manager := arg kw "manager" VNone in
  let branch := arg kw "branch" VNone in
  let id := arg kw "id" VNone in
  let materialId := arg kw "materialId" (VStr "") in
  let utsId := arg kw "utsId" (VStr "") in
  let sequenceNumber := arg kw "sequenceNumber" (VNum 0%Q) in
  let forceN := arg kw "forceN" (VNum 0%Q) in
  let displacementMm := arg kw "displacementMm" (VNum 0%Q) in
  let time := arg kw "time" (VNum 0%Q) in
  let gaugeLength := arg kw "gaugeLength" (VNum 50%Q) in
  let specimenWidth := arg kw "specimenWidth" (VNum 13%Q) in
  let specimenThickness := arg kw "specimenThickness" (VNum 3.2%Q) in
  let extensometerStrain := arg kw "extensometerStrain" (VNum 0%Q) in
  let testSpeed := arg kw "testSpeed" (VNum 5%Q) in
  let temperature := arg kw "temperature" (VNum 23%Q) in
  let measurementDate := arg kw "measurementDate" (VStr "") in
  let operator := arg kw "operator" (VStr "") in
  let equipment := arg kw "equipment" (VStr "") in
  let notes := arg kw "notes" (VStr "") in
  let openSourceImplementationExists := arg kw "openSourceImplementationExists" (VBool true) in
  self ← UltimateTensileStrength__init__ cls self
    (kwargs [("manager", manager); ("branch", branch); ("id", id);
             ("materialId", materialId); ("utsMPa", VNum 0%Q);
             ("testSpeed", testSpeed); ("temperature", temperature);
             ("measurementDate", measurementDate); ("notes", notes)]);
  let self := setattr self "utsId" utsId in
  let self := setattr self "sequenceNumber" sequenceNumber in
  let self := setattr self "forceN" forceN in
  let self := setattr self "displacementMm" displacementMm in
  let self := setattr self "time" time in
  let self := setattr self "gaugeLength" gaugeLength in
  let self := setattr self "specimenWidth" specimenWidth in
  let self := setattr self "specimenThickness" specimenThickness in
  let self := setattr self "extensometerStrain" extensometerStrain in
  let self := setattr self "operator" operator in
  let self := setattr self "equipment" equipment in
  let self := setattr self "openSourceImplementationExists" openSourceImplementationExists in
  level ← self_ABSTRACTION_LEVEL cls;
  let self := setattr self "abstractionLevel" level in
  Ok self.

(** [SpecificGravity.__init__], properties/physical/specificGravity/specificGravity.py. *)
Definition SpecificGravity__init__ (cls : class) (self kw : object)
  : result object :=
  _ ← accept kw
    ["manager"; "branch"; "id"; "name"; "description"; "materialId"];
  let manager := arg kw "manager" VNone in
  let branch := arg kw "branch" VNone in
  let id := arg kw "id" VNone in
  let name := arg kw "name" (VStr "Specific Gravity") in
  let description := arg kw "description" (VStr "Ratio of substance density to reference substance density") in
  let materialId := arg kw "materialId" (VStr "") in
  self ← MaterialProperty__init__ cls self
    (kwargs [("manager", manager); ("branch", branch); ("id", id);
             ("name", name); ("description", description)]);
  let self := setattr self "materialId" materialId in
  level ← self_ABSTRACTION_LEVEL cls;
  let self := setattr self "abstractionLevel" level in
  Ok self.

(** [DensityMeterMeasurement.__init__], properties/physical/specificGravity/densityMeterMeasurement.py. *)
Definition DensityMeterMeasurement__init__ (cls : class) (self kw : object)
  : result object :=
  _ ← accept kw
    ["manager"; "branch"; "id"; "materialId";
     "referentialSpecificGravityId"; "sequenceNumber"; "densityValue";
     "specificGravityValue"; "oscillationFrequency"; "temperature";
     "referenceDensity"; "measurementDate"; "operator"; "equipment";
     "calibrationDate"; "notes"];
  let manager := arg kw "manager" VNone in
  let branch := arg kw "branch" VNone in
  let id := arg kw "id" VNone in
  let materialId := arg kw "materialId" (VStr "") in
  let referentialSpecificGravityId := arg kw "referentialSpecificGravityId" (VStr "") in
  let sequenceNumber := arg kw "sequenceNumber" (VNum 0%Q) in
  let densityValue := arg kw "densityValue" (VNum 0%Q) in
  let specificGravityValue := arg kw "specificGravityValue" (VNum 0%Q) in
  let oscillationFrequency := arg kw "oscillationFrequency" (VNum 0%Q) in
  let temperature := arg kw "temperature" (VNum 25%Q) in
  let referenceDensity := arg kw "referenceDensity" (VNum 0.99707%Q) in
  let measurementDate := arg kw "measurementDate" (VStr "") in
  let operator := arg kw "operator" (VStr "") in
  let equipment := arg kw "equipment" (VStr "") in
  let calibrationDate := arg kw "calibrationDate" (VStr "") in
  let notes := arg kw "notes" (VStr "") in
  self ← SpecificGravity__init__ cls self
    (kwargs [("manager", manager); ("branch", branch); ("id", id);
             ("name", VStr "Density Meter Measurement");
             ("description", VStr "Raw digital density meter measurement");
             ("materialId", materialId)]);
  let self := setattr self "referentialSpecificGravityId" referentialSpecificGravityId in
  let self := setattr self "sequenceNumber" sequenceNumber in
  let self := setattr self "densityValue" densityValue in
  let self := setattr self "specificGravityValue" specificGravityValue in
  let self := setattr self "oscillationFrequency" oscillationFrequency in
  let self := setattr self "temperature" temperature in
  let self := setattr self "referenceDensity" referenceDensity in
  let self := setattr self "measurementDate" measurementDate in
  let self := setattr self "operator" operator in
  let self := setattr self "equipment" equipment in
  let self := setattr self "calibrationDate" calibrationDate in
  let self := setattr self "notes" notes in
  level ← self_ABSTRACTION_LEVEL cls;
  let self := setattr self "abstractionLevel" level in
  Ok self.

(** [HydrometerMeasurement.__init__], properties/physical/specificGravity/hydrometerMeasurement.py. *)
Definition HydrometerMeasurement__init__ (cls : class) (self kw : object)
  : result object :=
  _ ← accept kw
    ["manager"; "branch"; "id"; "materialId";
     "referentialSpecificGravityId"; "sequenceNumber"; "scaleReading";
     "specificGravityValue"; "scaleType"; "temperature";
     "calibrationTemperature"; "measurementDate"; "operator"; "equipment";
     "notes"];
  let manager := arg kw "manager" VNone in
  let branch := arg kw "branch" VNone in
  let id := arg kw "id" VNone in
  let materialId := arg kw "materialId" (VStr "") in
  let referentialSpecificGravityId := arg kw "referentialSpecificGravityId" (VStr "") in
  let sequenceNumber := arg kw "sequenceNumber" (VNum 0%Q) in
  let scaleReading := arg kw "scaleReading" (VNum 0%Q) in
  let specificGravityValue := arg kw "specificGravityValue" (VNum 0%Q) in
  let scaleType := arg kw "scaleType" (VStr "SG") in
  let temperature := arg kw "temperature" (VNum 25%Q) in
  let calibrationTemperature := arg kw "calibrationTemperature" (VNum 20%Q) in
  let measurementDate := arg kw "measurementDate" (VStr "") in
  let operator := arg kw "operator" (VStr "") in
  let equipment := arg kw "equipment" (VStr "") in
  let notes := arg kw "notes" (VStr "") in
  self ← SpecificGravity__init__ cls self
    (kwargs [("manager", manager); ("branch", branch); ("id", id);
             ("name", VStr "Hydrometer Measurement");
             ("description", VStr "Raw hydrometer specific gravity measurement");
             ("materialId", materialId)]);
  let self := setattr self "referentialSpecificGravityId" referentialSpecificGravityId in
  let self := setattr self "sequenceNumber" sequenceNumber in
  let self := setattr self "scaleReading" scaleReading in
  let self := setattr self "specificGravityValue" specificGravityValue in
  let self := setattr self "scaleType" scaleType in
  let self := setattr self "temperature" temperature in
  let self := setattr self "calibrationTemperature" calibrationTemperature in
  let self := setattr self "measurementDate" measurementDate in
  let self := setattr self "operator" operator in
  let self := setattr self "equipment" equipment in
  let self := setattr self "notes" notes in
  level ← self_ABSTRACTION_LEVEL cls;
  let self := setattr self "abstractionLevel" level in
  Ok self.

(** [PycnometerMeasurement.__init__], properties/physical/specificGravity/pycnometerMeasurement.py. *)
Definition PycnometerMeasurement__init__ (cls : class) (self kw : object)
  : result object :=
  _ ← accept kw
    ["manager"; "branch"; "id"; "materialId";
     "referentialSpecificGravityId"; "sequenceNumber"; "emptyWeight";
     "referenceWeight"; "sampleWeight"; "specificGravityValue";
     "temperature"; "pycnometerVolume"; "measurementDate"; "operator";
     "equipment"; "notes"];
  let manager := arg kw "manager" VNone in
  let branch := arg kw "branch" VNone in
  let id := arg kw "id" VNone in
  let materialId := arg kw "materialId" (VStr "") in
  let referentialSpecificGravityId := arg kw "referentialSpecificGravityId" (VStr "") in
  let sequenceNumber := arg kw "sequenceNumber" (VNum 0%Q) in
  let emptyWeight := arg kw "emptyWeight" (VNum 0%Q) in
  let referenceWeight := arg kw "referenceWeight" (VNum 0%Q) in
  let sampleWeight := arg kw "sampleWeight" (VNum 0%Q) in
  let specificGravityValue := arg kw "specificGravityValue" (VNum 0%Q) in
  let temperature := arg kw "temperature" (VNum 25%Q) in
  let pycnometerVolume := arg kw "pycnometerVolume" (VNum 0%Q) in
  let measurementDate := arg kw "measurementDate" (VStr "") in
  let operator := arg kw "operator" (VStr "") in
  let equipment := arg kw "equipment" (VStr "") in
  let notes := arg kw "notes" (VStr "") in
  self ← SpecificGravity__init__ cls self
    (kwargs [("manager", manager); ("branch", branch); ("id", id);
             ("name", VStr "Pycnometer Measurement");
             ("description", VStr "Raw pycnometer specific gravity measurement");
             ("materialId", materialId)]);
  let self := setattr self "referentialSpecificGravityId" referentialSpecificGravityId in
  let self := setattr self "sequenceNumber" sequenceNumber in
  let self := setattr self "emptyWeight" emptyWeight in
  let self := setattr self "referenceWeight" referenceWeight in
  let self := setattr self "sampleWeight" sampleWeight in
  let self := setattr self "specificGravityValue" specificGravityValue in
  let self := setattr self "temperature" temperature in
  let self := setattr self "pycnometerVolume" pycnometerVolume in
  let self := setattr self "measurementDate" measurementDate in
  let self := setattr self "operator" operator in
  let self := setattr self "equipment" equipment in
  let self := setattr self "notes" notes in
  level ← self_ABSTRACTION_LEVEL cls;
  let self := setattr self "abstractionLevel" level in
  Ok self.

(** [ReferentialSpecificGravity.__init__], properties/physical/specificGravity/referentialSpecificGravity.py. *)
Definition ReferentialSpecificGravity__init__ (cls : class) (self kw : object)
  : result object :=
  _ ← accept kw
    ["manager"; "branch"; "id"; "materialId"; "specificGravityValue";
     "referenceMaterial"; "referenceTemperature"; "sampleTemperature";
     "measurementDate"; "notes"];
  let manager := arg kw "manager" VNone in
  let branch := arg kw "branch" VNone in
  let id := arg kw "id" VNone in
  let materialId := arg kw "materialId" (VStr "") in
  let specificGravityValue := arg kw "specificGravityValue" (VNum 0%Q) in
  let referenceMaterial := arg kw "referenceMaterial" (VStr "water_4C") in
  let referenceTemperature := arg kw "referenceTemperature" (VNum 4%Q) in
  let sampleTemperature := arg kw "sampleTemperature" (VNum 25%Q) in
  let measurementDate := arg kw "measurementDate" (VStr "") in
  let notes := arg kw "notes" (VStr "") in
  self ← SpecificGravity__init__ cls self
    (kwargs [("manager", manager); ("branch", branch); ("id", id);
             ("name", VStr "Referential Specific Gravity");
             ("description", VStr "Specific gravity normalized against reference material");
             ("materialId", materialId)]);
  let self := setattr self "specificGravityValue" specificGravityValue in
  let self := setattr self "referenceMaterial" referenceMaterial in
  let self := setattr self "referenceTemperature" referenceTemperature in
  let self := setattr self "sampleTemperature" sampleTemperature in
  let self := setattr self "measurementDate" measurementDate in
  let self := setattr self "notes" notes in
  level ← self_ABSTRACTION_LEVEL cls;
  let self := setattr self "abstractionLevel" level in
  Ok self.

(** [Elasticity.__init__], properties/rheological/elasticity/elasticity.py. *)
Definition Elasticity__init__ (cls : class) (self kw : object)
  : result object :=
  _ ← accept kw
    ["manager"; "branch"; "id"; "name"; "description"; "materialId"];
  let manager := arg kw "manager" VNone in
  let branch := arg kw "branch" VNone in
  let id := arg kw "id" VNone in
  let name := arg kw "name" (VStr "Elasticity") in
  let description := arg kw "description" (VStr "Material ability to return to original shape after deformation") in
  let materialId := arg kw "materialId" (VStr "") in
  self ← RheologicalProperty__init__ cls self
    (kwargs [("manager", manager); ("branch", branch); ("id", id);
             ("name", name); ("description", description);
             ("materialId", materialId)]);
  level ← self_ABSTRACTION_LEVEL cls;
  let self := setattr self "abstractionLevel" level in
  Ok self.

(** [StorageModulus.__init__], properties/rheological/elasticity/storageModulus.py. *)
Definition StorageModulus__init__ (cls : class) (self kw : object)
  : result object :=
  _ ← accept kw
    ["manager"; "branch"; "id"; "materialId"; "storageModulusPa";
     "lossModulusPa"; "lossFactor"; "frequency"; "temperature";
     "measurementDate"; "notes"];
  let manager := arg kw "manager" VNone in
  let branch := arg kw "branch" VNone in
  let id := arg kw "id" VNone in
  let materialId := arg kw "materialId" (VStr "") in
  let storageModulusPa := arg kw "storageModulusPa" (VNum 0%Q) in
  let lossModulusPa := arg kw "lossModulusPa" (VNum 0%Q) in
  let lossFactor := arg kw "lossFactor" (VNum 0%Q) in
  let frequency := arg kw "frequency" (VNum 1%Q) in
  let temperature := arg kw "temperature" (VNum 25%Q) in
  let measurementDate := arg kw "measurementDate" (VStr "") in
  let notes := arg kw "notes" (VStr "") in
  self ← Elasticity__init__ cls self
    (kwargs [("manager", manager); ("branch", branch); ("id", id);
             ("name", VStr "Storage Modulus");
             ("description", VStr "Derived storage modulus G' in Pascals");
             ("materialId", materialId)]);
  let self := setattr self "storageModulusPa" storageModulusPa in
  let self := setattr self "lossModulusPa" lossModulusPa in
  let self := setattr self "lossFactor" lossFactor in
  let self := setattr self "frequency" frequency in
  let self := setattr self "temperature" temperature in
  let self := setattr self "measurementDate" measurementDate in
  let self := setattr self "notes" notes in
  level ← self_ABSTRACTION_LEVEL cls;
  let self := setattr self "abstractionLevel" level in
  Ok self.

(** [DMAMeasurement.__init__], properties/rheological/elasticity/dmaMeasurement.py. *)
Definition DMAMeasurement__init__ (cls : class) (self kw : object)
  : result object :=
  _ ← accept kw
    ["manager"; "branch"; "id"; "materialId"; "storageModulusId";
     "sequenceNumber"; "strain"; "stress"; "phaseAngle";
     "storageModulusPa"; "lossModulusPa"; "frequency"; "sampleLength";
     "sampleWidth"; "sampleThickness"; "clampType"; "temperature";
     "measurementDate"; "operator"; "equipment"; "notes";
     "openSourceImplementationExists"];
  let manager := arg kw "manager" VNone in
  let branch := arg kw "branch" VNone in
  let id := arg kw "id" VNone in
  let materialId := arg kw "materialId" (VStr "") in
  let storageModulusId := arg kw "storageModulusId" (VStr "") in
  let sequenceNumber := arg kw "sequenceNumber" (VNum 0%Q) in
  let strain := arg kw "strain" (VNum 0%Q) in
  let stress := arg kw "stress" (VNum 0%Q) in
  let phaseAngle := arg kw "phaseAngle" (VNum 0%Q) in
  let storageModulusPa := arg kw "storageModulusPa" (VNum 0%Q) in
  let lossModulusPa := arg kw "lossModulusPa" (VNum 0%Q) in
  let frequency := arg kw "frequency" (VNum 1%Q) in
  let sampleLength := arg kw "sampleLength" (VNum 0%Q) in
  let sampleWidth := arg kw "sampleWidth" (VNum 0%Q) in
  let sampleThickness := arg kw "sampleThickness" (VNum 0%Q) in
  let clampType := arg kw "clampType" (VStr "") in
  let temperature := arg kw "temperature" (VNum 25%Q) in
  let measurementDate := arg kw "measurementDate" (VStr "") in
  let operator := arg kw "operator" (VStr "") in
  let equipment := arg kw "equipment" (VStr "") in
  let notes := arg kw "notes" (VStr "") in
  let openSourceImplementationExists := arg kw "openSourceImplementationExists" (VBool true) in
  self ← StorageModulus__init__ cls self
    (kwargs [("manager", manager); ("branch", branch); ("id", id);
             ("materialId", materialId);
             ("storageModulusPa", storageModulusPa);
             ("lossModulusPa", lossModulusPa); ("frequency", frequency);
             ("temperature", temperature);
             ("measurementDate", measurementDate); ("notes", notes)]);
  let self := setattr self "storageModulusId" storageModulusId in
  let self := setattr self "sequenceNumber" sequenceNumber in
  let self := setattr self "strain" strain in
  let self := setattr self "stress" stress in
  let self := setattr self "phaseAngle" phaseAngle in
  let self := setattr self "sampleLength" sampleLength in
  let self := setattr self "sampleWidth" sampleWidth in
  let self := setattr self "sampleThickness" sampleThickness in
  let self := setattr self "clampType" clampType in
  let self := setattr self "operator" operator in
  let self := setattr self "equipment" equipment in
  let self := setattr self "openSourceImplementationExists" openSourceImplementationExists in
  level ← self_ABSTRACTION_LEVEL cls;
  let self := setattr self "abstractionLevel" level in
  Ok self.

(** [RheometerMeasurement.__init__], properties/rheological/elasticity/rheometerMeasurement.py. *)
Definition RheometerMeasurement__init__ (cls : class) (self kw : object)
  : result object :=
  _ ← accept kw
    ["manager"; "branch"; "id"; "materialId"; "storageModulusId";
     "sequenceNumber"; "geometry"; "gapDistance"; "strain"; "shearRate";
     "torque"; "normalForce"; "storageModulusPa"; "lossModulusPa";
     "frequency"; "temperature"; "measurementDate"; "operator";
     "equipment"; "notes"; "openSourceImplementationExists"];
  let manager := arg kw "manager" VNone in
  let branch := arg kw "branch" VNone in
  let id := arg kw "id" VNone in
  let materialId := arg kw "materialId" (VStr "") in
  let storageModulusId := arg kw "storageModulusId" (VStr "") in
  let sequenceNumber := arg kw "sequenceNumber" (VNum 0%Q) in
  let geometry := arg kw "geometry" (VStr "parallel-plate") in
  let gapDistance := arg kw "gapDistance" (VNum 1%Q) in
  let strain := arg kw "strain" (VNum 0%Q) in
  let shearRate := arg kw "shearRate" (VNum 0%Q) in
  let torque := arg kw "torque" (VNum 0%Q) in
  let normalForce := arg kw "normalForce" (VNum 0%Q) in
  let storageModulusPa := arg kw "storageModulusPa" (VNum 0%Q) in
  let lossModulusPa := arg kw "lossModulusPa" (VNum 0%Q) in
  let frequency := arg kw "frequency" (VNum 1%Q) in
  let temperature := arg kw "temperature" (VNum 25%Q) in
  let measurementDate := arg kw "measurementDate" (VStr "") in
  let operator := arg kw "operator" (VStr "") in
  let equipment := arg kw "equipment" (VStr "") in
  let notes := arg kw "notes" (VStr "") in
  let openSourceImplementationExists := arg kw "openSourceImplementationExists" (VBool true) in
  self ← StorageModulus__init__ cls self
    (kwargs [("manager", manager); ("branch", branch); ("id", id);
             ("materialId", materialId);
             ("storageModulusPa", storageModulusPa);
             ("lossModulusPa", lossModulusPa); ("frequency", frequency);
             ("temperature", temperature);
             ("measurementDate", measurementDate); ("notes", notes)]);
  let self := setattr self "storageModulusId" storageModulusId in
  let self := setattr self "sequenceNumber" sequenceNumber in
  let self := setattr self "geometry" geometry in
  let self := setattr self "gapDistance" gapDistance in
  let self := setattr self "strain" strain in
  let self := setattr self "shearRate" shearRate in
  let self := setattr self "torque" torque in
  let self := setattr self "normalForce" normalForce in
  let self := setattr self "operator" operator in
  let self := setattr self "equipment" equipment in
  let self := setattr self "openSourceImplementationExists" openSourceImplementationExists in
  level ← self_ABSTRACTION_LEVEL cls;
  let self := setattr self "abstractionLevel" level in
  Ok self.

(** [MeltFlowIndex.__init__], properties/rheological/meltFlowIndex/meltFlowIndex.py. *)
Definition MeltFlowIndex__init__ (cls : class) (self kw : object)
  : result object :=
  _ ← accept kw
    ["manager"; "branch"; "id"; "name"; "description"; "materialId"];
  let manager := arg kw "manager" VNone in
  let branch := arg kw "branch" VNone in
  let id := arg kw "id" VNone in
  let name := arg kw "name" (VStr "Melt Flow Index") in
  let description := arg kw "description" (VStr "Measure of thermoplastic melt flow under standard conditions") in
  let materialId := arg kw "materialId" (VStr "") in
  self ← RheologicalProperty__init__ cls self
    (kwargs [("manager", manager); ("branch", branch); ("id", id);
             ("name", name); ("description", description);
             ("materialId", materialId)]);
  level ← self_ABSTRACTION_LEVEL cls;
  let self := setattr self "abstractionLevel" level in
  Ok self.

(** [MFIValue.__init__], properties/rheological/meltFlowIndex/mfiValue.py. *)
Definition MFIValue__init__ (cls : class) (self kw : object)
  : result object :=
  _ ← accept kw
    ["manager"; "branch"; "id"; "materialId"; "mfiGramsPer10Min";
     "testTemperature"; "testLoad"; "polymerType"; "measurementDate";
     "notes"];
  let manager := arg kw "manager" VNone in
  let branch := arg kw "branch" VNone in
  let id := arg kw "id" VNone in
  let materialId := arg kw "materialId" (VStr "") in
  let mfiGramsPer10Min := arg kw "mfiGramsPer10Min" (VNum 0%Q) in
  let testTemperature := arg kw "testTemperature" (VNum 190%Q) in
  let testLoad := arg kw "testLoad" (VNum 2.16%Q) in
  let polymerType := arg kw "polymerType" (VStr "") in
  let measurementDate := arg kw "measurementDate" (VStr "") in
  let notes := arg kw "notes" (VStr "") in
  self ← MeltFlowIndex__init__ cls self
    (kwargs [("manager", manager); ("branch", branch); ("id", id);
             ("name", VStr "MFI Value");
             ("description", VStr "Derived Melt Flow Index in g/10min");
             ("materialId", materialId)]);
  let self := setattr self "mfiGramsPer10Min" mfiGramsPer10Min in
  let self := setattr self "testTemperature" testTemperature in
  let self := setattr self "testLoad" testLoad in
  let self := setattr self "polymerType" polymerType in
  let self := setattr self "measurementDate" measurementDate in
  let self := setattr self "notes" notes in
  level ← self_ABSTRACTION_LEVEL cls;
  let self := setattr self "abstractionLevel" level in
  Ok self.

(** [MFIMeasurement.__init__], properties/rheological/meltFlowIndex/mfiMeasurement.py. *)
Definition MFIMeasurement__init__ (cls : class) (self kw : object)
  : result object :=
  _ ← accept kw
    ["manager"; "branch"; "id"; "materialId"; "mfiValueId";
     "sequenceNumber"; "extrusionTime"; "extrudateMass"; "preheatTime";
     "barrelTemperature"; "testLoad"; "dieDiameter"; "dieLength";
     "measurementDate"; "operator"; "equipment"; "notes";
     "openSourceImplementationExists"];
  let manager := arg kw "manager" VNone in
  let branch := arg kw "branch" VNone in
  let id := arg kw "id" VNone in
  let materialId := arg kw "materialId" (VStr "") in
  let mfiValueId := arg kw "mfiValueId" (VStr "") in
  let sequenceNumber := arg kw "sequenceNumber" (VNum 0%Q) in
  let extrusionTime := arg kw "extrusionTime" (VNum 0%Q) in
  let extrudateMass := arg kw "extrudateMass" (VNum 0%Q) in
  let preheatTime := arg kw "preheatTime" (VNum 300%Q) in
  let barrelTemperature := arg kw "barrelTemperature" (VNum 190%Q) in
  let testLoad := arg kw "testLoad" (VNum 2.16%Q) in
  let dieDiameter := arg kw "dieDiameter" (VNum 2.095%Q) in
  let dieLength := arg kw "dieLength" (VNum 8%Q) in
  let measurementDate := arg kw "measurementDate" (VStr "") in
  let operator := arg kw "operator" (VStr "") in
  let equipment := arg kw "equipment" (VStr "") in
  let notes := arg kw "notes" (VStr "") in
  let openSourceImplementationExists := arg kw "openSourceImplementationExists" (VBool true) in
  self ← MFIValue__init__ cls self
    (kwargs [("manager", manager); ("branch", branch); ("id", id);
             ("materialId", materialId); ("mfiGramsPer10Min", VNum 0%Q);
             ("testTemperature", barrelTemperature);
             ("testLoad", testLoad); ("measurementDate", measurementDate);
             ("notes", notes)]);
  let self := setattr self "mfiValueId" mfiValueId in
  let self := setattr self "sequenceNumber" sequenceNumber in
  let self := setattr self "extrusionTime" extrusionTime in
  let self := setattr self "extrudateMass" extrudateMass in
  let self := setattr self "preheatTime" preheatTime in
  let self := setattr self "barrelTemperature" barrelTemperature in
  let self := setattr self "dieDiameter" dieDiameter in
  let self := setattr self "dieLength" dieLength in
  let self := setattr self "operator" operator in
  let self := setattr self "equipment" equipment in
  let self := setattr self "openSourceImplementationExists" openSourceImplementationExists in
  level ← self_ABSTRACTION_LEVEL cls;
  let self := setattr self "abstractionLevel" level in
  per_cut_rate self.

(** [Viscosity.__init__], properties/rheological/viscosity/viscosity.py. *)
Definition Viscosity__init__ (cls : class) (self kw : object)
  : result object :=
  _ ← accept kw
    ["manager"; "branch"; "id"; "name"; "description"; "materialId"];
  let manager := arg kw "manager" VNone in
  let branch := arg kw "branch" VNone in
  let id := arg kw "id" VNone in
  let name := arg kw "name" (VStr "Viscosity") in
  let description := arg kw "description" (VStr "Measure of a fluid's resistance to flow") in
  let materialId := arg kw "materialId" (VStr "") in
  self ← RheologicalProperty__init__ cls self
    (kwargs [("manager", manager); ("branch", branch); ("id", id);
             ("name", name); ("description", description);
             ("materialId", materialId)]);
  level ← self_ABSTRACTION_LEVEL cls;
  let self := setattr self "abstractionLevel" level in
  Ok self.

(** [KrebsViscosity.__init__], properties/rheological/viscosity/krebsViscosity.py. *)
Definition KrebsViscosity__init__ (cls : class) (self kw : object)
  : result object :=
  _ ← accept kw
    ["manager"; "branch"; "id"; "materialId"; "viscosityKU";
     "temperature"; "measurementDate"; "notes"];
  let manager := arg kw "manager" VNone in
  let branch := arg kw "branch" VNone in
  let id := arg kw "id" VNone in
  let materialId := arg kw "materialId" (VStr "") in
  let viscosityKU := arg kw "viscosityKU" (VNum 0%Q) in
  let temperature := arg kw "temperature" (VNum 25%Q) in
  let measurementDate := arg kw "measurementDate" (VStr "") in
  let notes := arg kw "notes" (VStr "") in
  self ← Viscosity__init__ cls self
    (kwargs [("manager", manager); ("branch", branch); ("id", id);
             ("name", VStr "Krebs Viscosity");
             ("description", VStr "Derived viscosity in Krebs Units (KU)");
             ("materialId", materialId)]);
  let self := setattr self "viscosityKU" viscosityKU in
  let self := setattr self "temperature" temperature in
  let self := setattr self "measurementDate" measurementDate in
  let self := setattr self "notes" notes in
  level ← self_ABSTRACTION_LEVEL cls;
  let self := setattr self "abstractionLevel" level in
  Ok self.

(** [StormerViscosity.__init__], properties/rheological/viscosity/stormerViscosity.py. *)
Definition StormerViscosity__init__ (cls : class) (self kw : object)
  : result object :=
  _ ← accept kw
    ["manager"; "branch"; "id"; "materialId"; "krebsViscosityId";
     "sequenceNumber"; "time"; "revolutions"; "grams"; "temperature";
     "measurementDate"; "operator"; "equipment"; "notes"];
  let manager := arg kw "manager" VNone in
  let branch := arg kw "branch" VNone in
  let id := arg kw "id" VNone in
  let materialId := arg kw "materialId" (VStr "") in
  let krebsViscosityId := arg kw "krebsViscosityId" (VStr "") in
  let sequenceNumber := arg kw "sequenceNumber" (VNum 0%Q) in
  let time := arg kw "time" (VNum 0%Q) in
  let revolutions := arg kw "revolutions" (VNum 100%Q) in
  let grams := arg kw "grams" (VNum 0%Q) in
  let temperature := arg kw "temperature" (VNum 25%Q) in
  let measurementDate := arg kw "measurementDate" (VStr "") in
  let operator := arg kw "operator" (VStr "") in
  let equipment := arg kw "equipment" (VStr "") in
  let notes := arg kw "notes" (VStr "") in
  self ← Viscosity__init__ cls self
    (kwargs [("manager", manager); ("branch", branch); ("id", id);
             ("name", VStr "Stormer Viscosity");
             ("description", VStr "Raw Stormer viscometer measurement datapoint");
             ("materialId", materialId)]);
  let self := setattr self "krebsViscosityId" krebsViscosityId in
  let self := setattr self "sequenceNumber" sequenceNumber in
  let self := setattr self "time" time in
  let self := setattr self "revolutions" revolutions in
  let self := setattr self "grams" grams in
  let self := setattr self "temperature" temperature in
  let self := setattr self "measurementDate" measurementDate in
  let self := setattr self "operator" operator in
  let self := setattr self "equipment" equipment in
  let self := setattr self "notes" notes in
  level ← self_ABSTRACTION_LEVEL cls;
  let self := setattr self "abstractionLevel" level in
  Ok self.

(** [LiquidSurfaceTension.__init__], properties/surface/liquidSurfaceTension/liquidSurfaceTension.py. *)
Definition LiquidSurfaceTension__init__ (cls : class) (self kw : object)
  : result object :=
  _ ← accept kw
    ["manager"; "branch"; "id"; "name"; "description"; "materialId"];
  let manager := arg kw "manager" VNone in
  let branch := arg kw "branch" VNone in
  let id := arg kw "id" VNone in
  let name := arg kw "name" (VStr "Liquid Surface Tension") in
  let description := arg kw "description" (VStr "Cohesive force at liquid-air interface") in
  let materialId := arg kw "materialId" (VStr "") in
  self ← SurfaceProperty__init__ cls self
    (kwargs [("manager", manager); ("branch", branch); ("id", id);
             ("name", name); ("description", description);
             ("materialId", materialId)]);
  level ← self_ABSTRACTION_LEVEL cls;
  let self := setattr self "abstractionLevel" level in
  Ok self.

(** [SurfaceTensionValue.__init__], properties/surface/liquidSurfaceTension/surfaceTensionValue.py. *)
Definition SurfaceTensionValue__init__ (cls : class) (self kw : object)
  : result object :=
  _ ← accept kw
    ["manager"; "branch"; "id"; "materialId"; "surfaceTensionMNm";
     "interfacialTensionMNm"; "secondPhase"; "measurementMethod";
     "temperature"; "measurementDate"; "notes"];
  let manager := arg kw "manager" VNone in
  let branch := arg kw "branch" VNone in
  let id := arg kw "id" VNone in
  let materialId := arg kw "materialId" (VStr "") in
  let surfaceTensionMNm := arg kw "surfaceTensionMNm" (VNum 0%Q) in
  let interfacialTensionMNm := arg kw "interfacialTensionMNm" (VNum 0%Q) in
  let secondPhase := arg kw "secondPhase" (VStr "air") in
  let measurementMethod := arg kw "measurementMethod" (VStr "") in
  let temperature := arg kw "temperature" (VNum 20%Q) in
  let measurementDate := arg kw "measurementDate" (VStr "") in
  let notes := arg kw "notes" (VStr "") in
  self ← LiquidSurfaceTension__init__ cls self
    (kwargs [("manager", manager); ("branch", branch); ("id", id);
             ("name", VStr "Surface Tension Value");
             ("description", VStr "Derived surface tension in mN/m");
             ("materialId", materialId)]);
  let self := setattr self "surfaceTensionMNm" surfaceTensionMNm in
  let self := setattr self "interfacialTensionMNm" interfacialTensionMNm in
  let self := setattr self "secondPhase" secondPhase in
  let self := setattr self "measurementMethod" measurementMethod in
  let self := setattr self "temperature" temperature in
  let self := setattr self "measurementDate" measurementDate in
  let self := setattr self "notes" notes in
  level ← self_ABSTRACTION_LEVEL cls;
  let self := setattr self "abstractionLevel" level in
  Ok self.

(** [WilhelmyMeasurement.__init__], properties/surface/liquidSurfaceTension/wilhelmyMeasurement.py. *)
Definition WilhelmyMeasurement__init__ (cls : class) (self kw : object)
  : result object :=
  _ ← accept kw
    ["manager"; "branch"; "id"; "materialId"; "surfaceTensionValueId";
     "sequenceNumber"; "forceMN"; "platePerimeterMm"; "plateMaterial";
     "contactAngle"; "immersionDepthMm"; "temperature"; "measurementDate";
     "operator"; "equipment"; "notes"; "openSourceImplementationExists"];
  let manager := arg kw "manager" VNone in
  let branch := arg kw "branch" VNone in
  let id := arg kw "id" VNone in
  let materialId := arg kw "materialId" (VStr "") in
  let surfaceTensionValueId := arg kw "surfaceTensionValueId" (VStr "") in
  let sequenceNumber := arg kw "sequenceNumber" (VNum 0%Q) in
  let forceMN := arg kw "forceMN" (VNum 0%Q) in
  let platePerimeterMm := arg kw "platePerimeterMm" (VNum 40.2%Q) in
  let plateMaterial := arg kw "plateMaterial" (VStr "platinum") in
  let contactAngle := arg kw "contactAngle" (VNum 0%Q) in
  let immersionDepthMm := arg kw "immersionDepthMm" (VNum 0%Q) in
  let temperature := arg kw "temperature" (VNum 20%Q) in
  let measurementDate := arg kw "measurementDate" (VStr "") in
  let operator := arg kw "operator" (VStr "") in
  let equipment := arg kw "equipment" (VStr "") in
  let notes := arg kw "notes" (VStr "") in
  let openSourceImplementationExists := arg kw "openSourceImplementationExists" (VBool true) in
  self ← SurfaceTensionValue__init__ cls self
    (kwargs [("manager", manager); ("branch", branch); ("id", id);
             ("materialId", materialId); ("surfaceTensionMNm", VNum 0%Q);
             ("measurementMethod", VStr "Wilhelmy plate");
             ("temperature", temperature);
             ("measurementDate", measurementDate); ("notes", notes)]);
  let self := setattr self "surfaceTensionValueId" surfaceTensionValueId in
  let self := setattr self "sequenceNumber" sequenceNumber in
  let self := setattr self "forceMN" forceMN in
  let self := setattr self "platePerimeterMm" platePerimeterMm in
  let self := setattr self "plateMaterial" plateMaterial in
  let self := setattr self "contactAngle" contactAngle in
  let self := setattr self "immersionDepthMm" immersionDepthMm in
  let self := setattr self "operator" operator in
  let self := setattr self "equipment" equipment in
  let self := setattr self "openSourceImplementationExists" openSourceImplementationExists in
  level ← self_ABSTRACTION_LEVEL cls;
  let self := setattr self "abstractionLevel" level in
  _calculate_surface_tension self.

(** [SolidSurfaceEnergy.__init__], properties/surface/solidSurfaceEnergy/solidSurfaceEnergy.py. *)
Definition SolidSurfaceEnergy__init__ (cls : class) (self kw : object)
  : result object :=
  _ ← accept kw
    ["manager"; "branch"; "id"; "name"; "description"; "materialId"];
  let manager := arg kw "manager" VNone in
  let branch := arg kw "branch" VNone in
  let id := arg kw "id" VNone in
  let name := arg kw "name" (VStr "Solid Surface Energy") in
  let description := arg kw "description" (VStr "Excess energy at solid surface compared to bulk") in
  let materialId := arg kw "materialId" (VStr "") in
  self ← SurfaceProperty__init__ cls self
    (kwargs [("manager", manager); ("branch", branch); ("id", id);
             ("name", name); ("description", description);
             ("materialId", materialId)]);
  level ← self_ABSTRACTION_LEVEL cls;
  let self := setattr self "abstractionLevel" level in
  Ok self.

(** [CriticalSurfaceTension.__init__], properties/surface/solidSurfaceEnergy/criticalSurfaceTension.py. *)
Definition CriticalSurfaceTension__init__ (cls : class) (self kw : object)
  : result object :=
  _ ← accept kw
    ["manager"; "branch"; "id"; "materialId"; "surfaceEnergyMNm";
     "dispersiveComponent"; "polarComponent"; "calculationMethod";
     "temperature"; "measurementDate"; "notes"];
  let manager := arg kw "manager" VNone in
  let branch := arg kw "branch" VNone in
  let id := arg kw "id" VNone in
  let materialId := arg kw "materialId" (VStr "") in
  let surfaceEnergyMNm := arg kw "surfaceEnergyMNm" (VNum 0%Q) in
  let dispersiveComponent := arg kw "dispersiveComponent" (VNum 0%Q) in
  let polarComponent := arg kw "polarComponent" (VNum 0%Q) in
  let calculationMethod := arg kw "calculationMethod" (VStr "Owens-Wendt") in
  let temperature := arg kw "temperature" (VNum 23%Q) in
  let measurementDate := arg kw "measurementDate" (VStr "") in
  let notes := arg kw "notes" (VStr "") in
  self ← SolidSurfaceEnergy__init__ cls self
    (kwargs [("manager", manager); ("branch", branch); ("id", id);
             ("name", VStr "Critical Surface Tension");
             ("description", VStr "Derived surface energy in mN/m");
             ("materialId", materialId)]);
  let self := setattr self "surfaceEnergyMNm" surfaceEnergyMNm in
  let self := setattr self "dispersiveComponent" dispersiveComponent in
  let self := setattr self "polarComponent" polarComponent in
  let self := setattr self "calculationMethod" calculationMethod in
  let self := setattr self "temperature" temperature in
  let self := setattr self "measurementDate" measurementDate in
  let self := setattr self "notes" notes in
  level ← self_ABSTRACTION_LEVEL cls;
  let self := setattr self "abstractionLevel" level in
  Ok self.

(** [ContactAngleMeasurement.__init__], properties/surface/solidSurfaceEnergy/contactAngleMeasurement.py. *)
Definition ContactAngleMeasurement__init__ (cls : class) (self kw : object)
  : result object :=
  _ ← accept kw
    ["manager"; "branch"; "id"; "materialId"; "surfaceEnergyId";
     "sequenceNumber"; "contactAngle"; "probeLiquid";
     "probeLiquidSurfaceTension"; "dropVolume"; "measurementType";
     "leftAngle"; "rightAngle"; "humidity"; "temperature";
     "measurementDate"; "operator"; "equipment"; "software"; "notes";
     "openSourceImplementationExists"];
  let manager := arg kw "manager" VNone in
  let branch := arg kw "branch" VNone in
  let id := arg kw "id" VNone in
  let materialId := arg kw "materialId" (VStr "") in
  let surfaceEnergyId := arg kw "surfaceEnergyId" (VStr "") in
  let sequenceNumber := arg kw "sequenceNumber" (VNum 0%Q) in
  let contactAngle := arg kw "contactAngle" (VNum 0%Q) in
  let probeLiquid := arg kw "probeLiquid" (VStr "water") in
  let probeLiquidSurfaceTension := arg kw "probeLiquidSurfaceTension" (VNum 72.8%Q) in
  let dropVolume := arg kw "dropVolume" (VNum 5%Q) in
  let measurementType := arg kw "measurementType" (VStr "static") in
  let leftAngle := arg kw "leftAngle" (VNum 0%Q) in
  let rightAngle := arg kw "rightAngle" (VNum 0%Q) in
  let humidity := arg kw "humidity" (VNum 50%Q) in
  let temperature := arg kw "temperature" (VNum 23%Q) in
  let measurementDate := arg kw "measurementDate" (VStr "") in
  let operator := arg kw "operator" (VStr "") in
  let equipment := arg kw "equipment" (VStr "") in
  let software := arg kw "software" (VStr "") in
  let notes := arg kw "notes" (VStr "") in
  let openSourceImplementationExists := arg kw "openSourceImplementationExists" (VBool true) in
  self ← CriticalSurfaceTension__init__ cls self
    (kwargs [("manager", manager); ("branch", branch); ("id", id);
             ("materialId", materialId); ("surfaceEnergyMNm", VNum 0%Q);
             ("temperature", temperature);
             ("measurementDate", measurementDate); ("notes", notes)]);
  let self := setattr self "surfaceEnergyId" surfaceEnergyId in
  let self := setattr self "sequenceNumber" sequenceNumber in
  let self := setattr self "contactAngle" contactAngle in
  let self := setattr self "probeLiquid" probeLiquid in
  let self := setattr self "probeLiquidSurfaceTension" probeLiquidSurfaceTension in
  let self := setattr self "dropVolume" dropVolume in
  let self := setattr self "measurementType" measurementType in
  let self := setattr self "leftAngle" leftAngle in
  let self := setattr self "rightAngle" rightAngle in
  let self := setattr self "humidity" humidity in
  let self := setattr self "operator" operator in
  let self := setattr self "equipment" equipment in
  let self := setattr self "software" software in
  let self := setattr self "openSourceImplementationExists" openSourceImplementationExists in
  level ← self_ABSTRACTION_LEVEL cls;
  let self := setattr self "abstractionLevel" level in
  Ok self.

(** [GlassTransition.__init__], properties/thermal/glassTransition/glassTransition.py. *)
Definition GlassTransition__init__ (cls : class) (self kw : object)
  : result object :=
  _ ← accept kw
    ["manager"; "branch"; "id"; "name"; "description"; "materialId"];
  let manager := arg kw "manager" VNone in
  let branch := arg kw "branch" VNone in
  let id := arg kw "id" VNone in
  let name := arg kw "name" (VStr "Glass Transition") in
  let description := arg kw "description" (VStr "Temperature of glassy to rubbery state transition") in
  let materialId := arg kw "materialId" (VStr "") in
  self ← ThermalProperty__init__ cls self
    (kwargs [("manager", manager); ("branch", branch); ("id", id);
             ("name", name); ("description", description);
             ("materialId", materialId)]);
  level ← self_ABSTRACTION_LEVEL cls;
  let self := setattr self "abstractionLevel" level in
  Ok self.

(** [GlassTransitionTemp.__init__], properties/thermal/glassTransition/glassTransitionTemp.py. *)
Definition GlassTransitionTemp__init__ (cls : class) (self kw : object)
  : result object :=
  _ ← accept kw
    ["manager"; "branch"; "id"; "materialId"; "tgCelsius"; "tgOnset";
     "tgMidpoint"; "tgEndset"; "deltaCp"; "measurementMethod";
     "heatingRate"; "frequency"; "measurementDate"; "notes"];
  let manager := arg kw "manager" VNone in
  let branch := arg kw "branch" VNone in
  let id := arg kw "id" VNone in
  let materialId := arg kw "materialId" (VStr "") in
  let tgCelsius := arg kw "tgCelsius" (VNum 0%Q) in
  let tgOnset := arg kw "tgOnset" (VNum 0%Q) in
  let tgMidpoint := arg kw "tgMidpoint" (VNum 0%Q) in
  let tgEndset := arg kw "tgEndset" (VNum 0%Q) in
  let deltaCp := arg kw "deltaCp" (VNum 0%Q) in
  let measurementMethod := arg kw "measurementMethod" (VStr "DSC") in
  let heatingRate := arg kw "heatingRate" (VNum 10%Q) in
  let frequency := arg kw "frequency" (VNum 1%Q) in
  let measurementDate := arg kw "measurementDate" (VStr "") in
  let notes := arg kw "notes" (VStr "") in
  self ← GlassTransition__init__ cls self
    (kwargs [("manager", manager); ("branch", branch); ("id", id);
             ("name", VStr "Glass Transition Temperature");
             ("description", VStr "Derived Tg value in Celsius");
             ("materialId", materialId)]);
  let self := setattr self "tgCelsius" tgCelsius in
  let self := setattr self "tgOnset" tgOnset in
  let self := setattr self "tgMidpoint" tgMidpoint in
  let self := setattr self "tgEndset" tgEndset in
  let self := setattr self "deltaCp" deltaCp in
  let self := setattr self "measurementMethod" measurementMethod in
  let self := setattr self "heatingRate" heatingRate in
  let self := setattr self "frequency" frequency in
  let self := setattr self "measurementDate" measurementDate in
  let self := setattr self "notes" notes in
  level ← self_ABSTRACTION_LEVEL cls;
  let self := setattr self "abstractionLevel" level in
  Ok self.

(** [DMAGlassTransitionMeasurement.__init__], properties/thermal/glassTransition/dmaGlassTransitionMeasurement.py. *)
Definition DMAGlassTransitionMeasurement__init__ (cls : class) (self kw : object)
  : result object :=
  _ ← accept kw
    ["manager"; "branch"; "id"; "materialId"; "glassTransitionTempId";
     "sequenceNumber"; "temperatureC"; "storageModulusPa";
     "lossModulusPa"; "tanDelta"; "frequency"; "strain"; "clampType";
     "sampleLength"; "sampleWidth"; "sampleThickness"; "heatingRate";
     "measurementDate"; "operator"; "equipment"; "notes";
     "openSourceImplementationExists"];
  let manager := arg kw "manager" VNone in
  let branch := arg kw "branch" VNone in
  let id := arg kw "id" VNone in
  let materialId := arg kw "materialId" (VStr "") in
  let glassTransitionTempId := arg kw "glassTransitionTempId" (VStr "") in
  let sequenceNumber := arg kw "sequenceNumber" (VNum 0%Q) in
  let temperatureC := arg kw "temperatureC" (VNum 0%Q) in
  let storageModulusPa := arg kw "storageModulusPa" (VNum 0%Q) in
  let lossModulusPa := arg kw "lossModulusPa" (VNum 0%Q) in
  let tanDelta := arg kw "tanDelta" (VNum 0%Q) in
  let frequency := arg kw "frequency" (VNum 1%Q) in
  let strain := arg kw "strain" (VNum 0.1%Q) in
  let clampType := arg kw "clampType" (VStr "single cantilever") in
  let sampleLength := arg kw "sampleLength" (VNum 0%Q) in
  let sampleWidth := arg kw "sampleWidth" (VNum 0%Q) in
  let sampleThickness := arg kw "sampleThickness" (VNum 0%Q) in
  let heatingRate := arg kw "heatingRate" (VNum 3%Q) in
  let measurementDate := arg kw "measurementDate" (VStr "") in
  let operator := arg kw "operator" (VStr "") in
  let equipment := arg kw "equipment" (VStr "") in
  let notes := arg kw "notes" (VStr "") in
  let openSourceImplementationExists := arg kw "openSourceImplementationExists" (VBool true) in
  self ← GlassTransitionTemp__init__ cls self
    (kwargs [("manager", manager); ("branch", branch); ("id", id);
             ("materialId", materialId); ("tgCelsius", VNum 0%Q);
             ("measurementMethod", VStr "DMA-tanδ");
             ("heatingRate", heatingRate); ("frequency", frequency);
             ("measurementDate", measurementDate); ("notes", notes)]);
  let self := setattr self "glassTransitionTempId" glassTransitionTempId in
  let self := setattr self "sequenceNumber" sequenceNumber in
  let self := setattr self "temperatureC" temperatureC in
  let self := setattr self "storageModulusPa" storageModulusPa in
  let self := setattr self "lossModulusPa" lossModulusPa in
  let self := setattr self "tanDelta" tanDelta in
  let self := setattr self "strain" strain in
  let self := setattr self "clampType" clampType in
  let self := setattr self "sampleLength" sampleLength in
  let self := setattr self "sampleWidth" sampleWidth in
  let self := setattr self "sampleThickness" sampleThickness in
  let self := setattr self "operator" operator in
  let self := setattr self "equipment" equipment in
  let self := setattr self "openSourceImplementationExists" openSourceImplementationExists in
  level ← self_ABSTRACTION_LEVEL cls;
  let self := setattr self "abstractionLevel" level in
  Ok self.

(** [MeltingPoint.__init__], properties/thermal/meltingPoint/meltingPoint.py. *)
Definition MeltingPoint__init__ (cls : class) (self kw : object)
  : result object :=
  _ ← accept kw
    ["manager"; "branch"; "id"; "name"; "description"; "materialId"];
  let manager := arg kw "manager" VNone in
  let branch := arg kw "branch" VNone in
  let id := arg kw "id" VNone in
  let name := arg kw "name" (VStr "Melting Point") in
  let description := arg kw "description" (VStr "Temperature at which solid transforms to liquid") in
  let materialId := arg kw "materialId" (VStr "") in
  self ← ThermalProperty__init__ cls self
    (kwargs [("manager", manager); ("branch", branch); ("id", id);
             ("name", name); ("description", description);
             ("materialId", materialId)]);
  level ← self_ABSTRACTION_LEVEL cls;
  let self := setattr self "abstractionLevel" level in
  Ok self.

(** [MeltingPointValue.__init__], properties/thermal/meltingPoint/meltingPointValue.py. *)
Definition MeltingPointValue__init__ (cls : class) (self kw : object)
  : result object :=
  _ ← accept kw
    ["manager"; "branch"; "id"; "materialId"; "meltingPointC";
     "meltingPointOnsetC"; "meltingPointPeakC"; "heatOfFusionJg";
     "crystallinityPercent"; "measurementMethod"; "heatingRate";
     "measurementDate"; "notes"];
  let manager := arg kw "manager" VNone in
  let branch := arg kw "branch" VNone in
  let id := arg kw "id" VNone in
  let materialId := arg kw "materialId" (VStr "") in
  let meltingPointC := arg kw "meltingPointC" (VNum 0%Q) in
  let meltingPointOnsetC := arg kw "meltingPointOnsetC" (VNum 0%Q) in
  let meltingPointPeakC := arg kw "meltingPointPeakC" (VNum 0%Q) in
  let heatOfFusionJg := arg kw "heatOfFusionJg" (VNum 0%Q) in
  let crystallinityPercent := arg kw "crystallinityPercent" (VNum 0%Q) in
  let measurementMethod := arg kw "measurementMethod" (VStr "DSC") in
  let heatingRate := arg kw "heatingRate" (VNum 10%Q) in
  let measurementDate := arg kw "measurementDate" (VStr "") in
  let notes := arg kw "notes" (VStr "") in
  self ← MeltingPoint__init__ cls self
    (kwargs [("manager", manager); ("branch", branch); ("id", id);
             ("name", VStr "Melting Point Value");
             ("description", VStr "Derived melting temperature in Celsius");
             ("materialId", materialId)]);
  let self := setattr self "meltingPointC" meltingPointC in
  let self := setattr self "meltingPointOnsetC" meltingPointOnsetC in
  let self := setattr self "meltingPointPeakC" meltingPointPeakC in
  let self := setattr self "heatOfFusionJg" heatOfFusionJg in
  let self := setattr self "crystallinityPercent" crystallinityPercent in
  let self := setattr self "measurementMethod" measurementMethod in
  let self := setattr self "heatingRate" heatingRate in
  let self := setattr self "measurementDate" measurementDate in
  let self := setattr self "notes" notes in
  level ← self_ABSTRACTION_LEVEL cls;
  let self := setattr self "abstractionLevel" level in
  Ok self.

(** [DSCMeltingMeasurement.__init__], properties/thermal/meltingPoint/dscMeltingMeasurement.py. *)
Definition DSCMeltingMeasurement__init__ (cls : class) (self kw : object)
  : result object :=
  _ ← accept kw
    ["manager"; "branch"; "id"; "materialId"; "meltingPointValueId";
     "sequenceNumber"; "temperatureC"; "heatFlowMW"; "time";
     "sampleMassMg"; "panType"; "atmosphere"; "flowRateMlMin";
     "heatingRate"; "measurementDate"; "operator"; "equipment"; "notes";
     "openSourceImplementationExists"];
  let manager := arg kw "manager" VNone in
  let branch := arg kw "branch" VNone in
  let id := arg kw "id" VNone in
  let materialId := arg kw "materialId" (VStr "") in
  let meltingPointValueId := arg kw "meltingPointValueId" (VStr "") in
  let sequenceNumber := arg kw "sequenceNumber" (VNum 0%Q) in
  let temperatureC := arg kw "temperatureC" (VNum 0%Q) in
  let heatFlowMW := arg kw "heatFlowMW" (VNum 0%Q) in
  let time := arg kw "time" (VNum 0%Q) in
  let sampleMassMg := arg kw "sampleMassMg" (VNum 10%Q) in
  let panType := arg kw "panType" (VStr "aluminum") in
  let atmosphere := arg kw "atmosphere" (VStr "nitrogen") in
  let flowRateMlMin := arg kw "flowRateMlMin" (VNum 50%Q) in
  let heatingRate := arg kw "heatingRate" (VNum 10%Q) in
  let measurementDate := arg kw "measurementDate" (VStr "") in
  let operator := arg kw "operator" (VStr "") in
  let equipment := arg kw "equipment" (VStr "") in
  let notes := arg kw "notes" (VStr "") in
  let openSourceImplementationExists := arg kw "openSourceImplementationExists" (VBool false) in
  self ← MeltingPointValue__init__ cls self
    (kwargs [("manager", manager); ("branch", branch); ("id", id);
             ("materialId", materialId); ("meltingPointC", VNum 0%Q);
             ("measurementMethod", VStr "DSC");
             ("heatingRate", heatingRate);
             ("measurementDate", measurementDate); ("notes", notes)]);
  let self := setattr self "meltingPointValueId" meltingPointValueId in
  let self := setattr self "sequenceNumber" sequenceNumber in
  let self := setattr self "temperatureC" temperatureC in
  let self := setattr self "heatFlowMW" heatFlowMW in
  let self := setattr self "time" time in
  let self := setattr self "sampleMassMg" sampleMassMg in
  let self := setattr self "panType" panType in
  let self := setattr self "atmosphere" atmosphere in
  let self := setattr self "flowRateMlMin" flowRateMlMin in
  let self := setattr self "operator" operator in
  let self := setattr self "equipment" equipment in
  let self := setattr self "openSourceImplementationExists" openSourceImplementationExists in
  level ← self_ABSTRACTION_LEVEL cls;
  let self := setattr self "abstractionLevel" level in
  Ok self.

(** [SmokingPoint.__init__], properties/thermal/smokingPoint/smokingPoint.py. *)
Definition SmokingPoint__init__ (cls : class) (self kw : object)
  : result object :=
  _ ← accept kw
    ["manager"; "branch"; "id"; "name"; "description"; "materialId"];
  let manager := arg kw "manager" VNone in
  let branch := arg kw "branch" VNone in
  let id := arg kw "id" VNone in
  let name := arg kw "name" (VStr "Smoking Point") in
  let description := arg kw "description" (VStr "Temperature at which material produces visible smoke") in
  let materialId := arg kw "materialId" (VStr "") in
  self ← ThermalProperty__init__ cls self
    (kwargs [("manager", manager); ("branch", branch); ("id", id);
             ("name", name); ("description", description);
             ("materialId", materialId)]);
  level ← self_ABSTRACTION_LEVEL cls;
  let self := setattr self "abstractionLevel" level in
  Ok self.

(** [SmokingPointValue.__init__], properties/thermal/smokingPoint/smokingPointValue.py. *)
Definition SmokingPointValue__init__ (cls : class) (self kw : object)
  : result object :=
  _ ← accept kw
    ["manager"; "branch"; "id"; "materialId"; "smokingPointC";
     "flashPointC"; "firePointC"; "measurementMethod"; "heatingRate";
     "measurementDate"; "notes"];
  let manager := arg kw "manager" VNone in
  let branch := arg kw "branch" VNone in
  let id := arg kw "id" VNone in
  let materialId := arg kw "materialId" (VStr "") in
  let smokingPointC := arg kw "smokingPointC" (VNum 0%Q) in
  let flashPointC := arg kw "flashPointC" (VNum 0%Q) in
  let firePointC := arg kw "firePointC" (VNum 0%Q) in
  let measurementMethod := arg kw "measurementMethod" (VStr "visual") in
  let heatingRate := arg kw "heatingRate" (VNum 5%Q) in
  let measurementDate := arg kw "measurementDate" (VStr "") in
  let notes := arg kw "notes" (VStr "") in
  self ← SmokingPoint__init__ cls self
    (kwargs [("manager", manager); ("branch", branch); ("id", id);
             ("name", VStr "Smoking Point Value");
             ("description", VStr "Derived smoking point in Celsius");
             ("materialId", materialId)]);
  let self := setattr self "smokingPointC" smokingPointC in
  let self := setattr self "flashPointC" flashPointC in
  let self := setattr self "firePointC" firePointC in
  let self := setattr self "measurementMethod" measurementMethod in
  let self := setattr self "heatingRate" heatingRate in
  let self := setattr self "measurementDate" measurementDate in
  let self := setattr self "notes" notes in
  level ← self_ABSTRACTION_LEVEL cls;
  let self := setattr self "abstractionLevel" level in
  Ok self.

(** [SmokingPointMeasurement.__init__], properties/thermal/smokingPoint/smokingPointMeasurement.py. *)
Definition SmokingPointMeasurement__init__ (cls : class) (self kw : object)
  : result object :=
  _ ← accept kw
    ["manager"; "branch"; "id"; "materialId"; "smokingPointValueId";
     "sequenceNumber"; "observedTemperatureC"; "cupType";
     "sampleVolumeMl"; "heatingRate"; "ambientTemperature"; "humidity";
     "detectionMethod"; "measurementDate"; "operator"; "equipment";
     "notes"; "openSourceImplementationExists"];
  let manager := arg kw "manager" VNone in
  let branch := arg kw "branch" VNone in
  let id := arg kw "id" VNone in
  let materialId := arg kw "materialId" (VStr "") in
  let smokingPointValueId := arg kw "smokingPointValueId" (VStr "") in
  let sequenceNumber := arg kw "sequenceNumber" (VNum 0%Q) in
  let observedTemperatureC := arg kw "observedTemperatureC" (VNum 0%Q) in
  let cupType := arg kw "cupType" (VStr "Cleveland open cup") in
  let sampleVolumeMl := arg kw "sampleVolumeMl" (VNum 75%Q) in
  let heatingRate := arg kw "heatingRate" (VNum 5%Q) in
  let ambientTemperature := arg kw "ambientTemperature" (VNum 23%Q) in
  let humidity := arg kw "humidity" (VNum 50%Q) in
  let detectionMethod := arg kw "detectionMethod" (VStr "visual") in
  let measurementDate := arg kw "measurementDate" (VStr "") in
  let operator := arg kw "operator" (VStr "") in
  let equipment := arg kw "equipment" (VStr "") in
  let notes := arg kw "notes" (VStr "") in
  let openSourceImplementationExists := arg kw "openSourceImplementationExists" (VBool true) in
  self ← SmokingPointValue__init__ cls self
    (kwargs [("manager", manager); ("branch", branch); ("id", id);
             ("materialId", materialId);
             ("smokingPointC", observedTemperatureC);
             ("measurementMethod", detectionMethod);
             ("heatingRate", heatingRate);
             ("measurementDate", measurementDate); ("notes", notes)]);
  let self := setattr self "smokingPointValueId" smokingPointValueId in
  let self := setattr self "sequenceNumber" sequenceNumber in
  let self := setattr self "observedTemperatureC" observedTemperatureC in
  let self := setattr self "cupType" cupType in
  let self := setattr self "sampleVolumeMl" sampleVolumeMl in
  let self := setattr self "ambientTemperature" ambientTemperature in
  let self := setattr self "humidity" humidity in
  let self := setattr self "detectionMethod" detectionMethod in
  let self := setattr self "operator" operator in
  let self := setattr self "equipment" equipment in
  let self := setattr self "openSourceImplementationExists" openSourceImplementationExists in
  level ← self_ABSTRACTION_LEVEL cls;
  let self := setattr self "abstractionLevel" level in
  Ok self.

(** [ThermalExpansion.__init__], properties/thermal/thermalExpansion/thermalExpansion.py. *)
Definition ThermalExpansion__init__ (cls : class) (self kw : object)
  : result object :=
  _ ← accept kw
    ["manager"; "branch"; "id"; "name"; "description"; "materialId"];
  let manager := arg kw "manager" VNone in
  let branch := arg kw "branch" VNone in
  let id := arg kw "id" VNone in
  let name := arg kw "name" (VStr "Thermal Expansion") in
  let description := arg kw "description" (VStr "Dimensional change of material with temperature") in
  let materialId := arg kw "materialId" (VStr "") in
  self ← ThermalProperty__init__ cls self
    (kwargs [("manager", manager); ("branch", branch); ("id", id);
             ("name", name); ("description", description);
             ("materialId", materialId)]);
  level ← self_ABSTRACTION_LEVEL cls;
  let self := setattr self "abstractionLevel" level in
  Ok self.

(** [CoefficientOfThermalExpansion.__init__], properties/thermal/thermalExpansion/coefficientOfThermalExpansion.py. *)
Definition CoefficientOfThermalExpansion__init__ (cls : class) (self kw : object)
  : result object :=
  _ ← accept kw
    ["manager"; "branch"; "id"; "materialId"; "ctePpmPerC";
     "temperatureRangeLowC"; "temperatureRangeHighC"; "expansionType";
     "direction"; "measurementMethod"; "heatingRate"; "measurementDate";
     "notes"];
  let manager := arg kw "manager" VNone in
  let branch := arg kw "branch" VNone in
  let id := arg kw "id" VNone in
  let materialId := arg kw "materialId" (VStr "") in
  let ctePpmPerC := arg kw "ctePpmPerC" (VNum 0%Q) in
  let temperatureRangeLowC := arg kw "temperatureRangeLowC" (VNum 25%Q) in
  let temperatureRangeHighC := arg kw "temperatureRangeHighC" (VNum 100%Q) in
  let expansionType := arg kw "expansionType" (VStr "linear") in
  let direction := arg kw "direction" (VStr "isotropic") in
  let measurementMethod := arg kw "measurementMethod" (VStr "TMA") in
  let heatingRate := arg kw "heatingRate" (VNum 5%Q) in
  let measurementDate := arg kw "measurementDate" (VStr "") in
  let notes := arg kw "notes" (VStr "") in
  self ← ThermalExpansion__init__ cls self
    (kwargs [("manager", manager); ("branch", branch); ("id", id);
             ("name", VStr "Coefficient of Thermal Expansion");
             ("description", VStr "Derived CTE in ppm/°C");
             ("materialId", materialId)]);
  let self := setattr self "ctePpmPerC" ctePpmPerC in
  let self := setattr self "temperatureRangeLowC" temperatureRangeLowC in
  let self := setattr self "temperatureRangeHighC" temperatureRangeHighC in
  let self := setattr self "expansionType" expansionType in
  let self := setattr self "direction" direction in
  let self := setattr self "measurementMethod" measurementMethod in
  let self := setattr self "heatingRate" heatingRate in
  let self := setattr self "measurementDate" measurementDate in
  let self := setattr self "notes" notes in
  level ← self_ABSTRACTION_LEVEL cls;
  let self := setattr self "abstractionLevel" level in
  Ok self.

(** [TMAMeasurement.__init__], properties/thermal/thermalExpansion/tmaMeasurement.py. *)
Definition TMAMeasurement__init__ (cls : class) (self kw : object)
  : result object :=
  _ ← accept kw
    ["manager"; "branch"; "id"; "materialId"; "cteId"; "sequenceNumber";
     "temperatureC"; "dimensionChangeMicron"; "time"; "originalLengthMm";
     "probeForceN"; "probeType"; "atmosphere"; "heatingRate";
     "measurementDate"; "operator"; "equipment"; "notes";
     "openSourceImplementationExists"];
  let manager := arg kw "manager" VNone in
  let branch := arg kw "branch" VNone in
  let id := arg kw "id" VNone in
  let materialId := arg kw "materialId" (VStr "") in
  let cteId := arg kw "cteId" (VStr "") in
  let sequenceNumber := arg kw "sequenceNumber" (VNum 0%Q) in
  let temperatureC := arg kw "temperatureC" (VNum 0%Q) in
  let dimensionChangeMicron := arg kw "dimensionChangeMicron" (VNum 0%Q) in
  let time := arg kw "time" (VNum 0%Q) in
  let originalLengthMm := arg kw "originalLengthMm" (VNum 10%Q) in
  let probeForceN := arg kw "probeForceN" (VNum 0.02%Q) in
  let probeType := arg kw "probeType" (VStr "expansion") in
  let atmosphere := arg kw "atmosphere" (VStr "nitrogen") in
  let heatingRate := arg kw "heatingRate" (VNum 5%Q) in
  let measurementDate := arg kw "measurementDate" (VStr "") in
  let operator := arg kw "operator" (VStr "") in
  let equipment := arg kw "equipment" (VStr "") in
  let notes := arg kw "notes" (VStr "") in
  let openSourceImplementationExists := arg kw "openSourceImplementationExists" (VBool true) in
  self ← CoefficientOfThermalExpansion__init__ cls self
    (kwargs [("manager", manager); ("branch", branch); ("id", id);
             ("materialId", materialId); ("ctePpmPerC", VNum 0%Q);
             ("measurementMethod", VStr "TMA");
             ("heatingRate", heatingRate);
             ("measurementDate", measurementDate); ("notes", notes)]);
  let self := setattr self "cteId" cteId in
  let self := setattr self "sequenceNumber" sequenceNumber in
  let self := setattr self "temperatureC" temperatureC in
  let self := setattr self "dimensionChangeMicron" dimensionChangeMicron in
  let self := setattr self "time" time in
  let self := setattr self "originalLengthMm" originalLengthMm in
  let self := setattr self "probeForceN" probeForceN in
  let self := setattr self "probeType" probeType in
  let self := setattr self "atmosphere" atmosphere in
  let self := setattr self "operator" operator in
  let self := setattr self "equipment" equipment in
  let self := setattr self "openSourceImplementationExists" openSourceImplementationExists in
  level ← self_ABSTRACTION_LEVEL cls;
  let self := setattr self "abstractionLevel" level in
  Ok self.

(** Dispatch on the class whose [__init__] runs. *)
Definition init (c : class) : class → object → object → result object :=
  match c with
  | MaterialProperty => MaterialProperty__init__
  | PropertyCategory => PropertyCategory__init__
  | MechanicalProperty => MechanicalProperty__init__
  | RheologicalProperty => RheologicalProperty__init__
  | SurfaceProperty => SurfaceProperty__init__
  | ThermalProperty => ThermalProperty__init__
  | Hardness => Hardness__init__
  | HardnessScale => HardnessScale__init__
  | ShoreMeasurement => ShoreMeasurement__init__
  | TensileStrength => TensileStrength__init__
  | UltimateTensileStrength => UltimateTensileStrength__init__
  | TensileMeasurement => TensileMeasurement__init__
  | SpecificGravity => SpecificGravity__init__
  | DensityMeterMeasurement => DensityMeterMeasurement__init__
  | HydrometerMeasurement => HydrometerMeasurement__init__
  | PycnometerMeasurement => PycnometerMeasurement__init__
  | ReferentialSpecificGravity => ReferentialSpecificGravity__init__
  | Elasticity => Elasticity__init__
  | StorageModulus => StorageModulus__init__
  | DMAMeasurement => DMAMeasurement__init__
  | RheometerMeasurement => RheometerMeasurement__init__
  | MeltFlowIndex => MeltFlowIndex__init__
  | MFIValue => MFIValue__init__
  | MFIMeasurement => MFIMeasurement__init__
  | Viscosity => Viscosity__init__
  | KrebsViscosity => KrebsViscosity__init__
  | StormerViscosity => StormerViscosity__init__
  | LiquidSurfaceTension => LiquidSurfaceTension__init__
  | SurfaceTensionValue => SurfaceTensionValue__init__
  | WilhelmyMeasurement => WilhelmyMeasurement__init__
  | SolidSurfaceEnergy => SolidSurfaceEnergy__init__
  | CriticalSurfaceTension => CriticalSurfaceTension__init__
  | ContactAngleMeasurement => ContactAngleMeasurement__init__
  | GlassTransition => GlassTransition__init__
  | GlassTransitionTemp => GlassTransitionTemp__init__
  | DMAGlassTransitionMeasurement => DMAGlassTransitionMeasurement__init__
  | MeltingPoint => MeltingPoint__init__
  | MeltingPointValue => MeltingPointValue__init__
  | DSCMeltingMeasurement => DSCMeltingMeasurement__init__
  | SmokingPoint => SmokingPoint__init__
  | SmokingPointValue => SmokingPointValue__init__
  | SmokingPointMeasurement => SmokingPointMeasurement__init__
  | ThermalExpansion => ThermalExpansion__init__
  | CoefficientOfThermalExpansion => CoefficientOfThermalExpansion__init__
  | TMAMeasurement => TMAMeasurement__init__
  end.

(** Instantiating the class [C] with the keywords [kw]: a fresh
    instance of [C], with an empty dictionary, is passed to
    [C.__init__]. *)
Definition new (c : class) (kw : object) : result object :=
  init c c ∅ kw.
End Constructors.

(** ** The derivation methods as one family

    The seven collection-based derivation methods, with the numeric
    argument the two-argument ones take.  [derived_field] is the
    reportable attribute a method returns, [written_fields] the
    attributes its body assigns. *)

Inductive derivation : Type :=
  | hardness_scale
  | referential_specific_gravity
  | surface_tension_value
  | krebs_viscosity
  | mfi_value
  | ultimate_tensile_strength (cross_section_area_mm2 : Q)
  | coefficient_of_thermal_expansion (original_length_mm : Q).

Definition run (d : derivation) (self : gmap string (pyval Q))
  (measurements : list (gmap string (pyval Q)))
  : result (pyval Q * gmap string (pyval Q)) :=
  match d with
  | hardness_scale =>
      HardnessScale.calculate_from_measurements self measurements
  | referential_specific_gravity =>
      ReferentialSpecificGravity.calculate_from_measurements self measurements
  | surface_tension_value =>
      SurfaceTensionValue.calculate_from_measurements self measurements
  | krebs_viscosity =>
      KrebsViscosity.calculate_from_stormer_measurements self measurements
  | mfi_value =>
      MFIValue.calculate_from_measurements self measurements
  | ultimate_tensile_strength a =>
      UltimateTensileStrength.calculate_from_measurements self measurements a
  | coefficient_of_thermal_expansion l =>
      CoefficientOfThermalExpansion.calculate_from_measurements
        self measurements l
  end.

Definition derived_field (d : derivation) : string :=
  match d with
  | hardness_scale => "hardnessValue"
  | referential_specific_gravity => "specificGravityValue"
  | surface_tension_value => "surfaceTensionMNm"
  | krebs_viscosity => "viscosityKU"
  | mfi_value => "mfiGramsPer10Min"
  | ultimate_tensile_strength _ => "utsMPa"
  | coefficient_of_thermal_expansion _ => "ctePpmPerC"
  end.

Definition written_fields (d : derivation) : list string :=
  match d with
  | coefficient_of_thermal_expansion _ =>
      ["ctePpmPerC"; "temperatureRangeLowC"; "temperatureRangeHighC"]
  | _ => [derived_field d]
  end.

Definition owens_wendt_written_fields : list string :=
  ["dispersiveComponent"; "polarComponent"; "surfaceEnergyMNm";
   "calculationMethod"].

(** ** What the derivations are expected to compute

    These definitions follow the wording of the specification; the
    theorems below compare the methods with them. *)

(** A value that counts: numeric and strictly positive. *)
Definition positive_num (v : pyval Q) : option Q :=
  match as_num v with
  | Ok x => if Qltb 0 x then Some x else None
  | Raise _ => None
  end.

(** The reading a record contributes through [attr], if any. *)
Definition reading (attr : string) (m : gmap string (pyval Q)) : option Q :=
  m !! attr ≫= positive_num.

Definition Qsum (l : list Q) : Q := fold_left Qplus l 0%Q.

Definition mean (l : list Q) : Q := (Qsum l / Qnat (length l))%Q.

(** Stormer reading normalised to 200 revolutions. *)
Definition stormer_normalized (m : gmap string (pyval Q)) : option Q :=
  g ← reading "grams" m;
  r ← reading "revolutions" m;
  Some (g * (200 / r))%Q.

(** Melt-flow rate of one cut in g/10min. *)
Definition mfi_rate (m : gmap string (pyval Q)) : option Q :=
  em ← reading "extrudateMass" m;
  et ← reading "extrusionTime" m;
  Some (em / et * 600)%Q.

(** Engineering stress of one reading. *)
Definition stress_of (area : Q) (m : gmap string (pyval Q)) : option Q :=
  f ← reading "forceN" m;
  Some (f / area)%Q.

(** The larger of two numbers, the first on a tie. *)
Definition Qmax (x y : Q) : Q := if Qltb x y then y else x.

Definition peak (l : list Q) : Q := fold_left Qmax l 0%Q.

(** What one record contributes to the aggregate of a derivation, [None]
    when it lacks an expected attribute or holds a value that is not
    positive. *)
Definition contribution (d : derivation)
  (m : gmap string (pyval Q)) : option Q :=
  match d with
  | hardness_scale => reading "hardnessReading" m
  | referential_specific_gravity => reading "specificGravityValue" m
  | surface_tension_value => reading "surfaceTensionMNm" m
  | krebs_viscosity => stormer_normalized m
  | mfi_value => mfi_rate m
  | ultimate_tensile_strength a => stress_of a m
  | coefficient_of_thermal_expansion _ => None
  end.

(** The attributes a derivation expects on a record. *)
Definition expected_fields (d : derivation) : list string :=
  match d with
  | hardness_scale => ["hardnessReading"]
  | referential_specific_gravity => ["specificGravityValue"]
  | surface_tension_value => ["surfaceTensionMNm"]
  | krebs_viscosity => ["grams"; "revolutions"]
  | mfi_value => ["extrudateMass"; "extrusionTime"]
  | ultimate_tensile_strength _ => ["forceN"]
  | coefficient_of_thermal_expansion _ =>
      ["temperatureC"; "dimensionChangeMicron"]
  end.

(** The value the aggregating derivations compute from the records that
    count, [None] when they leave the stored value alone. *)
Definition aggregate (d : derivation)
  (ms : list (gmap string (pyval Q))) : option Q :=
  let l := omap (contribution d) ms in
  match d with
  | krebs_viscosity =>
      match l with [] => None | _ => Some (mean l * 2.08 + 15.8)%Q end
  | ultimate_tensile_strength _ => Some (peak l)
  | coefficient_of_thermal_expansion _ => None
  | _ => match l with [] => None | _ => Some (mean l) end
  end.

(** The derivations that reduce the records one by one, on the arguments
    for which they do: the tensile one needs a positive cross-section. *)
Definition aggregating (d : derivation) : Prop :=
  match d with
  | ultimate_tensile_strength a => (0 < a)%Q
  | coefficient_of_thermal_expansion _ => False
  | _ => True
  end.

(** The number an attribute holds, 0 when there is none. *)
Definition num_attr (attr : string) (m : gmap string (pyval Q)) : Q :=
  match m !! attr with
  | Some v => match as_num v with Ok x => x | Raise _ => 0%Q end
  | None => 0%Q
  end.

(** Ordered by temperature. *)
Definition temp_le (a b : gmap string (pyval Q)) : Prop :=
  (num_attr "temperatureC" a <= num_attr "temperatureC" b)%Q.

(** Ordered by sort key. *)
Definition key_le (p q : Q * gmap string (pyval Q)) : Prop :=
  (fst p <= fst q)%Q.

(** Each record paired with its temperature. *)
Definition decorate (ms : list (gmap string (pyval Q)))
  : list (Q * gmap string (pyval Q)) :=
  map (λ m, (num_attr "temperatureC" m, m)) ms.

(** The slope between two end points in ppm per degree. *)
Definition cte_slope (delta_L original_length_mm delta_T : Q) : Q :=
  (delta_L / (original_length_mm * 1000) / delta_T * 1000000)%Q.

(** The attribute, if present, holds a number. *)
Definition numeric_if_present (attr : string)
  (m : gmap string (pyval Q)) : Prop :=
  ∀ v, m !! attr = Some v → ∃ x, as_num v = Ok x.

(** The attribute is present and holds a number. *)
Definition numeric (attr : string) (m : gmap string (pyval Q)) : Prop :=
  ∃ v x, m !! attr = Some v ∧ as_num v = Ok x.

(** The records a derivation is written for: the guarded ones accept any
    object whose expected attribute, if it has one, is a number; the
    unguarded ones are written for objects that carry the attributes. *)
Definition admissible (d : derivation) (m : gmap string (pyval Q)) : Prop :=
  match d with
  | hardness_scale => numeric_if_present "hardnessReading" m
  | referential_specific_gravity => numeric_if_present "specificGravityValue" m
  | surface_tension_value => numeric_if_present "surfaceTensionMNm" m
  | krebs_viscosity => numeric "grams" m ∧ numeric "revolutions" m
  | mfi_value => numeric "extrudateMass" m ∧ numeric "extrusionTime" m
  | ultimate_tensile_strength _ => numeric_if_present "forceN" m
  | coefficient_of_thermal_expansion _ =>
      numeric "temperatureC" m ∧ numeric "dimensionChangeMicron" m
  end.

(** ** Concrete objects used in the examples *)

Definition stormer_reading (grams revolutions : Q) : gmap string (pyval Q) :=
  {[ "grams" := VNum grams; "revolutions" := VNum revolutions ]}.

Definition tensile_reading (forceN : Q) : gmap string (pyval Q) :=
  {[ "forceN" := VNum forceN ]}.

Definition tma_point (temperatureC dimensionChangeMicron : Q)
  : gmap string (pyval Q) :=
  {[ "temperatureC" := VNum temperatureC;
     "dimensionChangeMicron" := VNum dimensionChangeMicron ]}.

Definition shore_reading (hardnessReading : Q) : gmap string (pyval Q) :=
  {[ "hardnessReading" := VNum hardnessReading ]}.

(** A receiver holding [v] in the reportable attribute of [d] and the
    attributes every derived value carries. *)
Definition receiver (d : derivation) (v : Q) : gmap string (pyval Q) :=
  {[ derived_field d := VNum v;
     "materialId" := VStr "mat-1";
     "abstractionLevel" := VNum 2%Q;
     "temperatureRangeLowC" := VNum 25%Q;
     "temperatureRangeHighC" := VNum 100%Q;
     "notes" := VStr "" ]}.

(** The parameters of each [__init__], after [self]. *)
Definition parameters (c : class) : list string :=
  match c with
  | MaterialProperty =>
      ["manager"; "branch"; "id"; "name"; "description"; "deviceId"]
  | PropertyCategory =>
      ["manager"; "branch"; "id"; "name"; "description"; "materialId";
       "categoryDescription"]
  | MechanicalProperty =>
      ["manager"; "branch"; "id"; "name"; "description"; "materialId";
       "categoryDescription"]
  | RheologicalProperty =>
      ["manager"; "branch"; "id"; "name"; "description"; "materialId";
       "categoryDescription"]
  | SurfaceProperty =>
      ["manager"; "branch"; "id"; "name"; "description"; "materialId";
       "categoryDescription"]
  | ThermalProperty =>
      ["manager"; "branch"; "id"; "name"; "description"; "materialId";
       "categoryDescription"]
  | Hardness =>
      ["manager"; "branch"; "id"; "name"; "description"; "materialId"]
  | HardnessScale =>
      ["manager"; "branch"; "id"; "materialId"; "hardnessValue"; "scale";
       "temperature"; "measurementDate"; "notes"]
  | ShoreMeasurement =>
      ["manager"; "branch"; "id"; "materialId"; "hardnessScaleId";
       "sequenceNumber"; "hardnessReading"; "shoreType"; "readingTime";
       "sampleThickness"; "locationOnSample"; "temperature";
       "measurementDate"; "operator"; "equipment"; "notes";
       "openSourceImplementationExists"]
  | TensileStrength =>
      ["manager"; "branch"; "id"; "name"; "description"; "materialId"]
  | UltimateTensileStrength =>
      ["manager"; "branch"; "id"; "materialId"; "utsMPa";
       "yieldStrengthMPa"; "elongationAtBreak"; "youngsModulusMPa";
       "specimenType"; "testSpeed"; "temperature"; "measurementDate";
       "notes"]
  | TensileMeasurement =>
      ["manager"; "branch"; "id"; "materialId"; "utsId"; "sequenceNumber";
       "forceN"; "displacementMm"; "time"; "gaugeLength"; "specimenWidth";
       "specimenThickness"; "extensometerStrain"; "testSpeed";
       "temperature"; "measurementDate"; "operator"; "equipment"; "notes";
       "openSourceImplementationExists"]
  | SpecificGravity =>
      ["manager"; "branch"; "id"; "name"; "description"; "materialId"]
  | DensityMeterMeasurement =>
      ["manager"; "branch"; "id"; "materialId";
       "referentialSpecificGravityId"; "sequenceNumber"; "densityValue";
       "specificGravityValue"; "oscillationFrequency"; "temperature";
       "referenceDensity"; "measurementDate"; "operator"; "equipment";
       "calibrationDate"; "notes"]
  | HydrometerMeasurement =>
      ["manager"; "branch"; "id"; "materialId";
       "referentialSpecificGravityId"; "sequenceNumber"; "scaleReading";
       "specificGravityValue"; "scaleType"; "temperature";
       "calibrationTemperature"; "measurementDate"; "operator";
       "equipment"; "notes"]
  | PycnometerMeasurement =>
      ["manager"; "branch"; "id"; "materialId";
       "referentialSpecificGravityId"; "sequenceNumber"; "emptyWeight";
       "referenceWeight"; "sampleWeight"; "specificGravityValue";
       "temperature"; "pycnometerVolume"; "measurementDate"; "operator";
       "equipment"; "notes"]
  | ReferentialSpecificGravity =>
      ["manager"; "branch"; "id"; "materialId"; "specificGravityValue";
       "referenceMaterial"; "referenceTemperature"; "sampleTemperature";
       "measurementDate"; "notes"]
  | Elasticity =>
      ["manager"; "branch"; "id"; "name"; "description"; "materialId"]
  | StorageModulus =>
      ["manager"; "branch"; "id"; "materialId"; "storageModulusPa";
       "lossModulusPa"; "lossFactor"; "frequency"; "temperature";
       "measurementDate"; "notes"]
  | DMAMeasurement =>
      ["manager"; "branch"; "id"; "materialId"; "storageModulusId";
       "sequenceNumber"; "strain"; "stress"; "phaseAngle";
       "storageModulusPa"; "lossModulusPa"; "frequency"; "sampleLength";
       "sampleWidth"; "sampleThickness"; "clampType"; "temperature";
       "measurementDate"; "operator"; "equipment"; "notes";
       "openSourceImplementationExists"]
  | RheometerMeasurement =>
      ["manager"; "branch"; "id"; "materialId"; "storageModulusId";
       "sequenceNumber"; "geometry"; "gapDistance"; "strain"; "shearRate";
       "torque"; "normalForce"; "storageModulusPa"; "lossModulusPa";
       "frequency"; "temperature"; "measurementDate"; "operator";
       "equipment"; "notes"; "openSourceImplementationExists"]
  | MeltFlowIndex =>
      ["manager"; "branch"; "id"; "name"; "description"; "materialId"]
  | MFIValue =>
      ["manager"; "branch"; "id"; "materialId"; "mfiGramsPer10Min";
       "testTemperature"; "testLoad"; "polymerType"; "measurementDate";
       "notes"]
  | MFIMeasurement =>
      ["manager"; "branch"; "id"; "materialId"; "mfiValueId";
       "sequenceNumber"; "extrusionTime"; "extrudateMass"; "preheatTime";
       "barrelTemperature"; "testLoad"; "dieDiameter"; "dieLength";
       "measurementDate"; "operator"; "equipment"; "notes";
       "openSourceImplementationExists"]
  | Viscosity =>
      ["manager"; "branch"; "id"; "name"; "description"; "materialId"]
  | KrebsViscosity =>
      ["manager"; "branch"; "id"; "materialId"; "viscosityKU";
       "temperature"; "measurementDate"; "notes"]
  | StormerViscosity =>
      ["manager"; "branch"; "id"; "materialId"; "krebsViscosityId";
       "sequenceNumber"; "time"; "revolutions"; "grams"; "temperature";
       "measurementDate"; "operator"; "equipment"; "notes"]
  | LiquidSurfaceTension =>
      ["manager"; "branch"; "id"; "name"; "description"; "materialId"]
  | SurfaceTensionValue =>
      ["manager"; "branch"; "id"; "materialId"; "surfaceTensionMNm";
       "interfacialTensionMNm"; "secondPhase"; "measurementMethod";
       "temperature"; "measurementDate"; "notes"]
  | WilhelmyMeasurement =>
      ["manager"; "branch"; "id"; "materialId"; "surfaceTensionValueId";
       "sequenceNumber"; "forceMN"; "platePerimeterMm"; "plateMaterial";
       "contactAngle"; "immersionDepthMm"; "temperature";
       "measurementDate"; "operator"; "equipment"; "notes";
       "openSourceImplementationExists"]
  | SolidSurfaceEnergy =>
      ["manager"; "branch"; "id"; "name"; "description"; "materialId"]
  | CriticalSurfaceTension =>
      ["manager"; "branch"; "id"; "materialId"; "surfaceEnergyMNm";
       "dispersiveComponent"; "polarComponent"; "calculationMethod";
       "temperature"; "measurementDate"; "notes"]
  | ContactAngleMeasurement =>
      ["manager"; "branch"; "id"; "materialId"; "surfaceEnergyId";
       "sequenceNumber"; "contactAngle"; "probeLiquid";
       "probeLiquidSurfaceTension"; "dropVolume"; "measurementType";
       "leftAngle"; "rightAngle"; "humidity"; "temperature";
       "measurementDate"; "operator"; "equipment"; "software"; "notes";
       "openSourceImplementationExists"]
  | GlassTransition =>
      ["manager"; "branch"; "id"; "name"; "description"; "materialId"]
  | GlassTransitionTemp =>
      ["manager"; "branch"; "id"; "materialId"; "tgCelsius"; "tgOnset";
       "tgMidpoint"; "tgEndset"; "deltaCp"; "measurementMethod";
       "heatingRate"; "frequency"; "measurementDate"; "notes"]
  | DMAGlassTransitionMeasurement =>
      ["manager"; "branch"; "id"; "materialId"; "glassTransitionTempId";
       "sequenceNumber"; "temperatureC"; "storageModulusPa";
       "lossModulusPa"; "tanDelta"; "frequency"; "strain"; "clampType";
       "sampleLength"; "sampleWidth"; "sampleThickness"; "heatingRate";
       "measurementDate"; "operator"; "equipment"; "notes";
       "openSourceImplementationExists"]
  | MeltingPoint =>
      ["manager"; "branch"; "id"; "name"; "description"; "materialId"]
  | MeltingPointValue =>
      ["manager"; "branch"; "id"; "materialId"; "meltingPointC";
       "meltingPointOnsetC"; "meltingPointPeakC"; "heatOfFusionJg";
       "crystallinityPercent"; "measurementMethod"; "heatingRate";
       "measurementDate"; "notes"]
  | DSCMeltingMeasurement =>
      ["manager"; "branch"; "id"; "materialId"; "meltingPointValueId";
       "sequenceNumber"; "temperatureC"; "heatFlowMW"; "time";
       "sampleMassMg"; "panType"; "atmosphere"; "flowRateMlMin";
       "heatingRate"; "measurementDate"; "operator"; "equipment"; "notes";
       "openSourceImplementationExists"]
  | SmokingPoint =>
      ["manager"; "branch"; "id"; "name"; "description"; "materialId"]
  | SmokingPointValue =>
      ["manager"; "branch"; "id"; "materialId"; "smokingPointC";
       "flashPointC"; "firePointC"; "measurementMethod"; "heatingRate";
       "measurementDate"; "notes"]
  | SmokingPointMeasurement =>
      ["manager"; "branch"; "id"; "materialId"; "smokingPointValueId";
       "sequenceNumber"; "observedTemperatureC"; "cupType";
       "sampleVolumeMl"; "heatingRate"; "ambientTemperature"; "humidity";
       "detectionMethod"; "measurementDate"; "operator"; "equipment";
       "notes"; "openSourceImplementationExists"]
  | ThermalExpansion =>
      ["manager"; "branch"; "id"; "name"; "description"; "materialId"]
  | CoefficientOfThermalExpansion =>
      ["manager"; "branch"; "id"; "materialId"; "ctePpmPerC";
       "temperatureRangeLowC"; "temperatureRangeHighC"; "expansionType";
       "direction"; "measurementMethod"; "heatingRate"; "measurementDate";
       "notes"]
  | TMAMeasurement =>
      ["manager"; "branch"; "id"; "materialId"; "cteId"; "sequenceNumber";
       "temperatureC"; "dimensionChangeMicron"; "time"; "originalLengthMm";
       "probeForceN"; "probeType"; "atmosphere"; "heatingRate";
       "measurementDate"; "operator"; "equipment"; "notes";
       "openSourceImplementationExists"]
  end.

(** The keyword arguments a constructor computes with. *)
Definition computed_inputs (c : class) : list string :=
  match c with
  | MFIMeasurement => ["extrusionTime"; "extrudateMass"]
  | WilhelmyMeasurement => ["platePerimeterMm"; "contactAngle"; "forceMN"]
  | _ => []
  end.

(** The supplied ones among them are numbers. *)
Definition numeric_inputs (c : class) (kw : gmap string (pyval Q)) : Prop :=
  ∀ k v, k ∈ computed_inputs c → kw !! k = Some v → ∃ x, as_num v = Ok x.

(** ** The seed loader, seedData.py

    The JSON files and the classes they are loaded into, in dependency
    order.  The classes are plain [treeObject] subclasses outside the
    property hierarchy.  The file system, the JSON parser and the
    constructors are parameters.

    [read_json filename] is what the loader meets at a file of the data
    directory: no file; a file on which [open] or [json.load] raises; or
    the parsed value, seen as the loop sees it, through iteration.  A
    parsed value that cannot be iterated (a number, [true], [null]) is
    [NotIterable]; any other yields its elements in turn, each of them
    either a dictionary, which takes the ['manager'] item, or something
    else ([None] below), on which the item assignment raises
    [TypeError]: a JSON array yields its elements, a JSON object its keys
    and a string its characters, none of them a dictionary.

    [construct cls record] is the class [cls] called with the items of
    [record] as keywords; [value] is the type of the values a record
    holds and [instance] that of the objects. *)

Definition load_order : list (string * string) :=
  [("dataSources.json", "DataSource");
   ("dataProvenances.json", "DataProvenance");
   ("rawMaterials.json", "RawMaterial");
   ("compatibilizers.json", "Compatibilizer");
   ("materialAdditives.json", "MaterialAdditive");
   ("propertyEffects.json", "PropertyEffect");
   ("additiveCompatibilities.json", "AdditiveCompatibility");
   ("targetMaterialProfiles.json", "TargetMaterialProfile");
   ("propertyTargets.json", "PropertyTarget");
   ("formulations.json", "Formulation");
   ("formulationComponents.json", "FormulationComponent");
   ("formulationIntents.json", "FormulationIntent")].

Inductive file_content (value : Type) : Type :=
  | Missing
  | Unreadable (e : exn)
  | NotIterable
  | Yields (items : list (option (gmap string value))).
Arguments Missing {value}.
Arguments Unreadable {value} e.
Arguments NotIterable {value}.
Arguments Yields {value} items.

Section SeedData.
Context {value instance : Type}.
Variable read_json : string → file_content value.
Variable construct : string → gmap string value → result instance.

(** [for record in records:] the record gets [manager] under the key
    ['manager'], the class is called with the items of the record as
    keywords and the object is appended to [instances]. *)
Fixpoint make_instances (cls : string) (manager : value)
  (records : list (option (gmap string value)))
  : result (list instance) :=
  match records with
  | [] => Ok []
  | None :: _ => Raise TypeError
  | Some record :: rest =>
      obj ← construct cls (<["manager" := manager]> record);
      instances ← make_instances cls manager rest;
      Ok (obj :: instances)
  end.

(** [for filename, cls in load_order:] with [continue] on a missing file
    and [created[cls.__name__] = instances] otherwise. *)
Fixpoint load (order : list (string * string)) (manager : value)
  (created : gmap string (list instance))
  : result (gmap string (list instance)) :=
  match order with
  | [] => Ok created
  | (filename, cls) :: rest =>
      match read_json filename with
      | Missing => load rest manager created
      | Unreadable e => Raise e
      | NotIterable => Raise TypeError
      | Yields records =>
          instances ← make_instances cls manager records;
          load rest manager (<[cls := instances]> created)
      end
  end.

Definition seed_initial_data (manager : value)
  : result (gmap string (list instance)) :=
  load load_order manager ∅.
End SeedData.

(** ** Conversions carried by single objects

    The remaining methods of the property classes read attributes of
    their own receiver.  [attr_num] is an attribute read in a numeric
    context; where a method combines two attributes neither of which it
    has tested before, both are read before either is used. *)

Definition attr_num (self : gmap string (pyval Q)) (attr : string)
  : result Q :=
  v ← getattr self attr; as_num v.

Module TensileMeasurement.
(** [area = self.specimenWidth * self.specimenThickness]
    [if area > 0: return self.forceN / area]
    [return 0.0] *)
Definition calculate_engineering_stress (self : gmap string (pyval Q))
  : result Q :=
  w ← getattr self "specimenWidth";
  t ← getattr self "specimenThickness";
  specimenWidth ← as_num w;
  specimenThickness ← as_num t;
  let area := (specimenWidth * specimenThickness)%Q in
  if Qltb 0 area then
    forceN ← attr_num self "forceN";
    py_div forceN area
  else Ok 0%Q.

(** [if self.gaugeLength > 0:]
    [return (self.displacementMm / self.gaugeLength) * 100]
    [return 0.0] *)
Definition calculate_engineering_strain (self : gmap string (pyval Q))
  : result Q :=
  gaugeLength ← attr_num self "gaugeLength";
  if Qltb 0 gaugeLength then
    displacementMm ← attr_num self "displacementMm";
    gaugeLength' ← attr_num self "gaugeLength";
    q ← py_div displacementMm gaugeLength';
    Ok (q * 100)%Q
  else Ok 0%Q.
End TensileMeasurement.

Module PycnometerMeasurement.
(** [reference_mass = self.referenceWeight - self.emptyWeight]
    [sample_mass = self.sampleWeight - self.emptyWeight]
    [if reference_mass > 0:]
    [self.specificGravityValue = sample_mass / reference_mass]
    [return self.specificGravityValue] *)
Definition calculate_specific_gravity (self : gmap string (pyval Q))
  : result (pyval Q * gmap string (pyval Q)) :=
  rw ← getattr self "referenceWeight";
  ew ← getattr self "emptyWeight";
  referenceWeight ← as_num rw;
  emptyWeight ← as_num ew;
  let reference_mass := (referenceWeight - emptyWeight)%Q in
  sampleWeight ← attr_num self "sampleWeight";
  emptyWeight' ← attr_num self "emptyWeight";
  let sample_mass := (sampleWeight - emptyWeight')%Q in
  self' ← (if Qltb 0 reference_mass
           then q ← py_div sample_mass reference_mass;
                Ok (setattr self "specificGravityValue" (VNum q))
           else Ok self);
  v ← getattr self' "specificGravityValue";
  Ok (v, self').
End PycnometerMeasurement.

Module DensityMeterMeasurement.
(** [if self.referenceDensity > 0 and self.densityValue > 0:]
    [self.specificGravityValue = self.densityValue / self.referenceDensity]
    [return self.specificGravityValue] *)
Definition calculate_specific_gravity (self : gmap string (pyval Q))
  : result (pyval Q * gmap string (pyval Q)) :=
  referenceDensity ← attr_num self "referenceDensity";
  self' ← (if Qltb 0 referenceDensity then
             densityValue ← attr_num self "densityValue";
             if Qltb 0 densityValue then
               densityValue' ← attr_num self "densityValue";
               referenceDensity' ← attr_num self "referenceDensity";
               q ← py_div densityValue' referenceDensity';
               Ok (setattr self "specificGravityValue" (VNum q))
             else Ok self
           else Ok self);
  v ← getattr self' "specificGravityValue";
  Ok (v, self').
End DensityMeterMeasurement.

Module HydrometerMeasurement.
(** [self.scaleType == 'name']: equality with a string literal holds for
    that string only and never raises. *)
Definition is_str (v : pyval Q) (s : string) : bool :=
  match v with
  | VStr t => String.eqb t s
  | _ => false
  end.

(** The [if]/[elif] chain on [self.scaleType]; the attribute is read
    anew by every test that is reached. *)
Definition convert_to_specific_gravity (self : gmap string (pyval Q))
  : result (pyval Q * gmap string (pyval Q)) :=
  self' ←
    (t1 ← getattr self "scaleType";
     if is_str t1 "SG" then
       r ← getattr self "scaleReading";
       Ok (setattr self "specificGravityValue" r)
     else
       t2 ← getattr self "scaleType";
       if is_str t2 "Baume_heavy" then
         scaleReading ← attr_num self "scaleReading";
         if Qltb scaleReading 145 then
           scaleReading' ← attr_num self "scaleReading";
           q ← py_div 145 (145 - scaleReading');
           Ok (setattr self "specificGravityValue" (VNum q))
         else Ok self
       else
         t3 ← getattr self "scaleType";
         if is_str t3 "Baume_light" then
           scaleReading ← attr_num self "scaleReading";
           q ← py_div 140 (130 + scaleReading);
           Ok (setattr self "specificGravityValue" (VNum q))
         else
           t4 ← getattr self "scaleType";
           if is_str t4 "API" then
             scaleReading ← attr_num self "scaleReading";
             q ← py_div 141.5 (131.5 + scaleReading);
             Ok (setattr self "specificGravityValue" (VNum q))
           else
             r ← getattr self "scaleReading";
             Ok (setattr self "specificGravityValue" r));
  v ← getattr self' "specificGravityValue";
  Ok (v, self').
End HydrometerMeasurement.

(** [if self.<den> > 0: self.<field> = self.<num> / self.<den>]
    [return self.<field>], the body shared by
    [StorageModulus.calculate_loss_factor] and
    [DMAGlassTransitionMeasurement.calculate_tan_delta]. *)
Definition guarded_ratio (field num den : string)
  (self : gmap string (pyval Q))
  : result (pyval Q * gmap string (pyval Q)) :=
  d ← attr_num self den;
  self' ← (if Qltb 0 d then
             n ← attr_num self num;
             d' ← attr_num self den;
             q ← py_div n d';
             Ok (setattr self field (VNum q))
           else Ok self);
  v ← getattr self' field;
  Ok (v, self').

Module StorageModulus.
Definition calculate_loss_factor :=
  guarded_ratio "lossFactor" "lossModulusPa" "storageModulusPa".

(** The numeric reading of a value, on reals. *)
Definition as_real (v : pyval R) : result R :=
  match v with
  | VNum x => Ok x
  | VBool b => Ok (if b then 1%R else 0%R)
  | VNone | VStr _ => Raise TypeError
  end.

(** [return math.sqrt(self.storageModulusPa**2 + self.lossModulusPa**2)],
    on reals: each attribute is squared as soon as it is read. *)
Definition calculate_complex_modulus (self : gmap string (pyval R))
  : result R :=
  s ← getattr self "storageModulusPa";
  storageModulusPa ← as_real s;
  l ← getattr self "lossModulusPa";
  lossModulusPa ← as_real l;
  CriticalSurfaceTension.math_sqrt
    (storageModulusPa ^ 2 + lossModulusPa ^ 2)%R.
End StorageModulus.

Module DMAGlassTransitionMeasurement.
Definition calculate_tan_delta :=
  guarded_ratio "tanDelta" "lossModulusPa" "storageModulusPa".
End DMAGlassTransitionMeasurement.

Module TMAMeasurement.
(** [if self.originalLengthMm > 0:]
    [return (self.dimensionChangeMicron / (self.originalLengthMm * 1000)) * 100]
    [return 0.0] *)
Definition calculate_strain_percent (self : gmap string (pyval Q))
  : result Q :=
  originalLengthMm ← attr_num self "originalLengthMm";
  if Qltb 0 originalLengthMm then
    dimensionChangeMicron ← attr_num self "dimensionChangeMicron";
    originalLengthMm' ← attr_num self "originalLengthMm";
    q ← py_div dimensionChangeMicron (originalLengthMm' * 1000)%Q;
    Ok (q * 100)%Q
  else Ok 0%Q.
End TMAMeasurement.

Module MeltingPointValue.
(** [if reference_heat_of_fusion > 0:]
    [self.crystallinityPercent = (self.heatOfFusionJg / reference_heat_of_fusion) * 100]
    [return self.crystallinityPercent] *)
Definition calculate_crystallinity (self : gmap string (pyval Q))
  (reference_heat_of_fusion : Q)
  : result (pyval Q * gmap string (pyval Q)) :=
  self' ← (if Qltb 0 reference_heat_of_fusion then
             heatOfFusionJg ← attr_num self "heatOfFusionJg";
             q ← py_div heatOfFusionJg reference_heat_of_fusion;
             Ok (setattr self "crystallinityPercent" (VNum (q * 100)%Q))
           else Ok self);
  v ← getattr self' "crystallinityPercent";
  Ok (v, self').
End MeltingPointValue.

Module DSCMeltingMeasurement.
(** [if self.sampleMassMg > 0: return self.heatFlowMW / self.sampleMassMg]
    [return 0.0] *)
Definition normalize_heat_flow (self : gmap string (pyval Q)) : result Q :=
  sampleMassMg ← attr_num self "sampleMassMg";
  if Qltb 0 sampleMassMg then
    heatFlowMW ← attr_num self "heatFlowMW";
    sampleMassMg' ← attr_num self "sampleMassMg";
    py_div heatFlowMW sampleMassMg'
  else Ok 0%Q.
End DSCMeltingMeasurement.

Module ContactAngleMeasurement.
(** [if self.leftAngle > 0 and self.rightAngle > 0:]
    [self.contactAngle = (self.leftAngle + self.rightAngle) / 2]
    [return self.contactAngle] *)
Definition calculate_average_angle (self : gmap string (pyval Q))
  : result (pyval Q * gmap string (pyval Q)) :=
  leftAngle ← attr_num self "leftAngle";
  self' ← (if Qltb 0 leftAngle then
             rightAngle ← attr_num self "rightAngle";
             if Qltb 0 rightAngle then
               leftAngle' ← attr_num self "leftAngle";
               rightAngle' ← attr_num self "rightAngle";
               q ← py_div (leftAngle' + rightAngle') 2;
               Ok (setattr self "contactAngle" (VNum q))
             else Ok self
           else Ok self);
  v ← getattr self' "contactAngle";
  Ok (v, self').
End ContactAngleMeasurement.

(** Two results agree when they hold the same number, possibly written
    as different fractions, or are otherwise the same value. *)
Definition same_value (v w : pyval Q) : Prop :=
  match v, w with
  | VNum x, VNum y => (x == y)%Q
  | _, _ => v = w
  end.

(** What the loop of a derivation does on a collection, its accumulators
    left abstract: it raises the exception [e]. *)
Definition loop_raises (d : derivation)
  (ms : list (gmap string (pyval Q))) (e : exn) : Prop :=
  match d with
  | hardness_scale => ∀ t c, mean_loop "hardnessReading" ms t c = Raise e
  | referential_specific_gravity =>
      ∀ t c, mean_loop "specificGravityValue" ms t c = Raise e
  | surface_tension_value =>
      ∀ t c, mean_loop "surfaceTensionMNm" ms t c = Raise e
  | krebs_viscosity => ∀ t c, KrebsViscosity.loop ms t c = Raise e
  | mfi_value => ∀ t c, MFIValue.loop ms t c = Raise e
  | ultimate_tensile_strength a =>
      ∀ mx, UltimateTensileStrength.loop a ms mx = Raise e
  | coefficient_of_thermal_expansion _ => False
  end.

(** ** Objects held by reference

    A receiver that is itself one of the records is one object seen
    twice: a [WilhelmyMeasurement] is a [SurfaceTensionValue] and can
    stand on both sides of a call.  A store maps locations to objects; a
    derivation called on locations reads the records as the store holds
    them and leaves the updated receiver in the store.  Every derivation
    method has read all the records when it assigns to the receiver, so
    the records are fetched once, at the call.  A location that the store
    does not hold gives [None]: no Python name refers to nothing. *)
Definition run_in_store (d : derivation)
  (store : gmap nat (gmap string (pyval Q)))
  (self : nat) (measurements : list nat)
  : option (result (pyval Q * gmap nat (gmap string (pyval Q)))) :=
  match store !! self, mapM (λ l, store !! l) measurements with
  | Some o, Some ms =>
      Some match run d o ms with
           | Ok (v, o') => Ok (v, <[self := o']> store)
           | Raise e => Raise e
           end
  | _, _ => None
  end.

(** A store in which the receiver is one of its own records. *)
Definition plate (surfaceTensionMNm : Q) : gmap string (pyval Q) :=
  {[ "surfaceTensionMNm" := VNum surfaceTensionMNm ]}.

Definition two_plates : gmap nat (gmap string (pyval Q)) :=
  {[ 0%nat := plate 72; 1%nat := plate 74 ]}.

(** ** The guarded conversions as one family

    The methods that overwrite one attribute of their receiver with a
    quotient when a guard holds, with the argument the crystallinity
    method takes. *)
Inductive conversion : Type :=
  | pycnometer_specific_gravity
  | density_meter_specific_gravity
  | loss_factor
  | tan_delta
  | crystallinity (reference_heat_of_fusion : Q)
  | average_angle.

Definition convert (c : conversion) (self : gmap string (pyval Q))
  : result (pyval Q * gmap string (pyval Q)) :=
  match c with
  | pycnometer_specific_gravity =>
      PycnometerMeasurement.calculate_specific_gravity self
  | density_meter_specific_gravity =>
      DensityMeterMeasurement.calculate_specific_gravity self
  | loss_factor => StorageModulus.calculate_loss_factor self
  | tan_delta => DMAGlassTransitionMeasurement.calculate_tan_delta self
  | crystallinity r => MeltingPointValue.calculate_crystallinity self r
  | average_angle => ContactAngleMeasurement.calculate_average_angle self
  end.

Definition converted_field (c : conversion) : string :=
  match c with
  | pycnometer_specific_gravity | density_meter_specific_gravity =>
      "specificGravityValue"
  | loss_factor => "lossFactor"
  | tan_delta => "tanDelta"
  | crystallinity _ => "crystallinityPercent"
  | average_angle => "contactAngle"
  end.

(** The attributes a conversion reads as numbers. *)
Definition conversion_inputs (c : conversion) : list string :=
  match c with
  | pycnometer_specific_gravity =>
      ["referenceWeight"; "emptyWeight"; "sampleWeight"]
  | density_meter_specific_gravity => ["referenceDensity"; "densityValue"]
  | loss_factor | tan_delta => ["storageModulusPa"; "lossModulusPa"]
  | crystallinity _ => ["heatOfFusionJg"]
  | average_angle => ["leftAngle"; "rightAngle"]
  end.

(** The quotient a conversion stores, [None] when its guard fails. *)
Definition converted (c : conversion) (self : gmap string (pyval Q))
  : option Q :=
  let n := λ attr, num_attr attr self in
  match c with
  | pycnometer_specific_gravity =>
      if Qltb 0 (n "referenceWeight" - n "emptyWeight")
      then Some ((n "sampleWeight" - n "emptyWeight")
                 / (n "referenceWeight" - n "emptyWeight"))%Q
      else None
  | density_meter_specific_gravity =>
      if Qltb 0 (n "referenceDensity") && Qltb 0 (n "densityValue")
      then Some (n "densityValue" / n "referenceDensity")%Q
      else None
  | loss_factor | tan_delta =>
      if Qltb 0 (n "storageModulusPa")
      then Some (n "lossModulusPa" / n "storageModulusPa")%Q
      else None
  | crystallinity r =>
      if Qltb 0 r then Some (n "heatOfFusionJg" / r * 100)%Q else None
  | average_angle =>
      if Qltb 0 (n "leftAngle") && Qltb 0 (n "rightAngle")
      then Some ((n "leftAngle" + n "rightAngle") / 2)%Q
      else None
  end.

(** The three methods that store a measured specific gravity. *)
Definition specific_gravity_methods
  : list (gmap string (pyval Q) → result (pyval Q * gmap string (pyval Q))) :=
  [PycnometerMeasurement.calculate_specific_gravity;
   DensityMeterMeasurement.calculate_specific_gravity;
   HydrometerMeasurement.convert_to_specific_gravity].

(** ** The quotients that are returned without being stored

    The four methods that return a quotient, or 0.0 when the divisor is
    not positive, and leave the object as it is. *)
Inductive ratio : Type :=
  | engineering_stress | engineering_strain | strain_percent
  | normalized_heat_flow.

Definition ratio_method (r : ratio)
  : gmap string (pyval Q) → result Q :=
  match r with
  | engineering_stress => TensileMeasurement.calculate_engineering_stress
  | engineering_strain => TensileMeasurement.calculate_engineering_strain
  | strain_percent => TMAMeasurement.calculate_strain_percent
  | normalized_heat_flow => DSCMeltingMeasurement.normalize_heat_flow
  end.

(** The attributes the guard of a method reads, the attribute it divides,
    the divisor the guard tests and the quotient that is returned. *)
Definition ratio_guard_inputs (r : ratio) : list string :=
  match r with
  | engineering_stress => ["specimenWidth"; "specimenThickness"]
  | engineering_strain => ["gaugeLength"]
  | strain_percent => ["originalLengthMm"]
  | normalized_heat_flow => ["sampleMassMg"]
  end.

Definition ratio_dividend (r : ratio) : string :=
  match r with
  | engineering_stress => "forceN"
  | engineering_strain => "displacementMm"
  | strain_percent => "dimensionChangeMicron"
  | normalized_heat_flow => "heatFlowMW"
  end.

Definition ratio_guard (r : ratio) (self : gmap string (pyval Q)) : Q :=
  let n := λ attr, num_attr attr self in
  match r with
  | engineering_stress => n "specimenWidth" * n "specimenThickness"
  | engineering_strain => n "gaugeLength"
  | strain_percent => n "originalLengthMm"
  | normalized_heat_flow => n "sampleMassMg"
  end.

Definition ratio_value (r : ratio) (self : gmap string (pyval Q)) : Q :=
  let n := λ attr, num_attr attr self in
  match r with
  | engineering_stress =>
      n "forceN" / (n "specimenWidth" * n "specimenThickness")
  | engineering_strain => n "displacementMm" / n "gaugeLength" * 100
  | strain_percent =>
      n "dimensionChangeMicron" / (n "originalLengthMm" * 1000) * 100
  | normalized_heat_flow => n "heatFlowMW" / n "sampleMassMg"
  end.

(** The parameters of each [__init__] after [self], with their defaults. *)
Definition signature (c : class) : list (string * pyval Q) :=
  match c with
  | MaterialProperty =>
      [("manager", VNone); ("branch", VNone); ("id", VNone);
       ("name", VStr ""); ("description", VStr ""); ("deviceId", VStr "")]
  | PropertyCategory =>
      [("manager", VNone); ("branch", VNone); ("id", VNone);
       ("name", VStr "Property Category");
       ("description", VStr "Base category for material properties");
       ("materialId", VStr ""); ("categoryDescription", VStr "")]
  | MechanicalProperty =>
      [("manager", VNone); ("branch", VNone); ("id", VNone);
       ("name", VStr "Mechanical Property");
       ("description", VStr "Property relating to strength and resistance under applied forces");
       ("materialId", VStr "");
       ("categoryDescription", VStr "Strength and resistance properties including hardness and tensile strength")]
  | RheologicalProperty =>
      [("manager", VNone); ("branch", VNone); ("id", VNone);
       ("name", VStr "Rheological Property");
       ("description", VStr "Property relating to flow and deformation of matter");
       ("materialId", VStr "");
       ("categoryDescription", VStr "Flow and deformation properties including viscosity, elasticity, and melt flow")]
  | SurfaceProperty =>
      [("manager", VNone); ("branch", VNone); ("id", VNone);
       ("name", VStr "Surface Property");
       ("description", VStr "Property relating to interfacial phenomena between materials");
       ("materialId", VStr "");
       ("categoryDescription", VStr "Interfacial properties including surface energy and surface tension")]
  | ThermalProperty =>
      [("manager", VNone); ("branch", VNone); ("id", VNone);
       ("name", VStr "Thermal Property");
       ("description", VStr "Property relating to temperature-dependent behavior of materials");
       ("materialId", VStr "");
       ("categoryDescription", VStr "Temperature-dependent properties including melting point, Tg, and thermal expansion")]
  | Hardness =>
      [("manager", VNone); ("branch", VNone); ("id", VNone);
       ("name", VStr "Hardness");
       ("description", VStr "Material resistance to localized plastic deformation");
       ("materialId", VStr "")]
  | HardnessScale =>
      [("manager", VNone); ("branch", VNone); ("id", VNone);
       ("materialId", VStr ""); ("hardnessValue", VNum 0%Q);
       ("scale", VStr "Shore A"); ("temperature", VNum 23%Q);
       ("measurementDate", VStr ""); ("notes", VStr "")]
  | ShoreMeasurement =>
      [("manager", VNone); ("branch", VNone); ("id", VNone);
       ("materialId", VStr ""); ("hardnessScaleId", VStr "");
       ("sequenceNumber", VNum 0%Q); ("hardnessReading", VNum 0%Q);
       ("shoreType", VStr "A"); ("readingTime", VNum 1%Q);
       ("sampleThickness", VNum 6%Q); ("locationOnSample", VStr "");
       ("temperature", VNum 23%Q); ("measurementDate", VStr "");
       ("operator", VStr ""); ("equipment", VStr ""); ("notes", VStr "");
       ("openSourceImplementationExists", VBool true)]
  | TensileStrength =>
      [("manager", VNone); ("branch", VNone); ("id", VNone);
       ("name", VStr "Tensile Strength");
       ("description", VStr "Maximum stress material can withstand while being stretched");
       ("materialId", VStr "")]
  | UltimateTensileStrength =>
      [("manager", VNone); ("branch", VNone); ("id", VNone);
       ("materialId", VStr ""); ("utsMPa", VNum 0%Q);
       ("yieldStrengthMPa", VNum 0%Q); ("elongationAtBreak", VNum 0%Q);
       ("youngsModulusMPa", VNum 0%Q); ("specimenType", VStr "Type I");
       ("testSpeed", VNum 5%Q); ("temperature", VNum 23%Q);
       ("measurementDate", VStr ""); ("notes", VStr "")]
  | TensileMeasurement =>
      [("manager", VNone); ("branch", VNone); ("id", VNone);
       ("materialId", VStr ""); ("utsId", VStr "");
       ("sequenceNumber", VNum 0%Q); ("forceN", VNum 0%Q);
       ("displacementMm", VNum 0%Q); ("time", VNum 0%Q);
       ("gaugeLength", VNum 50%Q); ("specimenWidth", VNum 13%Q);
       ("specimenThickness", VNum 3.2%Q); ("extensometerStrain", VNum 0%Q);
       ("testSpeed", VNum 5%Q); ("temperature", VNum 23%Q);
       ("measurementDate", VStr ""); ("operator", VStr "");
       ("equipment", VStr ""); ("notes", VStr "");
       ("openSourceImplementationExists", VBool true)]
  | SpecificGravity =>
      [("manager", VNone); ("branch", VNone); ("id", VNone);
       ("name", VStr "Specific Gravity");
       ("description", VStr "Ratio of substance density to reference substance density");
       ("materialId", VStr "")]
  | DensityMeterMeasurement =>
      [("manager", VNone); ("branch", VNone); ("id", VNone);
       ("materialId", VStr ""); ("referentialSpecificGravityId", VStr "");
       ("sequenceNumber", VNum 0%Q); ("densityValue", VNum 0%Q);
       ("specificGravityValue", VNum 0%Q);
       ("oscillationFrequency", VNum 0%Q); ("temperature", VNum 25%Q);
       ("referenceDensity", VNum 0.99707%Q); ("measurementDate", VStr "");
       ("operator", VStr ""); ("equipment", VStr "");
       ("calibrationDate", VStr ""); ("notes", VStr "")]
  | HydrometerMeasurement =>
      [("manager", VNone); ("branch", VNone); ("id", VNone);
       ("materialId", VStr ""); ("referentialSpecificGravityId", VStr "");
       ("sequenceNumber", VNum 0%Q); ("scaleReading", VNum 0%Q);
       ("specificGravityValue", VNum 0%Q); ("scaleType", VStr "SG");
       ("temperature", VNum 25%Q); ("calibrationTemperature", VNum 20%Q);
       ("measurementDate", VStr ""); ("operator", VStr "");
       ("equipment", VStr ""); ("notes", VStr "")]
  | PycnometerMeasurement =>
      [("manager", VNone); ("branch", VNone); ("id", VNone);
       ("materialId", VStr ""); ("referentialSpecificGravityId", VStr "");
       ("sequenceNumber", VNum 0%Q); ("emptyWeight", VNum 0%Q);
       ("referenceWeight", VNum 0%Q); ("sampleWeight", VNum 0%Q);
       ("specificGravityValue", VNum 0%Q); ("temperature", VNum 25%Q);
       ("pycnometerVolume", VNum 0%Q); ("measurementDate", VStr "");
       ("operator", VStr ""); ("equipment", VStr ""); ("notes", VStr "")]
  | ReferentialSpecificGravity =>
      [("manager", VNone); ("branch", VNone); ("id", VNone);
       ("materialId", VStr ""); ("specificGravityValue", VNum 0%Q);
       ("referenceMaterial", VStr "water_4C");
       ("referenceTemperature", VNum 4%Q); ("sampleTemperature", VNum 25%Q);
       ("measurementDate", VStr ""); ("notes", VStr "")]
  | Elasticity =>
      [("manager", VNone); ("branch", VNone); ("id", VNone);
       ("name", VStr "Elasticity");
       ("description", VStr "Material ability to return to original shape after deformation");
       ("materialId", VStr "")]
  | StorageModulus =>
      [("manager", VNone); ("branch", VNone); ("id", VNone);
       ("materialId", VStr ""); ("storageModulusPa", VNum 0%Q);
       ("lossModulusPa", VNum 0%Q); ("lossFactor", VNum 0%Q);
       ("frequency", VNum 1%Q); ("temperature", VNum 25%Q);
       ("measurementDate", VStr ""); ("notes", VStr "")]
  | DMAMeasurement =>
      [("manager", VNone); ("branch", VNone); ("id", VNone);
       ("materialId", VStr ""); ("storageModulusId", VStr "");
       ("sequenceNumber", VNum 0%Q); ("strain", VNum 0%Q);
       ("stress", VNum 0%Q); ("phaseAngle", VNum 0%Q);
       ("storageModulusPa", VNum 0%Q); ("lossModulusPa", VNum 0%Q);
       ("frequency", VNum 1%Q); ("sampleLength", VNum 0%Q);
       ("sampleWidth", VNum 0%Q); ("sampleThickness", VNum 0%Q);
       ("clampType", VStr ""); ("temperature", VNum 25%Q);
       ("measurementDate", VStr ""); ("operator", VStr "");
       ("equipment", VStr ""); ("notes", VStr "");
       ("openSourceImplementationExists", VBool true)]
  | RheometerMeasurement =>
      [("manager", VNone); ("branch", VNone); ("id", VNone);
       ("materialId", VStr ""); ("storageModulusId", VStr "");
       ("sequenceNumber", VNum 0%Q); ("geometry", VStr "parallel-plate");
       ("gapDistance", VNum 1%Q); ("strain", VNum 0%Q);
       ("shearRate", VNum 0%Q); ("torque", VNum 0%Q);
       ("normalForce", VNum 0%Q); ("storageModulusPa", VNum 0%Q);
       ("lossModulusPa", VNum 0%Q); ("frequency", VNum 1%Q);
       ("temperature", VNum 25%Q); ("measurementDate", VStr "");
       ("operator", VStr ""); ("equipment", VStr ""); ("notes", VStr "");
       ("openSourceImplementationExists", VBool true)]
  | MeltFlowIndex =>
      [("manager", VNone); ("branch", VNone); ("id", VNone);
       ("name", VStr "Melt Flow Index");
       ("description", VStr "Measure of thermoplastic melt flow under standard conditions");
       ("materialId", VStr "")]
  | MFIValue =>
      [("manager", VNone); ("branch", VNone); ("id", VNone);
       ("materialId", VStr ""); ("mfiGramsPer10Min", VNum 0%Q);
       ("testTemperature", VNum 190%Q); ("testLoad", VNum 2.16%Q);
       ("polymerType", VStr ""); ("measurementDate", VStr "");
       ("notes", VStr "")]
  | MFIMeasurement =>
      [("manager", VNone); ("branch", VNone); ("id", VNone);
       ("materialId", VStr ""); ("mfiValueId", VStr "");
       ("sequenceNumber", VNum 0%Q); ("extrusionTime", VNum 0%Q);
       ("extrudateMass", VNum 0%Q); ("preheatTime", VNum 300%Q);
       ("barrelTemperature", VNum 190%Q); ("testLoad", VNum 2.16%Q);
       ("dieDiameter", VNum 2.095%Q); ("dieLength", VNum 8%Q);
       ("measurementDate", VStr ""); ("operator", VStr "");
       ("equipment", VStr ""); ("notes", VStr "");
       ("openSourceImplementationExists", VBool true)]
  | Viscosity =>
      [("manager", VNone); ("branch", VNone); ("id", VNone);
       ("name", VStr "Viscosity");
       ("description", VStr "Measure of a fluid's resistance to flow");
       ("materialId", VStr "")]
  | KrebsViscosity =>
      [("manager", VNone); ("branch", VNone); ("id", VNone);
       ("materialId", VStr ""); ("viscosityKU", VNum 0%Q);
       ("temperature", VNum 25%Q); ("measurementDate", VStr "");
       ("notes", VStr "")]
  | StormerViscosity =>
      [("manager", VNone); ("branch", VNone); ("id", VNone);
       ("materialId", VStr ""); ("krebsViscosityId", VStr "");
       ("sequenceNumber", VNum 0%Q); ("time", VNum 0%Q);
       ("revolutions", VNum 100%Q); ("grams", VNum 0%Q);
       ("temperature", VNum 25%Q); ("measurementDate", VStr "");
       ("operator", VStr ""); ("equipment", VStr ""); ("notes", VStr "")]
  | LiquidSurfaceTension =>
      [("manager", VNone); ("branch", VNone); ("id", VNone);
       ("name", VStr "Liquid Surface Tension");
       ("description", VStr "Cohesive force at liquid-air interface");
       ("materialId", VStr "")]
  | SurfaceTensionValue =>
      [("manager", VNone); ("branch", VNone); ("id", VNone);
       ("materialId", VStr ""); ("surfaceTensionMNm", VNum 0%Q);
       ("interfacialTensionMNm", VNum 0%Q); ("secondPhase", VStr "air");
       ("measurementMethod", VStr ""); ("temperature", VNum 20%Q);
       ("measurementDate", VStr ""); ("notes", VStr "")]
  | WilhelmyMeasurement =>
      [("manager", VNone); ("branch", VNone); ("id", VNone);
       ("materialId", VStr ""); ("surfaceTensionValueId", VStr "");
       ("sequenceNumber", VNum 0%Q); ("forceMN", VNum 0%Q);
       ("platePerimeterMm", VNum 40.2%Q); ("plateMaterial", VStr "platinum");
       ("contactAngle", VNum 0%Q); ("immersionDepthMm", VNum 0%Q);
       ("temperature", VNum 20%Q); ("measurementDate", VStr "");
       ("operator", VStr ""); ("equipment", VStr ""); ("notes", VStr "");
       ("openSourceImplementationExists", VBool true)]
  | SolidSurfaceEnergy =>
      [("manager", VNone); ("branch", VNone); ("id", VNone);
       ("name", VStr "Solid Surface Energy");
       ("description", VStr "Excess energy at solid surface compared to bulk");
       ("materialId", VStr "")]
  | CriticalSurfaceTension =>
      [("manager", VNone); ("branch", VNone); ("id", VNone);
       ("materialId", VStr ""); ("surfaceEnergyMNm", VNum 0%Q);
       ("dispersiveComponent", VNum 0%Q); ("polarComponent", VNum 0%Q);
       ("calculationMethod", VStr "Owens-Wendt"); ("temperature", VNum 23%Q);
       ("measurementDate", VStr ""); ("notes", VStr "")]
  | ContactAngleMeasurement =>
      [("manager", VNone); ("branch", VNone); ("id", VNone);
       ("materialId", VStr ""); ("surfaceEnergyId", VStr "");
       ("sequenceNumber", VNum 0%Q); ("contactAngle", VNum 0%Q);
       ("probeLiquid", VStr "water");
       ("probeLiquidSurfaceTension", VNum 72.8%Q); ("dropVolume", VNum 5%Q);
       ("measurementType", VStr "static"); ("leftAngle", VNum 0%Q);
       ("rightAngle", VNum 0%Q); ("humidity", VNum 50%Q);
       ("temperature", VNum 23%Q); ("measurementDate", VStr "");
       ("operator", VStr ""); ("equipment", VStr ""); ("software", VStr "");
       ("notes", VStr ""); ("openSourceImplementationExists", VBool true)]
  | GlassTransition =>
      [("manager", VNone); ("branch", VNone); ("id", VNone);
       ("name", VStr "Glass Transition");
       ("description", VStr "Temperature of glassy to rubbery state transition");
       ("materialId", VStr "")]
  | GlassTransitionTemp =>
      [("manager", VNone); ("branch", VNone); ("id", VNone);
       ("materialId", VStr ""); ("tgCelsius", VNum 0%Q);
       ("tgOnset", VNum 0%Q); ("tgMidpoint", VNum 0%Q);
       ("tgEndset", VNum 0%Q); ("deltaCp", VNum 0%Q);
       ("measurementMethod", VStr "DSC"); ("heatingRate", VNum 10%Q);
       ("frequency", VNum 1%Q); ("measurementDate", VStr "");
       ("notes", VStr "")]
  | DMAGlassTransitionMeasurement =>
      [("manager", VNone); ("branch", VNone); ("id", VNone);
       ("materialId", VStr ""); ("glassTransitionTempId", VStr "");
       ("sequenceNumber", VNum 0%Q); ("temperatureC", VNum 0%Q);
       ("storageModulusPa", VNum 0%Q); ("lossModulusPa", VNum 0%Q);
       ("tanDelta", VNum 0%Q); ("frequency", VNum 1%Q);
       ("strain", VNum 0.1%Q); ("clampType", VStr "single cantilever");
       ("sampleLength", VNum 0%Q); ("sampleWidth", VNum 0%Q);
       ("sampleThickness", VNum 0%Q); ("heatingRate", VNum 3%Q);
       ("measurementDate", VStr ""); ("operator", VStr "");
       ("equipment", VStr ""); ("notes", VStr "");
       ("openSourceImplementationExists", VBool true)]
  | MeltingPoint =>
      [("manager", VNone); ("branch", VNone); ("id", VNone);
       ("name", VStr "Melting Point");
       ("description", VStr "Temperature at which solid transforms to liquid");
       ("materialId", VStr "")]
  | MeltingPointValue =>
      [("manager", VNone); ("branch", VNone); ("id", VNone);
       ("materialId", VStr ""); ("meltingPointC", VNum 0%Q);
       ("meltingPointOnsetC", VNum 0%Q); ("meltingPointPeakC", VNum 0%Q);
       ("heatOfFusionJg", VNum 0%Q); ("crystallinityPercent", VNum 0%Q);
       ("measurementMethod", VStr "DSC"); ("heatingRate", VNum 10%Q);
       ("measurementDate", VStr ""); ("notes", VStr "")]
  | DSCMeltingMeasurement =>
      [("manager", VNone); ("branch", VNone); ("id", VNone);
       ("materialId", VStr ""); ("meltingPointValueId", VStr "");
       ("sequenceNumber", VNum 0%Q); ("temperatureC", VNum 0%Q);
       ("heatFlowMW", VNum 0%Q); ("time", VNum 0%Q);
       ("sampleMassMg", VNum 10%Q); ("panType", VStr "aluminum");
       ("atmosphere", VStr "nitrogen"); ("flowRateMlMin", VNum 50%Q);
       ("heatingRate", VNum 10%Q); ("measurementDate", VStr "");
       ("operator", VStr ""); ("equipment", VStr ""); ("notes", VStr "");
       ("openSourceImplementationExists", VBool false)]
  | SmokingPoint =>
      [("manager", VNone); ("branch", VNone); ("id", VNone);
       ("name", VStr "Smoking Point");
       ("description", VStr "Temperature at which material produces visible smoke");
       ("materialId", VStr "")]
  | SmokingPointValue =>
      [("manager", VNone); ("branch", VNone); ("id", VNone);
       ("materialId", VStr ""); ("smokingPointC", VNum 0%Q);
       ("flashPointC", VNum 0%Q); ("firePointC", VNum 0%Q);
       ("measurementMethod", VStr "visual"); ("heatingRate", VNum 5%Q);
       ("measurementDate", VStr ""); ("notes", VStr "")]
  | SmokingPointMeasurement =>
      [("manager", VNone); ("branch", VNone); ("id", VNone);
       ("materialId", VStr ""); ("smokingPointValueId", VStr "");
       ("sequenceNumber", VNum 0%Q); ("observedTemperatureC", VNum 0%Q);
       ("cupType", VStr "Cleveland open cup"); ("sampleVolumeMl", VNum 75%Q);
       ("heatingRate", VNum 5%Q); ("ambientTemperature", VNum 23%Q);
       ("humidity", VNum 50%Q); ("detectionMethod", VStr "visual");
       ("measurementDate", VStr ""); ("operator", VStr "");
       ("equipment", VStr ""); ("notes", VStr "");
       ("openSourceImplementationExists", VBool true)]
  | ThermalExpansion =>
      [("manager", VNone); ("branch", VNone); ("id", VNone);
       ("name", VStr "Thermal Expansion");
       ("description", VStr "Dimensional change of material with temperature");
       ("materialId", VStr "")]
  | CoefficientOfThermalExpansion =>
      [("manager", VNone); ("branch", VNone); ("id", VNone);
       ("materialId", VStr ""); ("ctePpmPerC", VNum 0%Q);
       ("temperatureRangeLowC", VNum 25%Q);
       ("temperatureRangeHighC", VNum 100%Q);
       ("expansionType", VStr "linear"); ("direction", VStr "isotropic");
       ("measurementMethod", VStr "TMA"); ("heatingRate", VNum 5%Q);
       ("measurementDate", VStr ""); ("notes", VStr "")]
  | TMAMeasurement =>
      [("manager", VNone); ("branch", VNone); ("id", VNone);
       ("materialId", VStr ""); ("cteId", VStr "");
       ("sequenceNumber", VNum 0%Q); ("temperatureC", VNum 0%Q);
       ("dimensionChangeMicron", VNum 0%Q); ("time", VNum 0%Q);
       ("originalLengthMm", VNum 10%Q); ("probeForceN", VNum 0.02%Q);
       ("probeType", VStr "expansion"); ("atmosphere", VStr "nitrogen");
       ("heatingRate", VNum 5%Q); ("measurementDate", VStr "");
       ("operator", VStr ""); ("equipment", VStr ""); ("notes", VStr "");
       ("openSourceImplementationExists", VBool true)]
  end.

(** The parameters that go to the framework initialiser. *)
Definition identity : list string := ["manager"; "branch"; "id"].


(** The value the reportable attribute of the property holds on a raw
    measurement right after construction, for the measurement classes
    whose initialiser passes it to the property initialiser: a reading
    of the measurement, or 0.0. *)
Definition initial_derived (c : class) (kw : gmap string (pyval Q))
  : option (string * pyval Q) :=
  match c with
  | ShoreMeasurement =>
      Some ("hardnessValue", arg kw "hardnessReading" (VNum 0%Q))
  | SmokingPointMeasurement =>
      Some ("smokingPointC", arg kw "observedTemperatureC" (VNum 0%Q))
  | TensileMeasurement => Some ("utsMPa", VNum 0%Q)
  | ContactAngleMeasurement => Some ("surfaceEnergyMNm", VNum 0%Q)
  | DMAGlassTransitionMeasurement => Some ("tgCelsius", VNum 0%Q)
  | DSCMeltingMeasurement => Some ("meltingPointC", VNum 0%Q)
  | TMAMeasurement => Some ("ctePpmPerC", VNum 0%Q)
  | _ => None
  end.


(** What a file of the load order leaves under its class name in the
    dictionary the loader builds, when the loader gets past it: nothing
    new when the file does not exist, otherwise the objects constructed
    from the dictionaries it yields. *)
Definition loaded {value instance : Type}
  (read_json : string → file_content value)
  (construct : string → gmap string value → result instance)
  (manager : value) (filename cls : string)
  (before after : option (list instance)) : Prop :=
  match read_json filename with
  | Missing => after = before
  | Yields items =>
      ∃ records instances,
        items = Some <$> records
        ∧ after = Some instances
        ∧ Forall2 (λ record obj,
                     construct cls (<["manager" := manager]> record) = Ok obj)
            records instances
  | Unreadable _ | NotIterable => False
  end.

(** What the loader needs of a file to get past it. *)
Definition loadable {value instance : Type}
  (read_json : string → file_content value)
  (construct : string → gmap string value → result instance)
  (manager : value) (filename cls : string) : Prop :=
  match read_json filename with
  | Missing => True
  | Yields items =>
      Forall (λ item,
                ∃ record, item = Some record
                  ∧ succeeds
                      (construct cls (<["manager" := manager]> record)))
        items
  | Unreadable _ | NotIterable => False
  end.

(** A data directory that holds one file, and a constructor that accepts
    the records that carry a name. *)
Definition one_file (content : file_content (pyval Q)) (filename : string)
  : file_content (pyval Q) :=
  if String.eqb filename "rawMaterials.json" then content else Missing.

Definition named (cls : string) (record : gmap string (pyval Q))
  : result (gmap string (pyval Q)) :=
  match record !! "name" with
  | Some _ => Ok (<["class" := VStr cls]> record)
  | None => Raise TypeError
  end.


(** ** Binary64 arithmetic

    The program computes with Python floats, which are binary64 numbers,
    where this development reads numbers as exact rationals and reals.
    The definitions below are the arithmetic of four of the methods on
    binary64 numbers, every operation rounding as the processor does;
    they show where the exact reading and the program part.  The integer
    literals of the source stand for the floats they are converted to,
    and [float_of_nat] is the conversion of the integer [count] in
    [total / count], exact below 2^53. *)

Fixpoint float_of_nat (n : nat) : float :=
  match n with
  | O => 0%float
  | S n' => (float_of_nat n' + 1)%float
  end.

(** [total = 0.0], then [total += x] for each value that counts, in
    turn, then [total / count]. *)
Definition mean_binary64 (values : list float) : float :=
  (fold_left PrimFloat.add values 0 / float_of_nat (length values))%float.

(** [(delta_L / (original_length_mm * 1000)) / delta_T * 1e6]. *)
Definition cte_slope_binary64 (delta_L original_length_mm delta_T : float)
  : float :=
  (delta_L / (original_length_mm * 1000) / delta_T * 1000000)%float.

(** [(self.dimensionChangeMicron / (self.originalLengthMm * 1000)) * 100]. *)
Definition strain_percent_binary64
  (dimensionChangeMicron originalLengthMm : float) : float :=
  (dimensionChangeMicron / (originalLengthMm * 1000) * 100)%float.

(** [((diio_total * (1 + math.cos(theta_d))) / (2 * math.sqrt(diio_d))) ** 2]
    given the cosine, the square taken as the correctly rounded product. *)
Definition dispersive_binary64 (cos_theta_d : float) : float :=
  let q := (50.8 * (1 + cos_theta_d) / (2 * PrimFloat.sqrt 50.8))%float in
  (q * q)%float.

(** A stand-in for the framework initialiser, used in the examples only:
    it records the three identity arguments on the instance. *)
Definition plain_treeObject__init__ (self : gmap string (pyval Q))
  (manager branch id : pyval Q) : result (gmap string (pyval Q)) :=
  Ok (setattr (setattr (setattr self "manager" manager) "branch" branch)
        "id" id).

Definition plain_str_of_num (x : Q) : string := "0".

(** * Properties *)

(** ** The error monad *)

Lemma bind_Ok_inv {A B} (k : A → result B) (r : result A) (b : B) :
  r ≫= k = Ok b → ∃ a, r = Ok a ∧ k a = Ok b.
Proof. destruct r as [a|e]; [exists a; auto | discriminate]. Qed.

Lemma bind_Ok {A B} (k : A → result B) (r : result A) (a : A) :
  r = Ok a → r ≫= k = k a.
Proof. intros ->. reflexivity. Qed.

(** Splits every monadic step of a successful run found in the context. *)
Ltac invert_run :=
  repeat match goal with
  | H : Ok _ = Ok _ |- _ => injection H as H; try subst
  | H : (_, _) = (_, _) |- _ => injection H as ? ?; try subst
  | H : Raise _ = Ok _ |- _ => discriminate H
  | H : _ ≫= _ = Ok _ |- _ =>
      let a := fresh "a" in
      let Ha := fresh "Hstep" in
      apply bind_Ok_inv in H as (a & Ha & H)
  | H : (let '(_, _) := ?p in _) = Ok _ |- _ => destruct p
  | H : (if ?c then _ else _) = Ok _ |- _ =>
      let Hc := fresh "Hc" in destruct c eqn:Hc
  end.

Lemma getattr_Ok {F} (o : gmap string (pyval F)) attr v :
  getattr o attr = Ok v ↔ o !! attr = Some v.
Proof.
  unfold getattr. destruct (o !! attr); split; intros H; congruence.
Qed.

Lemma getattr_setattr {F} (o : gmap string (pyval F)) attr v :
  getattr (setattr o attr v) attr = Ok v.
Proof. unfold getattr, setattr. by rewrite lookup_insert_eq. Qed.

Lemma lookup_setattr_ne {F} (o : gmap string (pyval F)) attr k v :
  k ≠ attr → setattr o attr v !! k = o !! k.
Proof. intros H. unfold setattr. by rewrite lookup_insert_ne. Qed.

(** ** C1: the empty collection *)

(** C1. Every derivation method called with an empty collection returns
    the value stored in its reportable attribute and leaves the receiver
    as it was. *)
Theorem empty_input_returns_stored (d : derivation)
  (self : gmap string (pyval Q)) (v : pyval Q) :
  self !! derived_field d = Some v →
  run d self [] = Ok (v, self).
Proof.
  intros H. apply getattr_Ok in H.
  destruct d; simpl in *;
    unfold HardnessScale.calculate_from_measurements,
      ReferentialSpecificGravity.calculate_from_measurements,
      SurfaceTensionValue.calculate_from_measurements, mean_derivation,
      KrebsViscosity.calculate_from_stormer_measurements,
      MFIValue.calculate_from_measurements,
      UltimateTensileStrength.calculate_from_measurements,
      CoefficientOfThermalExpansion.calculate_from_measurements;
    simpl; by rewrite H.
Qed.

Lemma empty_input_returns_stored_witness :
  run (ultimate_tensile_strength 10) (receiver (ultimate_tensile_strength 10) 42) []
  = Ok (VNum 42%Q, receiver (ultimate_tensile_strength 10) 42).
Proof. apply empty_input_returns_stored. reflexivity. Defined.

(** ** The accumulating loops *)

Lemma reading_lookup attr (m : gmap string (pyval Q)) v :
  m !! attr = Some v → reading attr m = positive_num v.
Proof. intros H. unfold reading. by rewrite H. Qed.

Lemma reading_missing attr (m : gmap string (pyval Q)) :
  m !! attr = None → reading attr m = None.
Proof. intros H. unfold reading. by rewrite H. Qed.

Lemma positive_num_as_num v x :
  as_num v = Ok x → positive_num v = if Qltb 0 x then Some x else None.
Proof. intros H. unfold positive_num. by rewrite H. Qed.

Lemma gt0_as_num v x : as_num v = Ok x → gt0 v = Ok (Qltb 0 x).
Proof. intros H. unfold gt0. by rewrite H. Qed.

(** The loop of the arithmetic-mean derivations adds up exactly the
    readings that count and counts exactly those. *)
Lemma mean_loop_spec attr (ms : list (gmap string (pyval Q))) total count :
  Forall (numeric_if_present attr) ms →
  mean_loop attr ms total count
  = Ok (fold_left Qplus (omap (reading attr) ms) total,
        (count + length (omap (reading attr) ms))%nat).
Proof.
  intros Hnum. revert total count.
  induction Hnum as [|m ms Hm _ IH]; intros total count; simpl.
  - by rewrite Nat.add_0_r.
  - unfold hasattr, getattr. destruct (m !! attr) as [v|] eqn:Hv.
    + destruct (Hm v Hv) as [x Hx].
      rewrite (reading_lookup _ _ _ Hv), (positive_num_as_num _ _ Hx).
      simpl. rewrite (gt0_as_num _ _ Hx). simpl.
      destruct (Qltb 0 x); simpl.
      * rewrite Hx. simpl. rewrite IH. simpl. by rewrite Nat.add_succ_r.
      * apply IH.
    + rewrite (reading_missing _ _ Hv). apply IH.
Qed.

Lemma numeric_reading attr (m : gmap string (pyval Q)) :
  numeric attr m →
  ∃ v x, m !! attr = Some v ∧ as_num v = Ok x
         ∧ reading attr m = if Qltb 0 x then Some x else None.
Proof.
  intros (v & x & Hv & Hx). exists v, x. repeat split; auto.
  by rewrite (reading_lookup _ _ _ Hv), (positive_num_as_num _ _ Hx).
Qed.

Lemma Qltb_lt x y : Qltb x y = true ↔ (x < y)%Q.
Proof.
  unfold Qltb. rewrite negb_true_iff. split.
  - intros H. apply Qnot_le_lt. intros Hle.
    apply Qle_bool_iff in Hle. congruence.
  - intros H. destruct (Qle_bool y x) eqn:E; auto.
    apply Qle_bool_iff in E. exfalso. eapply Qlt_not_le; eauto.
Qed.

Lemma py_div_pos x y : Qltb 0 y = true → py_div x y = Ok (x / y)%Q.
Proof.
  intros H. apply Qltb_lt in H. unfold py_div.
  destruct (Qeq_bool y 0) eqn:E; auto.
  apply Qeq_bool_iff in E. rewrite E in H. exfalso. by apply (Qlt_irrefl 0).
Qed.

Lemma krebs_loop_spec (ms : list (gmap string (pyval Q))) total count :
  Forall (λ m, numeric "grams" m ∧ numeric "revolutions" m) ms →
  KrebsViscosity.loop ms total count
  = Ok (fold_left Qplus (omap stormer_normalized ms) total,
        (count + length (omap stormer_normalized ms))%nat).
Proof.
  intros Hnum. revert total count.
  induction Hnum as [|m ms [Hg Hr] _ IH]; intros total count; simpl.
  - by rewrite Nat.add_0_r.
  - apply numeric_reading in Hg as (vg & g & Hvg & Hg & Rg).
    apply numeric_reading in Hr as (vr & r & Hvr & Hr & Rr).
    unfold stormer_normalized. rewrite Rg, Rr.
    apply getattr_Ok in Hvg, Hvr. rewrite Hvg. simpl.
    rewrite (gt0_as_num _ _ Hg). simpl.
    destruct (Qltb 0 g); simpl; [|apply IH].
    rewrite Hvr. simpl. rewrite (gt0_as_num _ _ Hr). simpl.
    destruct (Qltb 0 r) eqn:Er; simpl; [|apply IH].
    rewrite Hg, Hr. simpl. rewrite (py_div_pos _ _ Er). simpl.
    rewrite IH. simpl. by rewrite Nat.add_succ_r.
Qed.

Lemma mfi_loop_spec (ms : list (gmap string (pyval Q))) total count :
  Forall (λ m, numeric "extrudateMass" m ∧ numeric "extrusionTime" m) ms →
  MFIValue.loop ms total count
  = Ok (fold_left Qplus (omap mfi_rate ms) total,
        (count + length (omap mfi_rate ms))%nat).
Proof.
  intros Hnum. revert total count.
  induction Hnum as [|m ms [Hg Hr] _ IH]; intros total count; simpl.
  - by rewrite Nat.add_0_r.
  - apply numeric_reading in Hg as (vg & g & Hvg & Hg & Rg).
    apply numeric_reading in Hr as (vr & r & Hvr & Hr & Rr).
    unfold mfi_rate. rewrite Rg, Rr.
    apply getattr_Ok in Hvg, Hvr. rewrite Hvg. simpl.
    rewrite (gt0_as_num _ _ Hg). simpl.
    destruct (Qltb 0 g); simpl; [|apply IH].
    rewrite Hvr. simpl. rewrite (gt0_as_num _ _ Hr). simpl.
    destruct (Qltb 0 r) eqn:Er; simpl; [|apply IH].
    rewrite Hg, Hr. simpl. rewrite (py_div_pos _ _ Er). simpl.
    rewrite IH. simpl. by rewrite Nat.add_succ_r.
Qed.

Lemma uts_loop_spec area (ms : list (gmap string (pyval Q))) max_stress :
  Qltb 0 area = true →
  Forall (numeric_if_present "forceN") ms →
  UltimateTensileStrength.loop area ms max_stress
  = Ok (fold_left Qmax (omap (stress_of area) ms) max_stress).
Proof.
  intros Ha Hnum. revert max_stress.
  induction Hnum as [|m ms Hm _ IH]; intros max_stress; simpl; auto.
  unfold hasattr, getattr, stress_of.
  destruct (m !! "forceN") as [v|] eqn:Hv.
  - destruct (Hm v Hv) as [x Hx].
    rewrite (reading_lookup _ _ _ Hv), (positive_num_as_num _ _ Hx).
    simpl. rewrite (gt0_as_num _ _ Hx). simpl.
    destruct (Qltb 0 x); simpl; [|apply IH].
    rewrite Hx. simpl. rewrite (py_div_pos _ _ Ha). simpl.
    unfold Qmax at 2. destruct (Qltb max_stress (x / area)); apply IH.
  - rewrite (reading_missing _ _ Hv). apply IH.
Qed.

Lemma py_div_count x n : py_div x (Qnat (S n)) = Ok (x / Qnat (S n))%Q.
Proof.
  unfold py_div. destruct (Qeq_bool (Qnat (S n)) 0) eqn:E; auto.
  apply Qeq_bool_iff in E. unfold Qnat, Qeq in E. simpl in E. lia.
Qed.

(** ** C2: records that do not count *)

Lemma mean_derivation_spec field attr
  (self : gmap string (pyval Q)) (ms : list (gmap string (pyval Q))) :
  ms ≠ [] →
  Forall (numeric_if_present attr) ms →
  mean_derivation field attr self ms
  = match omap (reading attr) ms with
    | [] => v ← getattr self field; Ok (v, self)
    | l => Ok (VNum (mean l), setattr self field (VNum (mean l)))
    end.
Proof.
  intros Hne Hnum.
  unfold mean_derivation. destruct ms as [|m ms']; [done|].
  rewrite (mean_loop_spec _ _ _ _ Hnum).
  generalize (omap (reading attr) (m :: ms')). intros [|x l].
  - reflexivity.
  - cbn [mbind result_bind Nat.add length Nat.ltb Nat.leb].
    rewrite py_div_count. cbn [mbind result_bind].
    by rewrite getattr_setattr.
Qed.

Lemma krebs_spec (self : gmap string (pyval Q))
  (ms : list (gmap string (pyval Q))) :
  ms ≠ [] →
  Forall (λ m, numeric "grams" m ∧ numeric "revolutions" m) ms →
  KrebsViscosity.calculate_from_stormer_measurements self ms
  = match omap stormer_normalized ms with
    | [] => v ← getattr self "viscosityKU"; Ok (v, self)
    | l => Ok (VNum (mean l * 2.08 + 15.8)%Q,
               setattr self "viscosityKU" (VNum (mean l * 2.08 + 15.8)%Q))
    end.
Proof.
  intros Hne Hnum.
  unfold KrebsViscosity.calculate_from_stormer_measurements.
  destruct ms as [|m ms']; [done|].
  rewrite (krebs_loop_spec _ _ _ Hnum).
  generalize (omap stormer_normalized (m :: ms')). intros [|x l].
  - reflexivity.
  - cbn [mbind result_bind Nat.add length Nat.ltb Nat.leb].
    rewrite py_div_count. cbn [mbind result_bind].
    by rewrite getattr_setattr.
Qed.

Lemma mfi_spec (self : gmap string (pyval Q))
  (ms : list (gmap string (pyval Q))) :
  ms ≠ [] →
  Forall (λ m, numeric "extrudateMass" m ∧ numeric "extrusionTime" m) ms →
  MFIValue.calculate_from_measurements self ms
  = match omap mfi_rate ms with
    | [] => v ← getattr self "mfiGramsPer10Min"; Ok (v, self)
    | l => Ok (VNum (mean l), setattr self "mfiGramsPer10Min" (VNum (mean l)))
    end.
Proof.
  intros Hne Hnum.
  unfold MFIValue.calculate_from_measurements.
  destruct ms as [|m ms']; [done|].
  rewrite (mfi_loop_spec _ _ _ Hnum).
  generalize (omap mfi_rate (m :: ms')). intros [|x l].
  - reflexivity.
  - cbn [mbind result_bind Nat.add length Nat.ltb Nat.leb].
    rewrite py_div_count. cbn [mbind result_bind].
    by rewrite getattr_setattr.
Qed.

Lemma uts_spec (self : gmap string (pyval Q))
  (ms : list (gmap string (pyval Q))) area :
  ms ≠ [] →
  (0 < area)%Q →
  Forall (numeric_if_present "forceN") ms →
  UltimateTensileStrength.calculate_from_measurements self ms area
  = Ok (VNum (peak (omap (stress_of area) ms)),
        setattr self "utsMPa" (VNum (peak (omap (stress_of area) ms)))).
Proof.
  intros Hne Ha Hnum.
  unfold UltimateTensileStrength.calculate_from_measurements.
  destruct ms as [|m ms']; [done|].
  assert (Qle_bool area 0 = false) as ->.
  { destruct (Qle_bool area 0) eqn:E; auto. apply Qle_bool_iff in E.
    exfalso. eapply Qlt_not_le; eauto. }
  cbn [orb]. apply Qltb_lt in Ha.
  rewrite (uts_loop_spec _ _ _ Ha Hnum). cbn [mbind result_bind].
  by rewrite getattr_setattr.
Qed.

Lemma reading_none attr (m : gmap string (pyval Q)) :
  m !! attr = None
  ∨ (∃ v x, m !! attr = Some v ∧ as_num v = Ok x ∧ (x <= 0)%Q) →
  reading attr m = None.
Proof.
  intros [H|(v & x & Hv & Hx & Hle)].
  - by apply reading_missing.
  - rewrite (reading_lookup _ _ _ Hv), (positive_num_as_num _ _ Hx).
    destruct (Qltb 0 x) eqn:E; auto. apply Qltb_lt in E.
    exfalso. eapply Qlt_not_le; eauto.
Qed.

Lemma aggregate_skip d (ms1 ms2 : list (gmap string (pyval Q))) m :
  contribution d m = None →
  aggregate d (ms1 ++ m :: ms2) = aggregate d (ms1 ++ ms2).
Proof.
  intros H. unfold aggregate.
  rewrite !omap_app. simpl. by rewrite H.
Qed.

(** The aggregating derivations compute [aggregate]. *)
Lemma run_aggregate (d : derivation)
  (self : gmap string (pyval Q)) (ms : list (gmap string (pyval Q)))
  (v0 : pyval Q) :
  aggregating d →
  ms ≠ [] →
  Forall (admissible d) ms →
  self !! derived_field d = Some v0 →
  run d self ms
  = Ok (match aggregate d ms with
        | Some q => (VNum q, setattr self (derived_field d) (VNum q))
        | None => (v0, self)
        end).
Proof.
  intros Hd Hne Hadm Hv0.
  apply getattr_Ok in Hv0. destruct d; simpl in Hd; try done; simpl run;
    unfold aggregate; simpl contribution; simpl derived_field in *.
  - unfold HardnessScale.calculate_from_measurements.
    rewrite mean_derivation_spec; auto.
    destruct (omap _ ms); auto. by rewrite Hv0.
  - unfold ReferentialSpecificGravity.calculate_from_measurements.
    rewrite mean_derivation_spec; auto.
    destruct (omap _ ms); auto. by rewrite Hv0.
  - unfold SurfaceTensionValue.calculate_from_measurements.
    rewrite mean_derivation_spec; auto.
    destruct (omap _ ms); auto. by rewrite Hv0.
  - rewrite krebs_spec; auto. destruct (omap _ ms); auto. by rewrite Hv0.
  - rewrite mfi_spec; auto. destruct (omap _ ms); auto. by rewrite Hv0.
  - by rewrite uts_spec.
Qed.

Lemma contribution_none (d : derivation) (m : gmap string (pyval Q)) attr :
  attr ∈ expected_fields d →
  m !! attr = None
  ∨ (∃ v x, m !! attr = Some v ∧ as_num v = Ok x ∧ (x <= 0)%Q) →
  contribution d m = None.
Proof.
  intros Hin Hbad. apply reading_none in Hbad.
  destruct d; cbn [expected_fields contribution] in *;
    unfold stormer_normalized, mfi_rate, stress_of;
    repeat (apply elem_of_cons in Hin as [->|Hin]);
    try (by apply elem_of_nil in Hin); try done;
    rewrite Hbad; try done;
    first [by destruct (reading "grams" m)
          |by destruct (reading "extrudateMass" m)].
Qed.

(** Decides the side conditions on the concrete records of the examples. *)
Ltac concrete_numeric :=
  repeat match goal with
  | |- Forall _ _ => constructor
  | |- Forall2 _ _ _ => constructor
  | |- admissible _ _ => cbn [admissible]
  | |- _ ∧ _ => split
  | |- numeric_if_present _ _ =>
      let v := fresh "v" in
      let Hv := fresh "Hv" in
      intros v Hv; vm_compute in Hv;
      first [discriminate Hv | injection Hv as <-; eexists; reflexivity]
  | |- numeric _ _ => eexists; eexists; split; reflexivity
  end.

(** C2 as stated fails: the Krebs derivation reads [grams] unguarded, so
    a record without that attribute makes the call raise. *)
Lemma krebs_raises_on_record_without_grams :
  run krebs_viscosity (receiver krebs_viscosity 10)
    [stormer_reading 100 100; shore_reading 50]
  = Raise (AttributeError "grams").
Proof. reflexivity. Qed.

(** ** C3: Krebs viscosity *)

(** C3. For a non-empty collection of Stormer readings, all with positive
    grams and positive revolutions, the method stores and returns
    [average * 2.08 + 15.8], the average being that of the readings
    normalised as [grams * (200 / revolutions)]; the readings
    (100 g, 100 rev) and (50 g, 200 rev) normalise to 200 and 50, average
    125 and give 275.8 KU. *)
Theorem krebs_normalize_then_mean :
  (∀ (self : gmap string (pyval Q)) (ms : list (gmap string (pyval Q)))
     (readings : list (Q * Q)),
     ms ≠ [] →
     Forall2 (λ m gr,
                m !! "grams" = Some (VNum (fst gr))
                ∧ m !! "revolutions" = Some (VNum (snd gr))
                ∧ (0 < fst gr)%Q ∧ (0 < snd gr)%Q) ms readings →
     let normalized := map (λ gr, fst gr * (200 / snd gr))%Q readings in
     let ku := (mean normalized * 2.08 + 15.8)%Q in
     KrebsViscosity.calculate_from_stormer_measurements self ms
     = Ok (VNum ku, setattr self "viscosityKU" (VNum ku)))
  ∧ (∃ n1 n2 ku,
       KrebsViscosity.calculate_from_stormer_measurements
         (receiver krebs_viscosity 0)
         [stormer_reading 100 100; stormer_reading 50 200]
       = Ok (VNum ku, setattr (receiver krebs_viscosity 0) "viscosityKU" (VNum ku))
       ∧ stormer_normalized (stormer_reading 100 100) = Some n1
       ∧ stormer_normalized (stormer_reading 50 200) = Some n2
       ∧ (n1 == 200)%Q ∧ (n2 == 50)%Q ∧ (mean [n1; n2] == 125)%Q
       ∧ (ku == 275.8)%Q).
Proof.
  split.
  - intros self ms readings Hne Hall normalized ku.
    assert (Forall (λ m, numeric "grams" m ∧ numeric "revolutions" m) ms
            ∧ omap stormer_normalized ms = normalized) as [Hnum Heq].
    { subst normalized. clear Hne ku.
      induction Hall as [|m [g r] ms grs (Hg & Hr & Hgp & Hrp) _ [IH1 IH2]];
        [by split|].
      cbn [fst snd] in *. split.
      - constructor; [|done].
        split; eexists; eexists; split; eauto; reflexivity.
      - assert (stormer_normalized m = Some (g * (200 / r))%Q) as Hm.
        { unfold stormer_normalized, reading. rewrite Hg, Hr.
          unfold positive_num. cbn.
          apply Qltb_lt in Hgp, Hrp. by rewrite Hgp, Hrp. }
        change (omap stormer_normalized (m :: ms))
          with (match stormer_normalized m with
                | Some y => y :: omap stormer_normalized ms
                | None => omap stormer_normalized ms
                end).
        by rewrite Hm, IH2. }
    rewrite krebs_spec; auto. rewrite Heq.
    destruct normalized eqn:E; [|done].
    destruct Hall; [done|discriminate].
  - eexists _, _, _. repeat split; try reflexivity.
Qed.

Lemma krebs_normalize_then_mean_witness :
  let readings := [(120, 100); (90, 150)]%Q in
  let normalized := map (λ gr, fst gr * (200 / snd gr))%Q readings in
  let ku := (mean normalized * 2.08 + 15.8)%Q in
  KrebsViscosity.calculate_from_stormer_measurements
    (receiver krebs_viscosity 0)
    [stormer_reading 120 100; stormer_reading 90 150]
  = Ok (VNum ku, setattr (receiver krebs_viscosity 0) "viscosityKU" (VNum ku)).
Proof.
  apply (proj1 krebs_normalize_then_mean _ _ [(120, 100); (90, 150)]%Q).
  - discriminate.
  - repeat constructor.
Defined.

(** ** C4 and C10: tensile strength *)

Lemma Qmax_cases x y :
  (Qmax x y = x ∧ (y <= x)%Q) ∨ (Qmax x y = y ∧ (x < y)%Q).
Proof.
  unfold Qmax. destruct (Qltb x y) eqn:E.
  - right. split; auto. by apply Qltb_lt.
  - left. split; auto. unfold Qltb in E. apply negb_false_iff in E.
    by apply Qle_bool_iff.
Qed.

Lemma fold_Qmax_bounds (l : list Q) (a : Q) :
  let r := fold_left Qmax l a in
  (a <= r)%Q ∧ Forall (λ s, (s <= r)%Q) l ∧ (r = a ∨ r ∈ l).
Proof.
  revert a. induction l as [|x l IH]; intros a; simpl.
  - split; [apply Qle_refl|]. split; [constructor|by left].
  - destruct (IH (Qmax a x)) as (Hle & Hall & Hin).
    destruct (Qmax_cases a x) as [[Hm Hxa]|[Hm Hax]]; rewrite Hm in *.
    + split; [done|]. split.
      * constructor; [|done]. by apply Qle_trans with a.
      * destruct Hin as [->|Hin]; [by left|right; by right].
    + split; [apply Qle_trans with x; [by apply Qlt_le_weak|done]|].
      split; [by constructor|].
      right. destruct Hin as [->|Hin]; [by left|by right].
Qed.

Lemma reading_positive attr (m : gmap string (pyval Q)) x :
  reading attr m = Some x → (0 < x)%Q.
Proof.
  unfold reading. destruct (m !! attr) as [v|]; [|discriminate]. simpl.
  unfold positive_num. destruct (as_num v) as [y|]; [|discriminate].
  destruct (Qltb 0 y) eqn:E; [|discriminate].
  intros [= <-]. by apply Qltb_lt.
Qed.

Lemma stresses_positive area (ms : list (gmap string (pyval Q))) :
  (0 < area)%Q → Forall (λ s, (0 < s)%Q) (omap (stress_of area) ms).
Proof.
  intros Ha. apply Forall_forall. intros s Hs.
  apply list_elem_of_omap in Hs as (m & _ & Hm).
  unfold stress_of in Hm. destruct (reading "forceN" m) as [f|] eqn:Hf;
    [|discriminate].
  injection Hm as <-. apply reading_positive in Hf.
  apply Qlt_shift_div_l; auto. by rewrite Qmult_0_l.
Qed.

(** C4. For a non-empty list of readings and a positive cross-section the
    method stores and returns the largest [forceN / cross_section_area_mm2]
    over the readings with a positive [forceN]: the value bounds every
    such stress and is one of them (when there is none it is 0); the
    forces 100, 250 and 180 over 10 mm² give 25.0, which is not their
    mean. *)
Theorem uts_is_peak_stress :
  (∀ (self : gmap string (pyval Q)) (ms : list (gmap string (pyval Q)))
     (area : Q),
     ms ≠ [] →
     (0 < area)%Q →
     Forall (numeric_if_present "forceN") ms →
     ∃ peak_stress,
       UltimateTensileStrength.calculate_from_measurements self ms area
       = Ok (VNum peak_stress, setattr self "utsMPa" (VNum peak_stress))
       ∧ Forall (λ s, (s <= peak_stress)%Q) (omap (stress_of area) ms)
       ∧ (peak_stress ∈ omap (stress_of area) ms
          ∨ (omap (stress_of area) ms = [] ∧ peak_stress = 0%Q)))
  ∧ (∃ uts,
       UltimateTensileStrength.calculate_from_measurements
         (receiver (ultimate_tensile_strength 10) 0)
         [tensile_reading 100; tensile_reading 250; tensile_reading 180] 10
       = Ok (VNum uts,
             setattr (receiver (ultimate_tensile_strength 10) 0)
               "utsMPa" (VNum uts))
       ∧ (uts == 25.0)%Q
       ∧ ¬ (uts == mean [100 / 10; 250 / 10; 180 / 10])%Q).
Proof.
  split.
  - intros self ms area Hne Ha Hnum.
    exists (peak (omap (stress_of area) ms)).
    split; [by apply uts_spec|].
    destruct (fold_Qmax_bounds (omap (stress_of area) ms) 0)
      as (H0 & Hall & Hin).
    split; [done|].
    destruct Hin as [Hz|Hin]; [|by left].
    destruct (omap (stress_of area) ms) as [|s l] eqn:E; [by right|].
    exfalso. pose proof (stresses_positive area ms Ha) as Hpos.
    rewrite E in Hpos. apply Forall_cons in Hpos as [Hs _].
    apply Forall_cons in Hall as [Hle _].
    unfold peak in Hz. rewrite Hz in Hle.
    eapply Qlt_not_le; eauto.
  - eexists. split; [reflexivity|]. split; [reflexivity|].
    intros H. vm_compute in H. discriminate H.
Qed.

Lemma uts_is_peak_stress_witness :
  ∃ peak_stress,
    let ms := [tensile_reading 30; ∅; tensile_reading (-4);
               tensile_reading 45] in
    UltimateTensileStrength.calculate_from_measurements ∅ ms 5
    = Ok (VNum peak_stress, setattr ∅ "utsMPa" (VNum peak_stress))
    ∧ Forall (λ s, (s <= peak_stress)%Q) (omap (stress_of 5) ms)
    ∧ (peak_stress ∈ omap (stress_of 5) ms
       ∨ (omap (stress_of 5) ms = [] ∧ peak_stress = 0%Q)).
Proof.
  apply (proj1 uts_is_peak_stress).
  - discriminate.
  - reflexivity.
  - concrete_numeric.
Defined.



(** ** C6: what a derivation may overwrite *)

(** Reads an attribute that is not among the written ones through the
    assignments of a method body. *)
Ltac frame :=
  match goal with
  | Hk : _ ∉ _ |- _ =>
      rewrite ?lookup_setattr_ne; auto; intros ->; apply Hk;
      repeat first [by left | right]
  end.

Lemma mean_derivation_frame field attr
  (self self' : gmap string (pyval Q)) ms v k :
  mean_derivation field attr self ms = Ok (v, self') →
  k ≠ field → self' !! k = self !! k.
Proof.
  unfold mean_derivation. intros H Hk.
  destruct ms; invert_run; auto; by rewrite lookup_setattr_ne.
Qed.

Lemma run_frame (d : derivation) (self self' : gmap string (pyval Q))
  (ms : list (gmap string (pyval Q))) (v : pyval Q) (k : string) :
  run d self ms = Ok (v, self') →
  k ∉ written_fields d →
  self' !! k = self !! k.
Proof.
  intros H Hk. destruct d; simpl in H, Hk.
  1-3: eapply mean_derivation_frame; eauto; intros ->; apply Hk; by left.
  - unfold KrebsViscosity.calculate_from_stormer_measurements in H.
    destruct ms; invert_run; auto; frame.
  - unfold MFIValue.calculate_from_measurements in H.
    destruct ms; invert_run; auto; frame.
  - unfold UltimateTensileStrength.calculate_from_measurements in H.
    invert_run; auto; frame.
  - unfold CoefficientOfThermalExpansion.calculate_from_measurements in H.
    invert_run; auto; frame.
Qed.

Lemma owens_wendt_frame (self self' : gmap string (pyval R))
  (water_angle diiodomethane_angle : R) (t : R * R * R) (k : string) :
  CriticalSurfaceTension.calculate_from_owens_wendt
    self water_angle diiodomethane_angle = Ok (t, self') →
  k ∉ owens_wendt_written_fields →
  self' !! k = self !! k.
Proof.
  unfold CriticalSurfaceTension.calculate_from_owens_wendt.
  intros H Hk. invert_run. frame.
Qed.

(** C6, as the code has it. A derivation method that returns leaves every
    attribute outside [written_fields] as it was: the single reportable
    attribute for the arithmetic means, Krebs viscosity, melt flow index
    and tensile strength; [ctePpmPerC] and the two ends of the temperature
    range for thermal expansion; the two components, their sum and
    [calculationMethod] for the Owens-Wendt method. *)
Theorem derivations_overwrite_only_written_fields :
  (∀ (d : derivation) (self self' : gmap string (pyval Q))
     (ms : list (gmap string (pyval Q))) (v : pyval Q) (k : string),
     run d self ms = Ok (v, self') →
     k ∉ written_fields d →
     self' !! k = self !! k)
  ∧ (∀ d, (∀ l, d ≠ coefficient_of_thermal_expansion l) →
          written_fields d = [derived_field d])
  ∧ (∀ (self self' : gmap string (pyval R))
       (water_angle diiodomethane_angle : R) (t : R * R * R) (k : string),
       CriticalSurfaceTension.calculate_from_owens_wendt
         self water_angle diiodomethane_angle = Ok (t, self') →
       k ∉ owens_wendt_written_fields →
       self' !! k = self !! k).
Proof.
  split; [|split].
  - apply run_frame.
  - intros d Hd. destruct d; try reflexivity. by destruct (Hd original_length_mm).
  - apply owens_wendt_frame.
Qed.

Lemma derivations_overwrite_only_written_fields_witness :
  ∃ v self',
    run (coefficient_of_thermal_expansion 10)
      (receiver (coefficient_of_thermal_expansion 10) 0)
      [tma_point 30 0; tma_point 130 50] = Ok (v, self')
    ∧ self' !! "abstractionLevel"
      = receiver (coefficient_of_thermal_expansion 10) 0 !! "abstractionLevel".
Proof.
  eexists _, _. split; [reflexivity|].
  eapply (proj1 derivations_overwrite_only_written_fields
            (coefficient_of_thermal_expansion 10) _ _
            [tma_point 30 0; tma_point 130 50]).
  - reflexivity.
  - intros Hin. cbn [written_fields] in Hin.
    repeat (apply elem_of_cons in Hin as [Hin|Hin]; [discriminate Hin|]).
    by apply elem_of_nil in Hin.
Defined.

(** C6 as stated fails: the thermal-expansion derivation also overwrites
    the temperature range of the receiver. *)
Lemma cte_overwrites_temperature_range :
  ¬ (∀ (d : derivation) (self self' : gmap string (pyval Q))
       (ms : list (gmap string (pyval Q))) (v : pyval Q) (k : string),
       run d self ms = Ok (v, self') →
       k ≠ derived_field d →
       self' !! k = self !! k).
Proof.
  intros H.
  assert (∃ v self',
            run (coefficient_of_thermal_expansion 10)
              (receiver (coefficient_of_thermal_expansion 10) 0)
              [tma_point 30 0; tma_point 130 50] = Ok (v, self')
            ∧ self' !! "temperatureRangeLowC" = Some (VNum 30%Q))
    as (v & self' & Hrun & Hlow).
  { eexists _, _. split; reflexivity. }
  specialize (H _ _ _ _ _ "temperatureRangeLowC" Hrun).
  rewrite Hlow in H.
  assert (Some (VNum 30%Q)
          = receiver (coefficient_of_thermal_expansion 10) 0
              !! "temperatureRangeLowC") as Habs by (by apply H).
  vm_compute in Habs. discriminate Habs.
Qed.

(** ** C5: thermal expansion *)

Import CoefficientOfThermalExpansion.

Lemma insert_by_key_perm x l : insert_by_key x l ≡ₚ x :: l.
Proof.
  induction l as [|y l IH]; simpl; [done|].
  destruct (Qle_bool (fst x) (fst y)); [done|].
  rewrite IH. apply perm_swap.
Qed.

Lemma sorted_by_key_perm l : sorted_by_key l ≡ₚ l.
Proof.
  induction l as [|x l IH]; simpl; [done|].
  by rewrite insert_by_key_perm, IH.
Qed.

Lemma insert_by_key_sorted x l :
  StronglySorted key_le l → StronglySorted key_le (insert_by_key x l).
Proof.
  induction 1 as [|y l Hs IH Hall]; simpl.
  - repeat constructor.
  - destruct (Qle_bool (fst x) (fst y)) eqn:E.
    + apply Qle_bool_iff in E. constructor; [by constructor|].
      constructor; [done|].
      eapply Forall_impl; [exact Hall|].
      intros z Hz. unfold key_le in *. by apply Qle_trans with (fst y).
    + constructor; [done|].
      rewrite insert_by_key_perm. constructor; [|done].
      unfold key_le. destruct (Qlt_le_dec (fst y) (fst x)) as [Hlt|Hle].
      * by apply Qlt_le_weak.
      * apply Qle_bool_iff in Hle. congruence.
Qed.

Lemma sorted_by_key_sorted l : StronglySorted key_le (sorted_by_key l).
Proof.
  induction l as [|x l IH]; simpl; [constructor|].
  by apply insert_by_key_sorted.
Qed.

Lemma zip_decorate (ms : list (gmap string (pyval Q))) :
  zip (map (num_attr "temperatureC") ms) ms = decorate ms.
Proof. induction ms as [|m ms IH]; simpl; [done|]. by rewrite IH. Qed.

Lemma map_snd_decorate ms : map snd (decorate ms) = ms.
Proof. induction ms as [|m ms IH]; simpl; [done|]. by rewrite IH. Qed.

Lemma numeric_num_attr attr (m : gmap string (pyval Q)) :
  numeric attr m →
  ∃ v, m !! attr = Some v ∧ as_num v = Ok (num_attr attr m).
Proof.
  intros (v & x & Hv & Hx). exists v. split; [done|].
  unfold num_attr. by rewrite Hv, Hx.
Qed.

Lemma sorted_spec (ms : list (gmap string (pyval Q))) :
  Forall (numeric "temperatureC") ms →
  sorted ms = Ok (map snd (sorted_by_key (decorate ms))).
Proof.
  intros Hnum. unfold sorted.
  assert (∃ ks, keys_of ms = Ok ks
                ∧ nums_of ks = Ok (map (num_attr "temperatureC") ms))
    as (ks & -> & Hks).
  { induction Hnum as [|m ms Hm _ (ks & IH1 & IH2)]; [by exists []|].
    apply numeric_num_attr in Hm as (v & Hv & Hx).
    exists (v :: ks). simpl. apply getattr_Ok in Hv.
    rewrite Hv. simpl. rewrite IH1. simpl. rewrite Hx. simpl.
    by rewrite IH2. }
  simpl. rewrite Hks. simpl. by rewrite zip_decorate.
Qed.

Lemma sorted_by_temperature (ms : list (gmap string (pyval Q))) :
  StronglySorted temp_le (map snd (sorted_by_key (decorate ms))).
Proof.
  assert (Forall (λ p, fst p = num_attr "temperatureC" (snd p))
            (sorted_by_key (decorate ms))) as Hinv.
  { rewrite sorted_by_key_perm. unfold decorate.
    apply Forall_forall. intros p Hp.
    apply list_elem_of_fmap in Hp as (m & -> & _). done. }
  pose proof (sorted_by_key_sorted (decorate ms)) as Hs.
  induction Hs as [|p l Hs IH Hall]; simpl; [constructor|].
  apply Forall_cons in Hinv as [Hp Hinv].
  constructor; [by apply IH|].
  apply Forall_forall. intros b Hb.
  apply list_elem_of_fmap in Hb as (q & -> & Hq).
  rewrite Forall_forall in Hall, Hinv.
  unfold temp_le. rewrite <- Hp, <- (Hinv q Hq). by apply Hall.
Qed.

Lemma sorted_permutation (ms : list (gmap string (pyval Q))) :
  map snd (sorted_by_key (decorate ms)) ≡ₚ ms.
Proof.
  rewrite <- (map_snd_decorate ms) at 2.
  apply Permutation_map, sorted_by_key_perm.
Qed.

Lemma attr_diff_spec (a b : gmap string (pyval Q)) attr :
  numeric attr a → numeric attr b →
  attr_diff a b attr = Ok (num_attr attr a - num_attr attr b)%Q.
Proof.
  intros Ha Hb. unfold attr_diff.
  apply numeric_num_attr in Ha as (va & Hva & Hxa).
  apply numeric_num_attr in Hb as (vb & Hvb & Hxb).
  apply getattr_Ok in Hva, Hvb.
  rewrite Hva. simpl. rewrite Hvb. simpl. rewrite Hxa. simpl.
  by rewrite Hxb.
Qed.

Lemma ends_of_list {A} (l : list A) :
  (2 <= length l)%nat → ∃ x y, head l = Some x ∧ last l = Some y.
Proof.
  destruct l as [|x l]; simpl; [lia|]. intros _.
  exists x. destruct (last (x :: l)) as [y|] eqn:E; [by exists y|].
  by apply last_None in E.
Qed.

Lemma Qle_bool_false x y : (y < x)%Q → Qle_bool x y = false.
Proof.
  intros H. destruct (Qle_bool x y) eqn:E; auto.
  apply Qle_bool_iff in E. exfalso. eapply Qlt_not_le; eauto.
Qed.

(** C5, as the code has it. For at least two readings that carry numeric
    [temperatureC] and [dimensionChangeMicron] and a positive original
    length, the method sorts the readings by temperature and takes the
    first and the last; when the two temperatures differ it stores and
    returns [(delta_L / (original_length_mm * 1000)) / delta_T * 1e6]
    and records the two temperatures as the range; when they are equal it
    returns the stored value and changes nothing.  With fewer than two
    readings, or a length that is not positive, it returns the stored
    value and changes nothing.  The points (25, 0) and (125, 50) on a
    10 mm sample give 50 ppm/°C. *)
Theorem cte_two_endpoint_slope :
  (∀ (self : gmap string (pyval Q)) (ms : list (gmap string (pyval Q)))
     (original_length_mm : Q) (v0 : pyval Q),
     (2 <= length ms)%nat →
     (0 < original_length_mm)%Q →
     Forall (admissible (coefficient_of_thermal_expansion original_length_mm))
       ms →
     self !! "ctePpmPerC" = Some v0 →
     ∃ sorted_ms coldest hottest lo hi,
       sorted ms = Ok sorted_ms
       ∧ sorted_ms ≡ₚ ms
       ∧ StronglySorted temp_le sorted_ms
       ∧ head sorted_ms = Some coldest
       ∧ last sorted_ms = Some hottest
       ∧ coldest !! "temperatureC" = Some lo
       ∧ hottest !! "temperatureC" = Some hi
       ∧ let delta_L := (num_attr "dimensionChangeMicron" hottest
                         - num_attr "dimensionChangeMicron" coldest)%Q in
         let delta_T := (num_attr "temperatureC" hottest
                         - num_attr "temperatureC" coldest)%Q in
         let cte := cte_slope delta_L original_length_mm delta_T in
         ((0 < delta_T)%Q →
          calculate_from_measurements self ms original_length_mm
          = Ok (VNum cte,
                setattr
                  (setattr (setattr self "ctePpmPerC" (VNum cte))
                     "temperatureRangeLowC" lo)
                  "temperatureRangeHighC" hi))
         ∧ (¬ (0 < delta_T)%Q →
            calculate_from_measurements self ms original_length_mm
            = Ok (v0, self)))
  ∧ (∀ (self : gmap string (pyval Q)) (ms : list (gmap string (pyval Q)))
       (original_length_mm : Q) (v0 : pyval Q),
       (length ms < 2)%nat ∨ (original_length_mm <= 0)%Q →
       self !! "ctePpmPerC" = Some v0 →
       calculate_from_measurements self ms original_length_mm = Ok (v0, self))
  ∧ (∃ cte self',
       calculate_from_measurements
         (receiver (coefficient_of_thermal_expansion 10) 0)
         [tma_point 25 0; tma_point 125 50] 10
       = Ok (VNum cte, self')
       ∧ self' !! "ctePpmPerC" = Some (VNum cte)
       ∧ (cte == 50)%Q).
Proof.
  split; [|split].
  - intros self ms L v0 Hlen HL Hadm Hv0. cbn [admissible] in Hadm.
    assert (Forall (numeric "temperatureC") ms) as Htemp.
    { eapply Forall_impl; [exact Hadm|]. by intros m [H _]. }
    pose proof (sorted_permutation ms) as Hperm.
    pose proof (sorted_by_temperature ms) as Hsorted.
    pose proof (sorted_spec ms Htemp) as Hsort.
    set (sorted_ms := map snd (sorted_by_key (decorate ms))) in *.
    destruct (ends_of_list sorted_ms) as (coldest & hottest & Hhd & Hlast).
    { by rewrite Hperm. }
    assert (coldest ∈ ms) as Hc.
    { rewrite <- Hperm. destruct sorted_ms; [done|].
      injection Hhd as ->. by left. }
    assert (hottest ∈ ms) as Hh.
    { rewrite <- Hperm. apply last_Some in Hlast as [l' ->].
      apply elem_of_app. right. by left. }
    rewrite Forall_forall in Hadm.
    destruct (Hadm _ Hc) as [Hct Hcd]. destruct (Hadm _ Hh) as [Hht Hhd'].
    destruct (numeric_num_attr _ _ Hct) as (lo & Hlo & _).
    destruct (numeric_num_attr _ _ Hht) as (hi & Hhi & _).
    exists sorted_ms, coldest, hottest, lo, hi.
    repeat (split; [done|]).
    intros delta_L delta_T cte.
    assert (calculate_from_measurements self ms L
            = (self' ← (if Qltb 0 delta_T
                        then Ok (setattr
                                   (setattr
                                      (setattr self "ctePpmPerC" (VNum cte))
                                      "temperatureRangeLowC" lo)
                                   "temperatureRangeHighC" hi)
                        else Ok self);
               v ← getattr self' "ctePpmPerC";
               Ok (v, self'))) as ->.
    { unfold calculate_from_measurements.
      destruct ms as [|m1 [|m2 ms']]; simpl in Hlen; try lia.
      change (length (m1 :: m2 :: ms') <? 2)%nat with false.
      rewrite (Qle_bool_false _ _ HL). cbn [orb].
      rewrite Hsort. cbn [mbind result_bind].
      unfold index_first, index_last. rewrite Hhd, Hlast.
      cbn [mbind result_bind].
      rewrite (attr_diff_spec _ _ _ Hhd' Hcd), (attr_diff_spec _ _ _ Hht Hct).
      cbn [mbind result_bind]. fold delta_L delta_T.
      destruct (Qltb 0 delta_T) eqn:E; [|done].
      rewrite py_div_pos.
      2:{ apply Qltb_lt. apply Qmult_lt_0_compat; [done|reflexivity]. }
      cbn [mbind result_bind]. rewrite (py_div_pos _ _ E).
      cbn [mbind result_bind].
      apply getattr_Ok in Hlo, Hhi. rewrite Hlo. cbn [mbind result_bind].
      by rewrite Hhi. }
    split; intros HT.
    + apply Qltb_lt in HT. rewrite HT. cbn [mbind result_bind].
      unfold getattr. rewrite !lookup_setattr_ne by done.
      unfold setattr. by rewrite lookup_insert_eq.
    + destruct (Qltb 0 delta_T) eqn:E; [by apply Qltb_lt in E|].
      cbn [mbind result_bind]. apply getattr_Ok in Hv0. by rewrite Hv0.
  - intros self ms L v0 Hsmall Hv0. apply getattr_Ok in Hv0.
    unfold calculate_from_measurements.
    destruct Hsmall as [Hlen|HL].
    + destruct ms as [|m1 [|m2 ms']]; simpl in Hlen; try lia;
        simpl; by rewrite Hv0.
    + apply Qle_bool_iff in HL. rewrite HL, orb_true_r. by rewrite Hv0.
  - eexists _, _. split; [reflexivity|]. split; reflexivity.
Qed.

Lemma cte_two_endpoint_slope_witness :
  let self := receiver (coefficient_of_thermal_expansion 20) 0 in
  let ms := [tma_point 80 12; tma_point 20 0; tma_point 140 30] in
  ∃ sorted_ms coldest hottest lo hi,
    sorted ms = Ok sorted_ms
    ∧ sorted_ms ≡ₚ ms
    ∧ StronglySorted temp_le sorted_ms
    ∧ head sorted_ms = Some coldest
    ∧ last sorted_ms = Some hottest
    ∧ coldest !! "temperatureC" = Some lo
    ∧ hottest !! "temperatureC" = Some hi
    ∧ let delta_L := (num_attr "dimensionChangeMicron" hottest
                      - num_attr "dimensionChangeMicron" coldest)%Q in
      let delta_T := (num_attr "temperatureC" hottest
                      - num_attr "temperatureC" coldest)%Q in
      let cte := cte_slope delta_L 20 delta_T in
      ((0 < delta_T)%Q →
       calculate_from_measurements self ms 20
       = Ok (VNum cte,
             setattr
               (setattr (setattr self "ctePpmPerC" (VNum cte))
                  "temperatureRangeLowC" lo)
               "temperatureRangeHighC" hi))
      ∧ (¬ (0 < delta_T)%Q →
         calculate_from_measurements self ms 20 = Ok (VNum 0%Q, self)).
Proof.
  intros self ms.
  apply (proj1 cte_two_endpoint_slope self ms 20%Q (VNum 0%Q)).
  - simpl. lia.
  - reflexivity.
  - subst ms. concrete_numeric.
  - reflexivity.
Defined.

(** C5 as stated fails when every reading has the same temperature: the
    method then stores nothing and returns whatever was stored. *)
Lemma cte_keeps_stored_value_at_equal_temperatures :
  calculate_from_measurements
    (receiver (coefficient_of_thermal_expansion 10) 7)
    [tma_point 25 0; tma_point 25 50] 10
  = Ok (VNum 7%Q, receiver (coefficient_of_thermal_expansion 10) 7)
  ∧ calculate_from_measurements
      (receiver (coefficient_of_thermal_expansion 10) 8)
      [tma_point 25 0; tma_point 25 50] 10
    = Ok (VNum 8%Q, receiver (coefficient_of_thermal_expansion 10) 8)
  ∧ ¬ (7 == cte_slope (50 - 0) 10 (25 - 25))%Q.
Proof.
  split; [|split].
  - vm_compute. reflexivity.
  - vm_compute. reflexivity.
  - intros H. vm_compute in H. discriminate H.
Qed.

(** ** C7: the Owens-Wendt method *)

Lemma sqrt_diio_d_pos : (0 < sqrt CriticalSurfaceTension.diio_d)%R.
Proof. apply sqrt_lt_R0. unfold CriticalSurfaceTension.diio_d. lra. Qed.

Lemma sqrt_water_p_pos : (0 < sqrt CriticalSurfaceTension.water_p)%R.
Proof. apply sqrt_lt_R0. unfold CriticalSurfaceTension.water_p. lra. Qed.

(** What the method returns and stores, the angles in degrees. *)
Lemma owens_wendt_spec (self : gmap string (pyval R))
  (water_angle diiodomethane_angle : R) :
  let gd := (((50.8 * (1 + cos (diiodomethane_angle * (PI / 180))))
              / (2 * sqrt 50.8)) ^ 2)%R in
  let gp := (((72.8 * (1 + cos (water_angle * (PI / 180)))
               - 2 * sqrt (gd * 21.8))
              / (2 * sqrt 51.0)) ^ 2)%R in
  CriticalSurfaceTension.calculate_from_owens_wendt
    self water_angle diiodomethane_angle
  = Ok ((gd + gp, gd, gp)%R,
        setattr
          (setattr
             (setattr (setattr self "dispersiveComponent" (VNum gd))
                "polarComponent" (VNum gp))
             "surfaceEnergyMNm" (VNum (gd + gp)%R))
          "calculationMethod" (VStr "Owens-Wendt")).
Proof.
  intros gd gp.
  pose proof sqrt_diio_d_pos as Hd. pose proof sqrt_water_p_pos as Hp.
  unfold CriticalSurfaceTension.calculate_from_owens_wendt,
    CriticalSurfaceTension.math_sqrt, CriticalSurfaceTension.Rdiv_py,
    CriticalSurfaceTension.radians.
  unfold CriticalSurfaceTension.diio_d, CriticalSurfaceTension.water_p,
    CriticalSurfaceTension.diio_total, CriticalSurfaceTension.water_total,
    CriticalSurfaceTension.water_d in *.
  destruct (Rlt_dec 50.8 0) as [H|_]; [lra|]. cbn [mbind result_bind].
  destruct (Req_dec_T (2 * sqrt 50.8) 0) as [H|_]; [lra|].
  cbn [mbind result_bind]. fold gd.
  destruct (Rlt_dec (gd * 21.8) 0) as [H|_].
  { exfalso. assert (0 <= gd)%R by (subst gd; apply pow2_ge_0). nra. }
  cbn [mbind result_bind].
  destruct (Rlt_dec 51.0 0) as [H|_]; [lra|]. cbn [mbind result_bind].
  destruct (Req_dec_T (2 * sqrt 51.0) 0) as [H|_]; [lra|].
  reflexivity.
Qed.

(** The dispersive closed form at a given cosine. *)
Lemma dispersive_at_cosine (c : R) :
  (((50.8 * (1 + c)) / (2 * sqrt 50.8)) ^ 2 = 12.7 * (1 + c) ^ 2)%R.
Proof.
  assert (0 < sqrt 50.8)%R as Hs by (apply sqrt_lt_R0; lra).
  assert (sqrt 50.8 * sqrt 50.8 = 50.8)%R as Hsq by (apply sqrt_sqrt; lra).
  replace ((50.8 * (1 + c) / (2 * sqrt 50.8)) ^ 2)%R
    with (50.8 * 50.8 * (1 + c) ^ 2 / (4 * (sqrt 50.8 * sqrt 50.8)))%R
    by (field; lra).
  rewrite Hsq. generalize ((1 + c) ^ 2)%R. intros x. lra.
Qed.

Lemma cos_degrees_0 : cos (0 * (PI / 180)) = 1%R.
Proof. rewrite Rmult_0_l. apply cos_0. Qed.

Lemma cos_degrees_60 : cos (60 * (PI / 180)) = (1 / 2)%R.
Proof.
  replace (60 * (PI / 180))%R with (PI / 3)%R by field. apply cos_PI3.
Qed.

Lemma cos_degrees_90 : cos (90 * (PI / 180)) = 0%R.
Proof.
  replace (90 * (PI / 180))%R with (PI / 2)%R by field. apply cos_PI2.
Qed.

Lemma cos_degrees_120 : cos (120 * (PI / 180)) = (- 1 / 2)%R.
Proof.
  replace (120 * (PI / 180))%R with (2 * (PI / 3))%R by field.
  rewrite cos_2PI3. lra.
Qed.

Lemma cos_degrees_180 : cos (180 * (PI / 180)) = (- 1)%R.
Proof.
  replace (180 * (PI / 180))%R with PI by (field; lra). apply cos_PI.
Qed.

(** The square root of the squared quotient of the method is the
    magnitude of its numerator. *)
Lemma sqrt_component (a x : R) :
  (0 < x)%R →
  (2 * sqrt ((a / (2 * sqrt x)) ^ 2 * x) = Rabs a)%R.
Proof.
  intros Hx.
  assert (0 < sqrt x)%R as Hs by (by apply sqrt_lt_R0).
  assert (sqrt x * sqrt x = x)%R as Hsq by (apply sqrt_sqrt; lra).
  assert ((a / (2 * sqrt x)) ^ 2 * x = (a / 2) ^ 2)%R as ->.
  { transitivity ((a / (2 * sqrt x)) ^ 2 * (sqrt x * sqrt x))%R.
    - by rewrite Hsq.
    - field. lra. }
  rewrite <- Rsqr_pow2, sqrt_Rsqr_abs.
  unfold Rdiv. rewrite Rabs_mult, (Rabs_pos_eq (/ 2)); lra.
Qed.

(** The two equations of the system on the components the method returns. *)
Lemma owens_wendt_equations (water_angle diiodomethane_angle : R) :
  let theta_w := (water_angle * (PI / 180))%R in
  let theta_d := (diiodomethane_angle * (PI / 180))%R in
  let gd := (((50.8 * (1 + cos theta_d)) / (2 * sqrt 50.8)) ^ 2)%R in
  let numerator := (72.8 * (1 + cos theta_w) - 2 * sqrt (gd * 21.8))%R in
  let gp := ((numerator / (2 * sqrt 51.0)) ^ 2)%R in
  (50.8 * (1 + cos theta_d) = 2 * (sqrt (gd * 50.8) + sqrt (gp * 0.0)))%R
  ∧ ((72.8 * (1 + cos theta_w)
      = 2 * (sqrt (gd * 21.8) + sqrt (gp * 51.0)))%R
     ↔ (0 <= numerator)%R).
Proof.
  intros theta_w theta_d gd numerator gp. split.
  - replace (gp * 0.0)%R with 0%R by lra. rewrite sqrt_0, Rplus_0_r.
    unfold gd. rewrite sqrt_component by lra.
    rewrite Rabs_pos_eq; [done|].
    pose proof (COS_bound theta_d). nra.
  - assert (2 * sqrt (gp * 51.0) = Rabs numerator)%R as Habs.
    { unfold gp. apply sqrt_component. lra. }
    split.
    + intros Heq. pose proof (Rabs_pos numerator).
      unfold numerator in *. lra.
    + intros Hpos. rewrite (Rabs_pos_eq _ Hpos) in Habs.
      unfold numerator in *. lra.
Qed.

(** C7, as the code has it.  The method evaluates the two closed forms
    with the water and diiodomethane constants, the angles taken in
    degrees, and returns their sum and the two components without
    raising, storing them and the name of the method.  The components
    always satisfy the diiodomethane equation of the Owens-Wendt system;
    they satisfy the water equation exactly when its numerator is not
    negative, the method squaring the root whatever its sign.  With
    diiodomethane the dispersive component is 50.8 at 0 degrees, 12.7 at
    90 degrees and 0 at 180 degrees in exact arithmetic; evaluated in
    binary64, as the program does, it is 50.79999999999999 at 0 degrees. *)
Theorem owens_wendt_closed_form :
  (∀ (self : gmap string (pyval R)) (water_angle diiodomethane_angle : R),
     let theta_w := (water_angle * (PI / 180))%R in
     let theta_d := (diiodomethane_angle * (PI / 180))%R in
     let gd := (((50.8 * (1 + cos theta_d)) / (2 * sqrt 50.8)) ^ 2)%R in
     let numerator := (72.8 * (1 + cos theta_w) - 2 * sqrt (gd * 21.8))%R in
     let gp := ((numerator / (2 * sqrt 51.0)) ^ 2)%R in
     CriticalSurfaceTension.calculate_from_owens_wendt
       self water_angle diiodomethane_angle
     = Ok ((gd + gp, gd, gp)%R,
           setattr
             (setattr
                (setattr (setattr self "dispersiveComponent" (VNum gd))
                   "polarComponent" (VNum gp))
                "surfaceEnergyMNm" (VNum (gd + gp)%R))
             "calculationMethod" (VStr "Owens-Wendt"))
     ∧ (50.8 * (1 + cos theta_d)
        = 2 * (sqrt (gd * 50.8) + sqrt (gp * 0.0)))%R
     ∧ ((72.8 * (1 + cos theta_w)
         = 2 * (sqrt (gd * 21.8) + sqrt (gp * 51.0)))%R
        ↔ (0 <= numerator)%R))
  ∧ (∀ (self : gmap string (pyval R)) (water_angle : R),
       (∃ total polar self',
          CriticalSurfaceTension.calculate_from_owens_wendt
            self water_angle 0
          = Ok ((total, 50.8, polar)%R, self')
          ∧ polar
            = (((72.8 * (1 + cos (water_angle * (PI / 180)))
                 - 2 * sqrt (50.8 * 21.8)) / (2 * sqrt 51.0)) ^ 2)%R
          ∧ total = (50.8 + polar)%R
          ∧ self' !! "dispersiveComponent" = Some (VNum 50.8%R))
       ∧ (∃ total polar self',
            CriticalSurfaceTension.calculate_from_owens_wendt
              self water_angle 90
            = Ok ((total, 12.7, polar)%R, self'))
       ∧ (∃ total polar self',
            CriticalSurfaceTension.calculate_from_owens_wendt
              self water_angle 180
            = Ok ((total, 0, polar)%R, self')))
  ∧ dispersive_binary64 1 = 50.79999999999999%float.
Proof.
  split; [|split].
  - intros self water_angle diiodomethane_angle
      theta_w theta_d gd numerator gp.
    split; [apply owens_wendt_spec|].
    apply owens_wendt_equations.
  - intros self water_angle. split; [|split].
    + pose proof (owens_wendt_spec self water_angle 0) as H. cbv zeta in H.
      rewrite cos_degrees_0, dispersive_at_cosine in H.
      replace (12.7 * (1 + 1) ^ 2)%R with 50.8%R in H by lra.
      eexists _, _, _. split; [exact H|].
      split; [reflexivity|]. split; [reflexivity|].
      rewrite !lookup_setattr_ne by done.
      unfold setattr. by rewrite lookup_insert_eq.
    + pose proof (owens_wendt_spec self water_angle 90) as H. cbv zeta in H.
      rewrite cos_degrees_90, dispersive_at_cosine in H.
      replace (12.7 * (1 + 0) ^ 2)%R with 12.7%R in H by lra.
      eexists _, _, _. exact H.
    + pose proof (owens_wendt_spec self water_angle 180) as H. cbv zeta in H.
      rewrite cos_degrees_180, dispersive_at_cosine in H.
      replace (12.7 * (1 + -1) ^ 2)%R with 0%R in H by lra.
      eexists _, _, _. exact H.
  - reflexivity.
Qed.

Lemma owens_wendt_closed_form_witness :
  ∃ total dispersive polar self',
    CriticalSurfaceTension.calculate_from_owens_wendt ∅ 90 0
    = Ok ((total, dispersive, polar), self')
    ∧ (72.8 * (1 + cos (90 * (PI / 180)))
       = 2 * (sqrt (dispersive * 21.8) + sqrt (polar * 51.0)))%R.
Proof.
  destruct (proj1 owens_wendt_closed_form ∅ 90%R 0%R)
    as (Hrun & _ & Hwater).
  eexists _, _, _, _. split; [exact Hrun|].
  apply Hwater.
  rewrite cos_degrees_0, cos_degrees_90, dispersive_at_cosine.
  replace (12.7 * (1 + 1) ^ 2 * 21.8)%R with (50.8 * 21.8)%R by lra.
  assert (sqrt (50.8 * 21.8) <= 34)%R.
  { rewrite <- (sqrt_Rsqr 34) by lra. apply sqrt_le_1_alt.
    unfold Rsqr. lra. }
  lra.
Defined.

(** C7 as stated fails twice.  The method does not solve the system at
    every pair of angles: at 120 degrees with water and 60 degrees with
    diiodomethane the numerator of the polar root is negative, and the
    components it returns violate the water equation.  And the dispersive
    component at 0 degrees, 50.8 in exact arithmetic, is not 50.8 as the
    program computes it: in binary64 it is one unit in the last place
    below. *)
Lemma owens_wendt_misses_water_equation :
  (∃ total dispersive polar self',
     CriticalSurfaceTension.calculate_from_owens_wendt ∅ 120 60
     = Ok ((total, dispersive, polar), self')
     ∧ (72.8 * (1 + cos (120 * (PI / 180)))
        ≠ 2 * (sqrt (dispersive * 21.8) + sqrt (polar * 51.0)))%R)
  ∧ PrimFloat.ltb (dispersive_binary64 1) 50.8 = true.
Proof.
  split; [|reflexivity].
  eexists _, _, _, _. split; [apply owens_wendt_spec|].
  intros Heq. apply owens_wendt_equations in Heq. revert Heq.
  rewrite cos_degrees_60, cos_degrees_120, dispersive_at_cosine.
  assert (18.2 < sqrt (12.7 * (1 + 1 / 2) ^ 2 * 21.8))%R.
  { rewrite <- (sqrt_Rsqr 18.2) by lra. apply sqrt_lt_1_alt.
    unfold Rsqr. lra. }
  lra.
Qed.

(** ** C8: the abstraction level *)

Lemma Ok_inj {A} (a b : A) : Ok a = Ok b → a = b.
Proof. by intros [= ->]. Qed.

Lemma per_cut_rate_level (self o : gmap string (pyval Q)) :
  per_cut_rate self = Ok o →
  o !! "abstractionLevel" = self !! "abstractionLevel".
Proof.
  unfold per_cut_rate. intros H. invert_run; auto.
  by rewrite lookup_setattr_ne.
Qed.

Lemma calculate_surface_tension_level cos_of_degrees
  (self o : gmap string (pyval Q)) :
  _calculate_surface_tension cos_of_degrees self = Ok o →
  o !! "abstractionLevel" = self !! "abstractionLevel".
Proof.
  unfold _calculate_surface_tension. intros H. invert_run; auto.
  by rewrite lookup_setattr_ne.
Qed.

Ltac head_of t :=
  match t with
  | ?f _ => head_of f
  | _ => t
  end.

(** Runs through the body of an [__init__] that returned, down to its
    assignment of [abstractionLevel]. *)
Ltac level_of_init H :=
  match type of H with
  | ?t = Ok _ => let f := head_of t in unfold f in H
  end;
  cbv zeta in H;
  repeat (lazymatch type of H with
          | mbind _ _ = Ok _ =>
              let a := fresh "a" in
              let Ha := fresh "Hstep" in
              apply bind_Ok_inv in H as (a & Ha & H)
          end);
  lazymatch type of H with
  | per_cut_rate _ = Ok _ =>
      apply per_cut_rate_level in H; rewrite H; clear H
  | _calculate_surface_tension _ _ = Ok _ =>
      apply calculate_surface_tension_level in H; rewrite H; clear H
  | Ok _ = Ok _ => apply Ok_inj in H; rewrite <- H; clear H
  end;
  match goal with
  | H : self_ABSTRACTION_LEVEL _ = Ok _ |- _ =>
      vm_compute in H; injection H as <-
  end;
  apply lookup_insert_eq.

Lemma new_level T S C (c : class) (kw o : gmap string (pyval Q)) (z : Z) :
  ABSTRACTION_LEVEL c = Some z →
  new T S C c kw = Ok o →
  o !! "abstractionLevel" = Some (VNum (inject_Z z)).
Proof.
  intros Hz H. unfold new in H.
  destruct c; simpl in Hz; try discriminate Hz; injection Hz as <-;
    cbn [init] in H; level_of_init H.
Qed.

(** The initialisers of the base classes, run on an instance of a
    subclass, assign the constant of the subclass. *)
Lemma parent_init_level T S (cls : class) (z : Z)
  (self kw o : gmap string (pyval Q)) :
  mro_lookup 6 cls = Some z →
  (Hardness__init__ T cls self kw = Ok o
   ∨ HardnessScale__init__ T S cls self kw = Ok o) →
  o !! "abstractionLevel" = Some (VNum (inject_Z z)).
Proof.
  intros Hz [H|H].
  - unfold Hardness__init__ in H. cbv zeta in H.
    apply bind_Ok_inv in H as (? & _ & H).
    apply bind_Ok_inv in H as (? & _ & H).
    apply bind_Ok_inv in H as (lvl & Hl & H).
    apply Ok_inj in H. rewrite <- H.
    unfold self_ABSTRACTION_LEVEL in Hl. rewrite Hz in Hl.
    injection Hl as <-. apply lookup_insert_eq.
  - unfold HardnessScale__init__ in H. cbv zeta in H.
    apply bind_Ok_inv in H as (? & _ & H).
    apply bind_Ok_inv in H as (? & _ & H).
    apply bind_Ok_inv in H as (lvl & Hl & H).
    apply Ok_inj in H. rewrite <- H.
    unfold self_ABSTRACTION_LEVEL in Hl. rewrite Hz in Hl.
    injection Hl as <-. apply lookup_insert_eq.
Qed.

(** C8, as the code has it. Every property class that declares
    [ABSTRACTION_LEVEL] constructs, from any keyword arguments, objects
    whose [abstractionLevel] is that constant; the initialisers of the
    base classes read the constant through the instance, so on a
    [ShoreMeasurement] they already assign 3; and no derivation method
    changes the attribute afterwards. *)
Theorem abstraction_level_is_class_constant :
  (∀ T S C (c : class) (kw o : gmap string (pyval Q)) (z : Z),
     ABSTRACTION_LEVEL c = Some z →
     new T S C c kw = Ok o →
     o !! "abstractionLevel" = Some (VNum (inject_Z z)))
  ∧ (∀ T S (self kw o : gmap string (pyval Q)),
       Hardness__init__ T ShoreMeasurement self kw = Ok o
       ∨ HardnessScale__init__ T S ShoreMeasurement self kw = Ok o →
       o !! "abstractionLevel" = Some (VNum 3%Q))
  ∧ (∀ (d : derivation) (self self' : gmap string (pyval Q))
       (ms : list (gmap string (pyval Q))) (v : pyval Q),
       run d self ms = Ok (v, self') →
       self' !! "abstractionLevel" = self !! "abstractionLevel")
  ∧ (∀ (self self' : gmap string (pyval R))
       (water_angle diiodomethane_angle : R) (t : R * R * R),
       CriticalSurfaceTension.calculate_from_owens_wendt
         self water_angle diiodomethane_angle = Ok (t, self') →
       self' !! "abstractionLevel" = self !! "abstractionLevel").
Proof.
  split; [|split; [|split]].
  - apply new_level.
  - intros T S self kw o H.
    by apply (parent_init_level T S ShoreMeasurement 3%Z self kw o).
  - intros d self self' ms v H. eapply run_frame; [exact H|].
    destruct d; cbn; intros Hin;
      repeat (apply elem_of_cons in Hin as [Hin|Hin]; [discriminate Hin|]);
      by apply elem_of_nil in Hin.
  - intros self self' w dd t H. eapply owens_wendt_frame; [exact H|].
    unfold owens_wendt_written_fields. intros Hin.
    repeat (apply elem_of_cons in Hin as [Hin|Hin]; [discriminate Hin|]).
    by apply elem_of_nil in Hin.
Qed.

Lemma abstraction_level_is_class_constant_witness :
  match
    new plain_treeObject__init__ plain_str_of_num (λ _, 1%Q) ShoreMeasurement
      (kwargs [("hardnessReading", VNum 55%Q); ("shoreType", VStr "D")])
  with
  | Ok o => o !! "abstractionLevel" = Some (VNum 3%Q)
  | Raise _ => False
  end.
Proof.
  assert (succeeds
            (new plain_treeObject__init__ plain_str_of_num (λ _, 1%Q)
               ShoreMeasurement
               (kwargs [("hardnessReading", VNum 55%Q);
                        ("shoreType", VStr "D")]))) as Hok.
  { vm_compute. exact I. }
  destruct (new plain_treeObject__init__ plain_str_of_num (λ _, 1%Q)
              ShoreMeasurement
              (kwargs [("hardnessReading", VNum 55%Q);
                       ("shoreType", VStr "D")])) as [o|e] eqn:H;
    [|destruct Hok].
  apply (proj1 abstraction_level_is_class_constant _ _ _ ShoreMeasurement
           _ _ 3%Z eq_refl H).
Defined.

(** C8 as stated fails in its last clause: while a [ShoreMeasurement] is
    constructed, the initialiser of its base class [HardnessScale] leaves
    3 in [abstractionLevel], not 2. *)
Lemma parent_initializer_assigns_subclass_level :
  match
    HardnessScale__init__ plain_treeObject__init__ plain_str_of_num
      ShoreMeasurement ∅
      (kwargs [("hardnessValue", VNum 55%Q); ("scale", VStr "Shore D")])
  with
  | Ok o => o !! "abstractionLevel" = Some (VNum 3%Q)
            ∧ o !! "abstractionLevel" ≠ Some (VNum 2%Q)
  | Raise _ => False
  end.
Proof. vm_compute. split; [reflexivity|discriminate]. Qed.

(** ** Construction *)

Lemma succeeds_bind {A B} (k : A → result B) (r : result A) :
  succeeds r → (∀ a, r = Ok a → succeeds (k a)) → succeeds (r ≫= k).
Proof. destruct r as [a|e]; [intros _ H; by apply H | intros []]. Qed.

Lemma succeeds_Ok {A} (r : result A) : succeeds r ↔ ∃ a, r = Ok a.
Proof.
  destruct r as [a|e]; split; try done; [by exists a|intros [a [=]]].
Qed.

Lemma accept_succeeds (kw : gmap string (pyval Q)) params :
  dom kw ⊆ list_to_set params → succeeds (accept kw params).
Proof. intros H. unfold accept. by rewrite decide_True. Qed.

Lemma self_ABSTRACTION_LEVEL_succeeds cls :
  is_Some (mro_lookup 6 cls) → succeeds (self_ABSTRACTION_LEVEL cls).
Proof. intros [z Hz]. unfold self_ABSTRACTION_LEVEL. by rewrite Hz. Qed.

Lemma numeric_setattr_ne attr k v (o : gmap string (pyval Q)) :
  attr ≠ k → numeric attr o → numeric attr (setattr o k v).
Proof.
  intros Hne (w & x & Hw & Hx). exists w, x. split; [|done].
  by rewrite lookup_setattr_ne.
Qed.

Lemma numeric_setattr_eq attr v (o : gmap string (pyval Q)) :
  (∃ x, as_num v = Ok x) → numeric attr (setattr o attr v).
Proof.
  intros [x Hx]. exists v, x. split; [|done].
  unfold setattr. by rewrite lookup_insert_eq.
Qed.

Lemma arg_numeric (kw : gmap string (pyval Q)) k d :
  (∀ v, kw !! k = Some v → ∃ x, as_num v = Ok x) →
  (∃ x, as_num d = Ok x) →
  ∃ x, as_num (arg kw k d) = Ok x.
Proof.
  intros Hkw Hd. unfold arg. destruct (kw !! k) as [v|]; simpl; auto.
Qed.

Lemma attr_num_numeric attr (self : gmap string (pyval Q)) :
  numeric attr self → ∃ x, attr_num self attr = Ok x.
Proof.
  intros (v & x & Hv & Hx). exists x. unfold attr_num.
  apply getattr_Ok in Hv. by rewrite Hv.
Qed.

Lemma numeric_getattr attr (self : gmap string (pyval Q)) :
  numeric attr self → ∃ v x, getattr self attr = Ok v ∧ as_num v = Ok x.
Proof.
  intros (v & x & Hv & Hx). exists v, x. by rewrite getattr_Ok.
Qed.

Lemma per_cut_rate_succeeds (self : gmap string (pyval Q)) :
  numeric "extrusionTime" self → numeric "extrudateMass" self →
  succeeds (per_cut_rate self).
Proof.
  intros (vt & t & Ht & Hxt)%numeric_getattr (vm & m & Hm & Hxm)%numeric_getattr.
  unfold per_cut_rate. rewrite Ht. cbn [mbind result_bind].
  rewrite (gt0_as_num _ _ Hxt). cbn [mbind result_bind].
  destruct (Qltb 0 t) eqn:E; [|exact I].
  rewrite Hm. cbn [mbind result_bind]. rewrite Hxm, Hxt.
  cbn [mbind result_bind]. by rewrite (py_div_pos _ _ E).
Qed.

Lemma calculate_surface_tension_succeeds cos_of_degrees
  (self : gmap string (pyval Q)) :
  numeric "platePerimeterMm" self → numeric "contactAngle" self →
  numeric "forceMN" self →
  succeeds (_calculate_surface_tension cos_of_degrees self).
Proof.
  intros (vp & p & Hp & Hxp)%numeric_getattr
         (vc & c & Hc & Hxc)%numeric_getattr
         (vf & f & Hf & Hxf)%numeric_getattr.
  unfold _calculate_surface_tension. rewrite Hp. cbn [mbind result_bind].
  rewrite (gt0_as_num _ _ Hxp). cbn [mbind result_bind].
  destruct (Qltb 0 p) eqn:E; [|exact I].
  rewrite Hc. cbn [mbind result_bind]. rewrite Hxc. cbn [mbind result_bind].
  destruct (Qltb 0 (cos_of_degrees c)) eqn:Ec; [|exact I].
  rewrite Hf. cbn [mbind result_bind].
  rewrite Hxf. cbn [mbind result_bind]. rewrite Hxp. cbn [mbind result_bind].
  rewrite py_div_pos; [exact I|].
  apply Qltb_lt. apply Qltb_lt in E, Ec. by apply Qmult_lt_0_compat.
Qed.

(** The keywords a parent initialiser is called with are among its
    parameters. *)
Ltac kwargs_dom := apply (bool_decide_unpack _); vm_compute; exact I.

(** Walks through the body of an [__init__]: its own keywords are
    accepted, the parent initialiser succeeds by [lem], the class constant
    is found. *)
Ltac init_succeeds_with call :=
  cbn [init];
  lazymatch goal with
  | |- succeeds ?t => let f := head_of t in unfold f
  end;
  apply succeeds_bind; [by apply accept_succeeds|intros _ _];
  cbv zeta;
  apply succeeds_bind; [call|];
  intros ? _; cbv beta;
  lazymatch goal with
  | |- succeeds (mbind _ (self_ABSTRACTION_LEVEL _)) =>
      apply succeeds_bind;
      [by apply self_ABSTRACTION_LEVEL_succeeds|intros ? _; cbv beta]
  | |- _ => idtac
  end;
  lazymatch goal with
  | |- succeeds (Ok _) => exact I
  | |- _ => idtac
  end.

Ltac init_succeeds lem :=
  init_succeeds_with
    ltac:(let H := fresh in
          pose proof lem as H; cbn [init] in H;
          apply H; [kwargs_dom | try assumption ..]).

(** An attribute a constructor computes with holds the keyword value or
    its numeric default. *)
Ltac computed_input Hnum :=
  repeat (apply numeric_setattr_ne; [discriminate|]);
  apply numeric_setattr_eq; apply arg_numeric;
  [ intros ? ?; eapply Hnum; [|eassumption];
    cbn [computed_inputs]; repeat first [by left | right]
  | eexists; reflexivity ].

Lemma raise_bind {A B} (k : A → result B) (r : result A) e :
  r = Raise e → r ≫= k = Raise e.
Proof. by intros ->. Qed.

Lemma new_rejects_unknown_keyword T S C (c : class)
  (kw : gmap string (pyval Q)) :
  ¬ dom kw ⊆ list_to_set (parameters c) →
  new T S C c kw = Raise TypeError.
Proof.
  intros Hdom. unfold new.
  destruct c; cbn [init];
    lazymatch goal with
    | |- ?t = _ => let f := head_of t in unfold f
    end;
    apply raise_bind; unfold accept; by rewrite decide_False.
Qed.

Section Totality.
Variable T :
  gmap string (pyval Q) → pyval Q → pyval Q → pyval Q
  → result (gmap string (pyval Q)).
Variable S : Q → string.
Variable C : Q → Q.
Hypothesis Htree : ∀ self m b i, succeeds (T self m b i).

Lemma MaterialProperty_init_succeeds cls self kw :
  dom kw ⊆ list_to_set (parameters MaterialProperty) →
  succeeds (init T S C MaterialProperty cls self kw).
Proof. intros Hdom. init_succeeds_with ltac:(apply Htree). Qed.

Lemma PropertyCategory_init_succeeds cls self kw :
  dom kw ⊆ list_to_set (parameters PropertyCategory) →
  succeeds (init T S C PropertyCategory cls self kw).
Proof. intros Hdom. init_succeeds MaterialProperty_init_succeeds. Qed.

Lemma MechanicalProperty_init_succeeds cls self kw :
  dom kw ⊆ list_to_set (parameters MechanicalProperty) →
  succeeds (init T S C MechanicalProperty cls self kw).
Proof. intros Hdom. init_succeeds PropertyCategory_init_succeeds. Qed.

Lemma RheologicalProperty_init_succeeds cls self kw :
  dom kw ⊆ list_to_set (parameters RheologicalProperty) →
  succeeds (init T S C RheologicalProperty cls self kw).
Proof. intros Hdom. init_succeeds PropertyCategory_init_succeeds. Qed.

Lemma SurfaceProperty_init_succeeds cls self kw :
  dom kw ⊆ list_to_set (parameters SurfaceProperty) →
  succeeds (init T S C SurfaceProperty cls self kw).
Proof. intros Hdom. init_succeeds PropertyCategory_init_succeeds. Qed.

Lemma ThermalProperty_init_succeeds cls self kw :
  dom kw ⊆ list_to_set (parameters ThermalProperty) →
  succeeds (init T S C ThermalProperty cls self kw).
Proof. intros Hdom. init_succeeds PropertyCategory_init_succeeds. Qed.

Lemma Hardness_init_succeeds cls self kw :
  dom kw ⊆ list_to_set (parameters Hardness) →
  is_Some (mro_lookup 6 cls) →
  succeeds (init T S C Hardness cls self kw).
Proof. intros Hdom Hl. init_succeeds MechanicalProperty_init_succeeds. Qed.

Lemma HardnessScale_init_succeeds cls self kw :
  dom kw ⊆ list_to_set (parameters HardnessScale) →
  is_Some (mro_lookup 6 cls) →
  succeeds (init T S C HardnessScale cls self kw).
Proof. intros Hdom Hl. init_succeeds Hardness_init_succeeds. Qed.

Lemma ShoreMeasurement_init_succeeds cls self kw :
  dom kw ⊆ list_to_set (parameters ShoreMeasurement) →
  is_Some (mro_lookup 6 cls) →
  succeeds (init T S C ShoreMeasurement cls self kw).
Proof. intros Hdom Hl. init_succeeds HardnessScale_init_succeeds. Qed.

Lemma TensileStrength_init_succeeds cls self kw :
  dom kw ⊆ list_to_set (parameters TensileStrength) →
  is_Some (mro_lookup 6 cls) →
  succeeds (init T S C TensileStrength cls self kw).
Proof. intros Hdom Hl. init_succeeds MechanicalProperty_init_succeeds. Qed.

Lemma UltimateTensileStrength_init_succeeds cls self kw :
  dom kw ⊆ list_to_set (parameters UltimateTensileStrength) →
  is_Some (mro_lookup 6 cls) →
  succeeds (init T S C UltimateTensileStrength cls self kw).
Proof. intros Hdom Hl. init_succeeds TensileStrength_init_succeeds. Qed.

Lemma TensileMeasurement_init_succeeds cls self kw :
  dom kw ⊆ list_to_set (parameters TensileMeasurement) →
  is_Some (mro_lookup 6 cls) →
  succeeds (init T S C TensileMeasurement cls self kw).
Proof. intros Hdom Hl. init_succeeds UltimateTensileStrength_init_succeeds. Qed.

Lemma SpecificGravity_init_succeeds cls self kw :
  dom kw ⊆ list_to_set (parameters SpecificGravity) →
  is_Some (mro_lookup 6 cls) →
  succeeds (init T S C SpecificGravity cls self kw).
Proof. intros Hdom Hl. init_succeeds MaterialProperty_init_succeeds. Qed.

Lemma DensityMeterMeasurement_init_succeeds cls self kw :
  dom kw ⊆ list_to_set (parameters DensityMeterMeasurement) →
  is_Some (mro_lookup 6 cls) →
  succeeds (init T S C DensityMeterMeasurement cls self kw).
Proof. intros Hdom Hl. init_succeeds SpecificGravity_init_succeeds. Qed.

Lemma HydrometerMeasurement_init_succeeds cls self kw :
  dom kw ⊆ list_to_set (parameters HydrometerMeasurement) →
  is_Some (mro_lookup 6 cls) →
  succeeds (init T S C HydrometerMeasurement cls self kw).
Proof. intros Hdom Hl. init_succeeds SpecificGravity_init_succeeds. Qed.

Lemma PycnometerMeasurement_init_succeeds cls self kw :
  dom kw ⊆ list_to_set (parameters PycnometerMeasurement) →
  is_Some (mro_lookup 6 cls) →
  succeeds (init T S C PycnometerMeasurement cls self kw).
Proof. intros Hdom Hl. init_succeeds SpecificGravity_init_succeeds. Qed.

Lemma ReferentialSpecificGravity_init_succeeds cls self kw :
  dom kw ⊆ list_to_set (parameters ReferentialSpecificGravity) →
  is_Some (mro_lookup 6 cls) →
  succeeds (init T S C ReferentialSpecificGravity cls self kw).
Proof. intros Hdom Hl. init_succeeds SpecificGravity_init_succeeds. Qed.

Lemma Elasticity_init_succeeds cls self kw :
  dom kw ⊆ list_to_set (parameters Elasticity) →
  is_Some (mro_lookup 6 cls) →
  succeeds (init T S C Elasticity cls self kw).
Proof. intros Hdom Hl. init_succeeds RheologicalProperty_init_succeeds. Qed.

Lemma StorageModulus_init_succeeds cls self kw :
  dom kw ⊆ list_to_set (parameters StorageModulus) →
  is_Some (mro_lookup 6 cls) →
  succeeds (init T S C StorageModulus cls self kw).
Proof. intros Hdom Hl. init_succeeds Elasticity_init_succeeds. Qed.

Lemma DMAMeasurement_init_succeeds cls self kw :
  dom kw ⊆ list_to_set (parameters DMAMeasurement) →
  is_Some (mro_lookup 6 cls) →
  succeeds (init T S C DMAMeasurement cls self kw).
Proof. intros Hdom Hl. init_succeeds StorageModulus_init_succeeds. Qed.

Lemma RheometerMeasurement_init_succeeds cls self kw :
  dom kw ⊆ list_to_set (parameters RheometerMeasurement) →
  is_Some (mro_lookup 6 cls) →
  succeeds (init T S C RheometerMeasurement cls self kw).
Proof. intros Hdom Hl. init_succeeds StorageModulus_init_succeeds. Qed.

Lemma MeltFlowIndex_init_succeeds cls self kw :
  dom kw ⊆ list_to_set (parameters MeltFlowIndex) →
  is_Some (mro_lookup 6 cls) →
  succeeds (init T S C MeltFlowIndex cls self kw).
Proof. intros Hdom Hl. init_succeeds RheologicalProperty_init_succeeds. Qed.

Lemma MFIValue_init_succeeds cls self kw :
  dom kw ⊆ list_to_set (parameters MFIValue) →
  is_Some (mro_lookup 6 cls) →
  succeeds (init T S C MFIValue cls self kw).
Proof. intros Hdom Hl. init_succeeds MeltFlowIndex_init_succeeds. Qed.

Lemma MFIMeasurement_init_succeeds cls self kw :
  dom kw ⊆ list_to_set (parameters MFIMeasurement) →
  is_Some (mro_lookup 6 cls) →
  numeric_inputs MFIMeasurement kw →
  succeeds (init T S C MFIMeasurement cls self kw).
Proof.
  intros Hdom Hl Hnum. init_succeeds MFIValue_init_succeeds.
  apply per_cut_rate_succeeds; computed_input Hnum.
Qed.

Lemma Viscosity_init_succeeds cls self kw :
  dom kw ⊆ list_to_set (parameters Viscosity) →
  is_Some (mro_lookup 6 cls) →
  succeeds (init T S C Viscosity cls self kw).
Proof. intros Hdom Hl. init_succeeds RheologicalProperty_init_succeeds. Qed.

Lemma KrebsViscosity_init_succeeds cls self kw :
  dom kw ⊆ list_to_set (parameters KrebsViscosity) →
  is_Some (mro_lookup 6 cls) →
  succeeds (init T S C KrebsViscosity cls self kw).
Proof. intros Hdom Hl. init_succeeds Viscosity_init_succeeds. Qed.

Lemma StormerViscosity_init_succeeds cls self kw :
  dom kw ⊆ list_to_set (parameters StormerViscosity) →
  is_Some (mro_lookup 6 cls) →
  succeeds (init T S C StormerViscosity cls self kw).
Proof. intros Hdom Hl. init_succeeds Viscosity_init_succeeds. Qed.

Lemma LiquidSurfaceTension_init_succeeds cls self kw :
  dom kw ⊆ list_to_set (parameters LiquidSurfaceTension) →
  is_Some (mro_lookup 6 cls) →
  succeeds (init T S C LiquidSurfaceTension cls self kw).
Proof. intros Hdom Hl. init_succeeds SurfaceProperty_init_succeeds. Qed.

Lemma SurfaceTensionValue_init_succeeds cls self kw :
  dom kw ⊆ list_to_set (parameters SurfaceTensionValue) →
  is_Some (mro_lookup 6 cls) →
  succeeds (init T S C SurfaceTensionValue cls self kw).
Proof. intros Hdom Hl. init_succeeds LiquidSurfaceTension_init_succeeds. Qed.

Lemma WilhelmyMeasurement_init_succeeds cls self kw :
  dom kw ⊆ list_to_set (parameters WilhelmyMeasurement) →
  is_Some (mro_lookup 6 cls) →
  numeric_inputs WilhelmyMeasurement kw →
  succeeds (init T S C WilhelmyMeasurement cls self kw).
Proof.
  intros Hdom Hl Hnum. init_succeeds SurfaceTensionValue_init_succeeds.
  apply calculate_surface_tension_succeeds; computed_input Hnum.
Qed.

Lemma SolidSurfaceEnergy_init_succeeds cls self kw :
  dom kw ⊆ list_to_set (parameters SolidSurfaceEnergy) →
  is_Some (mro_lookup 6 cls) →
  succeeds (init T S C SolidSurfaceEnergy cls self kw).
Proof. intros Hdom Hl. init_succeeds SurfaceProperty_init_succeeds. Qed.

Lemma CriticalSurfaceTension_init_succeeds cls self kw :
  dom kw ⊆ list_to_set (parameters CriticalSurfaceTension) →
  is_Some (mro_lookup 6 cls) →
  succeeds (init T S C CriticalSurfaceTension cls self kw).
Proof. intros Hdom Hl. init_succeeds SolidSurfaceEnergy_init_succeeds. Qed.

Lemma ContactAngleMeasurement_init_succeeds cls self kw :
  dom kw ⊆ list_to_set (parameters ContactAngleMeasurement) →
  is_Some (mro_lookup 6 cls) →
  succeeds (init T S C ContactAngleMeasurement cls self kw).
Proof. intros Hdom Hl. init_succeeds CriticalSurfaceTension_init_succeeds. Qed.

Lemma GlassTransition_init_succeeds cls self kw :
  dom kw ⊆ list_to_set (parameters GlassTransition) →
  is_Some (mro_lookup 6 cls) →
  succeeds (init T S C GlassTransition cls self kw).
Proof. intros Hdom Hl. init_succeeds ThermalProperty_init_succeeds. Qed.

Lemma GlassTransitionTemp_init_succeeds cls self kw :
  dom kw ⊆ list_to_set (parameters GlassTransitionTemp) →
  is_Some (mro_lookup 6 cls) →
  succeeds (init T S C GlassTransitionTemp cls self kw).
Proof. intros Hdom Hl. init_succeeds GlassTransition_init_succeeds. Qed.

Lemma DMAGlassTransitionMeasurement_init_succeeds cls self kw :
  dom kw ⊆ list_to_set (parameters DMAGlassTransitionMeasurement) →
  is_Some (mro_lookup 6 cls) →
  succeeds (init T S C DMAGlassTransitionMeasurement cls self kw).
Proof. intros Hdom Hl. init_succeeds GlassTransitionTemp_init_succeeds. Qed.

Lemma MeltingPoint_init_succeeds cls self kw :
  dom kw ⊆ list_to_set (parameters MeltingPoint) →
  is_Some (mro_lookup 6 cls) →
  succeeds (init T S C MeltingPoint cls self kw).
Proof. intros Hdom Hl. init_succeeds ThermalProperty_init_succeeds. Qed.

Lemma MeltingPointValue_init_succeeds cls self kw :
  dom kw ⊆ list_to_set (parameters MeltingPointValue) →
  is_Some (mro_lookup 6 cls) →
  succeeds (init T S C MeltingPointValue cls self kw).
Proof. intros Hdom Hl. init_succeeds MeltingPoint_init_succeeds. Qed.

Lemma DSCMeltingMeasurement_init_succeeds cls self kw :
  dom kw ⊆ list_to_set (parameters DSCMeltingMeasurement) →
  is_Some (mro_lookup 6 cls) →
  succeeds (init T S C DSCMeltingMeasurement cls self kw).
Proof. intros Hdom Hl. init_succeeds MeltingPointValue_init_succeeds. Qed.

Lemma SmokingPoint_init_succeeds cls self kw :
  dom kw ⊆ list_to_set (parameters SmokingPoint) →
  is_Some (mro_lookup 6 cls) →
  succeeds (init T S C SmokingPoint cls self kw).
Proof. intros Hdom Hl. init_succeeds ThermalProperty_init_succeeds. Qed.

Lemma SmokingPointValue_init_succeeds cls self kw :
  dom kw ⊆ list_to_set (parameters SmokingPointValue) →
  is_Some (mro_lookup 6 cls) →
  succeeds (init T S C SmokingPointValue cls self kw).
Proof. intros Hdom Hl. init_succeeds SmokingPoint_init_succeeds. Qed.

Lemma SmokingPointMeasurement_init_succeeds cls self kw :
  dom kw ⊆ list_to_set (parameters SmokingPointMeasurement) →
  is_Some (mro_lookup 6 cls) →
  succeeds (init T S C SmokingPointMeasurement cls self kw).
Proof. intros Hdom Hl. init_succeeds SmokingPointValue_init_succeeds. Qed.

Lemma ThermalExpansion_init_succeeds cls self kw :
  dom kw ⊆ list_to_set (parameters ThermalExpansion) →
  is_Some (mro_lookup 6 cls) →
  succeeds (init T S C ThermalExpansion cls self kw).
Proof. intros Hdom Hl. init_succeeds ThermalProperty_init_succeeds. Qed.

Lemma CoefficientOfThermalExpansion_init_succeeds cls self kw :
  dom kw ⊆ list_to_set (parameters CoefficientOfThermalExpansion) →
  is_Some (mro_lookup 6 cls) →
  succeeds (init T S C CoefficientOfThermalExpansion cls self kw).
Proof. intros Hdom Hl. init_succeeds ThermalExpansion_init_succeeds. Qed.

Lemma TMAMeasurement_init_succeeds cls self kw :
  dom kw ⊆ list_to_set (parameters TMAMeasurement) →
  is_Some (mro_lookup 6 cls) →
  succeeds (init T S C TMAMeasurement cls self kw).
Proof. intros Hdom Hl. init_succeeds CoefficientOfThermalExpansion_init_succeeds. Qed.

Lemma new_succeeds (c : class) (kw : gmap string (pyval Q)) :
  dom kw ⊆ list_to_set (parameters c) →
  numeric_inputs c kw →
  succeeds (new T S C c kw).
Proof.
  intros Hdom Hnum. unfold new. destruct c.
  - apply MaterialProperty_init_succeeds; first [assumption | by eexists].
  - apply PropertyCategory_init_succeeds; first [assumption | by eexists].
  - apply MechanicalProperty_init_succeeds; first [assumption | by eexists].
  - apply RheologicalProperty_init_succeeds; first [assumption | by eexists].
  - apply SurfaceProperty_init_succeeds; first [assumption | by eexists].
  - apply ThermalProperty_init_succeeds; first [assumption | by eexists].
  - apply Hardness_init_succeeds; first [assumption | by eexists].
  - apply HardnessScale_init_succeeds; first [assumption | by eexists].
  - apply ShoreMeasurement_init_succeeds; first [assumption | by eexists].
  - apply TensileStrength_init_succeeds; first [assumption | by eexists].
  - apply UltimateTensileStrength_init_succeeds; first [assumption | by eexists].
  - apply TensileMeasurement_init_succeeds; first [assumption | by eexists].
  - apply SpecificGravity_init_succeeds; first [assumption | by eexists].
  - apply DensityMeterMeasurement_init_succeeds; first [assumption | by eexists].
  - apply HydrometerMeasurement_init_succeeds; first [assumption | by eexists].
  - apply PycnometerMeasurement_init_succeeds; first [assumption | by eexists].
  - apply ReferentialSpecificGravity_init_succeeds; first [assumption | by eexists].
  - apply Elasticity_init_succeeds; first [assumption | by eexists].
  - apply StorageModulus_init_succeeds; first [assumption | by eexists].
  - apply DMAMeasurement_init_succeeds; first [assumption | by eexists].
  - apply RheometerMeasurement_init_succeeds; first [assumption | by eexists].
  - apply MeltFlowIndex_init_succeeds; first [assumption | by eexists].
  - apply MFIValue_init_succeeds; first [assumption | by eexists].
  - apply MFIMeasurement_init_succeeds; first [assumption | by eexists].
  - apply Viscosity_init_succeeds; first [assumption | by eexists].
  - apply KrebsViscosity_init_succeeds; first [assumption | by eexists].
  - apply StormerViscosity_init_succeeds; first [assumption | by eexists].
  - apply LiquidSurfaceTension_init_succeeds; first [assumption | by eexists].
  - apply SurfaceTensionValue_init_succeeds; first [assumption | by eexists].
  - apply WilhelmyMeasurement_init_succeeds; first [assumption | by eexists].
  - apply SolidSurfaceEnergy_init_succeeds; first [assumption | by eexists].
  - apply CriticalSurfaceTension_init_succeeds; first [assumption | by eexists].
  - apply ContactAngleMeasurement_init_succeeds; first [assumption | by eexists].
  - apply GlassTransition_init_succeeds; first [assumption | by eexists].
  - apply GlassTransitionTemp_init_succeeds; first [assumption | by eexists].
  - apply DMAGlassTransitionMeasurement_init_succeeds; first [assumption | by eexists].
  - apply MeltingPoint_init_succeeds; first [assumption | by eexists].
  - apply MeltingPointValue_init_succeeds; first [assumption | by eexists].
  - apply DSCMeltingMeasurement_init_succeeds; first [assumption | by eexists].
  - apply SmokingPoint_init_succeeds; first [assumption | by eexists].
  - apply SmokingPointValue_init_succeeds; first [assumption | by eexists].
  - apply SmokingPointMeasurement_init_succeeds; first [assumption | by eexists].
  - apply ThermalExpansion_init_succeeds; first [assumption | by eexists].
  - apply CoefficientOfThermalExpansion_init_succeeds; first [assumption | by eexists].
  - apply TMAMeasurement_init_succeeds; first [assumption | by eexists].
Qed.

(** X1. Given a framework initialiser that returns, constructing a
    property class succeeds whenever every keyword is a parameter of its
    [__init__] and the keywords the constructor computes with are
    numbers; a keyword that is not a parameter makes the call raise
    [TypeError]. *)
Theorem construction_succeeds_or_rejects (c : class)
  (kw : gmap string (pyval Q)) :
  numeric_inputs c kw →
  (dom kw ⊆ list_to_set (parameters c) → succeeds (new T S C c kw))
  ∧ (¬ dom kw ⊆ list_to_set (parameters c) →
     new T S C c kw = Raise TypeError).
Proof.
  intros Hnum. split.
  - intros Hdom. by apply new_succeeds.
  - apply new_rejects_unknown_keyword.
Qed.
End Totality.

Lemma construction_succeeds_or_rejects_witness :
  succeeds
    (new plain_treeObject__init__ plain_str_of_num (λ _, 1%Q) MFIMeasurement
       (kwargs [("extrusionTime", VNum 30%Q);
                ("extrudateMass", VNum 0.5%Q)])).
Proof.
  apply construction_succeeds_or_rejects.
  - intros self m b i. exact I.
  - intros k v Hin Hk. cbn [computed_inputs] in Hin.
    repeat (apply elem_of_cons in Hin as [->|Hin];
            [vm_compute in Hk; injection Hk as <-; eexists; reflexivity|]).
    by apply elem_of_nil in Hin.
  - kwargs_dom.
Defined.

(** ** Further properties of the derivations *)

Lemma fold_Qplus_acc (l : list Q) (a b : Q) :
  (a == b)%Q → (fold_left Qplus l a == fold_left Qplus l b)%Q.
Proof.
  revert a b. induction l as [|x l IH]; intros a b H; simpl; [done|].
  apply IH. by rewrite H.
Qed.

Lemma Qsum_perm (l l' : list Q) (a : Q) :
  l ≡ₚ l' → (fold_left Qplus l a == fold_left Qplus l' a)%Q.
Proof.
  intros H. revert a.
  induction H as [|x l l' _ IH|x y l|l l' l'' _ IH1 _ IH2]; intros a; simpl.
  - reflexivity.
  - apply IH.
  - apply fold_Qplus_acc. ring.
  - by rewrite IH1, IH2.
Qed.

Lemma mean_perm (l l' : list Q) : l ≡ₚ l' → (mean l == mean l')%Q.
Proof.
  intros H. unfold mean, Qsum.
  rewrite (Qsum_perm _ _ 0 H). by rewrite (Permutation_length H).
Qed.

Lemma peak_perm (l l' : list Q) : l ≡ₚ l' → (peak l == peak l')%Q.
Proof.
  intros H. unfold peak.
  destruct (fold_Qmax_bounds l 0) as (H0 & Hall & Hin).
  destruct (fold_Qmax_bounds l' 0) as (H0' & Hall' & Hin').
  cbv zeta in *. rewrite Forall_forall in Hall, Hall'.
  apply Qle_antisym.
  - destruct Hin as [->|Hin]; [done|]. apply Hall'. by rewrite <- H.
  - destruct Hin' as [->|Hin']; [done|]. apply Hall. by rewrite H.
Qed.

Lemma omap_perm {A B} (f : A → option B) (l l' : list A) :
  l ≡ₚ l' → omap f l ≡ₚ omap f l'.
Proof.
  induction 1 as [|x l l' _ IH|x y l|l l' l'' _ IH1 _ IH2]; simpl.
  - done.
  - destruct (f x); [by constructor|done].
  - destruct (f x), (f y); try done. apply perm_swap.
  - by rewrite IH1.
Qed.

Lemma aggregate_perm (d : derivation)
  (ms ms' : list (gmap string (pyval Q))) :
  ms ≡ₚ ms' →
  match aggregate d ms, aggregate d ms' with
  | Some q, Some q' => (q == q')%Q
  | None, None => True
  | _, _ => False
  end.
Proof.
  intros H. pose proof (omap_perm (contribution d) _ _ H) as Hl.
  unfold aggregate. cbv zeta. revert Hl.
  generalize (omap (contribution d) ms), (omap (contribution d) ms').
  intros l l' Hl.
  assert (l = [] ↔ l' = []) as Hnil.
  { split; intros ->; [by apply Permutation_nil_l in Hl
                      |by apply Permutation_nil_r in Hl]. }
  pose proof (mean_perm _ _ Hl) as Hmean.
  destruct d; try (by apply peak_perm); try done;
    destruct l as [|x l], l' as [|x' l']; try done;
    try (by destruct Hnil as [Hn _]; specialize (Hn eq_refl));
    try (by destruct Hnil as [_ Hn]; specialize (Hn eq_refl)).
  by rewrite Hmean.
Qed.

Lemma run_permutation (d : derivation)
  (self : gmap string (pyval Q)) (ms ms' : list (gmap string (pyval Q)))
  (v0 : pyval Q) :
  aggregating d →
  ms ≠ [] →
  Forall (admissible d) ms →
  self !! derived_field d = Some v0 →
  ms ≡ₚ ms' →
  ∃ v self1 v' self2,
    run d self ms = Ok (v, self1)
    ∧ run d self ms' = Ok (v', self2)
    ∧ same_value v v'
    ∧ (∀ k, k ≠ derived_field d → self1 !! k = self2 !! k).
Proof.
  intros Hd Hne Hadm Hv0 Hperm.
  assert (ms' ≠ []) as Hne'.
  { intros ->. by apply Permutation_nil_r in Hperm. }
  assert (Forall (admissible d) ms') as Hadm' by (by rewrite <- Hperm).
  rewrite (run_aggregate d self ms v0), (run_aggregate d self ms' v0) by done.
  pose proof (aggregate_perm d ms ms' Hperm) as H.
  destruct (aggregate d ms) as [q|], (aggregate d ms') as [q'|]; try done.
  - eexists _, _, _, _. repeat split; try done.
    intros k Hk. by rewrite !lookup_setattr_ne.
  - eexists _, _, _, _. repeat split; try done.
    unfold same_value. by destruct v0.
Qed.

(** X2. Read in exact arithmetic, the aggregating derivations do not
    depend on the order of the collection: on a permutation of the
    records they return and store the same number (possibly as a
    different fraction), or keep the stored value in both cases.  The
    program adds binary64 numbers, and there the order shows in the last
    place of a mean: 0.1, 0.2 and 0.3 average to 0.20000000000000004 in
    this order and to 0.19999999999999998 in the reverse order. *)
Theorem derivation_ignores_order :
  (∀ (d : derivation)
     (self : gmap string (pyval Q)) (ms ms' : list (gmap string (pyval Q)))
     (v0 : pyval Q),
     aggregating d →
     ms ≠ [] →
     Forall (admissible d) ms →
     self !! derived_field d = Some v0 →
     ms ≡ₚ ms' →
     ∃ v self1 v' self2,
       run d self ms = Ok (v, self1)
       ∧ run d self ms' = Ok (v', self2)
       ∧ same_value v v'
       ∧ (∀ k, k ≠ derived_field d → self1 !! k = self2 !! k))
  ∧ mean_binary64 [0.1; 0.2; 0.3]%float = 0.20000000000000004%float
  ∧ mean_binary64 [0.3; 0.2; 0.1]%float = 0.19999999999999998%float.
Proof.
  split; [apply run_permutation|]. split; reflexivity.
Qed.

Lemma derivation_ignores_order_witness :
  ∃ v self1 v' self2,
    run hardness_scale (receiver hardness_scale 10)
      [shore_reading 60; shore_reading 71] = Ok (v, self1)
    ∧ run hardness_scale (receiver hardness_scale 10)
        [shore_reading 71; shore_reading 60] = Ok (v', self2)
    ∧ same_value v v'
    ∧ (∀ k, k ≠ derived_field hardness_scale → self1 !! k = self2 !! k).
Proof.
  apply (proj1 derivation_ignores_order hardness_scale _ _ _ (VNum 10%Q)).
  - exact I.
  - discriminate.
  - concrete_numeric.
  - reflexivity.
  - apply perm_swap.
Defined.

Lemma run_idempotent (d : derivation)
  (self self' : gmap string (pyval Q)) (ms : list (gmap string (pyval Q)))
  (v0 v : pyval Q) :
  aggregating d →
  ms ≠ [] →
  Forall (admissible d) ms →
  self !! derived_field d = Some v0 →
  run d self ms = Ok (v, self') →
  run d self' ms = Ok (v, self').
Proof.
  intros Hd Hne Hadm Hv0 Hrun.
  rewrite (run_aggregate d self ms v0) in Hrun by done.
  destruct (aggregate d ms) as [q|] eqn:Hq.
  - injection Hrun as <- <-.
    rewrite (run_aggregate d _ ms (VNum q)); try done.
    + rewrite Hq. unfold setattr. by rewrite insert_insert_eq.
    + unfold setattr. by rewrite lookup_insert_eq.
  - injection Hrun as <- <-.
    rewrite (run_aggregate d self ms v0) by done. by rewrite Hq.
Qed.

(** X3. Running an aggregating derivation a second time on the same
    records returns the same value and leaves every object as the first
    run left it, provided the receiver is not itself one of the records.
    When it is, the first run changes a record of the second: of two
    plates at 72 and 74 mN/m, the first deriving its surface tension from
    both, the first run returns 73 and the second 73.5. *)
Theorem derivation_is_idempotent :
  (∀ (d : derivation) (store store' : gmap nat (gmap string (pyval Q)))
     (self : nat) (measurements : list nat) (v : pyval Q),
     aggregating d →
     measurements ≠ [] →
     self ∉ measurements →
     (∃ o v0, store !! self = Some o ∧ o !! derived_field d = Some v0) →
     Forall (λ l, ∃ m, store !! l = Some m ∧ admissible d m) measurements →
     run_in_store d store self measurements = Some (Ok (v, store')) →
     run_in_store d store' self measurements = Some (Ok (v, store')))
  ∧ match run_in_store surface_tension_value two_plates 0 [0; 1]%nat with
    | Some (Ok (VNum v, store')) =>
        (v == 73)%Q
        ∧ match
            run_in_store surface_tension_value store' 0 [0; 1]%nat
          with
          | Some (Ok (VNum v', _)) => (v' == 73.5)%Q
          | _ => False
          end
    | _ => False
    end.
Proof.
  split.
  - intros d store store' self ls v Hd Hne Hself (o & v0 & Ho & Hv0) Hadm H.
    unfold run_in_store in *. rewrite Ho in H.
    destruct (mapM (λ l, store !! l) ls) as [ms|] eqn:Hms; [|done].
    destruct (run d o ms) as [[w o']|e] eqn:Hrun; [|done].
    injection H as <- <-.
    apply mapM_Some in Hms.
    rewrite lookup_insert_eq.
    assert (mapM (λ l, <[self := o']> store !! l) ls = Some ms) as ->.
    { apply mapM_Some. clear -Hms Hself.
      induction Hms as [|l m ls' ms' Hl _ IH]; constructor.
      - rewrite lookup_insert_ne; [done|]. intros ->. apply Hself. by left.
      - apply IH. intros Hin. apply Hself. by right. }
    rewrite (run_idempotent d o o' ms v0 w); try done.
    + by rewrite insert_insert_eq.
    + intros ->. apply Forall2_nil_inv_r in Hms. done.
    + apply Forall_forall. intros m Hm.
      apply (list_elem_of_lookup_1 ms) in Hm as [i Hi].
      destruct (Forall2_lookup_r _ _ _ _ _ Hms Hi) as (l & Hl & Hlm).
      rewrite Forall_forall in Hadm.
      destruct (Hadm l) as (m' & Hm' & Hadm'); [by eapply list_elem_of_lookup_2|].
      congruence.
  - vm_compute. split; reflexivity.
Qed.

Lemma derivation_is_idempotent_witness :
  let store : gmap nat (gmap string (pyval Q)) :=
    {[ 0%nat := receiver krebs_viscosity 0;
       1%nat := stormer_reading 100 100;
       2%nat := stormer_reading 50 200 ]} in
  match run_in_store krebs_viscosity store 0 [1; 2]%nat with
  | Some (Ok (v, store')) =>
      run_in_store krebs_viscosity store' 0 [1; 2]%nat = Some (Ok (v, store'))
  | _ => False
  end.
Proof.
  intros store.
  assert (match run_in_store krebs_viscosity store 0 [1; 2]%nat with
          | Some (Ok _) => True
          | _ => False
          end) as Hok by (vm_compute; exact I).
  destruct (run_in_store krebs_viscosity store 0 [1; 2]%nat)
    as [[[v store']|e]|] eqn:H; [|destruct Hok..].
  apply (proj1 derivation_is_idempotent krebs_viscosity store store' 0%nat
             [1; 2]%nat v).
  - exact I.
  - discriminate.
  - apply (bool_decide_unpack _). reflexivity.
  - eexists _, (VNum 0%Q). split; reflexivity.
  - repeat constructor; eexists; (split; [reflexivity|concrete_numeric]).
  - exact H.
Defined.

Lemma Qsum_bounds (l : list Q) (lo hi a : Q) :
  Forall (λ x, (lo <= x)%Q ∧ (x <= hi)%Q) l →
  (a + lo * Qnat (length l) <= fold_left Qplus l a)%Q
  ∧ (fold_left Qplus l a <= a + hi * Qnat (length l))%Q.
Proof.
  intros H. revert a. induction H as [|x l [Hlo Hhi] _ IH]; intros a.
  - simpl. unfold Qnat. simpl. split; ring_simplify; apply Qle_refl.
  - simpl length. simpl fold_left. destruct (IH (a + x)%Q) as [IH1 IH2].
    assert (Qnat (S (length l)) == Qnat (length l) + 1)%Q as ->.
    { unfold Qnat. rewrite Nat2Z.inj_succ, <- Z.add_1_r, inject_Z_plus.
      reflexivity. }
    split.
    + eapply Qle_trans; [|exact IH1].
      assert (lo * (Qnat (length l) + 1) == lo * Qnat (length l) + lo)%Q
        as -> by ring.
      generalize (lo * Qnat (length l))%Q. intros t. Lqa.lra.
    + eapply Qle_trans; [exact IH2|].
      assert (hi * (Qnat (length l) + 1) == hi * Qnat (length l) + hi)%Q
        as -> by ring.
      generalize (hi * Qnat (length l))%Q. intros t. Lqa.lra.
Qed.

Lemma Qnat_pos n : (0 < Qnat (S n))%Q.
Proof. unfold Qnat, Qlt. simpl. lia. Qed.

Lemma mean_bounds (l : list Q) (lo hi : Q) :
  l ≠ [] →
  Forall (λ x, (lo <= x)%Q ∧ (x <= hi)%Q) l →
  (lo <= mean l)%Q ∧ (mean l <= hi)%Q.
Proof.
  intros Hne H. destruct (Qsum_bounds l lo hi 0 H) as [H1 H2].
  destruct l as [|x l]; [done|].
  pose proof (Qnat_pos (length l)) as Hn.
  unfold mean, Qsum. split.
  - apply Qle_shift_div_l; [done|]. Lqa.lra.
  - apply Qle_shift_div_r; [done|]. Lqa.lra.
Qed.

Lemma list_extremes (l : list Q) :
  l ≠ [] →
  ∃ lo hi, lo ∈ l ∧ hi ∈ l ∧ Forall (λ x, (lo <= x)%Q ∧ (x <= hi)%Q) l.
Proof.
  induction l as [|x l IH]; [done|]. intros _.
  destruct l as [|y l].
  - exists x, x. repeat split; try by left.
    constructor; [split; apply Qle_refl|constructor].
  - destruct IH as (lo & hi & Hlo & Hhi & Hall); [done|].
    exists (if Qlt_le_dec x lo then x else lo),
           (if Qlt_le_dec hi x then x else hi).
    split; [destruct (Qlt_le_dec x lo); [by left|by right]|].
    split; [destruct (Qlt_le_dec hi x); [by left|by right]|].
    assert (lo <= hi)%Q as Hlh.
    { rewrite Forall_forall in Hall. destruct (Hall lo Hlo). done. }
    constructor.
    + destruct (Qlt_le_dec x lo), (Qlt_le_dec hi x); split; Lqa.lra.
    + eapply Forall_impl; [exact Hall|]. intros z [Hz1 Hz2]. simpl.
      destruct (Qlt_le_dec x lo), (Qlt_le_dec hi x); split; Lqa.lra.
Qed.

Lemma contribution_positive (d : derivation)
  (m : gmap string (pyval Q)) (q : Q) :
  aggregating d → contribution d m = Some q → (0 < q)%Q.
Proof.
  intros Hd H.
  destruct d; cbn [contribution aggregating] in *;
    try exact (reading_positive _ _ _ H); try done.
  - unfold stormer_normalized in H.
    destruct (reading "grams" m) as [g|] eqn:Hg; [|done].
    destruct (reading "revolutions" m) as [r|] eqn:Hr; [|done].
    injection H as <-.
    apply reading_positive in Hg, Hr.
    apply Qmult_lt_0_compat; [done|].
    apply Qlt_shift_div_l; [done|]. Lqa.lra.
  - unfold mfi_rate in H.
    destruct (reading "extrudateMass" m) as [g|] eqn:Hg; [|done].
    destruct (reading "extrusionTime" m) as [r|] eqn:Hr; [|done].
    injection H as <-.
    apply reading_positive in Hg, Hr.
    apply Qmult_lt_0_compat; [|done].
    apply Qlt_shift_div_l; [done|]. Lqa.lra.
  - unfold stress_of in H.
    destruct (reading "forceN" m) as [f|] eqn:Hf; [|done].
    injection H as <-. apply reading_positive in Hf.
    apply Qlt_shift_div_l; [done|]. Lqa.lra.
Qed.

Lemma aggregate_bounds (d : derivation)
  (self : gmap string (pyval Q)) (ms : list (gmap string (pyval Q)))
  (v0 : pyval Q) (q : Q) :
  aggregating d →
  ms ≠ [] →
  Forall (admissible d) ms →
  self !! derived_field d = Some v0 →
  aggregate d ms = Some q →
  run d self ms = Ok (VNum q, setattr self (derived_field d) (VNum q))
  ∧ match d with
    | krebs_viscosity => (15.8 < q)%Q
    | ultimate_tensile_strength _ => (0 <= q)%Q
    | _ =>
        (0 < q)%Q
        ∧ ∃ lo hi,
            lo ∈ omap (contribution d) ms ∧ hi ∈ omap (contribution d) ms
            ∧ (lo <= q)%Q ∧ (q <= hi)%Q
    end.
Proof.
  intros Hd Hne Hadm Hv0 Hq.
  split; [by rewrite (run_aggregate d self ms v0), Hq|].
  assert (Forall (λ x, (0 < x)%Q) (omap (contribution d) ms)) as Hpos.
  { apply Forall_forall. intros x Hx.
    apply list_elem_of_omap in Hx as (m & _ & Hm).
    by eapply contribution_positive. }
  assert (∀ l : list Q, l ≠ [] → Forall (λ x, (0 < x)%Q) l →
          (0 < mean l)%Q
          ∧ ∃ lo hi, lo ∈ l ∧ hi ∈ l ∧ (lo <= mean l)%Q ∧ (mean l <= hi)%Q)
    as Hmean.
  { intros l Hl Hp.
    destruct (list_extremes l Hl) as (lo & hi & Hlo & Hhi & Hall).
    destruct (mean_bounds l lo hi Hl Hall) as [H1 H2].
    split; [|by exists lo, hi].
    rewrite Forall_forall in Hp. specialize (Hp lo Hlo). Lqa.lra. }
  unfold aggregate in Hq. cbv zeta in Hq.
  destruct d; try done;
    try (destruct (omap _ ms) as [|x l] eqn:E; [done|];
         injection Hq as <-; rewrite <- E in *;
         apply Hmean; [by rewrite E|done]).
  - destruct (omap _ ms) as [|x l] eqn:E; [done|].
    injection Hq as <-. rewrite <- E in *.
    destruct (Hmean (omap (contribution krebs_viscosity) ms)) as [Hm _];
      [by cbn [contribution]; rewrite E|done|].
    cbn [contribution] in Hm. Lqa.lra.
  - injection Hq as <-.
    by destruct (fold_Qmax_bounds
                   (omap (contribution (ultimate_tensile_strength
                                          cross_section_area_mm2)) ms) 0)
      as (H0 & _).
Qed.

(** X4. Read in exact arithmetic, what an aggregating derivation stores
    is bounded by the records: an arithmetic mean (hardness, specific
    gravity, surface tension, melt flow) lies between the smallest and
    the largest contribution and is positive, a Krebs viscosity exceeds
    15.8 KU, and a tensile strength is never negative.  The program adds
    binary64 numbers, and there a mean can leave the range of its
    contributions in the last place: three readings of 0.1 average to
    0.10000000000000002. *)
Theorem derived_value_bounds :
  (∀ (d : derivation)
     (self : gmap string (pyval Q)) (ms : list (gmap string (pyval Q)))
     (v0 : pyval Q) (q : Q),
     aggregating d →
     ms ≠ [] →
     Forall (admissible d) ms →
     self !! derived_field d = Some v0 →
     aggregate d ms = Some q →
     run d self ms = Ok (VNum q, setattr self (derived_field d) (VNum q))
     ∧ match d with
       | krebs_viscosity => (15.8 < q)%Q
       | ultimate_tensile_strength _ => (0 <= q)%Q
       | _ =>
           (0 < q)%Q
           ∧ ∃ lo hi,
               lo ∈ omap (contribution d) ms ∧ hi ∈ omap (contribution d) ms
               ∧ (lo <= q)%Q ∧ (q <= hi)%Q
       end)
  ∧ mean_binary64 [0.1; 0.1; 0.1]%float = 0.10000000000000002%float
  ∧ PrimFloat.ltb 0.1 (mean_binary64 [0.1; 0.1; 0.1]%float) = true.
Proof.
  split; [apply aggregate_bounds|]. split; reflexivity.
Qed.

Lemma derived_value_bounds_witness :
  ∃ q,
    run krebs_viscosity (receiver krebs_viscosity 0)
      [stormer_reading 100 100; stormer_reading 50 200]
    = Ok (VNum q, setattr (receiver krebs_viscosity 0) "viscosityKU" (VNum q))
    ∧ (15.8 < q)%Q.
Proof.
  eexists.
  apply (proj1 derived_value_bounds krebs_viscosity _ _ (VNum 0%Q)).
  - exact I.
  - discriminate.
  - concrete_numeric.
  - reflexivity.
  - reflexivity.
Defined.

(** ** Records the derivations fail on *)

Lemma mean_loop_app attr (ms1 ms2 : list (gmap string (pyval Q))) total count :
  mean_loop attr (ms1 ++ ms2) total count
  = mean_loop attr ms1 total count ≫= λ '(t, c), mean_loop attr ms2 t c.
Proof.
  revert total count. induction ms1 as [|m ms1 IH]; intros total count;
    simpl; [done|].
  destruct (hasattr m attr); [|apply IH].
  destruct (getattr m attr) as [v|e]; simpl; [|done].
  destruct (gt0 v) as [[]|e]; simpl; [|apply IH|done].
  destruct (as_num v) as [x|e]; simpl; [apply IH|done].
Qed.

Lemma krebs_loop_app (ms1 ms2 : list (gmap string (pyval Q))) total count :
  KrebsViscosity.loop (ms1 ++ ms2) total count
  = KrebsViscosity.loop ms1 total count
    ≫= λ '(t, c), KrebsViscosity.loop ms2 t c.
Proof.
  revert total count. induction ms1 as [|m ms1 IH]; intros total count;
    simpl; [done|].
  destruct (getattr m "grams") as [g|e]; simpl; [|done].
  destruct (gt0 g) as [[]|e]; simpl; [|apply IH|done].
  destruct (getattr m "revolutions") as [r|e]; simpl; [|done].
  destruct (gt0 r) as [[]|e]; simpl; [|apply IH|done].
  destruct (as_num g) as [x|e]; simpl; [|done].
  destruct (as_num r) as [y|e]; simpl; [|done].
  destruct (py_div 200 y) as [q|e]; simpl; [apply IH|done].
Qed.

Lemma mfi_loop_app (ms1 ms2 : list (gmap string (pyval Q))) total count :
  MFIValue.loop (ms1 ++ ms2) total count
  = MFIValue.loop ms1 total count ≫= λ '(t, c), MFIValue.loop ms2 t c.
Proof.
  revert total count. induction ms1 as [|m ms1 IH]; intros total count;
    simpl; [done|].
  destruct (getattr m "extrudateMass") as [g|e]; simpl; [|done].
  destruct (gt0 g) as [[]|e]; simpl; [|apply IH|done].
  destruct (getattr m "extrusionTime") as [r|e]; simpl; [|done].
  destruct (gt0 r) as [[]|e]; simpl; [|apply IH|done].
  destruct (as_num g) as [x|e]; simpl; [|done].
  destruct (as_num r) as [y|e]; simpl; [|done].
  destruct (py_div x y) as [q|e]; simpl; [apply IH|done].
Qed.

Lemma uts_loop_app area (ms1 ms2 : list (gmap string (pyval Q))) mx :
  UltimateTensileStrength.loop area (ms1 ++ ms2) mx
  = UltimateTensileStrength.loop area ms1 mx
    ≫= λ mx', UltimateTensileStrength.loop area ms2 mx'.
Proof.
  revert mx. induction ms1 as [|m ms1 IH]; intros mx; simpl; [done|].
  destruct (hasattr m "forceN"); [|apply IH].
  destruct (getattr m "forceN") as [v|e]; simpl; [|done].
  destruct (gt0 v) as [[]|e]; simpl; [|apply IH|done].
  destruct (as_num v) as [x|e]; simpl; [|done].
  destruct (py_div x area) as [q|e]; simpl; [|done].
  destruct (Qltb mx q); apply IH.
Qed.

Lemma run_raises (d : derivation) (self : gmap string (pyval Q))
  (ms1 ms2 : list (gmap string (pyval Q))) (e : exn) :
  aggregating d →
  Forall (admissible d) ms1 →
  ms2 ≠ [] →
  loop_raises d ms2 e →
  run d self (ms1 ++ ms2) = Raise e.
Proof.
  intros Hd Hadm Hne Hr.
  assert ((ms1 ++ ms2)%list ≠ []) as Hne'.
  { intros H. apply app_eq_nil in H as [_ H]. done. }
  destruct d; cbn [run loop_raises aggregating admissible] in *; try done.
  1-3: unfold HardnessScale.calculate_from_measurements,
         ReferentialSpecificGravity.calculate_from_measurements,
         SurfaceTensionValue.calculate_from_measurements, mean_derivation;
       destruct (ms1 ++ ms2)%list eqn:E; [done|]; rewrite <- E;
       rewrite mean_loop_app, (mean_loop_spec _ _ _ _ Hadm);
       cbn [mbind result_bind]; by rewrite Hr.
  - unfold KrebsViscosity.calculate_from_stormer_measurements.
    destruct (ms1 ++ ms2)%list eqn:E; [done|]. rewrite <- E.
    rewrite krebs_loop_app, (krebs_loop_spec _ _ _ Hadm).
    cbn [mbind result_bind]. by rewrite Hr.
  - unfold MFIValue.calculate_from_measurements.
    destruct (ms1 ++ ms2)%list eqn:E; [done|]. rewrite <- E.
    rewrite mfi_loop_app, (mfi_loop_spec _ _ _ Hadm).
    cbn [mbind result_bind]. by rewrite Hr.
  - unfold UltimateTensileStrength.calculate_from_measurements.
    destruct (ms1 ++ ms2)%list eqn:E; [done|]. rewrite <- E.
    rewrite (Qle_bool_false _ _ Hd). cbn [orb].
    apply Qltb_lt in Hd.
    rewrite uts_loop_app, (uts_loop_spec _ _ _ Hd Hadm).
    cbn [mbind result_bind]. by rewrite Hr.
Qed.

(** X5. Krebs viscosity and melt flow index read their attributes without
    a guard: the first record that lacks [grams] (or [extrudateMass]), or
    that holds a positive value there and lacks [revolutions] (or
    [extrusionTime]), makes the call raise [AttributeError] for that
    attribute, whatever follows it. *)
Theorem unguarded_read_raises (d : derivation)
  (self : gmap string (pyval Q)) (ms1 ms2 : list (gmap string (pyval Q)))
  (m : gmap string (pyval Q)) (first second : string) :
  (d = krebs_viscosity ∧ first = "grams" ∧ second = "revolutions")
  ∨ (d = mfi_value ∧ first = "extrudateMass" ∧ second = "extrusionTime") →
  Forall (admissible d) ms1 →
  (m !! first = None →
   run d self (ms1 ++ m :: ms2) = Raise (AttributeError first))
  ∧ (∀ v x, m !! first = Some v → as_num v = Ok x → (0 < x)%Q →
            m !! second = None →
            run d self (ms1 ++ m :: ms2) = Raise (AttributeError second)).
Proof.
  intros Hd Hadm. split.
  - intros Hm. apply run_raises; try done.
    + by destruct Hd as [(-> & _)|(-> & _)].
    + destruct Hd as [(-> & -> & _)|(-> & -> & _)]; intros t c; simpl;
        unfold getattr; by rewrite Hm.
  - intros v x Hv Hx Hpos Hm. apply run_raises; try done.
    + by destruct Hd as [(-> & _)|(-> & _)].
    + apply Qltb_lt in Hpos.
      destruct Hd as [(-> & -> & ->)|(-> & -> & ->)]; intros t c; simpl;
        unfold getattr; rewrite Hv; simpl;
        rewrite (gt0_as_num _ _ Hx), Hpos; simpl; by rewrite Hm.
Qed.

Lemma unguarded_read_raises_witness :
  run krebs_viscosity (receiver krebs_viscosity 3)
    ([stormer_reading 100 100] ++ shore_reading 50 :: [])
  = Raise (AttributeError "grams").
Proof.
  apply (unguarded_read_raises krebs_viscosity _
           [stormer_reading 100 100] [] (shore_reading 50)
           "grams" "revolutions").
  - left. by repeat split.
  - concrete_numeric.
  - reflexivity.
Defined.

Lemma Qltb_nonpos x : (x <= 0)%Q → Qltb 0 x = false.
Proof.
  intros Hle. destruct (Qltb 0 x) eqn:E; [|done]. apply Qltb_lt in E.
  exfalso. eapply Qlt_not_le; eauto.
Qed.

(** X6. A non-positive first attribute ends the test of a record: Krebs
    viscosity and melt flow index then skip it without reading the second
    attribute, so the record may lack it.  Wherever the record stands in
    the collection and whatever the other records hold, the call does
    what it does on the collection without that record. *)
Theorem short_circuit_skips_second_read (d : derivation)
  (self : gmap string (pyval Q)) (ms1 ms2 : list (gmap string (pyval Q)))
  (m : gmap string (pyval Q)) (first : string) (v : pyval Q) (x : Q) :
  (d = krebs_viscosity ∧ first = "grams")
  ∨ (d = mfi_value ∧ first = "extrudateMass") →
  m !! first = Some v → as_num v = Ok x → (x <= 0)%Q →
  run d self (ms1 ++ m :: ms2) = run d self (ms1 ++ ms2).
Proof.
  intros Hd Hv Hx Hle.
  pose proof (Qltb_nonpos x Hle) as Hf.
  apply getattr_Ok in Hv.
  assert (∀ t c, d = krebs_viscosity →
            KrebsViscosity.loop (m :: ms2) t c = KrebsViscosity.loop ms2 t c)
    as Hk.
  { intros t c ->. destruct Hd as [(_ & ->)|(? & _)]; [|done].
    simpl. rewrite Hv. simpl. by rewrite (gt0_as_num _ _ Hx), Hf. }
  assert (∀ t c, d = mfi_value →
            MFIValue.loop (m :: ms2) t c = MFIValue.loop ms2 t c) as Hm.
  { intros t c ->. destruct Hd as [(? & _)|(_ & ->)]; [done|].
    simpl. rewrite Hv. simpl. by rewrite (gt0_as_num _ _ Hx), Hf. }
  destruct Hd as [(-> & _)|(-> & _)]; cbn [run].
  - unfold KrebsViscosity.calculate_from_stormer_measurements.
    destruct ms1 as [|m1 ms1].
    + cbn [app]. rewrite Hk by done. destruct ms2 as [|m2 ms2]; [|done].
      cbn [KrebsViscosity.loop mbind result_bind Nat.ltb Nat.leb]. done.
    + rewrite <- !app_comm_cons.
      change (m1 :: (ms1 ++ m :: ms2)%list)
        with ((m1 :: ms1) ++ m :: ms2)%list.
      change (m1 :: (ms1 ++ ms2)%list) with ((m1 :: ms1) ++ ms2)%list.
      rewrite !krebs_loop_app.
      destruct (KrebsViscosity.loop (m1 :: ms1) 0 0) as [[t c]|e]; [|done].
      cbn [mbind result_bind]. by rewrite Hk.
  - unfold MFIValue.calculate_from_measurements.
    destruct ms1 as [|m1 ms1].
    + cbn [app]. rewrite Hm by done. destruct ms2 as [|m2 ms2]; [|done].
      cbn [MFIValue.loop mbind result_bind Nat.ltb Nat.leb]. done.
    + rewrite <- !app_comm_cons.
      change (m1 :: (ms1 ++ m :: ms2)%list)
        with ((m1 :: ms1) ++ m :: ms2)%list.
      change (m1 :: (ms1 ++ ms2)%list) with ((m1 :: ms1) ++ ms2)%list.
      rewrite !mfi_loop_app.
      destruct (MFIValue.loop (m1 :: ms1) 0 0) as [[t c]|e]; [|done].
      cbn [mbind result_bind]. by rewrite Hm.
Qed.

Lemma short_circuit_skips_second_read_witness :
  run krebs_viscosity (receiver krebs_viscosity 3)
    ([stormer_reading 100 100] ++ {[ "grams" := VNum 0%Q ]}
       :: [stormer_reading 50 200])
  = run krebs_viscosity (receiver krebs_viscosity 3)
      ([stormer_reading 100 100] ++ [stormer_reading 50 200]).
Proof.
  apply (short_circuit_skips_second_read krebs_viscosity _ _ _ _ "grams"
           (VNum 0%Q) 0%Q).
  - by left.
  - reflexivity.
  - reflexivity.
  - discriminate.
Defined.

(** X7. The guard of the arithmetic means and of the tensile derivation
    covers a missing attribute only: a record whose expected attribute
    holds a string or [None] makes the call raise [TypeError] at the
    comparison with 0. *)
Theorem non_numeric_attribute_raises (d : derivation)
  (self : gmap string (pyval Q)) (ms1 ms2 : list (gmap string (pyval Q)))
  (m : gmap string (pyval Q)) (attr : string) (v : pyval Q) :
  aggregating d →
  expected_fields d = [attr] →
  Forall (admissible d) ms1 →
  m !! attr = Some v →
  (v = VNone ∨ ∃ s, v = VStr s) →
  run d self (ms1 ++ m :: ms2) = Raise TypeError.
Proof.
  intros Hd Hf Hadm Hv Hbad. apply run_raises; try done.
  assert (gt0 v = Raise TypeError) as Hgt.
  { by destruct Hbad as [->|[s ->]]. }
  destruct d; cbn [expected_fields] in Hf; try discriminate Hf;
    injection Hf as <-; cbn [loop_raises]; intros; simpl;
    unfold hasattr, getattr; rewrite Hv; simpl; by rewrite Hgt.
Qed.

Lemma non_numeric_attribute_raises_witness :
  run hardness_scale (receiver hardness_scale 3)
    ([shore_reading 40] ++ {[ "hardnessReading" := VStr "55" ]} :: [])
  = Raise TypeError.
Proof.
  apply (non_numeric_attribute_raises hardness_scale _ _ _ _
           "hardnessReading" (VStr "55")).
  - exact I.
  - reflexivity.
  - concrete_numeric.
  - reflexivity.
  - right. by eexists.
Defined.

(** ** Thermal expansion: input order and missing attributes *)

Lemma insert_by_key_head x l :
  Forall (key_le x) l → insert_by_key x l = x :: l.
Proof.
  destruct l as [|y l]; [done|]. intros H%Forall_cons_1. destruct H as [H _].
  simpl. apply Qle_bool_iff in H. by rewrite H.
Qed.

Lemma insert_by_key_last x l z :
  last l = Some z → key_le x z → last (insert_by_key x l) = Some z.
Proof.
  revert z. induction l as [|y l IH]; intros z Hl Hx; [done|].
  simpl. destruct (Qle_bool (fst x) (fst y)) eqn:E.
  - by rewrite !last_cons_cons.
  - destruct l as [|y' l].
    + simpl in Hl. injection Hl as ->.
      apply Qle_bool_iff in Hx. congruence.
    + rewrite last_cons_cons in Hl. specialize (IH z Hl Hx).
      destruct (insert_by_key x (y' :: l)) as [|w l'] eqn:Ei; [done|].
      by rewrite last_cons_cons.
Qed.

Lemma sorted_by_key_head x l :
  Forall (key_le x) l → head (sorted_by_key (x :: l)) = Some x.
Proof.
  intros H. simpl. rewrite insert_by_key_head; [done|].
  by rewrite sorted_by_key_perm.
Qed.

Lemma sorted_by_key_last l z :
  Forall (λ x, key_le x z) l → last (sorted_by_key (l ++ [z])) = Some z.
Proof.
  induction 1 as [|x l Hx _ IH]; [done|].
  simpl. by apply insert_by_key_last.
Qed.

(** The method on a collection whose sorted ends are known. *)
Lemma cte_with_ends (self : gmap string (pyval Q))
  (ms sorted_ms : list (gmap string (pyval Q)))
  (coldest hottest : gmap string (pyval Q)) (L : Q) (v0 lo hi : pyval Q) :
  (2 <= length ms)%nat →
  (0 < L)%Q →
  sorted ms = Ok sorted_ms →
  head sorted_ms = Some coldest →
  last sorted_ms = Some hottest →
  numeric "temperatureC" coldest → numeric "dimensionChangeMicron" coldest →
  numeric "temperatureC" hottest → numeric "dimensionChangeMicron" hottest →
  coldest !! "temperatureC" = Some lo →
  hottest !! "temperatureC" = Some hi →
  self !! "ctePpmPerC" = Some v0 →
  let delta_L := (num_attr "dimensionChangeMicron" hottest
                  - num_attr "dimensionChangeMicron" coldest)%Q in
  let delta_T := (num_attr "temperatureC" hottest
                  - num_attr "temperatureC" coldest)%Q in
  let cte := cte_slope delta_L L delta_T in
  calculate_from_measurements self ms L
  = Ok (if Qltb 0 delta_T
        then (VNum cte,
              setattr
                (setattr (setattr self "ctePpmPerC" (VNum cte))
                   "temperatureRangeLowC" lo)
                "temperatureRangeHighC" hi)
        else (v0, self)).
Proof.
  intros Hlen HL Hsort Hhd Hlast Hct Hcd Hht Hhd' Hlo Hhi Hv0
         delta_L delta_T cte.
  unfold calculate_from_measurements.
  destruct ms as [|m1 [|m2 ms']]; simpl in Hlen; try lia.
  change (length (m1 :: m2 :: ms') <? 2)%nat with false.
  rewrite (Qle_bool_false _ _ HL). cbn [orb].
  rewrite Hsort. cbn [mbind result_bind].
  unfold index_first, index_last. rewrite Hhd, Hlast.
  cbn [mbind result_bind].
  rewrite (attr_diff_spec _ _ _ Hhd' Hcd), (attr_diff_spec _ _ _ Hht Hct).
  cbn [mbind result_bind]. fold delta_L delta_T.
  apply getattr_Ok in Hlo, Hhi, Hv0.
  destruct (Qltb 0 delta_T) eqn:E.
  - rewrite py_div_pos.
    2:{ apply Qltb_lt. apply Qmult_lt_0_compat; [done|reflexivity]. }
    cbn [mbind result_bind]. rewrite (py_div_pos _ _ E).
    cbn [mbind result_bind]. rewrite Hlo. cbn [mbind result_bind].
    rewrite Hhi. cbn [mbind result_bind].
    unfold getattr. rewrite !lookup_setattr_ne by done.
    unfold setattr. by rewrite lookup_insert_eq.
  - cbn [mbind result_bind]. by rewrite Hv0.
Qed.

Lemma cte_ordered_input (self : gmap string (pyval Q))
  (first last_ : gmap string (pyval Q))
  (between : list (gmap string (pyval Q))) (L : Q) (v0 lo hi : pyval Q) :
  let ms := first :: between ++ [last_] in
  (0 < L)%Q →
  Forall (admissible (coefficient_of_thermal_expansion L)) ms →
  Forall (λ m, temp_le first m ∧ temp_le m last_) ms →
  first !! "temperatureC" = Some lo →
  last_ !! "temperatureC" = Some hi →
  self !! "ctePpmPerC" = Some v0 →
  let delta_L := (num_attr "dimensionChangeMicron" last_
                  - num_attr "dimensionChangeMicron" first)%Q in
  let delta_T := (num_attr "temperatureC" last_
                  - num_attr "temperatureC" first)%Q in
  let cte := cte_slope delta_L L delta_T in
  calculate_from_measurements self ms L
  = Ok (if Qltb 0 delta_T
        then (VNum cte,
              setattr
                (setattr (setattr self "ctePpmPerC" (VNum cte))
                   "temperatureRangeLowC" lo)
                "temperatureRangeHighC" hi)
        else (v0, self)).
Proof.
  intros ms HL Hadm Hord Hlo Hhi Hv0.
  cbn [admissible] in Hadm.
  assert (Forall (numeric "temperatureC") ms) as Htemp.
  { eapply Forall_impl; [exact Hadm|]. by intros m [H _]. }
  pose proof (sorted_spec ms Htemp) as Hsort.
  assert (first ∈ ms) as Hf by (by left).
  assert (last_ ∈ ms) as Hl.
  { right. apply elem_of_app. right. by left. }
  rewrite Forall_forall in Hadm.
  destruct (Hadm _ Hf) as [Hft Hfd]. destruct (Hadm _ Hl) as [Hlt Hld].
  apply (cte_with_ends self ms (map snd (sorted_by_key (decorate ms)))
           first last_ L v0 lo hi); try done.
  - subst ms. rewrite length_cons, length_app. simpl. lia.
  - unfold decorate. subst ms. cbn [map sorted_by_key foldr].
    rewrite insert_by_key_head; [done|].
    rewrite sorted_by_key_perm.
    apply Forall_forall. intros p Hp.
    apply list_elem_of_fmap in Hp as (m & -> & Hm).
    rewrite Forall_forall in Hord.
    destruct (Hord m) as [H _]; [by right|]. exact H.
  - unfold decorate. subst ms.
    rewrite app_comm_cons, map_app.
    change (map snd ?l) with (snd <$> l). rewrite fmap_last.
    change (map ?f [last_]) with [f last_].
    rewrite sorted_by_key_last; [done|].
    apply Forall_forall. intros p Hp.
    apply list_elem_of_fmap in Hp as (m & -> & Hm).
    rewrite Forall_forall in Hord.
    destruct (Hord m) as [_ H]; [|exact H].
    apply elem_of_cons in Hm as [->|Hm]; [by left|].
    right. apply elem_of_app. by left.
Qed.

(** X8. On a collection whose first reading is a coldest one and whose
    last reading is a hottest one, as a heating ramp recorded in order
    is, the thermal-expansion derivation uses exactly the first and the
    last reading of the input, whatever lies between. *)
Theorem cte_uses_ends_of_ordered_input (self : gmap string (pyval Q))
  (first last_ : gmap string (pyval Q))
  (between : list (gmap string (pyval Q))) (L : Q) (v0 lo hi : pyval Q) :
  let ms := first :: between ++ [last_] in
  (0 < L)%Q →
  Forall (admissible (coefficient_of_thermal_expansion L)) ms →
  Forall (λ m, temp_le first m ∧ temp_le m last_) ms →
  first !! "temperatureC" = Some lo →
  last_ !! "temperatureC" = Some hi →
  self !! "ctePpmPerC" = Some v0 →
  let delta_L := (num_attr "dimensionChangeMicron" last_
                  - num_attr "dimensionChangeMicron" first)%Q in
  let delta_T := (num_attr "temperatureC" last_
                  - num_attr "temperatureC" first)%Q in
  let cte := cte_slope delta_L L delta_T in
  calculate_from_measurements self ms L
  = Ok (if Qltb 0 delta_T
        then (VNum cte,
              setattr
                (setattr (setattr self "ctePpmPerC" (VNum cte))
                   "temperatureRangeLowC" lo)
                "temperatureRangeHighC" hi)
        else (v0, self)).
Proof. apply cte_ordered_input. Qed.

Lemma cte_uses_ends_of_ordered_input_witness :
  let self := receiver (coefficient_of_thermal_expansion 10) 0 in
  let delta_L := (num_attr "dimensionChangeMicron" (tma_point 125 50)
                  - num_attr "dimensionChangeMicron" (tma_point 25 0))%Q in
  let delta_T := (num_attr "temperatureC" (tma_point 125 50)
                  - num_attr "temperatureC" (tma_point 25 0))%Q in
  let cte := cte_slope delta_L 10 delta_T in
  calculate_from_measurements self
    (tma_point 25 0 :: [tma_point 60 31; tma_point 25 4] ++ [tma_point 125 50])
    10
  = Ok (if Qltb 0 delta_T
        then (VNum cte,
              setattr
                (setattr (setattr self "ctePpmPerC" (VNum cte))
                   "temperatureRangeLowC" (VNum 25%Q))
                "temperatureRangeHighC" (VNum 125%Q))
        else (VNum 0%Q, self)).
Proof.
  apply (cte_uses_ends_of_ordered_input _ (tma_point 25 0) (tma_point 125 50)
           [tma_point 60 31; tma_point 25 4] 10%Q).
  - reflexivity.
  - concrete_numeric.
  - repeat constructor; by vm_compute.
  - reflexivity.
  - reflexivity.
  - reflexivity.
Defined.

Lemma keys_of_missing (ms1 ms2 : list (gmap string (pyval Q)))
  (m : gmap string (pyval Q)) :
  Forall (λ m', is_Some (m' !! "temperatureC")) ms1 →
  m !! "temperatureC" = None →
  keys_of (ms1 ++ m :: ms2) = Raise (AttributeError "temperatureC").
Proof.
  intros H Hm. induction H as [|m' ms1 [v Hv] _ IH]; simpl.
  - unfold getattr. by rewrite Hm.
  - unfold getattr at 1. rewrite Hv. simpl. by rewrite IH.
Qed.

(** X9. The sort key is read on every record before anything else is
    done: with two or more readings and a positive length, the first
    record without [temperatureC] makes the thermal-expansion derivation
    raise [AttributeError], wherever it stands and whatever the other
    records hold. *)
Theorem cte_missing_temperature_raises (self : gmap string (pyval Q))
  (ms1 ms2 : list (gmap string (pyval Q))) (m : gmap string (pyval Q))
  (L : Q) :
  (2 <= length (ms1 ++ m :: ms2))%nat →
  (0 < L)%Q →
  Forall (λ m', is_Some (m' !! "temperatureC")) ms1 →
  m !! "temperatureC" = None →
  calculate_from_measurements self (ms1 ++ m :: ms2) L
  = Raise (AttributeError "temperatureC").
Proof.
  intros Hlen HL Hms1 Hm.
  unfold calculate_from_measurements.
  destruct (ms1 ++ m :: ms2)%list as [|m1 [|m2 ms']] eqn:E;
    simpl in Hlen; try lia.
  change (length (m1 :: m2 :: ms') <? 2)%nat with false.
  rewrite (Qle_bool_false _ _ HL). cbn [orb].
  rewrite <- E. unfold sorted. by rewrite keys_of_missing.
Qed.

Lemma cte_missing_temperature_raises_witness :
  calculate_from_measurements (receiver (coefficient_of_thermal_expansion 10) 0)
    ([tma_point 25 0; tma_point 125 50] ++ shore_reading 50 :: []) 10
  = Raise (AttributeError "temperatureC").
Proof.
  apply cte_missing_temperature_raises.
  - simpl. lia.
  - reflexivity.
  - repeat constructor; by eexists.
  - reflexivity.
Defined.

(** ** C2: the records that do not count *)

Lemma numeric_if_present_dec attr (m : gmap string (pyval Q)) :
  numeric_if_present attr m
  ∨ ∃ v, m !! attr = Some v ∧ (v = VNone ∨ ∃ s, v = VStr s).
Proof.
  unfold numeric_if_present. destruct (m !! attr) as [v|]; [|by left].
  destruct v as [|b|x|s].
  - right. exists VNone. split; [done|by left].
  - left. intros ? [= <-]. by eexists.
  - left. intros ? [= <-]. by eexists.
  - right. exists (VStr s). split; [done|]. right. by exists s.
Qed.

(** The first record that holds something else than a number. *)
Lemma first_non_numeric attr (ms : list (gmap string (pyval Q))) :
  ¬ Forall (numeric_if_present attr) ms →
  ∃ ms1 m ms2 v,
    ms = (ms1 ++ m :: ms2)%list
    ∧ Forall (numeric_if_present attr) ms1
    ∧ m !! attr = Some v ∧ (v = VNone ∨ ∃ s, v = VStr s).
Proof.
  induction ms as [|m ms IH]; intros Hn.
  - destruct Hn. constructor.
  - destruct (numeric_if_present_dec attr m) as [Hm|(v & Hv & Hbad)].
    + destruct IH as (ms1 & m' & ms2 & v & -> & H1 & Hv & Hbad).
      { intros H. apply Hn. by constructor. }
      exists (m :: ms1), m', ms2, v. repeat split; try done.
      by constructor.
    + exists [], m, ms, v. repeat split; try done.
Qed.

Lemma guarded_raises_on_non_number (d : derivation)
  (self : gmap string (pyval Q)) (ms : list (gmap string (pyval Q)))
  (attr : string) :
  aggregating d →
  expected_fields d = [attr] →
  ¬ Forall (admissible d) ms →
  run d self ms = Raise TypeError.
Proof.
  intros Hd Hf Hn.
  assert (admissible d = numeric_if_present attr) as Hadm.
  { destruct d; cbn [expected_fields] in Hf; try discriminate Hf;
      by injection Hf as <-. }
  rewrite Hadm in Hn.
  destruct (first_non_numeric attr ms Hn)
    as (ms1 & m & ms2 & v & -> & H1 & Hv & Hbad).
  apply run_raises; try done; [by rewrite Hadm|].
  assert (gt0 v = Raise TypeError) as Hgt.
  { by destruct Hbad as [->|[s ->]]. }
  destruct d; cbn [expected_fields] in Hf; try discriminate Hf;
    injection Hf as <-; cbn [loop_raises]; intros; simpl;
    unfold hasattr, getattr; rewrite Hv; simpl; by rewrite Hgt.
Qed.

(** C2, as the code has it.  For the aggregating derivations (the three
    arithmetic means, Krebs viscosity, melt flow index and, on a positive
    cross-section, tensile strength) and a non-empty collection of records
    they are written for, the call completes without raising; the stored
    and returned value is the aggregate of the contributions of the
    records, or the stored value is kept when there is none; a record
    that lacks an expected attribute or holds a non-positive value in it
    contributes nothing; and a record that contributes nothing can be
    dropped from the collection without changing the aggregate.  The
    guarded derivations (the means and tensile strength) are written for
    any record whose expected attribute is a number when present, and
    raise TypeError on every collection that holds a record with
    something else there; the unguarded ones (Krebs, melt flow) are
    written for records that carry their two attributes as numbers, and
    raise AttributeError at the first record that lacks the first of
    them.  The thermal-expansion derivation applies no such filter: of two
    readings at different temperatures it uses both, whatever the sign of
    their values. *)
Theorem records_that_do_not_count_are_skipped :
  (∀ (d : derivation) (self : gmap string (pyval Q))
     (ms : list (gmap string (pyval Q))) (v0 : pyval Q),
     aggregating d →
     ms ≠ [] →
     Forall (admissible d) ms →
     self !! derived_field d = Some v0 →
     run d self ms
     = Ok (match aggregate d ms with
           | Some q => (VNum q, setattr self (derived_field d) (VNum q))
           | None => (v0, self)
           end))
  ∧ (∀ (d : derivation) m attr,
       attr ∈ expected_fields d →
       m !! attr = None
       ∨ (∃ v x, m !! attr = Some v ∧ as_num v = Ok x ∧ (x <= 0)%Q) →
       contribution d m = None)
  ∧ (∀ (d : derivation) ms1 m ms2,
       contribution d m = None →
       aggregate d (ms1 ++ m :: ms2) = aggregate d (ms1 ++ ms2))
  ∧ (∀ (d : derivation) (self : gmap string (pyval Q))
       (ms : list (gmap string (pyval Q))) (attr : string),
       aggregating d →
       expected_fields d = [attr] →
       ¬ Forall (admissible d) ms →
       run d self ms = Raise TypeError)
  ∧ (∀ (d : derivation) (self : gmap string (pyval Q))
       (ms1 ms2 : list (gmap string (pyval Q)))
       (m : gmap string (pyval Q)) (first : string),
       (d = krebs_viscosity ∧ first = "grams")
       ∨ (d = mfi_value ∧ first = "extrudateMass") →
       Forall (admissible d) ms1 →
       m !! first = None →
       run d self (ms1 ++ m :: ms2) = Raise (AttributeError first))
  ∧ (∀ (self colder hotter : gmap string (pyval Q)) (L : Q)
       (v0 lo hi : pyval Q),
       (0 < L)%Q →
       admissible (coefficient_of_thermal_expansion L) colder →
       admissible (coefficient_of_thermal_expansion L) hotter →
       colder !! "temperatureC" = Some lo →
       hotter !! "temperatureC" = Some hi →
       self !! "ctePpmPerC" = Some v0 →
       let delta_L := (num_attr "dimensionChangeMicron" hotter
                       - num_attr "dimensionChangeMicron" colder)%Q in
       let delta_T := (num_attr "temperatureC" hotter
                       - num_attr "temperatureC" colder)%Q in
       let cte := cte_slope delta_L L delta_T in
       (0 < delta_T)%Q →
       calculate_from_measurements self [colder; hotter] L
       = Ok (VNum cte,
             setattr
               (setattr (setattr self "ctePpmPerC" (VNum cte))
                  "temperatureRangeLowC" lo)
               "temperatureRangeHighC" hi)).
Proof.
  split; [|split; [|split; [|split; [|split]]]].
  - intros d self ms v0. apply run_aggregate.
  - intros d m attr. apply contribution_none.
  - intros d ms1 m ms2. apply aggregate_skip.
  - intros d self ms attr. apply guarded_raises_on_non_number.
  - intros d self ms1 ms2 m first Hd Hadm Hm.
    apply run_raises; try done.
    + by destruct Hd as [(-> & _)|(-> & _)].
    + destruct Hd as [(-> & ->)|(-> & ->)]; intros t c; simpl;
        unfold getattr; by rewrite Hm.
  - intros self colder hotter L v0 lo hi HL Hc Hh Hlo Hhi Hv0
      delta_L delta_T cte HT.
    assert (Forall (admissible (coefficient_of_thermal_expansion L))
              [colder; hotter]) as Hadm
      by (constructor; [exact Hc|constructor; [exact Hh|constructor]]).
    assert (Forall (λ m, temp_le colder m ∧ temp_le m hotter)
              [colder; hotter]) as Hord.
    { assert (temp_le colder hotter) as Hle.
      { unfold temp_le. unfold delta_T in HT. Lqa.lra. }
      constructor; [split; [apply Qle_refl|exact Hle]|].
      constructor; [split; [exact Hle|apply Qle_refl]|constructor]. }
    pose proof (cte_ordered_input self colder hotter [] L v0 lo hi
                  HL Hadm Hord Hlo Hhi Hv0) as H.
    cbv zeta in H. cbn [app] in H.
    unfold cte, delta_L, delta_T in *.
    apply Qltb_lt in HT. by rewrite HT in H.
Qed.

Lemma records_that_do_not_count_are_skipped_witness :
  let d := hardness_scale in
  let self := receiver d 10 in
  let ms := [shore_reading 60; ∅; shore_reading (-5); shore_reading 70] in
  run d self ms
  = Ok (match aggregate d ms with
        | Some q => (VNum q, setattr self (derived_field d) (VNum q))
        | None => (VNum 10%Q, self)
        end).
Proof.
  apply (proj1 records_that_do_not_count_are_skipped hardness_scale).
  - exact I.
  - discriminate.
  - concrete_numeric.
  - reflexivity.
Defined.

(** ** Conversions carried by single objects *)

Lemma attr_num_spec attr (self : gmap string (pyval Q)) :
  numeric attr self → attr_num self attr = Ok (num_attr attr self).
Proof.
  intros (v & Hv & Hx)%numeric_num_attr. unfold attr_num.
  apply getattr_Ok in Hv. by rewrite Hv.
Qed.

Lemma numeric_getattr_num attr (self : gmap string (pyval Q)) :
  numeric attr self →
  ∃ v, getattr self attr = Ok v ∧ as_num v = Ok (num_attr attr self).
Proof.
  intros (v & Hv & Hx)%numeric_num_attr. exists v. by rewrite getattr_Ok.
Qed.

(** Rewrites the numeric reads of a method body on a receiver whose
    inputs are numbers. *)
Ltac read_inputs :=
  repeat match goal with
  | H : numeric ?a ?s |- context [attr_num ?s ?a] =>
      rewrite (attr_num_spec a s H)
  | |- context [mbind _ (Ok _)] => cbn [mbind result_bind]
  end.

Lemma Qltb_false_le x y : Qltb x y = false → (y <= x)%Q.
Proof.
  unfold Qltb. rewrite negb_false_iff. apply Qle_bool_iff.
Qed.

Lemma guarded_ratio_spec field num den
  (self : gmap string (pyval Q)) (v0 : pyval Q) :
  numeric num self → numeric den self →
  self !! field = Some v0 →
  guarded_ratio field num den self
  = Ok (if Qltb 0 (num_attr den self)
        then (VNum (num_attr num self / num_attr den self)%Q,
              setattr self field
                (VNum (num_attr num self / num_attr den self)%Q))
        else (v0, self)).
Proof.
  intros Hn Hd Hv0. apply getattr_Ok in Hv0.
  unfold guarded_ratio. read_inputs.
  destruct (Qltb 0 (num_attr den self)) eqn:E.
  - read_inputs. rewrite (py_div_pos _ _ E). cbn [mbind result_bind].
    by rewrite getattr_setattr.
  - cbn [mbind result_bind]. by rewrite Hv0.
Qed.

Lemma convert_spec (c : conversion) (self : gmap string (pyval Q))
  (v0 : pyval Q) :
  Forall (λ attr, numeric attr self) (conversion_inputs c) →
  self !! converted_field c = Some v0 →
  convert c self
  = Ok (match converted c self with
        | Some q => (VNum q, setattr self (converted_field c) (VNum q))
        | None => (v0, self)
        end).
Proof.
  intros Hin Hv0.
  destruct c; cbn [conversion_inputs converted_field convert converted] in *;
    repeat (apply Forall_cons_1 in Hin as [? Hin]).
  - apply getattr_Ok in Hv0.
    unfold PycnometerMeasurement.calculate_specific_gravity.
    destruct (numeric_getattr_num _ _ H) as (rw & -> & Hrw).
    destruct (numeric_getattr_num _ _ H0) as (ew & -> & Hew).
    cbn [mbind result_bind]. rewrite Hrw, Hew. read_inputs.
    destruct (Qltb 0 _) eqn:E.
    + rewrite (py_div_pos _ _ E). cbn [mbind result_bind].
      by rewrite getattr_setattr.
    + cbn [mbind result_bind]. by rewrite Hv0.
  - apply getattr_Ok in Hv0.
    unfold DensityMeterMeasurement.calculate_specific_gravity. read_inputs.
    destruct (Qltb 0 (num_attr "referenceDensity" self)) eqn:E;
      cbn [andb]; [|cbn [mbind result_bind]; by rewrite Hv0].
    read_inputs.
    destruct (Qltb 0 (num_attr "densityValue" self)) eqn:E';
      [|cbn [mbind result_bind]; by rewrite Hv0].
    read_inputs. rewrite (py_div_pos _ _ E). cbn [mbind result_bind].
    by rewrite getattr_setattr.
  - unfold StorageModulus.calculate_loss_factor.
    rewrite (guarded_ratio_spec _ _ _ _ v0) by done.
    by destruct (Qltb 0 _).
  - unfold DMAGlassTransitionMeasurement.calculate_tan_delta.
    rewrite (guarded_ratio_spec _ _ _ _ v0) by done.
    by destruct (Qltb 0 _).
  - apply getattr_Ok in Hv0.
    unfold MeltingPointValue.calculate_crystallinity.
    destruct (Qltb 0 reference_heat_of_fusion) eqn:E.
    + read_inputs. rewrite (py_div_pos _ _ E). cbn [mbind result_bind].
      by rewrite getattr_setattr.
    + cbn [mbind result_bind]. by rewrite Hv0.
  - apply getattr_Ok in Hv0.
    unfold ContactAngleMeasurement.calculate_average_angle. read_inputs.
    destruct (Qltb 0 (num_attr "leftAngle" self)) eqn:E;
      cbn [andb]; [|cbn [mbind result_bind]; by rewrite Hv0].
    read_inputs.
    destruct (Qltb 0 (num_attr "rightAngle" self)) eqn:E';
      [|cbn [mbind result_bind]; by rewrite Hv0].
    read_inputs. rewrite py_div_pos by done. cbn [mbind result_bind].
    by rewrite getattr_setattr.
Qed.

Lemma getattr_Raise {F} (o : gmap string (pyval F)) attr e :
  getattr o attr = Raise e → e = AttributeError attr.
Proof. unfold getattr. destruct (o !! attr); congruence. Qed.

(** X10. A guarded conversion never raises ZeroDivisionError, whatever
    its receiver holds: the division is reached only behind the test that
    the divisor is positive. *)
Theorem guarded_conversion_never_divides_by_zero (c : conversion)
  (self : gmap string (pyval Q)) :
  convert c self ≠ Raise ZeroDivisionError.
Proof.
  destruct c; cbn [convert];
    unfold PycnometerMeasurement.calculate_specific_gravity,
      DensityMeterMeasurement.calculate_specific_gravity,
      StorageModulus.calculate_loss_factor,
      DMAGlassTransitionMeasurement.calculate_tan_delta,
      MeltingPointValue.calculate_crystallinity,
      ContactAngleMeasurement.calculate_average_angle,
      guarded_ratio, attr_num;
    repeat first
      [ discriminate
      | rewrite getattr_setattr
      | match goal with
        | H : getattr ?o ?a = Raise ?e |- Raise ?e ≠ _ =>
            rewrite (getattr_Raise o a e H); discriminate
        | H : Qltb 0 ?y = true |- context [py_div ?x ?y] =>
            rewrite (py_div_pos x y H)
        | |- context [py_div ?x 2] =>
            rewrite (py_div_pos x 2) by reflexivity
        | |- context [mbind _ (getattr self ?a)] =>
            let v := fresh "v" in
            destruct (getattr self a) as [v|] eqn:?;
            [destruct v|]; cbn [mbind result_bind as_num]
        | |- context [Qltb 0 ?x] =>
            destruct (Qltb 0 x) eqn:?; cbn [mbind result_bind andb]
        end
      | progress cbn [mbind result_bind] ].
Qed.

Lemma convert_frame (c : conversion) (self self' : gmap string (pyval Q))
  (v : pyval Q) :
  convert c self = Ok (v, self') →
  self' !! converted_field c = Some v
  ∧ ∀ k, k ≠ converted_field c → self' !! k = self !! k.
Proof.
  intros H. destruct c; cbn [convert converted_field] in *;
    unfold PycnometerMeasurement.calculate_specific_gravity,
      DensityMeterMeasurement.calculate_specific_gravity,
      StorageModulus.calculate_loss_factor,
      DMAGlassTransitionMeasurement.calculate_tan_delta,
      MeltingPointValue.calculate_crystallinity,
      ContactAngleMeasurement.calculate_average_angle,
      guarded_ratio in H;
    repeat match goal with
    | H : context [if ?b then _ else _] |- _ => destruct b
    | _ => progress invert_run
    end;
    match goal with
    | H : getattr _ _ = Ok v |- _ => apply getattr_Ok in H
    end;
    (split; [done|]); intros k Hk; by rewrite ?lookup_setattr_ne.
Qed.

(** X11. A guarded conversion that returns has touched no attribute of
    its receiver but the one it reports, and returns what that attribute
    holds afterwards. *)
Theorem conversion_touches_only_its_field (c : conversion)
  (self self' : gmap string (pyval Q)) (v : pyval Q) :
  convert c self = Ok (v, self') →
  self' !! converted_field c = Some v
  ∧ ∀ k, k ≠ converted_field c → self' !! k = self !! k.
Proof. apply convert_frame. Qed.

Lemma conversion_touches_only_its_field_witness :
  let self : gmap string (pyval Q) :=
    {[ "leftAngle" := VNum 70%Q; "rightAngle" := VNum 74%Q;
       "contactAngle" := VNum 0%Q; "liquidName" := VStr "water" ]} in
  ∃ v self',
    convert average_angle self = Ok (v, self')
    ∧ self' !! "contactAngle" = Some v
    ∧ self' !! "liquidName" = Some (VStr "water").
Proof.
  intros self.
  assert (E := convert_spec average_angle self (VNum 0%Q)).
  destruct (match converted average_angle self with
            | Some q => (VNum q, setattr self (converted_field average_angle)
                                   (VNum q))
            | None => (VNum 0%Q, self)
            end) as [v self'].
  exists v, self'.
  assert (convert average_angle self = Ok (v, self')) as Hrun.
  { apply E; [repeat constructor; concrete_numeric | reflexivity]. }
  split; [exact Hrun|].
  destruct (conversion_touches_only_its_field average_angle self self' v Hrun)
    as [Hv Hk].
  split; [exact Hv|]. rewrite Hk by done. reflexivity.
Defined.

(** X12. On a receiver whose inputs are numbers, a guarded conversion
    stores and returns the quotient when its guard holds, and otherwise
    returns the stored value with the receiver as it was. *)
Theorem conversion_stores_quotient_or_keeps (c : conversion)
  (self : gmap string (pyval Q)) (v0 : pyval Q) :
  Forall (λ attr, numeric attr self) (conversion_inputs c) →
  self !! converted_field c = Some v0 →
  convert c self
  = Ok (match converted c self with
        | Some q => (VNum q, setattr self (converted_field c) (VNum q))
        | None => (v0, self)
        end).
Proof. apply convert_spec. Qed.

Lemma conversion_stores_quotient_or_keeps_witness :
  let self : gmap string (pyval Q) :=
    {[ "emptyWeight" := VNum 30%Q; "referenceWeight" := VNum 30%Q;
       "sampleWeight" := VNum 42%Q; "specificGravityValue" := VNum 1%Q ]} in
  convert pycnometer_specific_gravity self = Ok (VNum 1%Q, self).
Proof.
  intros self.
  apply (conversion_stores_quotient_or_keeps pycnometer_specific_gravity
           self (VNum 1%Q)).
  - repeat constructor; concrete_numeric.
  - reflexivity.
Defined.

(** ** Specific gravity: from the measurement to the property *)

Lemma specific_gravity_method_stores f
  (m m' : gmap string (pyval Q)) (v : pyval Q) :
  f ∈ specific_gravity_methods →
  f m = Ok (v, m') → m' !! "specificGravityValue" = Some v.
Proof.
  unfold specific_gravity_methods. rewrite !elem_of_cons, elem_of_nil.
  intros [->|[->|[->|[]]]] H.
  - by apply (convert_frame pycnometer_specific_gravity) in H as [? _].
  - by apply (convert_frame density_meter_specific_gravity) in H as [? _].
  - unfold HydrometerMeasurement.convert_to_specific_gravity in H.
    apply bind_Ok_inv in H as (self' & _ & H).
    apply bind_Ok_inv in H as (w & Hw & H).
    apply getattr_Ok in Hw. congruence.
Qed.

Lemma reading_stored attr (m : gmap string (pyval Q)) q :
  m !! attr = Some (VNum q) → (0 < q)%Q → reading attr m = Some q.
Proof.
  intros Hm Hq. unfold reading. rewrite Hm. simpl. unfold positive_num.
  simpl. apply Qltb_lt in Hq. by rewrite Hq.
Qed.

(** X13. The specific gravities that the measurement methods return are
    the numbers the property-level derivation averages: when every
    measurement of a non-empty collection has been converted by one of
    the three methods and returned a positive number, the derivation over
    the converted measurements stores the mean of the returned numbers. *)
Theorem specific_gravity_is_mean_of_conversions
  (self : gmap string (pyval Q))
  (ms : list (gmap string (pyval Q)))
  (converted_ms : list (Q * gmap string (pyval Q))) :
  ms ≠ [] →
  Forall2 (λ m r, (0 < r.1)%Q
                  ∧ ∃ f, f ∈ specific_gravity_methods
                         ∧ f m = Ok (VNum r.1, r.2))
          ms converted_ms →
  ReferentialSpecificGravity.calculate_from_measurements self
    (converted_ms.*2)
  = Ok (VNum (mean (converted_ms.*1)),
        setattr self "specificGravityValue"
          (VNum (mean (converted_ms.*1)))).
Proof.
  intros Hne Hconv.
  assert (Forall (λ r, r.2 !! "specificGravityValue" = Some (VNum r.1)
                       ∧ (0 < r.1)%Q) converted_ms) as Hst.
  { clear Hne. induction Hconv as [|m r ms rs (Hpos & f & Hf & Hrun) _ IH];
      constructor; [|done].
    split; [|done]. by eapply specific_gravity_method_stores. }
  assert (converted_ms ≠ []) as Hne'.
  { intros ->. apply Forall2_nil_inv_r in Hconv. done. }
  clear Hconv Hne.
  unfold ReferentialSpecificGravity.calculate_from_measurements.
  rewrite mean_derivation_spec.
  - assert (omap (reading "specificGravityValue") (converted_ms.*2)
            = converted_ms.*1) as ->.
    { clear Hne'. induction Hst as [|r rs [Hr Hpos] _ IH]; [done|]. simpl.
      rewrite (reading_stored _ _ _ Hr Hpos). simpl. f_equal. exact IH. }
    destruct converted_ms as [|r rs]; [done|]. reflexivity.
  - by destruct converted_ms.
  - apply Forall_fmap. eapply Forall_impl; [exact Hst|].
    intros r [Hr _] v Hv. simpl in Hv. rewrite Hr in Hv.
    injection Hv as <-. by eexists.
Qed.

Lemma specific_gravity_is_mean_of_conversions_witness :
  let m : gmap string (pyval Q) :=
    {[ "emptyWeight" := VNum 30%Q; "referenceWeight" := VNum 40%Q;
       "sampleWeight" := VNum 42%Q; "specificGravityValue" := VNum 1%Q ]} in
  let q := ((42 - 30) / (40 - 30))%Q in
  let m' := setattr m "specificGravityValue" (VNum q) in
  let self := receiver referential_specific_gravity 0 in
  ReferentialSpecificGravity.calculate_from_measurements self [m']
  = Ok (VNum (mean [q]),
        setattr self "specificGravityValue" (VNum (mean [q]))).
Proof.
  intros m q m' self.
  apply (specific_gravity_is_mean_of_conversions self [m] [(q, m')]).
  - done.
  - constructor; [|constructor]. split; [reflexivity|].
    exists PycnometerMeasurement.calculate_specific_gravity.
    split; [by left|].
    apply (convert_spec pycnometer_specific_gravity m (VNum 1%Q)).
    + repeat constructor; concrete_numeric.
    + reflexivity.
Defined.

(** ** The hydrometer scales *)

Import HydrometerMeasurement.

Lemma hydrometer_scale (self : gmap string (pyval Q)) (s : string) :
  self !! "scaleType" = Some (VStr s) →
  getattr self "scaleType" = Ok (VStr s).
Proof. apply getattr_Ok. Qed.

(** X14. The two hydrometer scales without a guard divide by zero: a
    light Baume reading of -130 and an API reading of -131.5 raise
    ZeroDivisionError, while the heavy Baume scale, guarded by
    [scaleReading < 145], never does. *)
Theorem hydrometer_unguarded_scales_divide_by_zero
  (self : gmap string (pyval Q)) (s : string) (r : Q) :
  self !! "scaleType" = Some (VStr s) →
  self !! "scaleReading" = Some (VNum r) →
  (s = "Baume_light" → (r == -130)%Q →
   convert_to_specific_gravity self = Raise ZeroDivisionError)
  ∧ (s = "API" → (r == -131.5)%Q →
     convert_to_specific_gravity self = Raise ZeroDivisionError)
  ∧ (s = "Baume_heavy" →
     convert_to_specific_gravity self ≠ Raise ZeroDivisionError).
Proof.
  intros Hs%getattr_Ok Hr%getattr_Ok.
  unfold convert_to_specific_gravity, attr_num.
  rewrite Hs. cbn [mbind result_bind is_str].
  split; [|split]; intros -> .
  - intros Hz. cbn [String.eqb Ascii.eqb Bool.eqb]. rewrite Hr.
    cbn [mbind result_bind as_num]. unfold py_div.
    assert (Qeq_bool (130 + r) 0 = true) as ->; [|done].
    apply Qeq_bool_iff. rewrite Hz. reflexivity.
  - intros Hz. cbn [String.eqb Ascii.eqb Bool.eqb]. rewrite Hr.
    cbn [mbind result_bind as_num]. unfold py_div.
    assert (Qeq_bool (131.5 + r) 0 = true) as ->; [|done].
    apply Qeq_bool_iff. rewrite Hz. reflexivity.
  - cbn [String.eqb Ascii.eqb Bool.eqb]. rewrite Hr.
    cbn [mbind result_bind as_num].
    destruct (Qltb r 145) eqn:E; cbn [mbind result_bind].
    + assert (Qltb 0 (145 - r) = true) as Hpos.
      { apply Qltb_lt. apply Qltb_lt in E. Lqa.lra. }
      rewrite (py_div_pos _ _ Hpos). cbn [mbind result_bind].
      by rewrite getattr_setattr.
    + destruct (getattr self "specificGravityValue") as [w|e] eqn:Hw;
        cbn [mbind result_bind]; [done|].
      by rewrite (getattr_Raise _ _ _ Hw).
Qed.

Lemma hydrometer_unguarded_scales_divide_by_zero_witness :
  convert_to_specific_gravity
    {[ "scaleType" := VStr "API"; "scaleReading" := VNum (-131.5)%Q;
       "specificGravityValue" := VNum 1%Q ]}
  = Raise ZeroDivisionError.
Proof.
  refine (proj1 (proj2 (hydrometer_unguarded_scales_divide_by_zero
                          _ "API" (-131.5)%Q _ _)) _ _);
    reflexivity.
Defined.

(** X15. A scale name other than the three Baume and API names is read
    as specific gravity: the reading, whatever it holds, is copied to
    [specificGravityValue] and returned. *)
Theorem hydrometer_unknown_scale_copies_reading
  (self : gmap string (pyval Q)) (s : string) (v : pyval Q) :
  self !! "scaleType" = Some (VStr s) →
  self !! "scaleReading" = Some v →
  s ∉ ["Baume_heavy"; "Baume_light"; "API"] →
  convert_to_specific_gravity self
  = Ok (v, setattr self "specificGravityValue" v).
Proof.
  intros Hs%getattr_Ok Hr%getattr_Ok Hn.
  assert (∀ t, t ∈ ["Baume_heavy"; "Baume_light"; "API"] →
               String.eqb s t = false) as Hne.
  { intros t Ht. apply String.eqb_neq. by intros ->. }
  unfold convert_to_specific_gravity.
  rewrite Hs. cbn [mbind result_bind is_str].
  destruct (String.eqb s "SG").
  - rewrite Hr. cbn [mbind result_bind]. by rewrite getattr_setattr.
  - rewrite !Hne by (repeat first [by left | right]).
    rewrite Hr. cbn [mbind result_bind]. by rewrite getattr_setattr.
Qed.

Lemma hydrometer_unknown_scale_copies_reading_witness :
  let self : gmap string (pyval Q) :=
    {[ "scaleType" := VStr "Brix"; "scaleReading" := VStr "n/a";
       "specificGravityValue" := VNum 1%Q ]} in
  convert_to_specific_gravity self
  = Ok (VStr "n/a", setattr self "specificGravityValue" (VStr "n/a")).
Proof.
  intros self.
  apply (hydrometer_unknown_scale_copies_reading self "Brix").
  - reflexivity.
  - reflexivity.
  - apply (bool_decide_unpack _). reflexivity.
Defined.

(** ** Tensile readings: from the measurement to the property *)

Lemma Qmax_skip acc s : (s <= acc)%Q → Qmax acc s = acc.
Proof.
  intros H. unfold Qmax, Qltb. apply Qle_bool_iff in H. by rewrite H.
Qed.

Lemma Qmax_ge acc s : (acc <= Qmax acc s)%Q.
Proof.
  destruct (Qmax_cases acc s) as [[-> _]|[-> H]];
    [apply Qle_refl | by apply Qlt_le_weak].
Qed.

Lemma Qdiv_nonpos f a : (f <= 0)%Q → (0 < a)%Q → (f / a <= 0)%Q.
Proof.
  intros Hf Ha. unfold Qdiv.
  assert (0 <= / a)%Q by (apply Qlt_le_weak, Qinv_lt_0_compat, Ha).
  assert (0 <= (- f) * / a)%Q by (apply Qmult_le_0_compat; [Lqa.lra|done]).
  assert ((- f) * / a == - (f * / a))%Q by ring. Lqa.lra.
Qed.

(** The readings that do not count cannot raise the running maximum. *)
Lemma peak_of_all_stresses area (ms : list (gmap string (pyval Q))) acc :
  (0 < area)%Q → (0 <= acc)%Q →
  Forall (numeric "forceN") ms →
  fold_left Qmax (omap (stress_of area) ms) acc
  = fold_left Qmax (map (λ m, (num_attr "forceN" m / area)%Q) ms) acc.
Proof.
  intros Ha Hacc Hnum. revert acc Hacc.
  induction Hnum as [|m ms Hm _ IH]; intros acc Hacc; [done|].
  destruct (numeric_num_attr _ _ Hm) as (v & Hv & Hx).
  cbn [map fold_left omap list_omap]. unfold stress_of at 1, reading at 1.
  rewrite Hv. cbn [mbind option_bind]. unfold positive_num. rewrite Hx.
  destruct (Qltb 0 (num_attr "forceN" m)) eqn:E; cbn [mbind option_bind].
  - cbn [fold_left]. apply IH.
    apply Qle_trans with acc; [done|apply Qmax_ge].
  - rewrite (Qmax_skip acc (num_attr "forceN" m / area)).
    + by apply IH.
    + apply Qle_trans with 0%Q; [|done].
      apply Qdiv_nonpos; [|done]. by apply Qltb_false_le.
Qed.

Lemma engineering_stress_spec (m : gmap string (pyval Q)) (w t : Q) :
  m !! "specimenWidth" = Some (VNum w) →
  m !! "specimenThickness" = Some (VNum t) →
  numeric "forceN" m →
  (0 < w * t)%Q →
  TensileMeasurement.calculate_engineering_stress m
  = Ok (num_attr "forceN" m / (w * t))%Q.
Proof.
  intros Hw%getattr_Ok Ht%getattr_Ok Hf Ha%Qltb_lt.
  unfold TensileMeasurement.calculate_engineering_stress.
  rewrite Hw, Ht. cbn [mbind result_bind as_num]. rewrite Ha.
  rewrite (attr_num_spec _ _ Hf). cbn [mbind result_bind].
  by apply py_div_pos.
Qed.

(** X16. The ultimate tensile strength derived from readings taken on
    one specimen, at the cross-section of that specimen, is the largest
    of the engineering stresses the readings compute for themselves, or
    0.0 when none of them is positive. *)
Theorem uts_is_peak_of_engineering_stresses
  (self : gmap string (pyval Q)) (ms : list (gmap string (pyval Q)))
  (w t : Q) :
  ms ≠ [] →
  (0 < w * t)%Q →
  Forall (λ m, m !! "specimenWidth" = Some (VNum w)
               ∧ m !! "specimenThickness" = Some (VNum t)
               ∧ numeric "forceN" m) ms →
  ∃ stresses,
    Forall2 (λ m s, TensileMeasurement.calculate_engineering_stress m = Ok s)
      ms stresses
    ∧ UltimateTensileStrength.calculate_from_measurements self ms (w * t)
      = Ok (VNum (peak stresses),
            setattr self "utsMPa" (VNum (peak stresses))).
Proof.
  intros Hne Ha Hms.
  exists (map (λ m, (num_attr "forceN" m / (w * t))%Q) ms). split.
  - clear Hne. induction Hms as [|m ms (Hw & Ht & Hf) _ IH]; simpl;
      constructor; [|done].
    by apply engineering_stress_spec.
  - rewrite uts_spec; [|done..|].
    + unfold peak. rewrite peak_of_all_stresses; [done..|idtac|].
      * apply Qle_refl.
      * eapply Forall_impl; [exact Hms|]. by intros m (_ & _ & H).
    + eapply Forall_impl; [exact Hms|].
      intros m (_ & _ & (v & x & Hv & Hx)) v' Hv'.
      rewrite Hv in Hv'. injection Hv' as <-. by exists x.
Qed.

Lemma uts_is_peak_of_engineering_stresses_witness :
  let pull (f : Q) : gmap string (pyval Q) :=
    {[ "specimenWidth" := VNum 10%Q; "specimenThickness" := VNum 4%Q;
       "forceN" := VNum f ]} in
  let self := receiver (ultimate_tensile_strength (10 * 4)%Q) 0 in
  ∃ stresses,
    Forall2 (λ m s, TensileMeasurement.calculate_engineering_stress m = Ok s)
      [pull 1200%Q; pull (-5)%Q; pull 1600%Q] stresses
    ∧ UltimateTensileStrength.calculate_from_measurements self
        [pull 1200%Q; pull (-5)%Q; pull 1600%Q] (10 * 4)%Q
      = Ok (VNum (peak stresses),
            setattr self "utsMPa" (VNum (peak stresses))).
Proof.
  intros pull self.
  apply (uts_is_peak_of_engineering_stresses self _ 10%Q 4%Q).
  - done.
  - reflexivity.
  - repeat constructor; concrete_numeric.
Defined.

(** ** Thermal expansion: strain and slope *)

Lemma cte_span_strain (self : gmap string (pyval Q))
  (first last_ : gmap string (pyval Q))
  (between : list (gmap string (pyval Q))) (L : Q) (v0 lo hi : pyval Q) :
  let ms := first :: between ++ [last_] in
  let delta_T := (num_attr "temperatureC" last_
                  - num_attr "temperatureC" first)%Q in
  (0 < L)%Q →
  Forall (admissible (coefficient_of_thermal_expansion L)) ms →
  Forall (λ m, temp_le first m ∧ temp_le m last_) ms →
  first !! "temperatureC" = Some lo →
  last_ !! "temperatureC" = Some hi →
  self !! "ctePpmPerC" = Some v0 →
  first !! "dimensionChangeMicron" = Some (VNum 0%Q) →
  last_ !! "originalLengthMm" = Some (VNum L) →
  (0 < delta_T)%Q →
  ∃ cte strain self',
    calculate_from_measurements self ms L = Ok (VNum cte, self')
    ∧ TMAMeasurement.calculate_strain_percent last_ = Ok strain
    ∧ (cte * delta_T == strain * 10000)%Q.
Proof.
  intros ms delta_T HL Hadm Hord Hlo Hhi Hv0 Hzero Hlen HT.
  pose proof (cte_ordered_input self first last_ between L v0 lo hi
                HL Hadm Hord Hlo Hhi Hv0) as Hrun.
  cbv zeta in Hrun. fold delta_T in Hrun.
  apply Qltb_lt in HT as HT'. rewrite HT' in Hrun.
  assert (last_ ∈ ms) as Hl.
  { right. apply elem_of_app. right. by left. }
  rewrite Forall_forall in Hadm. destruct (Hadm _ Hl) as [_ Hld].
  assert (numeric "originalLengthMm" last_) as Hnl by (by exists (VNum L), L).
  assert (num_attr "originalLengthMm" last_ = L) as HnL.
  { unfold num_attr. by rewrite Hlen. }
  assert (num_attr "dimensionChangeMicron" first = 0%Q) as Hn0.
  { unfold num_attr. by rewrite Hzero. }
  eexists _, _, _. split; [exact Hrun|]. split.
  - unfold TMAMeasurement.calculate_strain_percent.
    rewrite !(attr_num_spec _ _ Hnl), HnL. cbn [mbind result_bind].
    apply Qltb_lt in HL as HL'. rewrite HL'.
    rewrite (attr_num_spec _ _ Hld). cbn [mbind result_bind].
    rewrite py_div_pos; [reflexivity|].
    apply Qltb_lt. Lqa.lra.
  - unfold cte_slope. rewrite Hn0. field. split; Lqa.lra.
Qed.

(** X17. Read in exact arithmetic, the slope and the strain agree in
    their units: over a heating ramp recorded in order that starts at
    zero dimension change, the derived coefficient in ppm per degree
    times the temperature span is the strain in percent of the last
    reading times 10000, for the original length the last reading
    carries.  The program rounds each operation to binary64, and there
    the two sides can differ in the last place: for 31 microns on 12.7 mm
    over 100 degrees they are 2440.9448818897636 and 2440.944881889764. *)
Theorem cte_times_span_is_strain :
  (∀ (self : gmap string (pyval Q))
     (first last_ : gmap string (pyval Q))
     (between : list (gmap string (pyval Q))) (L : Q) (v0 lo hi : pyval Q),
     let ms := first :: between ++ [last_] in
     let delta_T := (num_attr "temperatureC" last_
                     - num_attr "temperatureC" first)%Q in
     (0 < L)%Q →
     Forall (admissible (coefficient_of_thermal_expansion L)) ms →
     Forall (λ m, temp_le first m ∧ temp_le m last_) ms →
     first !! "temperatureC" = Some lo →
     last_ !! "temperatureC" = Some hi →
     self !! "ctePpmPerC" = Some v0 →
     first !! "dimensionChangeMicron" = Some (VNum 0%Q) →
     last_ !! "originalLengthMm" = Some (VNum L) →
     (0 < delta_T)%Q →
     ∃ cte strain self',
       calculate_from_measurements self ms L = Ok (VNum cte, self')
       ∧ TMAMeasurement.calculate_strain_percent last_ = Ok strain
       ∧ (cte * delta_T == strain * 10000)%Q)
  ∧ (cte_slope_binary64 31 12.7 100 * 100 = 2440.9448818897636)%float
  ∧ (strain_percent_binary64 31 12.7 * 10000 = 2440.944881889764)%float.
Proof.
  split; [apply cte_span_strain|]. split; reflexivity.
Qed.

Lemma cte_times_span_is_strain_witness :
  let point (T d : Q) : gmap string (pyval Q) :=
    {[ "temperatureC" := VNum T; "dimensionChangeMicron" := VNum d;
       "originalLengthMm" := VNum 10%Q ]} in
  ∃ cte strain self',
    calculate_from_measurements
      (receiver (coefficient_of_thermal_expansion 10) 0)
      (point 25%Q 0%Q :: [point 60%Q 31%Q] ++ [point 125%Q 50%Q]) 10
    = Ok (VNum cte, self')
    ∧ TMAMeasurement.calculate_strain_percent (point 125%Q 50%Q) = Ok strain
    ∧ (cte * (num_attr "temperatureC" (point 125%Q 50%Q)
              - num_attr "temperatureC" (point 25%Q 0%Q))
       == strain * 10000)%Q.
Proof.
  intros point.
  apply (proj1 cte_times_span_is_strain _ (point 25%Q 0%Q) (point 125%Q 50%Q)
           [point 60%Q 31%Q] 10%Q (VNum 0%Q) (VNum 25%Q) (VNum 125%Q)).
  - reflexivity.
  - concrete_numeric.
  - repeat constructor; by vm_compute.
  - reflexivity.
  - reflexivity.
  - reflexivity.
  - reflexivity.
  - reflexivity.
  - reflexivity.
Defined.

(** ** The quotients that are returned without being stored *)

Lemma ratio_never_divides_by_zero (r : ratio)
  (self : gmap string (pyval Q)) :
  ratio_method r self ≠ Raise ZeroDivisionError.
Proof.
  destruct r; cbn [ratio_method];
    unfold TensileMeasurement.calculate_engineering_stress,
      TensileMeasurement.calculate_engineering_strain,
      TMAMeasurement.calculate_strain_percent,
      DSCMeltingMeasurement.normalize_heat_flow, attr_num;
    repeat first
      [ discriminate
      | match goal with
        | H : getattr ?o ?a = Raise ?e |- Raise ?e ≠ _ =>
            rewrite (getattr_Raise o a e H); discriminate
        | H : Qltb 0 ?y = true |- context [py_div ?x ?y] =>
            rewrite (py_div_pos x y H)
        | H : Qltb 0 ?y = true |- context [py_div ?x (?y * 1000)] =>
            rewrite (py_div_pos x (y * 1000)%Q)
              by (apply Qltb_lt; apply Qltb_lt in H; Lqa.lra)
        | |- context [mbind _ (getattr self ?a)] =>
            let v := fresh "v" in
            destruct (getattr self a) as [v|] eqn:?;
            [destruct v|]; cbn [mbind result_bind as_num]
        | |- context [Qltb 0 ?x] =>
            destruct (Qltb 0 x) eqn:?; cbn [mbind result_bind andb]
        end
      | progress cbn [mbind result_bind] ].
Qed.

Lemma ratio_spec (r : ratio) (self : gmap string (pyval Q)) :
  Forall (λ attr, numeric attr self) (ratio_guard_inputs r) →
  (Qltb 0 (ratio_guard r self) = false → ratio_method r self = Ok 0%Q)
  ∧ (Qltb 0 (ratio_guard r self) = true →
     numeric (ratio_dividend r) self →
     ratio_method r self = Ok (ratio_value r self)).
Proof.
  intros Hin.
  destruct r;
    cbn [ratio_guard_inputs ratio_guard ratio_dividend ratio_value
         ratio_method] in *;
    repeat (apply Forall_cons_1 in Hin as [? Hin]);
    unfold TensileMeasurement.calculate_engineering_stress,
      TensileMeasurement.calculate_engineering_strain,
      TMAMeasurement.calculate_strain_percent,
      DSCMeltingMeasurement.normalize_heat_flow.
  - destruct (numeric_getattr_num _ _ H) as (w & -> & Hw).
    destruct (numeric_getattr_num _ _ H0) as (t & -> & Ht).
    cbn [mbind result_bind]. rewrite Hw, Ht. cbn [mbind result_bind].
    split; intros Hg; rewrite Hg; [done|]. intros Hf.
    rewrite (attr_num_spec _ _ Hf). cbn [mbind result_bind].
    by apply py_div_pos.
  - rewrite !(attr_num_spec _ _ H). cbn [mbind result_bind].
    split; intros Hg; rewrite Hg; [done|]. intros Hf.
    rewrite (attr_num_spec _ _ Hf). cbn [mbind result_bind].
    by rewrite (py_div_pos _ _ Hg).
  - rewrite !(attr_num_spec _ _ H). cbn [mbind result_bind].
    split; intros Hg; rewrite Hg; [done|]. intros Hf.
    rewrite (attr_num_spec _ _ Hf). cbn [mbind result_bind].
    rewrite py_div_pos; [done|].
    apply Qltb_lt. apply Qltb_lt in Hg. Lqa.lra.
  - rewrite !(attr_num_spec _ _ H). cbn [mbind result_bind].
    split; intros Hg; rewrite Hg; [done|]. intros Hf.
    rewrite (attr_num_spec _ _ Hf). cbn [mbind result_bind].
    by apply py_div_pos.
Qed.

(** X18. The four methods that return a quotient (engineering stress and
    strain, strain percent, normalised heat flow) never raise
    ZeroDivisionError, whatever the object holds.  On an object whose
    guard attributes are numbers, a divisor that is not positive gives
    0.0 without the dividend being read, and a positive divisor gives the
    quotient of the method: force / (width * thickness),
    displacement / gauge length * 100,
    dimension change / (original length * 1000) * 100, and
    heat flow / sample mass. *)
Theorem ratio_method_returns_quotient_or_zero (r : ratio)
  (self : gmap string (pyval Q)) :
  ratio_method r self ≠ Raise ZeroDivisionError
  ∧ (Forall (λ attr, numeric attr self) (ratio_guard_inputs r) →
     ((ratio_guard r self <= 0)%Q → ratio_method r self = Ok 0%Q)
     ∧ ((0 < ratio_guard r self)%Q →
        numeric (ratio_dividend r) self →
        ratio_method r self = Ok (ratio_value r self))).
Proof.
  split; [apply ratio_never_divides_by_zero|].
  intros Hin. destruct (ratio_spec r self Hin) as [Hzero Hpos]. split.
  - intros Hle. apply Hzero. by apply Qltb_nonpos.
  - intros Hlt. apply Hpos. by apply Qltb_lt.
Qed.

Lemma ratio_method_returns_quotient_or_zero_witness :
  let wide : gmap string (pyval Q) :=
    {[ "specimenWidth" := VNum 10%Q; "specimenThickness" := VNum 4%Q;
       "forceN" := VNum 1200%Q ]} in
  let flat : gmap string (pyval Q) :=
    {[ "specimenWidth" := VNum 0%Q; "specimenThickness" := VNum 4%Q ]} in
  TensileMeasurement.calculate_engineering_stress wide
  = Ok (ratio_value engineering_stress wide)
  ∧ TensileMeasurement.calculate_engineering_stress flat = Ok 0%Q.
Proof.
  intros wide flat. split.
  - refine (proj2 (proj2 (ratio_method_returns_quotient_or_zero
                            engineering_stress wide) _) _ _).
    + repeat constructor; concrete_numeric.
    + by vm_compute.
    + concrete_numeric.
  - refine (proj1 (proj2 (ratio_method_returns_quotient_or_zero
                            engineering_stress flat) _) _).
    + repeat constructor; concrete_numeric.
    + by vm_compute.
Defined.

(** ** What a constructor stores *)

Lemma arg_kwargs_eq k v l d : arg (kwargs ((k, v) :: l)) k d = v.
Proof. unfold arg, kwargs. simpl. by rewrite lookup_insert_eq. Qed.

Lemma arg_kwargs_ne k k' v l d :
  k ≠ k' → arg (kwargs ((k', v) :: l)) k d = arg (kwargs l) k d.
Proof. intros H. unfold arg, kwargs. simpl. by rewrite lookup_insert_ne. Qed.

Lemma per_cut_rate_frame (self o : gmap string (pyval Q)) k :
  per_cut_rate self = Ok o → k ≠ "mfiGramsPer10Min" →
  o !! k = self !! k.
Proof.
  unfold per_cut_rate. intros H Hk. invert_run; auto.
  by rewrite lookup_setattr_ne.
Qed.

Lemma calculate_surface_tension_frame cos_of_degrees
  (self o : gmap string (pyval Q)) k :
  _calculate_surface_tension cos_of_degrees self = Ok o →
  k ≠ "surfaceTensionMNm" →
  o !! k = self !! k.
Proof.
  unfold _calculate_surface_tension. intros H Hk. invert_run; auto.
  by rewrite lookup_setattr_ne.
Qed.

(** Two string literals differ. *)
Ltac distinct := apply String.eqb_neq; reflexivity.

Ltac in_list :=
  solve [repeat first [apply list_elem_of_here | apply list_elem_of_further]].

(** Opens the body of an [__init__] that returned [o]: the steps of the
    body become hypotheses and [o] the object it assembled. *)
Ltac open_init H :=
  cbn [init] in H;
  match type of H with
  | ?t = Ok _ => let f := head_of t in unfold f in H
  end;
  cbv zeta in H;
  repeat (lazymatch type of H with
          | mbind _ _ = Ok _ =>
              let a := fresh "a" in
              let Ha := fresh "Hstep" in
              apply bind_Ok_inv in H as (a & Ha & H)
          end).

(** Looks an attribute up in the object assembled by an opened body,
    through the assignments up to the one that sets it; [inherited]
    settles an attribute the body does not assign. *)
Ltac lookup_assembled H inherited :=
  lazymatch type of H with
  | per_cut_rate _ = Ok _ =>
      rewrite (per_cut_rate_frame _ _ _ H) by distinct
  | _calculate_surface_tension _ _ = Ok _ =>
      rewrite (calculate_surface_tension_frame _ _ _ _ H) by distinct
  | Ok _ = Ok _ => rewrite <- (Ok_inj _ _ H)
  end;
  repeat (rewrite lookup_setattr_ne by distinct);
  first [ apply lookup_insert_eq | inherited ].

(** The value a parent initialiser received under a keyword. *)
Ltac forwarded :=
  repeat (rewrite arg_kwargs_ne by distinct);
  rewrite arg_kwargs_eq.

Ltac stores_with inherited H Hin Hid :=
  open_init H;
  cbn [signature] in Hin;
  repeat (apply elem_of_cons in Hin as [Hin|Hin];
          [ injection Hin as -> ->;
            first [ exfalso; apply Hid; in_list
                  | lookup_assembled H inherited ]
          | ]);
  apply elem_of_nil in Hin; destruct Hin.

Ltac stores_root H Hin Hid := stores_with ltac:(idtac; fail) H Hin Hid.

Ltac stores lem H Hin Hid :=
  stores_with
    ltac:(idtac; lazymatch goal with
          | Hp : _ = Ok ?a |- ?a !! ?p = _ =>
              let L := fresh in
              pose proof lem as L; cbn [init] in L;
              erewrite (L _ _ _ _ p _ Hp); [|in_list|exact Hid];
              clear L; apply (f_equal Some); forwarded; reflexivity
          end)
    H Hin Hid.

(** A string literal is none of the identity parameters. *)
Ltac not_identity :=
  let Hin := fresh in
  intros Hin; unfold identity in Hin;
  repeat (apply elem_of_cons in Hin as [Hin|Hin]; [discriminate Hin|]);
  apply elem_of_nil in Hin; destruct Hin.

(** Settles an attribute of the object a parent initialiser returned by
    the keyword the parent was called with. *)
Ltac inherit_from lem Hp p :=
  erewrite (lem _ _ _ _ p _ Hp);
  [apply (f_equal Some); forwarded; reflexivity | in_list | not_identity].

Section Stores.
Variable T :
  gmap string (pyval Q) → pyval Q → pyval Q → pyval Q
  → result (gmap string (pyval Q)).
Variable S : Q → string.
Variable C : Q → Q.

Lemma MaterialProperty_init_stores cls self kw o p d :
  init T S C MaterialProperty cls self kw = Ok o →
  (p, d) ∈ signature MaterialProperty → p ∉ identity →
  o !! p = Some (arg kw p d).
Proof. intros H Hin Hid. stores_root H Hin Hid. Qed.

Lemma PropertyCategory_init_stores cls self kw o p d :
  init T S C PropertyCategory cls self kw = Ok o →
  (p, d) ∈ signature PropertyCategory → p ∉ identity →
  o !! p = Some (arg kw p d).
Proof. intros H Hin Hid. stores MaterialProperty_init_stores H Hin Hid. Qed.

Lemma MechanicalProperty_init_stores cls self kw o p d :
  init T S C MechanicalProperty cls self kw = Ok o →
  (p, d) ∈ signature MechanicalProperty → p ∉ identity →
  o !! p = Some (arg kw p d).
Proof. intros H Hin Hid. stores PropertyCategory_init_stores H Hin Hid. Qed.

Lemma RheologicalProperty_init_stores cls self kw o p d :
  init T S C RheologicalProperty cls self kw = Ok o →
  (p, d) ∈ signature RheologicalProperty → p ∉ identity →
  o !! p = Some (arg kw p d).
Proof. intros H Hin Hid. stores PropertyCategory_init_stores H Hin Hid. Qed.

Lemma SurfaceProperty_init_stores cls self kw o p d :
  init T S C SurfaceProperty cls self kw = Ok o →
  (p, d) ∈ signature SurfaceProperty → p ∉ identity →
  o !! p = Some (arg kw p d).
Proof. intros H Hin Hid. stores PropertyCategory_init_stores H Hin Hid. Qed.

Lemma ThermalProperty_init_stores cls self kw o p d :
  init T S C ThermalProperty cls self kw = Ok o →
  (p, d) ∈ signature ThermalProperty → p ∉ identity →
  o !! p = Some (arg kw p d).
Proof. intros H Hin Hid. stores PropertyCategory_init_stores H Hin Hid. Qed.

Lemma Hardness_init_stores cls self kw o p d :
  init T S C Hardness cls self kw = Ok o →
  (p, d) ∈ signature Hardness → p ∉ identity →
  o !! p = Some (arg kw p d).
Proof. intros H Hin Hid. stores MechanicalProperty_init_stores H Hin Hid. Qed.

Lemma HardnessScale_init_stores cls self kw o p d :
  init T S C HardnessScale cls self kw = Ok o →
  (p, d) ∈ signature HardnessScale → p ∉ identity →
  o !! p = Some (arg kw p d).
Proof. intros H Hin Hid. stores Hardness_init_stores H Hin Hid. Qed.

Lemma ShoreMeasurement_init_stores cls self kw o p d :
  init T S C ShoreMeasurement cls self kw = Ok o →
  (p, d) ∈ signature ShoreMeasurement → p ∉ identity →
  o !! p = Some (arg kw p d).
Proof. intros H Hin Hid. stores HardnessScale_init_stores H Hin Hid. Qed.

Lemma TensileStrength_init_stores cls self kw o p d :
  init T S C TensileStrength cls self kw = Ok o →
  (p, d) ∈ signature TensileStrength → p ∉ identity →
  o !! p = Some (arg kw p d).
Proof. intros H Hin Hid. stores MechanicalProperty_init_stores H Hin Hid. Qed.

Lemma UltimateTensileStrength_init_stores cls self kw o p d :
  init T S C UltimateTensileStrength cls self kw = Ok o →
  (p, d) ∈ signature UltimateTensileStrength → p ∉ identity →
  o !! p = Some (arg kw p d).
Proof. intros H Hin Hid. stores TensileStrength_init_stores H Hin Hid. Qed.

Lemma TensileMeasurement_init_stores cls self kw o p d :
  init T S C TensileMeasurement cls self kw = Ok o →
  (p, d) ∈ signature TensileMeasurement → p ∉ identity →
  o !! p = Some (arg kw p d).
Proof. intros H Hin Hid. stores UltimateTensileStrength_init_stores H Hin Hid. Qed.

Lemma SpecificGravity_init_stores cls self kw o p d :
  init T S C SpecificGravity cls self kw = Ok o →
  (p, d) ∈ signature SpecificGravity → p ∉ identity →
  o !! p = Some (arg kw p d).
Proof. intros H Hin Hid. stores MaterialProperty_init_stores H Hin Hid. Qed.

Lemma DensityMeterMeasurement_init_stores cls self kw o p d :
  init T S C DensityMeterMeasurement cls self kw = Ok o →
  (p, d) ∈ signature DensityMeterMeasurement → p ∉ identity →
  o !! p = Some (arg kw p d).
Proof. intros H Hin Hid. stores SpecificGravity_init_stores H Hin Hid. Qed.

Lemma HydrometerMeasurement_init_stores cls self kw o p d :
  init T S C HydrometerMeasurement cls self kw = Ok o →
  (p, d) ∈ signature HydrometerMeasurement → p ∉ identity →
  o !! p = Some (arg kw p d).
Proof. intros H Hin Hid. stores SpecificGravity_init_stores H Hin Hid. Qed.

Lemma PycnometerMeasurement_init_stores cls self kw o p d :
  init T S C PycnometerMeasurement cls self kw = Ok o →
  (p, d) ∈ signature PycnometerMeasurement → p ∉ identity →
  o !! p = Some (arg kw p d).
Proof. intros H Hin Hid. stores SpecificGravity_init_stores H Hin Hid. Qed.

Lemma ReferentialSpecificGravity_init_stores cls self kw o p d :
  init T S C ReferentialSpecificGravity cls self kw = Ok o →
  (p, d) ∈ signature ReferentialSpecificGravity → p ∉ identity →
  o !! p = Some (arg kw p d).
Proof. intros H Hin Hid. stores SpecificGravity_init_stores H Hin Hid. Qed.

Lemma Elasticity_init_stores cls self kw o p d :
  init T S C Elasticity cls self kw = Ok o →
  (p, d) ∈ signature Elasticity → p ∉ identity →
  o !! p = Some (arg kw p d).
Proof. intros H Hin Hid. stores RheologicalProperty_init_stores H Hin Hid. Qed.

Lemma StorageModulus_init_stores cls self kw o p d :
  init T S C StorageModulus cls self kw = Ok o →
  (p, d) ∈ signature StorageModulus → p ∉ identity →
  o !! p = Some (arg kw p d).
Proof. intros H Hin Hid. stores Elasticity_init_stores H Hin Hid. Qed.

Lemma DMAMeasurement_init_stores cls self kw o p d :
  init T S C DMAMeasurement cls self kw = Ok o →
  (p, d) ∈ signature DMAMeasurement → p ∉ identity →
  o !! p = Some (arg kw p d).
Proof. intros H Hin Hid. stores StorageModulus_init_stores H Hin Hid. Qed.

Lemma RheometerMeasurement_init_stores cls self kw o p d :
  init T S C RheometerMeasurement cls self kw = Ok o →
  (p, d) ∈ signature RheometerMeasurement → p ∉ identity →
  o !! p = Some (arg kw p d).
Proof. intros H Hin Hid. stores StorageModulus_init_stores H Hin Hid. Qed.

Lemma MeltFlowIndex_init_stores cls self kw o p d :
  init T S C MeltFlowIndex cls self kw = Ok o →
  (p, d) ∈ signature MeltFlowIndex → p ∉ identity →
  o !! p = Some (arg kw p d).
Proof. intros H Hin Hid. stores RheologicalProperty_init_stores H Hin Hid. Qed.

Lemma MFIValue_init_stores cls self kw o p d :
  init T S C MFIValue cls self kw = Ok o →
  (p, d) ∈ signature MFIValue → p ∉ identity →
  o !! p = Some (arg kw p d).
Proof. intros H Hin Hid. stores MeltFlowIndex_init_stores H Hin Hid. Qed.

Lemma MFIMeasurement_init_stores cls self kw o p d :
  init T S C MFIMeasurement cls self kw = Ok o →
  (p, d) ∈ signature MFIMeasurement → p ∉ identity →
  o !! p = Some (arg kw p d).
Proof. intros H Hin Hid. stores MFIValue_init_stores H Hin Hid. Qed.

Lemma Viscosity_init_stores cls self kw o p d :
  init T S C Viscosity cls self kw = Ok o →
  (p, d) ∈ signature Viscosity → p ∉ identity →
  o !! p = Some (arg kw p d).
Proof. intros H Hin Hid. stores RheologicalProperty_init_stores H Hin Hid. Qed.

Lemma KrebsViscosity_init_stores cls self kw o p d :
  init T S C KrebsViscosity cls self kw = Ok o →
  (p, d) ∈ signature KrebsViscosity → p ∉ identity →
  o !! p = Some (arg kw p d).
Proof. intros H Hin Hid. stores Viscosity_init_stores H Hin Hid. Qed.

Lemma StormerViscosity_init_stores cls self kw o p d :
  init T S C StormerViscosity cls self kw = Ok o →
  (p, d) ∈ signature StormerViscosity → p ∉ identity →
  o !! p = Some (arg kw p d).
Proof. intros H Hin Hid. stores Viscosity_init_stores H Hin Hid. Qed.

Lemma LiquidSurfaceTension_init_stores cls self kw o p d :
  init T S C LiquidSurfaceTension cls self kw = Ok o →
  (p, d) ∈ signature LiquidSurfaceTension → p ∉ identity →
  o !! p = Some (arg kw p d).
Proof. intros H Hin Hid. stores SurfaceProperty_init_stores H Hin Hid. Qed.

Lemma SurfaceTensionValue_init_stores cls self kw o p d :
  init T S C SurfaceTensionValue cls self kw = Ok o →
  (p, d) ∈ signature SurfaceTensionValue → p ∉ identity →
  o !! p = Some (arg kw p d).
Proof. intros H Hin Hid. stores LiquidSurfaceTension_init_stores H Hin Hid. Qed.

Lemma WilhelmyMeasurement_init_stores cls self kw o p d :
  init T S C WilhelmyMeasurement cls self kw = Ok o →
  (p, d) ∈ signature WilhelmyMeasurement → p ∉ identity →
  o !! p = Some (arg kw p d).
Proof. intros H Hin Hid. stores SurfaceTensionValue_init_stores H Hin Hid. Qed.

Lemma SolidSurfaceEnergy_init_stores cls self kw o p d :
  init T S C SolidSurfaceEnergy cls self kw = Ok o →
  (p, d) ∈ signature SolidSurfaceEnergy → p ∉ identity →
  o !! p = Some (arg kw p d).
Proof. intros H Hin Hid. stores SurfaceProperty_init_stores H Hin Hid. Qed.

Lemma CriticalSurfaceTension_init_stores cls self kw o p d :
  init T S C CriticalSurfaceTension cls self kw = Ok o →
  (p, d) ∈ signature CriticalSurfaceTension → p ∉ identity →
  o !! p = Some (arg kw p d).
Proof. intros H Hin Hid. stores SolidSurfaceEnergy_init_stores H Hin Hid. Qed.

Lemma ContactAngleMeasurement_init_stores cls self kw o p d :
  init T S C ContactAngleMeasurement cls self kw = Ok o →
  (p, d) ∈ signature ContactAngleMeasurement → p ∉ identity →
  o !! p = Some (arg kw p d).
Proof. intros H Hin Hid. stores CriticalSurfaceTension_init_stores H Hin Hid. Qed.

Lemma GlassTransition_init_stores cls self kw o p d :
  init T S C GlassTransition cls self kw = Ok o →
  (p, d) ∈ signature GlassTransition → p ∉ identity →
  o !! p = Some (arg kw p d).
Proof. intros H Hin Hid. stores ThermalProperty_init_stores H Hin Hid. Qed.

Lemma GlassTransitionTemp_init_stores cls self kw o p d :
  init T S C GlassTransitionTemp cls self kw = Ok o →
  (p, d) ∈ signature GlassTransitionTemp → p ∉ identity →
  o !! p = Some (arg kw p d).
Proof. intros H Hin Hid. stores GlassTransition_init_stores H Hin Hid. Qed.

Lemma DMAGlassTransitionMeasurement_init_stores cls self kw o p d :
  init T S C DMAGlassTransitionMeasurement cls self kw = Ok o →
  (p, d) ∈ signature DMAGlassTransitionMeasurement → p ∉ identity →
  o !! p = Some (arg kw p d).
Proof. intros H Hin Hid. stores GlassTransitionTemp_init_stores H Hin Hid. Qed.

Lemma MeltingPoint_init_stores cls self kw o p d :
  init T S C MeltingPoint cls self kw = Ok o →
  (p, d) ∈ signature MeltingPoint → p ∉ identity →
  o !! p = Some (arg kw p d).
Proof. intros H Hin Hid. stores ThermalProperty_init_stores H Hin Hid. Qed.

Lemma MeltingPointValue_init_stores cls self kw o p d :
  init T S C MeltingPointValue cls self kw = Ok o →
  (p, d) ∈ signature MeltingPointValue → p ∉ identity →
  o !! p = Some (arg kw p d).
Proof. intros H Hin Hid. stores MeltingPoint_init_stores H Hin Hid. Qed.

Lemma DSCMeltingMeasurement_init_stores cls self kw o p d :
  init T S C DSCMeltingMeasurement cls self kw = Ok o →
  (p, d) ∈ signature DSCMeltingMeasurement → p ∉ identity →
  o !! p = Some (arg kw p d).
Proof. intros H Hin Hid. stores MeltingPointValue_init_stores H Hin Hid. Qed.

Lemma SmokingPoint_init_stores cls self kw o p d :
  init T S C SmokingPoint cls self kw = Ok o →
  (p, d) ∈ signature SmokingPoint → p ∉ identity →
  o !! p = Some (arg kw p d).
Proof. intros H Hin Hid. stores ThermalProperty_init_stores H Hin Hid. Qed.

Lemma SmokingPointValue_init_stores cls self kw o p d :
  init T S C SmokingPointValue cls self kw = Ok o →
  (p, d) ∈ signature SmokingPointValue → p ∉ identity →
  o !! p = Some (arg kw p d).
Proof. intros H Hin Hid. stores SmokingPoint_init_stores H Hin Hid. Qed.

Lemma SmokingPointMeasurement_init_stores cls self kw o p d :
  init T S C SmokingPointMeasurement cls self kw = Ok o →
  (p, d) ∈ signature SmokingPointMeasurement → p ∉ identity →
  o !! p = Some (arg kw p d).
Proof. intros H Hin Hid. stores SmokingPointValue_init_stores H Hin Hid. Qed.

Lemma ThermalExpansion_init_stores cls self kw o p d :
  init T S C ThermalExpansion cls self kw = Ok o →
  (p, d) ∈ signature ThermalExpansion → p ∉ identity →
  o !! p = Some (arg kw p d).
Proof. intros H Hin Hid. stores ThermalProperty_init_stores H Hin Hid. Qed.

Lemma CoefficientOfThermalExpansion_init_stores cls self kw o p d :
  init T S C CoefficientOfThermalExpansion cls self kw = Ok o →
  (p, d) ∈ signature CoefficientOfThermalExpansion → p ∉ identity →
  o !! p = Some (arg kw p d).
Proof. intros H Hin Hid. stores ThermalExpansion_init_stores H Hin Hid. Qed.

Lemma TMAMeasurement_init_stores cls self kw o p d :
  init T S C TMAMeasurement cls self kw = Ok o →
  (p, d) ∈ signature TMAMeasurement → p ∉ identity →
  o !! p = Some (arg kw p d).
Proof. intros H Hin Hid. stores CoefficientOfThermalExpansion_init_stores H Hin Hid. Qed.

Lemma new_stores (c : class) (kw o : gmap string (pyval Q)) p d :
  new T S C c kw = Ok o →
  (p, d) ∈ signature c → p ∉ identity →
  o !! p = Some (arg kw p d).
Proof.
  unfold new. intros H Hin Hid. destruct c.
  - by eapply MaterialProperty_init_stores.
  - by eapply PropertyCategory_init_stores.
  - by eapply MechanicalProperty_init_stores.
  - by eapply RheologicalProperty_init_stores.
  - by eapply SurfaceProperty_init_stores.
  - by eapply ThermalProperty_init_stores.
  - by eapply Hardness_init_stores.
  - by eapply HardnessScale_init_stores.
  - by eapply ShoreMeasurement_init_stores.
  - by eapply TensileStrength_init_stores.
  - by eapply UltimateTensileStrength_init_stores.
  - by eapply TensileMeasurement_init_stores.
  - by eapply SpecificGravity_init_stores.
  - by eapply DensityMeterMeasurement_init_stores.
  - by eapply HydrometerMeasurement_init_stores.
  - by eapply PycnometerMeasurement_init_stores.
  - by eapply ReferentialSpecificGravity_init_stores.
  - by eapply Elasticity_init_stores.
  - by eapply StorageModulus_init_stores.
  - by eapply DMAMeasurement_init_stores.
  - by eapply RheometerMeasurement_init_stores.
  - by eapply MeltFlowIndex_init_stores.
  - by eapply MFIValue_init_stores.
  - by eapply MFIMeasurement_init_stores.
  - by eapply Viscosity_init_stores.
  - by eapply KrebsViscosity_init_stores.
  - by eapply StormerViscosity_init_stores.
  - by eapply LiquidSurfaceTension_init_stores.
  - by eapply SurfaceTensionValue_init_stores.
  - by eapply WilhelmyMeasurement_init_stores.
  - by eapply SolidSurfaceEnergy_init_stores.
  - by eapply CriticalSurfaceTension_init_stores.
  - by eapply ContactAngleMeasurement_init_stores.
  - by eapply GlassTransition_init_stores.
  - by eapply GlassTransitionTemp_init_stores.
  - by eapply DMAGlassTransitionMeasurement_init_stores.
  - by eapply MeltingPoint_init_stores.
  - by eapply MeltingPointValue_init_stores.
  - by eapply DSCMeltingMeasurement_init_stores.
  - by eapply SmokingPoint_init_stores.
  - by eapply SmokingPointValue_init_stores.
  - by eapply SmokingPointMeasurement_init_stores.
  - by eapply ThermalExpansion_init_stores.
  - by eapply CoefficientOfThermalExpansion_init_stores.
  - by eapply TMAMeasurement_init_stores.
Qed.
End Stores.

Section Construction.
Variable T :
  gmap string (pyval Q) → pyval Q → pyval Q → pyval Q
  → result (gmap string (pyval Q)).
Variable S : Q → string.
Variable C : Q → Q.

(** X19. Whatever the framework initialiser does, an object that a
    property class has constructed holds every keyword parameter of the
    class, the three identity parameters apart, under the attribute of
    the same name: the value supplied, or the default of the parameter.
    No initialiser up the inheritance chain drops or overwrites one. *)
Theorem constructor_stores_every_keyword (c : class)
  (kw o : gmap string (pyval Q)) (p : string) (d : pyval Q) :
  new T S C c kw = Ok o →
  (p, d) ∈ signature c → p ∉ identity →
  o !! p = Some (arg kw p d).
Proof. apply new_stores. Qed.

Lemma initial_derived_stored (c : class) (kw o : gmap string (pyval Q))
  (attr : string) (v : pyval Q) :
  new T S C c kw = Ok o →
  initial_derived c kw = Some (attr, v) →
  o !! attr = Some v.
Proof.
  unfold new. intros H Hd.
  destruct c; cbn [initial_derived] in Hd; try discriminate Hd;
    apply (inj Some) in Hd; injection Hd as <- <-;
    open_init H; rewrite <- (Ok_inj _ _ H);
    repeat (rewrite lookup_setattr_ne by distinct);
    lazymatch goal with
    | Hp : ?f = Ok ?a |- ?a !! ?p = _ =>
        let g := head_of f in
        lazymatch g with
        | HardnessScale__init__ =>
            inherit_from (HardnessScale_init_stores T S C) Hp p
        | UltimateTensileStrength__init__ =>
            inherit_from (UltimateTensileStrength_init_stores T S C) Hp p
        | CriticalSurfaceTension__init__ =>
            inherit_from (CriticalSurfaceTension_init_stores T S C) Hp p
        | GlassTransitionTemp__init__ =>
            inherit_from (GlassTransitionTemp_init_stores T S C) Hp p
        | MeltingPointValue__init__ =>
            inherit_from (MeltingPointValue_init_stores T S C) Hp p
        | SmokingPointValue__init__ =>
            inherit_from (SmokingPointValue_init_stores T S C) Hp p
        | CoefficientOfThermalExpansion__init__ =>
            inherit_from (CoefficientOfThermalExpansion_init_stores T S C)
              Hp p
        end
    end.
Qed.

(** X20. A raw measurement is constructed as an instance of the derived
    property it belongs to, and the reportable attribute of that property
    starts from the measurement: a Shore measurement holds its reading as
    [hardnessValue] and a smoking point measurement its observed
    temperature as [smokingPointC], while the tensile, contact angle,
    DMA, DSC and TMA measurements start at 0.0 whatever they are given. *)
Theorem measurement_initial_derived_value (c : class)
  (kw o : gmap string (pyval Q)) (attr : string) (v : pyval Q) :
  new T S C c kw = Ok o →
  initial_derived c kw = Some (attr, v) →
  o !! attr = Some v.
Proof. apply initial_derived_stored. Qed.

Lemma per_cut_rate_spec (self : gmap string (pyval Q)) (t m : Q) :
  self !! "extrusionTime" = Some (VNum t) →
  self !! "extrudateMass" = Some (VNum m) →
  (0 < t)%Q →
  per_cut_rate self
  = Ok (setattr self "mfiGramsPer10Min" (VNum (m / t * 600)%Q)).
Proof.
  intros Ht%getattr_Ok Hm%getattr_Ok Hpos%Qltb_lt.
  unfold per_cut_rate, gt0. rewrite Ht. cbn [mbind result_bind as_num].
  rewrite Hpos, Hm. cbn [mbind result_bind as_num].
  by rewrite (py_div_pos _ _ Hpos).
Qed.

Lemma per_cut_rate_skip (self : gmap string (pyval Q)) (t : Q) :
  self !! "extrusionTime" = Some (VNum t) →
  (t <= 0)%Q →
  per_cut_rate self = Ok self.
Proof.
  intros Ht%getattr_Ok Hle.
  unfold per_cut_rate, gt0. rewrite Ht. cbn [mbind result_bind as_num].
  assert (Qltb 0 t = false) as ->; [|done].
  unfold Qltb. apply Qle_bool_iff in Hle. by rewrite Hle.
Qed.

Lemma mfi_cut (kw o : gmap string (pyval Q)) (t m : Q) :
  kw !! "extrusionTime" = Some (VNum t) →
  kw !! "extrudateMass" = Some (VNum m) →
  new T S C MFIMeasurement kw = Ok o →
  o !! "extrusionTime" = Some (VNum t)
  ∧ o !! "extrudateMass" = Some (VNum m)
  ∧ o !! "mfiGramsPer10Min"
    = Some (VNum (if Qltb 0 t then m / t * 600 else 0)%Q).
Proof.
  intros Ht Hm H.
  assert (arg kw "extrusionTime" (VNum 0%Q) = VNum t) as Hat
    by (unfold arg; by rewrite Ht).
  assert (arg kw "extrudateMass" (VNum 0%Q) = VNum m) as Ham
    by (unfold arg; by rewrite Hm).
  pose proof (new_stores T S C MFIMeasurement kw o "extrusionTime" _ H
                ltac:(in_list)) as Hot.
  pose proof (new_stores T S C MFIMeasurement kw o "extrudateMass" _ H
                ltac:(in_list)) as Hom.
  rewrite Hat in Hot. rewrite Ham in Hom.
  split; [apply Hot|split; [apply Hom|]];
    try not_identity.
  unfold new in H. open_init H.
  lazymatch type of H with
  | per_cut_rate ?X = Ok _ =>
      assert (X !! "extrusionTime" = Some (VNum t)) as Hxt
        by (repeat (rewrite lookup_setattr_ne by distinct);
            rewrite <- Hat; apply lookup_insert_eq);
      assert (X !! "extrudateMass" = Some (VNum m)) as Hxm
        by (repeat (rewrite lookup_setattr_ne by distinct);
            rewrite <- Ham; apply lookup_insert_eq);
      assert (X !! "mfiGramsPer10Min" = Some (VNum 0%Q)) as Hx0;
      [ repeat (rewrite lookup_setattr_ne by distinct);
        lazymatch goal with
        | Hp : _ = Ok ?a |- ?a !! ?p = _ =>
            inherit_from (MFIValue_init_stores T S C) Hp p
        end
      | ]
  end.
  destruct (Qltb 0 t) eqn:E.
  - apply Qltb_lt in E. rewrite (per_cut_rate_spec _ t m Hxt Hxm E) in H.
    rewrite <- (Ok_inj _ _ H). apply lookup_insert_eq.
  - apply Qltb_false_le in E. rewrite (per_cut_rate_skip _ t Hxt E) in H.
    rewrite <- (Ok_inj _ _ H). exact Hx0.
Qed.

(** X21. A melt-flow cut computes its own rate when it is constructed:
    with numbers for the extrusion time and the extrudate mass, the
    object holds them and holds [mass / time * 600] as
    [mfiGramsPer10Min] when the time is positive, 0.0 otherwise. *)
Theorem mfi_measurement_rate_at_construction
  (kw o : gmap string (pyval Q)) (t m : Q) :
  kw !! "extrusionTime" = Some (VNum t) →
  kw !! "extrudateMass" = Some (VNum m) →
  new T S C MFIMeasurement kw = Ok o →
  o !! "extrusionTime" = Some (VNum t)
  ∧ o !! "extrudateMass" = Some (VNum m)
  ∧ o !! "mfiGramsPer10Min"
    = Some (VNum (if Qltb 0 t then m / t * 600 else 0)%Q).
Proof. apply mfi_cut. Qed.

(** X22. The melt flow index derived from constructed cuts is the mean
    of the rates the cuts computed for themselves: when every cut of a
    non-empty collection was constructed with a positive time and a
    positive mass, each holds its rate and the derivation stores their
    mean. *)
Theorem mfi_value_is_mean_of_cut_rates (self : gmap string (pyval Q))
  (inputs : list (Q * Q)) (cuts : list (gmap string (pyval Q))) :
  inputs ≠ [] →
  Forall2 (λ i o, (0 < i.1)%Q ∧ (0 < i.2)%Q
                  ∧ ∃ kw, kw !! "extrusionTime" = Some (VNum i.1)
                          ∧ kw !! "extrudateMass" = Some (VNum i.2)
                          ∧ new T S C MFIMeasurement kw = Ok o)
          inputs cuts →
  let rates := map (λ i, (i.2 / i.1 * 600)%Q) inputs in
  Forall2 (λ o r, o !! "mfiGramsPer10Min" = Some (VNum r)) cuts rates
  ∧ MFIValue.calculate_from_measurements self cuts
    = Ok (VNum (mean rates),
          setattr self "mfiGramsPer10Min" (VNum (mean rates))).
Proof.
  intros Hne Hcuts rates.
  assert (Forall2 (λ i o, (0 < i.1)%Q ∧ (0 < i.2)%Q
                          ∧ o !! "extrusionTime" = Some (VNum i.1)
                          ∧ o !! "extrudateMass" = Some (VNum i.2)
                          ∧ o !! "mfiGramsPer10Min"
                            = Some (VNum (i.2 / i.1 * 600)%Q))
            inputs cuts) as Hst.
  { eapply Forall2_impl; [exact Hcuts|].
    intros [t m] o (Ht & Hm & kw & Hkt & Hkm & Hnew). simpl in *.
    destruct (mfi_cut kw o t m Hkt Hkm Hnew) as (H1 & H2 & H3).
    apply Qltb_lt in Ht as Ht'. rewrite Ht' in H3. done. }
  clear Hcuts. split.
  - subst rates. clear Hne.
    induction Hst as [|i o inputs' cuts' (_ & _ & _ & _ & H) _ IH]; simpl;
      constructor; done.
  - assert (cuts ≠ []) as Hne'.
    { intros ->. apply Forall2_nil_inv_r in Hst. done. }
    rewrite mfi_spec; [|done|].
    + assert (omap mfi_rate cuts = rates) as ->.
      { subst rates. clear Hne Hne'.
        induction Hst as [|i o inputs' cuts' (Ht & Hm & Hot & Hom & _) _ IH];
          [done|].
        simpl. unfold mfi_rate at 1.
        rewrite (reading_stored _ _ _ Hom Hm), (reading_stored _ _ _ Hot Ht).
        simpl. f_equal. exact IH. }
      subst rates. destruct inputs; [done|]. reflexivity.
    + clear Hne Hne'.
      induction Hst as [|i o inputs' cuts' (_ & _ & Hot & Hom & _) _ IH];
        constructor; [|done].
      split; eexists _, _; (split; [eassumption|reflexivity]).
Qed.
End Construction.

Lemma constructor_stores_every_keyword_witness :
  match
    new plain_treeObject__init__ plain_str_of_num (λ _, 1%Q) ShoreMeasurement
      (kwargs [("hardnessReading", VNum 55%Q); ("shoreType", VStr "D")])
  with
  | Ok o => o !! "shoreType" = Some (VStr "D")
            ∧ o !! "readingTime" = Some (VNum 1%Q)
  | Raise _ => False
  end.
Proof.
  pose proof (constructor_stores_every_keyword
                plain_treeObject__init__ plain_str_of_num (λ _, 1%Q)
                ShoreMeasurement
                (kwargs [("hardnessReading", VNum 55%Q);
                         ("shoreType", VStr "D")])) as H.
  destruct (new _ _ _ _ _) as [o|e] eqn:E.
  - split.
    + apply (H o "shoreType" (VStr "A") eq_refl); [in_list|].
      apply (bool_decide_unpack _). reflexivity.
    + apply (H o "readingTime" (VNum 1%Q) eq_refl); [in_list|].
      apply (bool_decide_unpack _). reflexivity.
  - assert (succeeds (new plain_treeObject__init__ plain_str_of_num
                        (λ _, 1%Q) ShoreMeasurement
                        (kwargs [("hardnessReading", VNum 55%Q);
                                 ("shoreType", VStr "D")]))) as Hok
      by (vm_compute; exact I).
    rewrite E in Hok. exact Hok.
Defined.

Lemma measurement_initial_derived_value_witness :
  match
    new plain_treeObject__init__ plain_str_of_num (λ _, 1%Q) ShoreMeasurement
      (kwargs [("hardnessReading", VNum 55%Q); ("shoreType", VStr "D")])
  with
  | Ok o => o !! "hardnessValue" = Some (VNum 55%Q)
  | Raise _ => False
  end.
Proof.
  pose proof (measurement_initial_derived_value
                plain_treeObject__init__ plain_str_of_num (λ _, 1%Q)
                ShoreMeasurement
                (kwargs [("hardnessReading", VNum 55%Q);
                         ("shoreType", VStr "D")])) as H.
  destruct (new _ _ _ _ _) as [o|e] eqn:E.
  - apply (H o "hardnessValue" (VNum 55%Q) eq_refl). reflexivity.
  - assert (succeeds (new plain_treeObject__init__ plain_str_of_num
                        (λ _, 1%Q) ShoreMeasurement
                        (kwargs [("hardnessReading", VNum 55%Q);
                                 ("shoreType", VStr "D")]))) as Hok
      by (vm_compute; exact I).
    rewrite E in Hok. exact Hok.
Defined.

Lemma mfi_measurement_rate_at_construction_witness :
  match
    new plain_treeObject__init__ plain_str_of_num (λ _, 1%Q) MFIMeasurement
      (kwargs [("extrusionTime", VNum 30%Q); ("extrudateMass", VNum 0.5%Q)])
  with
  | Ok o => o !! "mfiGramsPer10Min" = Some (VNum (0.5 / 30 * 600)%Q)
  | Raise _ => False
  end.
Proof.
  pose proof (mfi_measurement_rate_at_construction
                plain_treeObject__init__ plain_str_of_num (λ _, 1%Q)
                (kwargs [("extrusionTime", VNum 30%Q);
                         ("extrudateMass", VNum 0.5%Q)])) as H.
  destruct (new _ _ _ _ _) as [o|e] eqn:E.
  - destruct (H o 30%Q 0.5%Q eq_refl eq_refl eq_refl) as (_ & _ & Hr).
    exact Hr.
  - assert (succeeds (new plain_treeObject__init__ plain_str_of_num
                        (λ _, 1%Q) MFIMeasurement
                        (kwargs [("extrusionTime", VNum 30%Q);
                                 ("extrudateMass", VNum 0.5%Q)]))) as Hok
      by (vm_compute; exact I).
    rewrite E in Hok. exact Hok.
Defined.

Lemma mfi_value_is_mean_of_cut_rates_witness :
  match
    new plain_treeObject__init__ plain_str_of_num (λ _, 1%Q) MFIMeasurement
      (kwargs [("extrusionTime", VNum 30%Q); ("extrudateMass", VNum 0.5%Q)])
  with
  | Ok o =>
      MFIValue.calculate_from_measurements (receiver mfi_value 0) [o]
      = Ok (VNum (mean [(0.5 / 30 * 600)%Q]),
            setattr (receiver mfi_value 0) "mfiGramsPer10Min"
              (VNum (mean [(0.5 / 30 * 600)%Q])))
  | Raise _ => False
  end.
Proof.
  pose proof (mfi_value_is_mean_of_cut_rates
                plain_treeObject__init__ plain_str_of_num (λ _, 1%Q)
                (receiver mfi_value 0) [(30%Q, 0.5%Q)]) as H.
  destruct (new _ _ _ _ _) as [o|e] eqn:E.
  - apply (H [o]); [done|].
    constructor; [|constructor].
    split; [reflexivity|]. split; [reflexivity|].
    eexists. split; [|split; [|exact E]]; reflexivity.
  - assert (succeeds (new plain_treeObject__init__ plain_str_of_num
                        (λ _, 1%Q) MFIMeasurement
                        (kwargs [("extrusionTime", VNum 30%Q);
                                 ("extrudateMass", VNum 0.5%Q)]))) as Hok
      by (vm_compute; exact I).
    rewrite E in Hok. exact Hok.
Defined.

(** ** The seed loader *)

Section Seeding.
Context {value instance : Type}.
Variable read_json : string → file_content value.
Variable construct : string → gmap string value → result instance.

Lemma make_instances_Ok cls manager items instances :
  make_instances construct cls manager items = Ok instances ↔
  ∃ records,
    items = Some <$> records
    ∧ Forall2 (λ record obj,
                 construct cls (<["manager" := manager]> record) = Ok obj)
        records instances.
Proof.
  revert instances. induction items as [|[record|] rest IH];
    intros instances; simpl.
  - split.
    + intros H. apply Ok_inj in H as <-. exists []. split; [done|constructor].
    + intros (records & Hr & H). symmetry in Hr.
      apply fmap_nil_inv in Hr as ->.
      apply Forall2_nil_inv_l in H as ->. reflexivity.
  - split.
    + intros H. apply bind_Ok_inv in H as (obj & Hobj & H).
      apply bind_Ok_inv in H as (objs & Hobjs & H).
      apply Ok_inj in H as <-.
      apply IH in Hobjs as (records & -> & Hrest).
      exists (record :: records). split; [done|]. by constructor.
    + intros ([|r records] & Hr & H); [done|].
      rewrite fmap_cons in Hr. injection Hr as <- ->.
      apply Forall2_cons_inv_l in H as (obj & objs & Hobj & H & ->).
      rewrite Hobj. cbn [mbind result_bind].
      assert (make_instances construct cls manager (Some <$> records)
              = Ok objs) as -> by (apply IH; by exists records).
      reflexivity.
  - split; [done|].
    intros ([|r records] & Hr & _); discriminate Hr.
Qed.

Lemma make_instances_succeeds cls manager items :
  succeeds (make_instances construct cls manager items) ↔
  Forall (λ item,
            ∃ record, item = Some record
              ∧ succeeds (construct cls (<["manager" := manager]> record)))
    items.
Proof.
  induction items as [|[record|] rest IH]; simpl.
  - split; [constructor|done].
  - rewrite Forall_cons, <- IH.
    destruct (construct cls (<["manager" := manager]> record)) as [obj|e]
      eqn:Hc; cbn [mbind result_bind succeeds].
    + destruct (make_instances construct cls manager rest);
        cbn [mbind result_bind succeeds].
      * split; [|done]. intros _. split; [|done].
        exists record. by rewrite Hc.
      * split; [done|]. by intros [_ ?].
    + split; [done|]. intros [(r & [= <-] & Hs) _].
      by rewrite Hc in Hs.
  - split; [done|]. intros H. apply Forall_cons in H as [(r & Hr & _) _].
    discriminate Hr.
Qed.

Lemma load_spec (order : list (string * string)) (manager : value)
  (created created' : gmap string (list instance)) :
  NoDup (order.*2) →
  load read_json construct order manager created = Ok created' →
  (∀ cls, cls ∉ order.*2 → created' !! cls = created !! cls)
  ∧ (∀ filename cls, (filename, cls) ∈ order →
       loaded read_json construct manager filename cls
         (created !! cls) (created' !! cls)).
Proof.
  revert created. induction order as [|[filename cls] rest IH];
    intros created Hnd H.
  - simpl in H. apply Ok_inj in H as <-. split; [done|].
    intros f c Hin. by apply elem_of_nil in Hin.
  - rewrite fmap_cons in Hnd. apply NoDup_cons in Hnd as [Hcls Hnd].
    cbn [load] in H. unfold loaded.
    destruct (read_json filename) as [|e| |items] eqn:Hfile; try done.
    + destruct (IH _ Hnd H) as [Hout Hin]. split.
      * intros c Hc. rewrite fmap_cons in Hc.
        apply not_elem_of_cons in Hc as [Hne Hc]. by apply Hout.
      * intros f c Hfc. apply elem_of_cons in Hfc as [Hfc|Hfc].
        -- injection Hfc as -> ->. rewrite Hfile. by apply Hout.
        -- apply (Hin f c Hfc).
    + apply bind_Ok_inv in H as (instances & Hmk & H).
      destruct (IH _ Hnd H) as [Hout Hin]. split.
      * intros c Hc. rewrite fmap_cons in Hc.
        apply not_elem_of_cons in Hc as [Hne Hc].
        rewrite (Hout c Hc). by apply lookup_insert_ne.
      * intros f c Hfc. apply elem_of_cons in Hfc as [Hfc|Hfc].
        -- injection Hfc as -> ->. rewrite Hfile.
           apply make_instances_Ok in Hmk as (records & -> & Hrec).
           exists records, instances. split; [done|]. split; [|done].
           rewrite (Hout cls Hcls). apply lookup_insert_eq.
        -- assert (c ≠ cls) as Hne.
           { intros ->. apply Hcls.
             apply list_elem_of_fmap. by exists (f, cls). }
           specialize (Hin f c Hfc). unfold loaded in Hin.
           by rewrite lookup_insert_ne in Hin.
Qed.

Lemma load_succeeds (order : list (string * string)) (manager : value)
  (created : gmap string (list instance)) :
  succeeds (load read_json construct order manager created) ↔
  ∀ filename cls,
    (filename, cls) ∈ order →
    loadable read_json construct manager filename cls.
Proof.
  revert created. induction order as [|[filename cls] rest IH];
    intros created.
  - simpl. split; [|done]. intros _ f c Hin.
    by apply elem_of_nil in Hin.
  - cbn [load].
    assert ((∀ f c, (f, c) ∈ (filename, cls) :: rest →
                    loadable read_json construct manager f c)
            ↔ loadable read_json construct manager filename cls
              ∧ ∀ f c, (f, c) ∈ rest →
                       loadable read_json construct manager f c) as ->.
    { split.
      - intros H. split; [apply H; by left|].
        intros f c Hin. apply H. by right.
      - intros [H1 H2] f c Hin.
        apply elem_of_cons in Hin as [Hin|Hin]; [|by apply H2].
        by injection Hin as -> ->. }
    unfold loadable at 1.
    destruct (read_json filename) as [|e| |items] eqn:Hfile;
      cbn [succeeds].
    + rewrite IH. tauto.
    + tauto.
    + tauto.
    + rewrite <- make_instances_succeeds.
      destruct (make_instances construct cls manager items)
        as [instances|e]; cbn [mbind result_bind succeeds].
      * rewrite IH. tauto.
      * tauto.
Qed.

Lemma load_order_classes_distinct : NoDup (load_order.*2).
Proof. apply (bool_decide_unpack _). vm_compute. exact I. Qed.

(** X23. What the seed loader returns holds, for each file of the load
    order that exists, the objects constructed from its records, in the
    order of the records and with the manager as [manager] keyword,
    under the name of the class of the file; a file that does not exist
    leaves no entry, an existing file without records an empty list, and
    there are no other entries.  When the loader returns, every file
    that exists could be read and yielded dictionaries only. *)
Theorem seed_loads_each_existing_file (manager : value)
  (created : gmap string (list instance)) :
  seed_initial_data read_json construct manager = Ok created →
  (∀ filename cls, (filename, cls) ∈ load_order →
     match read_json filename with
     | Missing => created !! cls = None
     | Yields items =>
         ∃ records instances,
           items = Some <$> records
           ∧ created !! cls = Some instances
           ∧ Forall2 (λ record obj,
                        construct cls (<["manager" := manager]> record)
                        = Ok obj)
               records instances
     | Unreadable _ | NotIterable => False
     end)
  ∧ (∀ cls, cls ∉ load_order.*2 → created !! cls = None).
Proof.
  unfold seed_initial_data. intros H.
  destruct (load_spec _ _ _ _ load_order_classes_distinct H) as [Hout Hin].
  split.
  - intros f c Hfc. specialize (Hin f c Hfc). unfold loaded in Hin.
    by rewrite lookup_empty in Hin.
  - intros c Hc. by rewrite (Hout c Hc).
Qed.

(** X24. The seed loader returns exactly when every file of the load
    order either does not exist, or can be opened and parsed, yields
    dictionaries only, and has every one of them accepted by the
    constructor of its class with the manager as [manager] keyword.  A
    file that cannot be read, a parsed value that cannot be iterated, an
    element that is not a dictionary or a record that its class rejects
    makes the whole load raise, and nothing else does. *)
Theorem seed_succeeds_iff_every_record_constructs (manager : value) :
  succeeds (seed_initial_data read_json construct manager) ↔
  ∀ filename cls,
    (filename, cls) ∈ load_order →
    match read_json filename with
    | Missing => True
    | Yields items =>
        Forall (λ item,
                  ∃ record, item = Some record
                    ∧ succeeds
                        (construct cls (<["manager" := manager]> record)))
          items
    | Unreadable _ | NotIterable => False
    end.
Proof. apply load_succeeds. Qed.
End Seeding.

Lemma seed_loads_each_existing_file_witness :
  let record : gmap string (pyval Q) := {[ "name" := VStr "PLA" ]} in
  match
    seed_initial_data (one_file (Yields [Some record])) named (VStr "tree")
  with
  | Ok created =>
      created !! "DataSource" = None
      ∧ ∃ records instances,
          [Some record] = Some <$> records
          ∧ created !! "RawMaterial" = Some instances
          ∧ Forall2 (λ record obj,
                       named "RawMaterial"
                         (<["manager" := VStr "tree"]> record) = Ok obj)
              records instances
  | Raise _ => False
  end.
Proof.
  intros record.
  pose proof (seed_loads_each_existing_file
                (one_file (Yields [Some record])) named (VStr "tree")) as H.
  destruct (seed_initial_data (one_file (Yields [Some record])) named
              (VStr "tree")) as [created|e] eqn:E.
  - destruct (H created eq_refl) as [Hin _]. split.
    + apply (Hin "dataSources.json" "DataSource"). by left.
    + apply (Hin "rawMaterials.json" "RawMaterial"). do 2 right. by left.
  - assert (succeeds (seed_initial_data (one_file (Yields [Some record]))
                        named (VStr "tree")))
      as Hok by (vm_compute; exact I).
    rewrite E in Hok. exact Hok.
Defined.

Lemma seed_succeeds_iff_every_record_constructs_witness :
  let record : gmap string (pyval Q) := {[ "name" := VStr "PLA" ]} in
  succeeds
    (seed_initial_data (one_file (Yields [Some record; Some record])) named
       (VStr "tree"))
  ∧ ¬ succeeds
        (seed_initial_data (one_file (Yields [Some record; Some ∅])) named
           (VStr "tree"))
  ∧ ¬ succeeds
        (seed_initial_data (one_file (Yields [Some record; None])) named
           (VStr "tree"))
  ∧ ¬ succeeds
        (seed_initial_data (one_file (Unreadable ValueError)) named
           (VStr "tree")).
Proof.
  intros record.
  assert (∀ content,
            (∀ filename cls, (filename, cls) ∈ load_order →
               match one_file content filename with
               | Missing => True
               | Yields items =>
                   Forall (λ item,
                             ∃ r, item = Some r
                               ∧ succeeds
                                   (named cls
                                      (<["manager" := VStr "tree"]> r)))
                     items
               | Unreadable _ | NotIterable => False
               end)
            → match content with
              | Missing => True
              | Yields items =>
                  Forall (λ item,
                            ∃ r, item = Some r
                              ∧ succeeds
                                  (named "RawMaterial"
                                     (<["manager" := VStr "tree"]> r)))
                    items
              | Unreadable _ | NotIterable => False
              end) as Hraw.
  { intros content H.
    apply (H "rawMaterials.json" "RawMaterial"). do 2 right. by left. }
  split; [|split; [|split]].
  - apply seed_succeeds_iff_every_record_constructs.
    intros filename cls Hin. unfold load_order in Hin.
    repeat (apply elem_of_cons in Hin as [Hin|Hin];
            [injection Hin as -> ->; try exact I|]);
      [|by apply elem_of_nil in Hin].
    repeat constructor; exists record; (split; [done|exact I]).
  - intros H0.
    pose proof (proj1 (seed_succeeds_iff_every_record_constructs _ _ _) H0)
      as H.
    apply Hraw in H. apply Forall_cons in H as [_ H].
    apply Forall_cons in H as [(r & [= <-] & Hs) _]. exact Hs.
  - intros H0.
    pose proof (proj1 (seed_succeeds_iff_every_record_constructs _ _ _) H0)
      as H.
    apply Hraw in H. apply Forall_cons in H as [_ H].
    apply Forall_cons in H as [(r & Hr & _) _]. discriminate Hr.
  - intros H0.
    pose proof (proj1 (seed_succeeds_iff_every_record_constructs _ _ _) H0)
      as H.
    apply Hraw in H. exact H.
Defined.

(** ** The complex modulus *)

(** X25. The complex modulus never raises ValueError, the sum of two
    squares being no negative number; on numeric moduli it returns the
    non-negative number whose square is the sum of their squares, which
    is at least the magnitude of either. *)
Theorem complex_modulus_is_euclidean_norm (self : gmap string (pyval R)) :
  StorageModulus.calculate_complex_modulus self ≠ Raise ValueError
  ∧ ∀ s l : R,
      self !! "storageModulusPa" = Some (VNum s) →
      self !! "lossModulusPa" = Some (VNum l) →
      ∃ g, StorageModulus.calculate_complex_modulus self = Ok g
           ∧ (0 <= g)%R ∧ (g * g = s * s + l * l)%R
           ∧ (Rabs s <= g)%R ∧ (Rabs l <= g)%R.
Proof.
  assert (∀ s l : R,
            CriticalSurfaceTension.math_sqrt (s ^ 2 + l ^ 2)%R
            = Ok (sqrt (s ^ 2 + l ^ 2))) as Hsqrt.
  { intros s l. unfold CriticalSurfaceTension.math_sqrt.
    destruct (Rlt_dec (s ^ 2 + l ^ 2) 0) as [Hneg|_]; [|done].
    exfalso. pose proof (pow2_ge_0 s). pose proof (pow2_ge_0 l). lra. }
  split.
  - unfold StorageModulus.calculate_complex_modulus.
    destruct (getattr self "storageModulusPa") as [vs|] eqn:Hs;
      cbn [mbind result_bind];
      [|by rewrite (getattr_Raise _ _ _ Hs)].
    destruct (StorageModulus.as_real vs) as [s|] eqn:Hvs;
      cbn [mbind result_bind];
      [|destruct vs; simpl in Hvs; congruence].
    destruct (getattr self "lossModulusPa") as [vl|] eqn:Hl;
      cbn [mbind result_bind];
      [|by rewrite (getattr_Raise _ _ _ Hl)].
    destruct (StorageModulus.as_real vl) as [l|] eqn:Hvl;
      cbn [mbind result_bind];
      [|destruct vl; simpl in Hvl; congruence].
    by rewrite Hsqrt.
  - intros s l Hs%getattr_Ok Hl%getattr_Ok.
    unfold StorageModulus.calculate_complex_modulus.
    rewrite Hs, Hl. cbn [mbind result_bind StorageModulus.as_real].
    rewrite Hsqrt. eexists. split; [reflexivity|].
    pose proof (pow2_ge_0 s) as Hs2. pose proof (pow2_ge_0 l) as Hl2.
    assert (0 <= s ^ 2 + l ^ 2)%R as Hsum by lra.
    pose proof (sqrt_pos (s ^ 2 + l ^ 2)) as Hpos.
    pose proof (sqrt_sqrt _ Hsum) as Hsq.
    assert (s ^ 2 = s * s)%R as Hs2' by ring.
    assert (l ^ 2 = l * l)%R as Hl2' by ring.
    split; [done|]. split; [rewrite Hsq; ring|].
    split.
    + rewrite <- (Rabs_pos_eq (sqrt (s ^ 2 + l ^ 2)) Hpos).
      apply Rsqr_le_abs_0. unfold Rsqr. rewrite Hsq. lra.
    + rewrite <- (Rabs_pos_eq (sqrt (s ^ 2 + l ^ 2)) Hpos).
      apply Rsqr_le_abs_0. unfold Rsqr. rewrite Hsq. lra.
Qed.

Lemma complex_modulus_is_euclidean_norm_witness :
  let self : gmap string (pyval R) :=
    {[ "storageModulusPa" := VNum 3%R; "lossModulusPa" := VNum 4%R ]} in
  ∃ g, StorageModulus.calculate_complex_modulus self = Ok g
       ∧ (0 <= g)%R ∧ (g * g = 3 * 3 + 4 * 4)%R
       ∧ (Rabs 3 <= g)%R ∧ (Rabs 4 <= g)%R.
Proof.
  intros self.
  apply (proj2 (complex_modulus_is_euclidean_norm self) 3%R 4%R);
    reflexivity.
Defined.

(** ** The Wilhelmy plate *)

Section Wilhelmy.
Variable T :
  gmap string (pyval Q) → pyval Q → pyval Q → pyval Q
  → result (gmap string (pyval Q)).
Variable S : Q → string.
Variable C : Q → Q.

Lemma calculate_surface_tension_spec (self : gmap string (pyval Q))
  (f p theta : Q) :
  self !! "forceMN" = Some (VNum f) →
  self !! "platePerimeterMm" = Some (VNum p) →
  self !! "contactAngle" = Some (VNum theta) →
  _calculate_surface_tension C self
  = Ok (if Qltb 0 p && Qltb 0 (C theta)
        then setattr self "surfaceTensionMNm" (VNum (f / (p * C theta))%Q)
        else self).
Proof.
  intros Hf%getattr_Ok Hp%getattr_Ok Ht%getattr_Ok.
  unfold _calculate_surface_tension, gt0.
  rewrite Hp. cbn [mbind result_bind as_num].
  destruct (Qltb 0 p) eqn:Ep; cbn [andb]; [|done].
  rewrite Ht. cbn [mbind result_bind as_num].
  destruct (Qltb 0 (C theta)) eqn:Ec; [|done].
  rewrite Hf. cbn [mbind result_bind as_num].
  rewrite py_div_pos; [done|].
  apply Qltb_lt. apply Qltb_lt in Ep, Ec.
  rewrite <- (Qmult_0_l (C theta)). by apply Qmult_lt_compat_r.
Qed.

(** X26. A Wilhelmy measurement computes its surface tension when it is
    constructed: given numbers for the force, the plate perimeter and the
    contact angle, it holds [force / (perimeter * cos angle)] when the
    perimeter and the cosine are positive, and 0.0 otherwise, so that a
    plate that is not wetted contributes nothing to the derived value. *)
Theorem wilhelmy_tension_at_construction
  (kw o : gmap string (pyval Q)) (f p theta : Q) :
  kw !! "forceMN" = Some (VNum f) →
  kw !! "platePerimeterMm" = Some (VNum p) →
  kw !! "contactAngle" = Some (VNum theta) →
  new T S C WilhelmyMeasurement kw = Ok o →
  o !! "surfaceTensionMNm"
  = Some (VNum (if Qltb 0 p && Qltb 0 (C theta)
                then f / (p * C theta) else 0)%Q).
Proof.
  intros Hf Hp Ht H.
  assert (arg kw "forceMN" (VNum 0%Q) = VNum f) as Haf
    by (unfold arg; by rewrite Hf).
  assert (arg kw "platePerimeterMm" (VNum 40.2%Q) = VNum p) as Hap
    by (unfold arg; by rewrite Hp).
  assert (arg kw "contactAngle" (VNum 0%Q) = VNum theta) as Hat
    by (unfold arg; by rewrite Ht).
  unfold new in H. open_init H.
  lazymatch type of H with
  | _calculate_surface_tension _ ?X = Ok _ =>
      assert (X !! "forceMN" = Some (VNum f)) as Hxf
        by (repeat (rewrite lookup_setattr_ne by distinct);
            rewrite <- Haf; apply lookup_insert_eq);
      assert (X !! "platePerimeterMm" = Some (VNum p)) as Hxp
        by (repeat (rewrite lookup_setattr_ne by distinct);
            rewrite <- Hap; apply lookup_insert_eq);
      assert (X !! "contactAngle" = Some (VNum theta)) as Hxt
        by (repeat (rewrite lookup_setattr_ne by distinct);
            rewrite <- Hat; apply lookup_insert_eq);
      assert (X !! "surfaceTensionMNm" = Some (VNum 0%Q)) as Hx0;
      [ repeat (rewrite lookup_setattr_ne by distinct);
        lazymatch goal with
        | Hp : _ = Ok ?a |- ?a !! ?p = _ =>
            inherit_from (SurfaceTensionValue_init_stores T S C) Hp p
        end
      | ]
  end.
  rewrite (calculate_surface_tension_spec _ f p theta Hxf Hxp Hxt) in H.
  rewrite <- (Ok_inj _ _ H).
  destruct (Qltb 0 p && Qltb 0 (C theta)); [apply lookup_insert_eq|exact Hx0].
Qed.
End Wilhelmy.

Lemma wilhelmy_tension_at_construction_witness :
  match
    new plain_treeObject__init__ plain_str_of_num (λ _, 1%Q)
      WilhelmyMeasurement
      (kwargs [("forceMN", VNum 2.9%Q); ("platePerimeterMm", VNum 40%Q);
               ("contactAngle", VNum 0%Q)])
  with
  | Ok o => o !! "surfaceTensionMNm" = Some (VNum (2.9 / (40 * 1))%Q)
  | Raise _ => False
  end.
Proof.
  pose proof (wilhelmy_tension_at_construction
                plain_treeObject__init__ plain_str_of_num (λ _, 1%Q)
                (kwargs [("forceMN", VNum 2.9%Q);
                         ("platePerimeterMm", VNum 40%Q);
                         ("contactAngle", VNum 0%Q)])) as H.
  destruct (new _ _ _ _ _) as [o|e] eqn:E.
  - apply (H o 2.9%Q 40%Q 0%Q eq_refl eq_refl eq_refl eq_refl).
  - assert (succeeds (new plain_treeObject__init__ plain_str_of_num
                        (λ _, 1%Q) WilhelmyMeasurement
                        (kwargs [("forceMN", VNum 2.9%Q);
                                 ("platePerimeterMm", VNum 40%Q);
                                 ("contactAngle", VNum 0%Q)]))) as Hok
      by (vm_compute; exact I).
    rewrite E in Hok. exact Hok.
Defined.
